(** * AnveshAI video generator: the DSL front-end and the animation back-end

    A shallow embedding of [video_engine/dsl_parser.py] and
    [video_engine/renderer.py], and the properties of the tokenizer, the
    parser's resource limits, the movement engine and the frame compositor.

    Conventions of the embedding.
    - A Python [int] is a [Z]; counters that only count up from 0 or 1 (line
      numbers, the object counter) are [nat].
    - A Python [float] is an IEEE 754 binary64 value, [spec_float] of the
      Standard Library with [prec = 53] and [emax = 1024]; every operation is
      the correctly rounded one (round to nearest, ties to even).
    - A Python [str] is a [string] of 8-bit characters (code points 0..255).
    - A Python exception is a value of [exn]; a function that can raise
      returns a [result].
    - A [dict] keyed by object id is a [gmap string _]. *)

From Stdlib Require Import ZArith Lia Bool Ascii String List SpecFloat.
From Stdlib Require Import DecimalString.
From stdpp Require Import base option list gmap strings.

Local Open Scope Z_scope.

(** ** Exceptions and results *)

Inductive parse_kind :=
| UnknownCommand
| InvalidSyntax
| TextRequiresContent
| ShapeRequiresType
| MoveRequiresArguments.

Inductive validation_kind :=
| InvalidColor (line : nat) (color : string)
| FpsOutOfRange (line : nat)
| DurationOutOfRange (line : nat)
| TooManyObjects (line : nat)
| UnknownShapeType (line : nat) (shape_type : string)
| TooManyFrames (total_frames : Z).

Inductive exn :=
| DSLParseError (line : nat) (k : parse_kind)
| DSLValidationError (k : validation_kind)
| ValueError
| OverflowError.

Inductive result (A : Type) :=
| Ok (a : A)
| Raise (e : exn).
Arguments Ok {A} a.
Arguments Raise {A} e.

#[export] Instance result_ret : MRet result := fun A a => Ok a.
#[export] Instance result_bind : MBind result := fun A B k r =>
  match r with
  | Ok a => k a
  | Raise e => Raise e
  end.

(** [int(s)] and [float(s)] raise [ValueError] on text they reject. *)
Definition or_value_error {A} (o : option A) : result A :=
  match o with
  | Some a => Ok a
  | None => Raise ValueError
  end.

(** ** Python floats: binary64 *)

Module PyFloat.

Definition prec : Z := 53.
Definition emax : Z := 1024.

Definition zero : spec_float := S754_zero false.

(** An integer as an unrounded mantissa with exponent 0. *)
Definition raw (z : Z) : spec_float :=
  match z with
  | Z0 => S754_zero false
  | Zpos p => S754_finite false p 0
  | Zneg p => S754_finite true p 0
  end.

(** [float(z)], the conversion Python applies to an [int] operand of a
    mixed [int]/[float] operation. Beyond the binary64 range Python raises
    [OverflowError]; here the value is the infinity of that sign. *)
Definition of_int (z : Z) : spec_float := binary_normalize prec emax z 0 false.

Definition add : spec_float -> spec_float -> spec_float := SFadd prec emax.
Definition sub : spec_float -> spec_float -> spec_float := SFsub prec emax.
Definition mul : spec_float -> spec_float -> spec_float := SFmul prec emax.
Definition div : spec_float -> spec_float -> spec_float := SFdiv prec emax.
Definition ltb : spec_float -> spec_float -> bool := SFltb.
Definition leb : spec_float -> spec_float -> bool := SFleb.

(** [a / b] on two [int]s: the exact quotient rounded once. The divisor is
    non-zero at every call site. *)
Definition int_truediv (a b : Z) : spec_float := div (raw a) (raw b).

(** A decimal literal [m * 10^-k] of the source text, rounded once. *)
Definition dec (m : Z) (k : Z) : spec_float := div (raw m) (raw (10 ^ k)).

(** [min(a, b)] and [max(a, b)] return [a] unless [b] compares strictly
    below (above) it, so a NaN in second place is dropped. *)
Definition min (a b : spec_float) : spec_float := if ltb b a then b else a.
Definition max (a b : spec_float) : spec_float := if ltb a b then b else a.

(** The magnitude of a finite value, truncated to an integer. *)
Definition trunc_mag (m : positive) (e : Z) : Z :=
  match e with
  | Zneg k => Z.shiftr (Zpos m) (Zpos k)
  | _ => Z.shiftl (Zpos m) e
  end.

(** [int(x)]: truncation toward zero; [ValueError] on NaN and
    [OverflowError] on an infinity. *)
Definition to_int (x : spec_float) : result Z :=
  match x with
  | S754_zero _ => Ok 0
  | S754_finite s m e => Ok (cond_Zopp s (trunc_mag m e))
  | S754_infinity _ => Raise OverflowError
  | S754_nan => Raise ValueError
  end.

(** [round(x)] to an integer: nearest, ties to even. *)
Definition round_mag (m : positive) (e : Z) : Z :=
  match e with
  | Zneg k =>
      let q := Z.shiftr (Zpos m) (Zpos k) in
      let r := Z.land (Zpos m) (Z.ones (Zpos k)) in
      let half := Z.shiftl 1 (Zpos k - 1) in
      match r ?= half with
      | Lt => q
      | Gt => q + 1
      | Eq => if Z.even q then q else q + 1
      end
  | _ => Z.shiftl (Zpos m) e
  end.

Definition round (x : spec_float) : result Z :=
  match x with
  | S754_zero _ => Ok 0
  | S754_finite s m e => Ok (cond_Zopp s (round_mag m e))
  | S754_infinity _ => Raise OverflowError
  | S754_nan => Raise ValueError
  end.

End PyFloat.

(** ** Python strings *)

Module PyStr.

Definition code (c : ascii) : Z := Z.of_N (N_of_ascii c).

Definition dquote : ascii := "034"%char.
Definition newline : ascii := "010"%char.

Definition in_range (lo hi : Z) (c : ascii) : bool :=
  (lo <=? code c) && (code c <=? hi).

(** [c.isspace()], the characters [str.strip()] removes. *)
Definition is_space (c : ascii) : bool :=
  in_range 9 13 c || in_range 28 32 c || (code c =? 133) || (code c =? 160).

(** The blanks [int(s)] and [float(s)] accept around a number. *)
Definition is_num_space (c : ascii) : bool :=
  in_range 9 13 c || (code c =? 32) || (code c =? 133) || (code c =? 160).

Definition is_digit (c : ascii) : bool := in_range 48 57 c.

Definition nonempty (s : string) : bool :=
  match s with
  | EmptyString => false
  | String _ _ => true
  end.

Definition len (s : string) : Z := Z.of_nat (String.length s).

Fixpoint lstrip_by (p : ascii -> bool) (s : string) : string :=
  match s with
  | EmptyString => EmptyString
  | String c r => if p c then lstrip_by p r else s
  end.

Fixpoint rstrip_by (p : ascii -> bool) (s : string) : string :=
  match s with
  | EmptyString => EmptyString
  | String c r =>
      match rstrip_by p r with
      | EmptyString => if p c then EmptyString else String c EmptyString
      | r' => String c r'
      end
  end.

Definition strip_by (p : ascii -> bool) (s : string) : string :=
  rstrip_by p (lstrip_by p s).

(** [s.strip()] *)
Definition strip : string -> string := strip_by is_space.

(** [s.upper()] and [s.lower()]. Only the ASCII letters change case; on the
    other characters they are the identity, which agrees with Python on
    every comparison against the ASCII keywords of the grammar. *)
Definition upper_char (c : ascii) : ascii :=
  if in_range 97 122 c then ascii_of_N (N_of_ascii c - 32) else c.
Definition lower_char (c : ascii) : ascii :=
  if in_range 65 90 c then ascii_of_N (N_of_ascii c + 32) else c.

Fixpoint map_chars (f : ascii -> ascii) (s : string) : string :=
  match s with
  | EmptyString => EmptyString
  | String c r => String (f c) (map_chars f r)
  end.

Definition upper : string -> string := map_chars upper_char.
Definition lower : string -> string := map_chars lower_char.

(** [s.split(sep)] for a one-character separator: never the empty list. *)
Fixpoint split (sep : ascii) (s : string) : list string :=
  match s with
  | EmptyString => [EmptyString]
  | String c r =>
      if Ascii.eqb c sep then EmptyString :: split sep r
      else match split sep r with
           | h :: t => String c h :: t
           | [] => [String c EmptyString]
           end
  end.

(** [s.startswith(c)] for a one-character prefix. *)
Definition startswith (c : ascii) (s : string) : bool :=
  match s with
  | String c' _ => Ascii.eqb c' c
  | EmptyString => false
  end.

(** The slice [s[i:j]] for [0 <= i <= j]. *)
Definition slice (i j : nat) (s : string) : string :=
  String.substring i (j - i) s.

(** [str(n)] for a line number. *)
Definition of_nat (n : nat) : string := NilEmpty.string_of_uint (Nat.to_uint n).

(** A leading sign: [true] for [-]. *)
Definition split_sign (s : string) : bool * string :=
  match s with
  | String "+" r => (false, r)
  | String "-" r => (true, r)
  | _ => (false, s)
  end.

Definition next_is (p : ascii -> bool) (s : string) : bool :=
  match s with
  | String c _ => p c
  | EmptyString => false
  end.

(** A run of digits in base [base] with single underscores between
    digits: the value read, the number of digits, and the text left. *)
Fixpoint scan_digits (digit : ascii -> option Z) (base : Z)
    (acc : Z) (n : nat) (s : string) : Z * nat * string :=
  match s with
  | EmptyString => (acc, n, s)
  | String c r =>
      match digit c with
      | Some d => scan_digits digit base (base * acc + d) (S n) r
      | None =>
          if Ascii.eqb c "_" && negb (Nat.eqb n 0)
             && next_is (fun c' => bool_decide (is_Some (digit c'))) r
          then scan_digits digit base acc n r
          else (acc, n, s)
      end
  end.

Definition dec_digit (c : ascii) : option Z :=
  if is_digit c then Some (code c - 48) else None.

Definition hex_digit (c : ascii) : option Z :=
  if is_digit c then Some (code c - 48)
  else if in_range 97 102 c then Some (code c - 87)
  else if in_range 65 70 c then Some (code c - 55)
  else None.

(** [int(s)]: blanks, a sign, decimal digits. *)
Definition to_int (s : string) : option Z :=
  let '(neg, body) := split_sign (strip_by is_num_space s) in
  match scan_digits dec_digit 10 0 0 body with
  | (v, S _, EmptyString) => Some (if neg then - v else v)
  | _ => None
  end.

(** [int(s, 16)] on the texts [hex_to_rgb] passes, slices of at most two
    characters, where no [0x] prefix can be followed by a digit. *)
Definition to_int16 (s : string) : option Z :=
  let '(neg, body) := split_sign (strip_by is_num_space s) in
  match scan_digits hex_digit 16 0 0 body with
  | (v, S _, EmptyString) => Some (if neg then - v else v)
  | _ => None
  end.

(** The exponent part of a decimal float literal, [e], a sign and digits;
    the empty text is exponent 0. *)
Definition scan_exponent (s : string) : option Z :=
  match s with
  | EmptyString => Some 0
  | String c r =>
      if Ascii.eqb (lower_char c) "e" then
        let '(neg, body) := split_sign r in
        match scan_digits dec_digit 10 0 0 body with
        | (v, S _, EmptyString) => Some (if neg then - v else v)
        | _ => None
        end
      else None
  end.

(** The decimal number [m * 10^e], rounded once to binary64. *)
Definition decimal_value (m e : Z) : spec_float :=
  if 0 <=? e then PyFloat.of_int (m * 10 ^ e)
  else PyFloat.div (PyFloat.raw m) (PyFloat.raw (10 ^ (- e))).

(** [float(s)]: blanks, a sign, then [inf], [infinity], [nan] in any case
    or a decimal literal with optional fraction and exponent. *)
Definition to_float (s : string) : option spec_float :=
  let '(neg, body) := split_sign (strip_by is_num_space s) in
  let signed (x : spec_float) := if neg then SFopp x else x in
  let word := lower body in
  if String.eqb word "inf" || String.eqb word "infinity"
  then Some (S754_infinity neg)
  else if String.eqb word "nan" then Some S754_nan
  else
    let '(i, ni, r1) := scan_digits dec_digit 10 0 0 body in
    let '(m, nf, r2) :=
      match r1 with
      | String "." r =>
          let '(f, nf, r2) := scan_digits dec_digit 10 0 0 r in
          (i * 10 ^ Z.of_nat nf + f, nf, r2)
      | _ => (i, 0%nat, r1)
      end in
    if Nat.eqb (ni + nf) 0 then None
    else e ← scan_exponent r2;
         Some (signed (decimal_value m (e - Z.of_nat nf))).

End PyStr.

Definition dq : string := String PyStr.dquote EmptyString.

(** ** Regular expressions, as far as [VALID_COLORS_PATTERN] needs them *)

Module Re.

(** A pattern is a sequence of anchors and of character classes repeated a
    fixed number of times; a class is a list of inclusive code ranges. *)
Inductive item :=
| Caret
| Dollar
| Times (n : nat) (cls : list (Z * Z)).

Definition in_class (cls : list (Z * Z)) (c : ascii) : bool :=
  existsb (fun r => PyStr.in_range (fst r) (snd r) c) cls.

Fixpoint consume (n : nat) (cls : list (Z * Z)) (s : string) : option string :=
  match n with
  | O => Some s
  | S n' =>
      match s with
      | String c r => if in_class cls c then consume n' cls r else None
      | EmptyString => None
      end
  end.

(** [$] without [re.MULTILINE]: the end of the text, or just before a
    newline that ends the text. *)
Definition at_end (s : string) : bool :=
  match s with
  | EmptyString => true
  | String c EmptyString => Ascii.eqb c PyStr.newline
  | _ => false
  end.

Fixpoint match_here (pat : list item) (at_start : bool) (s : string) : bool :=
  match pat with
  | [] => true
  | Caret :: pat' => at_start && match_here pat' at_start s
  | Dollar :: pat' => at_end s && match_here pat' at_start s
  | Times n cls :: pat' =>
      match consume n cls s with
      | Some r => match_here pat' (at_start && Nat.eqb n 0) r
      | None => false
      end
  end.

(** [bool(re.match(pat, s))]: the pattern matches at the start of [s]. *)
Definition match_ (pat : list item) (s : string) : bool := match_here pat true s.

End Re.

(** ** [video_engine/constants.py] *)

(** Modelled from the spec: [constants.py] is not among the sources. The
    limits are the fixed resource limits the specification lists (canvas
    1280x720, duration 6 s, 24 fps, 300 frames, 50 objects), the pattern
    is the one it quotes for colours, [^#[0-9A-Fa-f]{6}$], and the allowed
    words are those of its grammar. [MAX_DURATION] is taken as the float
    6.0; as the integer 6 it gives the same comparisons, and the same
    frame counts where [min] returns it. *)
Definition MAX_WIDTH : Z := 1280.
Definition MAX_HEIGHT : Z := 720.
Definition MAX_FPS : Z := 24.
Definition MAX_FRAMES : Z := 300.
Definition MAX_OBJECTS : nat := 50.
Definition MAX_DURATION : spec_float := PyFloat.of_int 6.
Definition VALID_COLORS_PATTERN : list Re.item :=
  [Re.Caret; Re.Times 1 [(35, 35)]; Re.Times 6 [(48, 57); (65, 70); (97, 102)]; Re.Dollar].
Definition ALLOWED_COMMANDS : list string :=
  ["BACKGROUND"; "FPS"; "DURATION"; "TEXT"; "SHAPE"; "MOVE"].
Definition ALLOWED_SHAPE_TYPES : list string := ["CIRCLE"; "RECT"].
Definition ALLOWED_EASE_TYPES : list string := ["linear"; "ease-in"; "ease-out"].

(** [s in l] for a list of strings. *)
Definition str_in (s : string) (l : list string) : bool := existsb (String.eqb s) l.

(** ** [video_engine/dsl_parser.py]: the data model *)

Module TextCommand.
Record t := mk {
  text : string;
  x : Z;
  y : Z;
  size : Z;
  color : string;
  move_to : option (Z * Z);
  move_duration : spec_float;
  obj_id : string
}.
Definition set_pos (c : t) (x' y' : Z) : t :=
  mk (text c) x' y' (size c) (color c) (move_to c) (move_duration c) (obj_id c).
Definition set_size (c : t) (v : Z) : t :=
  mk (text c) (x c) (y c) v (color c) (move_to c) (move_duration c) (obj_id c).
Definition set_color (c : t) (v : string) : t :=
  mk (text c) (x c) (y c) (size c) v (move_to c) (move_duration c) (obj_id c).
Definition set_move_to (c : t) (v : Z * Z) : t :=
  mk (text c) (x c) (y c) (size c) (color c) (Some v) (move_duration c) (obj_id c).
Definition set_move_duration (c : t) (v : spec_float) : t :=
  mk (text c) (x c) (y c) (size c) (color c) (move_to c) v (obj_id c).
Definition set_obj_id (c : t) (v : string) : t :=
  mk (text c) (x c) (y c) (size c) (color c) (move_to c) (move_duration c) v.
End TextCommand.

Module ShapeCommand.
Record t := mk {
  shape_type : string;
  obj_id : string;
  x : Z;
  y : Z;
  color : string;
  radius : Z;
  width : Z;
  height : Z;
  move_to : option (Z * Z);
  move_duration : spec_float;
  ease : string
}.
Definition set_obj_id (c : t) (v : string) : t :=
  mk (shape_type c) v (x c) (y c) (color c) (radius c) (width c) (height c)
     (move_to c) (move_duration c) (ease c).
Definition set_pos (c : t) (x' y' : Z) : t :=
  mk (shape_type c) (obj_id c) x' y' (color c) (radius c) (width c) (height c)
     (move_to c) (move_duration c) (ease c).
Definition set_color (c : t) (v : string) : t :=
  mk (shape_type c) (obj_id c) (x c) (y c) v (radius c) (width c) (height c)
     (move_to c) (move_duration c) (ease c).
Definition set_radius (c : t) (v : Z) : t :=
  mk (shape_type c) (obj_id c) (x c) (y c) (color c) v (width c) (height c)
     (move_to c) (move_duration c) (ease c).
Definition set_width (c : t) (v : Z) : t :=
  mk (shape_type c) (obj_id c) (x c) (y c) (color c) (radius c) v (height c)
     (move_to c) (move_duration c) (ease c).
Definition set_height (c : t) (v : Z) : t :=
  mk (shape_type c) (obj_id c) (x c) (y c) (color c) (radius c) (width c) v
     (move_to c) (move_duration c) (ease c).
Definition set_move_to (c : t) (v : Z * Z) : t :=
  mk (shape_type c) (obj_id c) (x c) (y c) (color c) (radius c) (width c) (height c)
     (Some v) (move_duration c) (ease c).
Definition set_move_duration (c : t) (v : spec_float) : t :=
  mk (shape_type c) (obj_id c) (x c) (y c) (color c) (radius c) (width c) (height c)
     (move_to c) v (ease c).
Definition set_ease (c : t) (v : string) : t :=
  mk (shape_type c) (obj_id c) (x c) (y c) (color c) (radius c) (width c) (height c)
     (move_to c) (move_duration c) v.
End ShapeCommand.

Module MoveCommand.
Record t := mk {
  obj_id : string;
  to_x : Z;
  to_y : Z;
  duration : spec_float;
  ease : string
}.
End MoveCommand.

(** An element of [AnimationSpec.objects]. *)
Inductive scene_object :=
| Text (c : TextCommand.t)
| Shape (c : ShapeCommand.t).

Record AnimationSpec := mkSpec {
  background : string;
  fps : Z;
  duration : spec_float;
  objects : list scene_object;
  moves : list MoveCommand.t
}.

(** [AnimationSpec()] *)
Definition default_spec : AnimationSpec :=
  mkSpec "#202020" 24 (PyFloat.of_int 3) [] [].

(** ** The validators *)

Definition validate_color (color : string) : bool :=
  if negb (PyStr.nonempty color) then false
  else Re.match_ VALID_COLORS_PATTERN color.

Definition hex_to_rgb (hex_color : string) : result (Z * Z * Z) :=
  let hex_color := PyStr.lstrip_by (fun c => Ascii.eqb c "#") hex_color in
  r ← or_value_error (PyStr.to_int16 (PyStr.slice 0 2 hex_color));
  g ← or_value_error (PyStr.to_int16 (PyStr.slice 2 4 hex_color));
  b ← or_value_error (PyStr.to_int16 (PyStr.slice 4 6 hex_color));
  Ok (r, g, b).

Definition clamp_coord (val max_val : Z) : Z := Z.max 0 (Z.min val max_val).

(** ** The tokenizer *)

(** The loop of [tokenize_line] over the characters still to read, with the
    three local variables as arguments. *)
Fixpoint tokenize_loop (line : string) (tokens : list string) (current : string)
    (in_quotes : bool) : list string :=
  match line with
  | EmptyString => if PyStr.nonempty current then tokens ++ [current] else tokens
  | String char rest =>
      if Ascii.eqb char PyStr.dquote && negb in_quotes then
        tokenize_loop rest tokens current true
      else if Ascii.eqb char PyStr.dquote && in_quotes then
        tokenize_loop rest (tokens ++ [current]) EmptyString false
      else if Ascii.eqb char " " && negb in_quotes then
        if PyStr.nonempty current
        then tokenize_loop rest (tokens ++ [current]) EmptyString in_quotes
        else tokenize_loop rest tokens current in_quotes
      else tokenize_loop rest tokens (current +:+ String char EmptyString) in_quotes
  end.

Definition tokenize_line (line : string) : list string :=
  tokenize_loop line [] EmptyString false.

(** ** The command parsers *)

(** The fragment every coordinate keyword repeats: split the token on
    commas and, when there are exactly two parts, convert and clamp them;
    any other number of parts leaves the old value ([None]). *)
Definition parse_coords (token : string) : result (option (Z * Z)) :=
  match PyStr.split "," token with
  | [a; b] =>
      x ← or_value_error (PyStr.to_int a);
      y ← or_value_error (PyStr.to_int b);
      Ok (Some (clamp_coord x MAX_WIDTH, clamp_coord y MAX_HEIGHT))
  | _ => Ok None
  end.

Definition has_item (l : list string) : bool :=
  match l with
  | [] => false
  | _ :: _ => true
  end.

(** The inline [DUR] of a TEXT or SHAPE: [max(0.0, min(dur_val, MAX_DURATION))]. *)
Definition clamp_inline_duration (dur_val : spec_float) : spec_float :=
  PyFloat.max PyFloat.zero (PyFloat.min dur_val MAX_DURATION).

(** The [DUR] of a standalone MOVE: [max(0.1, min(dur_val, MAX_DURATION))]. *)
Definition clamp_move_duration (dur_val : spec_float) : spec_float :=
  PyFloat.max (PyFloat.dec 1 1) (PyFloat.min dur_val MAX_DURATION).

(** The [while i < len(tokens)] loop of [parse_text_command]; [tokens] is
    the part of the list from index [i] on. *)
Fixpoint text_loop (line_num : nat) (tokens : list string) (cmd : TextCommand.t)
    {struct tokens} : result TextCommand.t :=
  match tokens with
  | [] => Ok cmd
  | tok :: rest =>
      let keyword := PyStr.upper tok in
      match rest with
      | [] => text_loop line_num rest cmd
      | v :: rest1 =>
          if String.eqb keyword "AT" then
            p ← parse_coords v;
            text_loop line_num rest1
              (match p with
               | Some (x, y) => TextCommand.set_pos cmd x y
               | None => cmd
               end)
          else if String.eqb keyword "SIZE" then
            n ← or_value_error (PyStr.to_int v);
            text_loop line_num rest1 (TextCommand.set_size cmd (Z.min (Z.max n 8) 200))
          else if String.eqb keyword "COLOR" then
            if negb (validate_color v)
            then Raise (DSLValidationError (InvalidColor line_num v))
            else text_loop line_num rest1 (TextCommand.set_color cmd v)
          else if String.eqb keyword "ID" then
            text_loop line_num rest1 (TextCommand.set_obj_id cmd v)
          else if String.eqb keyword "MOVE" && has_item rest1
                  && String.eqb (PyStr.upper v) "TO" then
            match rest1 with
            | w :: rest2 =>
                p ← parse_coords w;
                text_loop line_num rest2
                  (match p with
                   | Some xy => TextCommand.set_move_to cmd xy
                   | None => cmd
                   end)
            | [] => text_loop line_num rest cmd
            end
          else if String.eqb keyword "DUR" then
            dur_val ← or_value_error (PyStr.to_float v);
            text_loop line_num rest1
              (TextCommand.set_move_duration cmd (clamp_inline_duration dur_val))
          else text_loop line_num rest cmd
      end
  end.

Definition parse_text_command (tokens : list string) (line_num : nat)
    : result TextCommand.t :=
  match tokens with
  | [] => Raise (DSLParseError line_num TextRequiresContent)
  | text :: rest =>
      text_loop line_num rest
        (TextCommand.mk text 100 100 32 "#FFFFFF" None PyFloat.zero
           ("text_" +:+ PyStr.of_nat line_num))
  end.

Fixpoint shape_loop (line_num : nat) (tokens : list string) (cmd : ShapeCommand.t)
    {struct tokens} : result ShapeCommand.t :=
  match tokens with
  | [] => Ok cmd
  | tok :: rest =>
      let keyword := PyStr.upper tok in
      match rest with
      | [] => shape_loop line_num rest cmd
      | v :: rest1 =>
          if String.eqb keyword "ID" then
            shape_loop line_num rest1 (ShapeCommand.set_obj_id cmd v)
          else if String.eqb keyword "AT" then
            p ← parse_coords v;
            shape_loop line_num rest1
              (match p with
               | Some (x, y) => ShapeCommand.set_pos cmd x y
               | None => cmd
               end)
          else if String.eqb keyword "RADIUS" then
            n ← or_value_error (PyStr.to_int v);
            shape_loop line_num rest1 (ShapeCommand.set_radius cmd (Z.min (Z.max n 1) 500))
          else if String.eqb keyword "WIDTH" then
            n ← or_value_error (PyStr.to_int v);
            shape_loop line_num rest1
              (ShapeCommand.set_width cmd (Z.min (Z.max n 1) MAX_WIDTH))
          else if String.eqb keyword "HEIGHT" then
            n ← or_value_error (PyStr.to_int v);
            shape_loop line_num rest1
              (ShapeCommand.set_height cmd (Z.min (Z.max n 1) MAX_HEIGHT))
          else if String.eqb keyword "COLOR" then
            if negb (validate_color v)
            then Raise (DSLValidationError (InvalidColor line_num v))
            else shape_loop line_num rest1 (ShapeCommand.set_color cmd v)
          else if String.eqb keyword "MOVE" && has_item rest1
                  && String.eqb (PyStr.upper v) "TO" then
            match rest1 with
            | w :: rest2 =>
                p ← parse_coords w;
                shape_loop line_num rest2
                  (match p with
                   | Some xy => ShapeCommand.set_move_to cmd xy
                   | None => cmd
                   end)
            | [] => shape_loop line_num rest cmd
            end
          else if String.eqb keyword "DUR" then
            dur_val ← or_value_error (PyStr.to_float v);
            shape_loop line_num rest1
              (ShapeCommand.set_move_duration cmd (clamp_inline_duration dur_val))
          else if String.eqb keyword "EASE" then
            let ease := PyStr.lower v in
            shape_loop line_num rest1
              (if str_in ease ALLOWED_EASE_TYPES then ShapeCommand.set_ease cmd ease
               else cmd)
          else shape_loop line_num rest cmd
      end
  end.

Definition parse_shape_command (tokens : list string) (line_num : nat)
    : result ShapeCommand.t :=
  match tokens with
  | [] => Raise (DSLParseError line_num ShapeRequiresType)
  | tok :: rest =>
      let shape_type := PyStr.upper tok in
      if negb (str_in shape_type ALLOWED_SHAPE_TYPES)
      then Raise (DSLValidationError (UnknownShapeType line_num shape_type))
      else
        shape_loop line_num rest
          (ShapeCommand.mk shape_type ("shape_" +:+ PyStr.of_nat line_num) 50 50
             "#FFFFFF" 20 50 50 None PyFloat.zero "linear")
  end.

(** The loop of [parse_move_command]; the record holds the locals
    [to_x], [to_y], [duration] and [ease]. *)
Fixpoint move_loop (tokens : list string) (cmd : MoveCommand.t) {struct tokens}
    : result MoveCommand.t :=
  match tokens with
  | [] => Ok cmd
  | tok :: rest =>
      let keyword := PyStr.upper tok in
      match rest with
      | [] => move_loop rest cmd
      | v :: rest1 =>
          if String.eqb keyword "TO" then
            p ← parse_coords v;
            move_loop rest1
              (match p with
               | Some (x, y) =>
                   MoveCommand.mk (MoveCommand.obj_id cmd) x y
                     (MoveCommand.duration cmd) (MoveCommand.ease cmd)
               | None => cmd
               end)
          else if String.eqb keyword "DUR" then
            dur_val ← or_value_error (PyStr.to_float v);
            move_loop rest1
              (MoveCommand.mk (MoveCommand.obj_id cmd) (MoveCommand.to_x cmd)
                 (MoveCommand.to_y cmd) (clamp_move_duration dur_val)
                 (MoveCommand.ease cmd))
          else if String.eqb keyword "EASE" then
            let ease := PyStr.lower v in
            move_loop rest1
              (MoveCommand.mk (MoveCommand.obj_id cmd) (MoveCommand.to_x cmd)
                 (MoveCommand.to_y cmd) (MoveCommand.duration cmd)
                 (if str_in ease ALLOWED_EASE_TYPES then ease else "linear"))
          else move_loop rest cmd
      end
  end.

Definition parse_move_command (tokens : list string) (line_num : nat)
    : result MoveCommand.t :=
  if (length tokens <? 4)%nat then Raise (DSLParseError line_num MoveRequiresArguments)
  else
    match tokens with
    | obj_id :: rest =>
        move_loop rest (MoveCommand.mk obj_id 0 0 (PyFloat.of_int 1) "linear")
    | [] => Raise (DSLParseError line_num MoveRequiresArguments)
    end.

(** ** [parse_dsl] *)

(** [except (IndexError, ValueError)]: every index in the [try] block is
    guarded by a length test, so [ValueError] is the only one caught. *)
Definition catch_syntax {A} (line_num : nat) (r : result A) : result A :=
  match r with
  | Raise ValueError => Raise (DSLParseError line_num InvalidSyntax)
  | _ => r
  end.

(** The state of the loop over the lines: the spec under construction and
    [object_count]. *)
Record parse_state := mkState {
  st_spec : AnimationSpec;
  object_count : nat
}.

Definition set_background (s : AnimationSpec) (c : string) : AnimationSpec :=
  mkSpec c (fps s) (duration s) (objects s) (moves s).
Definition set_fps (s : AnimationSpec) (v : Z) : AnimationSpec :=
  mkSpec (background s) v (duration s) (objects s) (moves s).
Definition set_duration (s : AnimationSpec) (v : spec_float) : AnimationSpec :=
  mkSpec (background s) (fps s) v (objects s) (moves s).
Definition append_object (s : AnimationSpec) (o : scene_object) : AnimationSpec :=
  mkSpec (background s) (fps s) (duration s) (objects s ++ [o]) (moves s).
Definition append_move (s : AnimationSpec) (m : MoveCommand.t) : AnimationSpec :=
  mkSpec (background s) (fps s) (duration s) (objects s) (moves s ++ [m]).

(** The [try] block of the loop body, for an allowed [command]. *)
Definition run_command (command : string) (args : list string) (line_num : nat)
    (st : parse_state) : result parse_state :=
  let spec := st_spec st in
  if String.eqb command "BACKGROUND" then
    let color := match args with c :: _ => c | [] => "#202020" end in
    if negb (validate_color color)
    then Raise (DSLValidationError (InvalidColor line_num color))
    else Ok (mkState (set_background spec color) (object_count st))
  else if String.eqb command "FPS" then
    fps ← match args with
          | v :: _ => or_value_error (PyStr.to_int v)
          | [] => Ok 24
          end;
    if (fps <? 1) || (MAX_FPS <? fps)
    then Raise (DSLValidationError (FpsOutOfRange line_num))
    else Ok (mkState (set_fps spec fps) (object_count st))
  else if String.eqb command "DURATION" then
    duration ← match args with
               | v :: _ => or_value_error (PyStr.to_float v)
               | [] => Ok (PyFloat.of_int 3)
               end;
    if PyFloat.leb duration PyFloat.zero || PyFloat.ltb MAX_DURATION duration
    then Raise (DSLValidationError (DurationOutOfRange line_num))
    else Ok (mkState (set_duration spec duration) (object_count st))
  else if String.eqb command "TEXT" then
    let object_count := S (object_count st) in
    if (MAX_OBJECTS <? object_count)%nat
    then Raise (DSLValidationError (TooManyObjects line_num))
    else
      text_cmd ← parse_text_command args line_num;
      Ok (mkState (append_object spec (Text text_cmd)) object_count)
  else if String.eqb command "SHAPE" then
    let object_count := S (object_count st) in
    if (MAX_OBJECTS <? object_count)%nat
    then Raise (DSLValidationError (TooManyObjects line_num))
    else
      shape_cmd ← parse_shape_command args line_num;
      Ok (mkState (append_object spec (Shape shape_cmd)) object_count)
  else if String.eqb command "MOVE" then
    move_cmd ← parse_move_command args line_num;
    Ok (mkState (append_move spec move_cmd) (object_count st))
  else Ok st.

(** The body of [for line_num, line in enumerate(lines, 1)]. *)
Definition parse_line (line_num : nat) (line : string) (st : parse_state)
    : result parse_state :=
  let line := PyStr.strip line in
  if negb (PyStr.nonempty line) || PyStr.startswith "#" line then Ok st
  else
    match tokenize_line line with
    | [] => Ok st
    | tok :: args =>
        let command := PyStr.upper tok in
        if negb (str_in command ALLOWED_COMMANDS)
        then Raise (DSLParseError line_num UnknownCommand)
        else catch_syntax line_num (run_command command args line_num st)
    end.

Fixpoint parse_lines (line_num : nat) (lines : list string) (st : parse_state)
    : result parse_state :=
  match lines with
  | [] => Ok st
  | line :: rest =>
      st' ← parse_line line_num line st;
      parse_lines (S line_num) rest st'
  end.

(** [int(spec.fps * spec.duration)] *)
Definition total_frames_of (spec : AnimationSpec) : result Z :=
  PyFloat.to_int (PyFloat.mul (PyFloat.of_int (fps spec)) (duration spec)).

(** The check after the loop. *)
Definition check_frames (spec : AnimationSpec) : result AnimationSpec :=
  total_frames ← total_frames_of spec;
  if MAX_FRAMES <? total_frames
  then Raise (DSLValidationError (TooManyFrames total_frames))
  else Ok spec.

Definition initial_state : parse_state := mkState default_spec 0.

Definition parse_dsl (dsl_script : string) : result AnimationSpec :=
  let lines := PyStr.split PyStr.newline (PyStr.strip dsl_script) in
  st ← parse_lines 1 lines initial_state;
  check_frames (st_spec st).

(** A document from its lines. *)
Definition unlines (lines : list string) : string :=
  String.concat (String PyStr.newline EmptyString) lines.

Definition demo_script : string :=
  unlines [
    "BACKGROUND #1a1a2e";
    "FPS 24";
    "DURATION 3";
    "SHAPE CIRCLE ID ball AT 50,180 RADIUS 30 COLOR #FF4444 MOVE TO 550,180 DUR 3 EASE linear";
    "TEXT " +:+ dq +:+ "Hello" +:+ dq +:+ " AT 280,50 SIZE 36 COLOR #FFFFFF"
  ].

(** ** [video_engine/renderer.py] *)

Definition ease_linear (t : spec_float) : spec_float := t.

Definition ease_in (t : spec_float) : spec_float := PyFloat.mul t t.

Definition ease_out (t : spec_float) : spec_float :=
  PyFloat.sub (PyFloat.of_int 1)
    (PyFloat.mul (PyFloat.sub (PyFloat.of_int 1) t) (PyFloat.sub (PyFloat.of_int 1) t)).

Definition EASE_FUNCTIONS : gmap string (spec_float -> spec_float) :=
  <["linear" := ease_linear]> (<["ease-in" := ease_in]> (<["ease-out" := ease_out]> ∅)).

(** An entry of [object_moves]. *)
Module Descriptor.
Record t := mk {
  from : Z * Z;
  to : Z * Z;
  start_frame : Z;
  end_frame : Z;
  ease : string
}.
End Descriptor.

(** The attributes [_prepare_movements] reads from either kind of object;
    a text has no [ease] attribute and [getattr] supplies ['linear']. *)
Definition obj_id_of (o : scene_object) : string :=
  match o with
  | Text c => TextCommand.obj_id c
  | Shape c => ShapeCommand.obj_id c
  end.
Definition pos_of (o : scene_object) : Z * Z :=
  match o with
  | Text c => (TextCommand.x c, TextCommand.y c)
  | Shape c => (ShapeCommand.x c, ShapeCommand.y c)
  end.
Definition move_to_of (o : scene_object) : option (Z * Z) :=
  match o with
  | Text c => TextCommand.move_to c
  | Shape c => ShapeCommand.move_to c
  end.
Definition move_duration_of (o : scene_object) : spec_float :=
  match o with
  | Text c => TextCommand.move_duration c
  | Shape c => ShapeCommand.move_duration c
  end.
Definition ease_of (o : scene_object) : string :=
  match o with
  | Text _ => "linear"
  | Shape c => ShapeCommand.ease c
  end.

(** [int(duration * self.spec.fps)] *)
Definition frames_of (duration : spec_float) (fps : Z) : result Z :=
  PyFloat.to_int (PyFloat.mul duration (PyFloat.of_int fps)).

(** The two dictionaries [_prepare_movements] fills. *)
Record registries := mkReg {
  reg_positions : gmap string (Z * Z);
  reg_moves : gmap string Descriptor.t
}.

(** The body of the first loop of [_prepare_movements]. *)
Definition prepare_object (fps : Z) (reg : registries) (obj : scene_object)
    : result registries :=
  let positions := <[obj_id_of obj := pos_of obj]> (reg_positions reg) in
  match move_to_of obj with
  | Some target =>
      if PyFloat.ltb PyFloat.zero (move_duration_of obj) then
        end_frame ← frames_of (move_duration_of obj) fps;
        Ok (mkReg positions
              (<[obj_id_of obj := Descriptor.mk (pos_of obj) target 0 end_frame (ease_of obj)]>
                 (reg_moves reg)))
      else Ok (mkReg positions (reg_moves reg))
  | None => Ok (mkReg positions (reg_moves reg))
  end.

(** The body of the second loop. *)
Definition prepare_move (fps : Z) (reg : registries) (move : MoveCommand.t)
    : result registries :=
  match reg_positions reg !! MoveCommand.obj_id move with
  | Some current_pos =>
      end_frame ← frames_of (MoveCommand.duration move) fps;
      Ok (mkReg (reg_positions reg)
            (<[MoveCommand.obj_id move :=
                 Descriptor.mk current_pos (MoveCommand.to_x move, MoveCommand.to_y move)
                   0 end_frame (MoveCommand.ease move)]> (reg_moves reg)))
  | None => Ok reg
  end.

(** A [for] loop whose body can raise. *)
Fixpoint for_each {S A} (body : S -> A -> result S) (l : list A) (s : S) : result S :=
  match l with
  | [] => Ok s
  | a :: l' => s' ← body s a; for_each body l' s'
  end.

Definition _prepare_movements (spec : AnimationSpec) (reg : registries) : result registries :=
  reg ← for_each (prepare_object (fps spec)) (objects spec) reg;
  for_each (prepare_move (fps spec)) (moves spec) reg.

(** What the renderer draws: the calls made on [PIL.ImageDraw], in order.
    A font is named by its size, the font file being fixed by the
    environment. *)
Inductive draw_op :=
| DrawText (xy : Z * Z) (text : string) (fill : Z * Z * Z) (font_size : Z)
| DrawEllipse (box : Z * Z * Z * Z) (fill : Z * Z * Z)
| DrawRectangle (box : Z * Z * Z * Z) (fill : Z * Z * Z)
| DrawTextRGBA (xy : Z * Z) (text : string) (fill : Z * Z * Z * Z) (font_size : Z).

(** A frame: [Image.new('RGB', size, color)] and the drawing done on it. *)
Record image := mkImage {
  img_size : Z * Z;
  img_color : Z * Z * Z;
  img_ops : list draw_op
}.

(** [Image.new('RGB', size, color)]: Pillow refuses a negative width or
    height with a [ValueError]; nothing is drawn on the new image yet. *)
Definition Image_new (size : Z * Z) (color : Z * Z * Z) : result image :=
  if (size.1 <? 0) || (size.2 <? 0) then Raise ValueError
  else Ok (mkImage size color []).

Module AnimationRenderer.

Record t := mk {
  spec : AnimationSpec;
  width : Z;
  height : Z;
  frames : list image;
  total_frames : Z;
  bg_color : Z * Z * Z;
  object_positions : gmap string (Z * Z);
  object_moves : gmap string Descriptor.t
}.

(** [__init__] *)
Definition init (spec : AnimationSpec) (width height : Z) : result t :=
  total_frames ← total_frames_of spec;
  bg_color ← hex_to_rgb (background spec);
  reg ← _prepare_movements spec (mkReg ∅ ∅);
  Ok (mk spec (Z.min width MAX_WIDTH) (Z.min height MAX_HEIGHT) [] total_frames
        bg_color (reg_positions reg) (reg_moves reg)).

(** One axis of the interpolation: [int(a + (b - a) * t)]. *)
Definition lerp (a b : Z) (t : spec_float) : result Z :=
  PyFloat.to_int (PyFloat.add (PyFloat.of_int a) (PyFloat.mul (PyFloat.of_int (b - a)) t)).

Definition _get_position (self : t) (obj_id : string) (frame : Z) : result (Z * Z) :=
  match object_moves self !! obj_id with
  | None => Ok (default (0, 0) (object_positions self !! obj_id))
  | Some move =>
      let start_frame := Descriptor.start_frame move in
      let end_frame := Descriptor.end_frame move in
      if frame <? start_frame then Ok (Descriptor.from move)
      else if end_frame <=? frame then Ok (Descriptor.to move)
      else
        let progress :=
          PyFloat.int_truediv (frame - start_frame) (Z.max 1 (end_frame - start_frame)) in
        let ease_func := default ease_linear (EASE_FUNCTIONS !! Descriptor.ease move) in
        let t := ease_func progress in
        x ← lerp (Descriptor.from move).1 (Descriptor.to move).1 t;
        y ← lerp (Descriptor.from move).2 (Descriptor.to move).2 t;
        Ok (x, y)
  end.

Definition _draw_text (self : t) (cmd : TextCommand.t) (frame : Z) : result draw_op :=
  xy ← _get_position self (TextCommand.obj_id cmd) frame;
  color ← hex_to_rgb (TextCommand.color cmd);
  Ok (DrawText xy (TextCommand.text cmd) color (TextCommand.size cmd)).

(** A shape of a type other than CIRCLE and RECT draws nothing. *)
Definition _draw_shape (self : t) (cmd : ShapeCommand.t) (frame : Z)
    : result (list draw_op) :=
  '(x, y) ← _get_position self (ShapeCommand.obj_id cmd) frame;
  color ← hex_to_rgb (ShapeCommand.color cmd);
  if String.eqb (ShapeCommand.shape_type cmd) "CIRCLE" then
    let r := ShapeCommand.radius cmd in
    Ok [DrawEllipse (x - r, y - r, x + r, y + r) color]
  else if String.eqb (ShapeCommand.shape_type cmd) "RECT" then
    let w := ShapeCommand.width cmd in
    let h := ShapeCommand.height cmd in
    Ok [DrawRectangle (x, y, x + w, y + h) color]
  else Ok [].

Definition luminosity (rgb : Z * Z * Z) : spec_float :=
  let '(r, g, b) := rgb in
  PyFloat.div
    (PyFloat.add
       (PyFloat.add (PyFloat.mul (PyFloat.dec 299 3) (PyFloat.of_int r))
                    (PyFloat.mul (PyFloat.dec 587 3) (PyFloat.of_int g)))
       (PyFloat.mul (PyFloat.dec 114 3) (PyFloat.of_int b)))
    (PyFloat.of_int 255).

Definition dark_ink : Z * Z * Z * Z := (50, 50, 50, 200).
Definition light_ink : Z * Z * Z * Z := (255, 255, 255, 200).

Definition _get_contrasting_color (rgb : Z * Z * Z) : Z * Z * Z * Z :=
  if PyFloat.ltb (PyFloat.dec 5 1) (luminosity rgb) then dark_ink else light_ink.

(** [max(24, int(self.height / 12))] *)
Definition watermark_font_size (self : t) : result Z :=
  n ← PyFloat.to_int (PyFloat.int_truediv (height self) 12);
  Ok (Z.max 24 n).

Section Drawing.

(** The font metrics of the environment:
    [draw.textbbox((0, 0), text, font=self._get_font(size))]. *)
Variable textbbox : Z -> string -> Z * Z * Z * Z.

Definition _draw_watermark (self : t) : result draw_op :=
  let watermark_text := "AnveshAI" in
  font_size ← watermark_font_size self;
  let '(x0, y0, x1, y1) := textbbox font_size watermark_text in
  let text_width := x1 - x0 in
  let text_height := y1 - y0 in
  let padding := 15 in
  let x := width self - text_width - padding in
  let y := height self - text_height - padding in
  let watermark_color := _get_contrasting_color (bg_color self) in
  Ok (DrawTextRGBA (x, y) watermark_text watermark_color font_size).

(** The loop of [render_frame] over [self.spec.objects]. *)
Definition draw_object (self : t) (frame_num : Z) (ops : list draw_op)
    (obj : scene_object) : result (list draw_op) :=
  match obj with
  | Text cmd => op ← _draw_text self cmd frame_num; Ok (ops ++ [op])
  | Shape cmd => new ← _draw_shape self cmd frame_num; Ok (ops ++ new)
  end.

Definition render_frame (self : t) (frame_num : Z) : result image :=
  img ← Image_new (width self, height self) (bg_color self);
  ops ← for_each (draw_object self frame_num) (objects (spec self)) [];
  mark ← _draw_watermark self;
  Ok (mkImage (img_size img) (img_color img) (img_ops img ++ ops ++ [mark])).

(** [self.frames.append(frame)] *)
Definition append_frame (self : t) (frame : image) : t :=
  mk (spec self) (width self) (height self) (frames self ++ [frame])
     (total_frames self) (bg_color self) (object_positions self) (object_moves self).

(** [self.frames = \[\]] *)
Definition clear_frames (self : t) : t :=
  mk (spec self) (width self) (height self) []
     (total_frames self) (bg_color self) (object_positions self) (object_moves self).

(** [render_all_frames]: the renderer afterwards; the list returned is
    its [frames]. *)
Definition render_all_frames (self : t) : result t :=
  for_each (fun self i => frame ← render_frame self i; Ok (append_frame self frame))
    (seqZ 0 (total_frames self)) (clear_frames self).

End Drawing.

End AnimationRenderer.

(** Parsing followed by the construction of a renderer and the rendering of
    every frame, as [generate_video_from_dsl] runs them. *)
Definition compile_and_render (textbbox : Z -> string -> Z * Z * Z * Z)
    (dsl_script : string) (width height : Z) : result (AnimationSpec * list image) :=
  spec ← parse_dsl dsl_script;
  renderer ← AnimationRenderer.init spec width height;
  renderer ← AnimationRenderer.render_all_frames textbbox renderer;
  Ok (spec, AnimationRenderer.frames renderer).

(** Font metrics for the examples: a glyph is a square of the font size. *)
Definition demo_bbox (size : Z) (s : string) : Z * Z * Z * Z :=
  (0, 0, size * PyStr.len s, size).

(** * Notions used in the statements *)

(** [s] holds no character satisfying [p]. *)
Fixpoint free_of (p : ascii -> bool) (s : string) : bool :=
  match s with
  | EmptyString => true
  | String c r => negb (p c) && free_of p r
  end.

Definition is_dquote (c : ascii) : bool := Ascii.eqb c PyStr.dquote.
Definition is_blank_or_dquote (c : ascii) : bool :=
  Ascii.eqb c " " || Ascii.eqb c PyStr.dquote.

(** A word: not empty, no space and no double quote. *)
Definition is_word (w : string) : bool :=
  PyStr.nonempty w && free_of is_blank_or_dquote w.

Definition is_hex (c : ascii) : bool := Re.in_class [(48, 57); (65, 70); (97, 102)] c.

(** A [#] followed by exactly six hexadecimal digits and nothing else. *)
Definition exact_color (s : string) : bool :=
  match s with
  | String h (String c1 (String c2 (String c3 (String c4 (String c5 (String c6 EmptyString)))))) =>
      Ascii.eqb h "#" && is_hex c1 && is_hex c2 && is_hex c3 && is_hex c4 && is_hex c5
      && is_hex c6
  | _ => false
  end.

Definition is_newline (c : ascii) : bool := Ascii.eqb c PyStr.newline.

(** The exceptions that leave a command parser: [ValueError] from a
    conversion, an invalid colour, or the parser's own complaint, each
    carrying the line it was called with. *)
Inductive command_exn (line_num : nat) : exn -> Prop :=
| ce_value : command_exn line_num ValueError
| ce_color c : validate_color c = false ->
    command_exn line_num (DSLValidationError (InvalidColor line_num c))
| ce_shape s : command_exn line_num (DSLValidationError (UnknownShapeType line_num s))
| ce_parse k : command_exn line_num (DSLParseError line_num k).

(** The uppercased command word and the arguments of a line that is
    neither blank nor a comment. *)
Definition command_of_line (line : string) : option (string * list string) :=
  let line := PyStr.strip line in
  if negb (PyStr.nonempty line) || PyStr.startswith "#" line then None
  else
    match tokenize_line line with
    | [] => None
    | tok :: args => Some (PyStr.upper tok, args)
    end.

(** A line whose command word is TEXT or SHAPE. *)
Definition is_object_line (line : string) : bool :=
  match command_of_line line with
  | Some (command, _) => String.eqb command "TEXT" || String.eqb command "SHAPE"
  | None => false
  end.

Definition count_object_lines (lines : list string) : nat :=
  length (filter (fun l => is_object_line l = true) lines).

(** The lines [parse_dsl] iterates over. *)
Definition script_lines (dsl_script : string) : list string :=
  PyStr.split PyStr.newline (PyStr.strip dsl_script).

(** The value an FPS line sets, 24 when the line gives none. *)
Definition fps_argument (args : list string) : option Z :=
  match args with
  | v :: _ => PyStr.to_int v
  | [] => Some 24
  end.

(** The value a DURATION line sets, 3.0 when the line gives none. *)
Definition duration_argument (args : list string) : option spec_float :=
  match args with
  | v :: _ => PyStr.to_float v
  | [] => Some (PyFloat.of_int 3)
  end.

(** What a command that is accepted does to the state of the loop. *)
Inductive line_effect (line_num : nat) (st : parse_state)
  : string -> list string -> parse_state -> Prop :=
| eff_background args color :
    color = hd "#202020" args ->
    validate_color color = true ->
    line_effect line_num st "BACKGROUND" args
      (mkState (set_background (st_spec st) color) (object_count st))
| eff_fps args v :
    fps_argument args = Some v ->
    1 <= v <= MAX_FPS ->
    line_effect line_num st "FPS" args (mkState (set_fps (st_spec st) v) (object_count st))
| eff_duration args d :
    duration_argument args = Some d ->
    PyFloat.leb d PyFloat.zero = false ->
    PyFloat.ltb MAX_DURATION d = false ->
    line_effect line_num st "DURATION" args
      (mkState (set_duration (st_spec st) d) (object_count st))
| eff_text args cmd :
    (object_count st < MAX_OBJECTS)%nat ->
    parse_text_command args line_num = Ok cmd ->
    line_effect line_num st "TEXT" args
      (mkState (append_object (st_spec st) (Text cmd)) (S (object_count st)))
| eff_shape args cmd :
    (object_count st < MAX_OBJECTS)%nat ->
    parse_shape_command args line_num = Ok cmd ->
    line_effect line_num st "SHAPE" args
      (mkState (append_object (st_spec st) (Shape cmd)) (S (object_count st)))
| eff_move args cmd :
    parse_move_command args line_num = Ok cmd ->
    line_effect line_num st "MOVE" args
      (mkState (append_move (st_spec st) cmd) (object_count st)).

(** What a command that is refused raises. *)
Inductive line_exn (line_num : nat) (st : parse_state) (command : string) : exn -> Prop :=
| le_command e : command_exn line_num e -> line_exn line_num st command e
| le_fps : line_exn line_num st command (DSLValidationError (FpsOutOfRange line_num))
| le_duration :
    line_exn line_num st command (DSLValidationError (DurationOutOfRange line_num))
| le_objects :
    command = "TEXT" \/ command = "SHAPE" ->
    (MAX_OBJECTS <= object_count st)%nat ->
    line_exn line_num st command (DSLValidationError (TooManyObjects line_num)).

(** The value a line gives to [fps]: that of an FPS line, nothing for any
    other line. *)
Definition fps_of_line (line : string) : option Z :=
  match command_of_line line with
  | Some (command, args) => if String.eqb command "FPS" then fps_argument args else None
  | None => None
  end.

Definition duration_of_line (line : string) : option spec_float :=
  match command_of_line line with
  | Some (command, args) =>
      if String.eqb command "DURATION" then duration_argument args else None
  | None => None
  end.

(** The value after the last line that sets one, [start] when none does. *)
Definition last_set {A} (value_of : string -> option A) (lines : list string) (start : A) : A :=
  fold_left (fun acc line => default acc (value_of line)) lines start.

Definition final_fps (lines : list string) : Z := last_set fps_of_line lines 24.
Definition final_duration (lines : list string) : spec_float :=
  last_set duration_of_line lines (PyFloat.of_int 3).

(** The position an object id is declared at: the AT coordinates of the
    last object that carries the id. *)
Definition declared_position (objs : list scene_object) (id : string) : option (Z * Z) :=
  last (pos_of <$> filter (fun o => obj_id_of o = id) objs).

(** [int(duration * fps)] where the conversion succeeds. *)
Definition end_frame_of (duration : spec_float) (fps : Z) : Z :=
  match frames_of duration fps with
  | Ok n => n
  | Raise _ => 0
  end.

(** The movement an object declares inline: it has a MOVE TO target and a
    duration above zero. *)
Definition inline_declaration (fps : Z) (obj : scene_object) : option Descriptor.t :=
  match move_to_of obj with
  | Some target =>
      if PyFloat.ltb PyFloat.zero (move_duration_of obj)
      then Some (Descriptor.mk (pos_of obj) target 0
                   (end_frame_of (move_duration_of obj) fps) (ease_of obj))
      else None
  | None => None
  end.

(** The movement a standalone MOVE declares, when its target is declared:
    it starts at the declared position of the target. *)
Definition standalone_declaration (fps : Z) (objs : list scene_object)
    (move : MoveCommand.t) : option Descriptor.t :=
  match declared_position objs (MoveCommand.obj_id move) with
  | Some p =>
      Some (Descriptor.mk p (MoveCommand.to_x move, MoveCommand.to_y move) 0
              (end_frame_of (MoveCommand.duration move) fps) (MoveCommand.ease move))
  | None => None
  end.

(** The declarations of movement for one id in the order the renderer
    processes them: the inline ones in object order, then the standalone
    ones in command order. *)
Definition declarations (spec : AnimationSpec) (id : string) : list Descriptor.t :=
  omap (inline_declaration (fps spec))
       (filter (fun o => obj_id_of o = id) (objects spec))
  ++ omap (standalone_declaration (fps spec) (objects spec))
          (filter (fun m => MoveCommand.obj_id m = id) (moves spec)).

(** The script of a ball with an inline move and two standalone moves. *)
Definition chained_script : string :=
  unlines [
    "SHAPE CIRCLE ID ball AT 10,20 MOVE TO 100,20 DUR 1";
    "MOVE ball TO 200,200 DUR 2";
    "MOVE ball TO 300,300 DUR 1 EASE ease-in"
  ].

Definition spec_or_default (r : result AnimationSpec) : AnimationSpec :=
  match r with
  | Ok spec => spec
  | Raise _ => default_spec
  end.

Definition chained_spec : AnimationSpec :=
  Eval vm_compute in spec_or_default (parse_dsl chained_script).

(** A value that [int] turns into a number that is not negative: a zero, a
    positive number or infinity; NaN counts, [int] raises on it. *)
Definition nonneg (x : spec_float) : bool :=
  match x with
  | S754_zero _ => true
  | S754_nan => true
  | S754_infinity s => negb s
  | S754_finite s _ _ => negb s
  end.

(** The product of a coordinate difference and zero is a zero. *)
Definition mul_zero_ok (d : Z) : bool :=
  match PyFloat.mul (PyFloat.of_int d) PyFloat.zero with
  | S754_zero _ => true
  | _ => false
  end.

(** Adding a zero to a coordinate and truncating gives the coordinate. *)
Definition add_zero_ok (a : Z) : bool :=
  forallb (fun s =>
             match PyFloat.to_int (PyFloat.add (PyFloat.of_int a) (S754_zero s)) with
             | Ok n => n =? a
             | Raise _ => false
             end) [false; true].

Definition in_canvas (p : Z * Z) : Prop :=
  0 <= p.1 <= MAX_WIDTH /\ 0 <= p.2 <= MAX_HEIGHT.

Definition object_ok (obj : scene_object) : Prop :=
  in_canvas (pos_of obj) /\ forall target, move_to_of obj = Some target -> in_canvas target.

Definition move_ok (move : MoveCommand.t) : Prop :=
  in_canvas (MoveCommand.to_x move, MoveCommand.to_y move)
  /\ PyFloat.ltb PyFloat.zero (MoveCommand.duration move) = true.

(** What parsing guarantees of a spec: a frame rate within 1..24, every
    coordinate on the largest canvas, every standalone move longer than
    zero. *)
Record well_formed (spec : AnimationSpec) : Prop := mkWf {
  wf_fps : 1 <= fps spec <= MAX_FPS;
  wf_objects : Forall object_ok (objects spec);
  wf_moves : Forall move_ok (moves spec)
}.

(** The easing function of a descriptor, from its name: the square for
    [ease-in], one minus the square of the complement for [ease-out], and
    the identity for [linear] and for any other name. *)
Definition easing_of (name : string) (t : spec_float) : spec_float :=
  if String.eqb name "ease-in" then PyFloat.mul t t
  else if String.eqb name "ease-out" then
    PyFloat.sub (PyFloat.of_int 1)
      (PyFloat.mul (PyFloat.sub (PyFloat.of_int 1) t) (PyFloat.sub (PyFloat.of_int 1) t))
  else t.

(** One axis of the position the specification gives for a frame before the
    end of the move, for a way [rounding] of turning the float into an
    integer: [rounding(from + (to - from) * e)]. *)
Definition stated_axis (rounding : spec_float -> result Z) (a b : Z) (e : spec_float)
    : result Z :=
  rounding (PyFloat.add (PyFloat.of_int a) (PyFloat.mul (PyFloat.of_int (b - a)) e)).

(** The position of the specification, with [e = ease(f / end_frame)]. *)
Definition stated_position (rounding : spec_float -> result Z) (m : Descriptor.t) (f : Z)
    : result (Z * Z) :=
  let e := easing_of (Descriptor.ease m) (PyFloat.int_truediv f (Descriptor.end_frame m)) in
  x ← stated_axis rounding (Descriptor.from m).1 (Descriptor.to m).1 e;
  y ← stated_axis rounding (Descriptor.from m).2 (Descriptor.to m).2 e;
  Ok (x, y).

(** The interpolation law for a given rounding: before the end of its move
    an object is at the stated position. *)
Definition interpolation_law (rounding : spec_float -> result Z) : Prop :=
  forall spec width height r id m f,
    AnimationRenderer.init spec width height = Ok r ->
    AnimationRenderer.object_moves r !! id = Some m ->
    0 <= f < Descriptor.end_frame m ->
    AnimationRenderer._get_position r id f = stated_position rounding m f.

(** A quarter-second grid: four frames from (0,0) to (3,0). *)
Definition quarter_script : string :=
  unlines ["FPS 4"; "SHAPE CIRCLE ID a AT 0,0 MOVE TO 3,0 DUR 1"].

Definition quarter_spec : AnimationSpec :=
  Eval vm_compute in spec_or_default (parse_dsl quarter_script).

(** The renderer of a spec on the default canvas, an empty one when the
    construction raises. *)
Definition renderer_of (spec : AnimationSpec) : AnimationRenderer.t :=
  match AnimationRenderer.init spec 640 360 with
  | Ok r => r
  | Raise _ => AnimationRenderer.mk spec 640 360 [] 0 (0, 0, 0) ∅ ∅
  end.

Definition quarter_move : Descriptor.t := Descriptor.mk (0, 0) (3, 0) 0 4 "linear".

(** The boundary law as the specification states it, for the descriptors of
    every spec the parser returns. *)
Definition boundary_law : Prop :=
  forall dsl_script spec width height r id m,
    parse_dsl dsl_script = Ok spec ->
    AnimationRenderer.init spec width height = Ok r ->
    AnimationRenderer.object_moves r !! id = Some m ->
    AnimationRenderer._get_position r id (Descriptor.end_frame m) = Ok (Descriptor.to m)
    /\ AnimationRenderer._get_position r id 0 = Ok (Descriptor.from m).

(** A move of a hundredth of a second: at 24 frames per second it has no
    frame, [int(0.01 * 24) = 0]. *)
Definition instant_script : string := "SHAPE CIRCLE ID a AT 10,10 MOVE TO 20,20 DUR 0.01".

Definition instant_spec : AnimationSpec :=
  Eval vm_compute in spec_or_default (parse_dsl instant_script).

Definition instant_move : Descriptor.t := Descriptor.mk (10, 10) (20, 20) 0 0 "linear".

(** [int(h / 12)] is the integer quotient, for every height up to the
    largest canvas. *)
Definition font_quotient_ok (h : Z) : bool :=
  match PyFloat.to_int (PyFloat.int_truediv h 12) with
  | Ok n => n =? h / 12
  | Raise _ => false
  end.

(** The luminance as the specification writes it,
    [L = (0.299*r + 0.587*g + 0.114*b) / 255], with the operations of
    binary64 in the order written. *)
Definition spec_luminance (rgb : Z * Z * Z) : spec_float :=
  PyFloat.div
    (PyFloat.add
       (PyFloat.add (PyFloat.mul (PyFloat.dec 299 3) (PyFloat.of_int rgb.1.1))
                    (PyFloat.mul (PyFloat.dec 587 3) (PyFloat.of_int rgb.1.2)))
       (PyFloat.mul (PyFloat.dec 114 3) (PyFloat.of_int rgb.2)))
    (PyFloat.of_int 255).

(** The ink the specification asks for: dark when [L > 0.5], light
    otherwise, both semi-transparent. *)
Definition spec_ink (rgb : Z * Z * Z) : Z * Z * Z * Z :=
  if PyFloat.ltb (PyFloat.dec 5 1) (spec_luminance rgb)
  then (50, 50, 50, 200) else (255, 255, 255, 200).

(** A script on a white background, and one on the background whose
    luminance is one half in exact arithmetic
    ([299*218 + 587*58 + 114*248 = 127500]). *)
Definition white_script : string := unlines ["BACKGROUND #FFFFFF"; "TEXT hi AT 10,10"].
Definition white_spec : AnimationSpec :=
  Eval vm_compute in spec_or_default (parse_dsl white_script).
Definition half_script : string := unlines ["BACKGROUND #DA3AF8"; "TEXT hi AT 10,10"].
Definition half_spec : AnimationSpec :=
  Eval vm_compute in spec_or_default (parse_dsl half_script).

(** The position [_draw_watermark] computes from the font metrics. *)
Definition watermark_xy (textbbox : Z -> string -> Z * Z * Z * Z)
    (r : AnimationRenderer.t) (font_size : Z) : Z * Z :=
  let '(x0, y0, x1, y1) := textbbox font_size "AnveshAI" in
  (AnimationRenderer.width r - (x1 - x0) - 15, AnimationRenderer.height r - (y1 - y0) - 15).

(** The renderer with its list of frames replaced. *)
Definition with_frames (r : AnimationRenderer.t) (fs : list image) : AnimationRenderer.t :=
  AnimationRenderer.mk (AnimationRenderer.spec r) (AnimationRenderer.width r)
    (AnimationRenderer.height r) fs (AnimationRenderer.total_frames r)
    (AnimationRenderer.bg_color r) (AnimationRenderer.object_positions r)
    (AnimationRenderer.object_moves r).

(** What a frame is drawn from: everything in the renderer but the frames
    already rendered and the move list of the spec. *)
Definition same_scene (r r' : AnimationRenderer.t) : Prop :=
  objects (AnimationRenderer.spec r) = objects (AnimationRenderer.spec r')
  /\ AnimationRenderer.width r = AnimationRenderer.width r'
  /\ AnimationRenderer.height r = AnimationRenderer.height r'
  /\ AnimationRenderer.bg_color r = AnimationRenderer.bg_color r'
  /\ AnimationRenderer.object_positions r = AnimationRenderer.object_positions r'
  /\ AnimationRenderer.object_moves r = AnimationRenderer.object_moves r'.

(** Every element of a list through a function that can raise. *)
Fixpoint map_result {A B} (f : A -> result B) (l : list A) : result (list B) :=
  match l with
  | [] => Ok []
  | a :: l' => b ← f a; bs ← map_result f l'; Ok (b :: bs)
  end.

(** [parse_dsl] on the lines of a document. *)
Definition parse_document (lines : list string) : result AnimationSpec :=
  st ← parse_lines 1 lines initial_state;
  check_frames (st_spec st).

(** The frames of a document on a canvas. *)
Definition render_document (textbbox : Z -> string -> Z * Z * Z * Z)
    (lines : list string) (width height : Z) : result (list image) :=
  spec ← parse_document lines;
  r ← AnimationRenderer.init spec width height;
  r' ← AnimationRenderer.render_all_frames textbbox r;
  Ok (AnimationRenderer.frames r').

Definition spec_with_moves (spec : AnimationSpec) (ms : list MoveCommand.t) : AnimationSpec :=
  mkSpec (background spec) (fps spec) (duration spec) (objects spec) ms.

Definition state_with_moves (st : parse_state) (ms : list MoveCommand.t) : parse_state :=
  mkState (spec_with_moves (st_spec st) ms) (object_count st).

Definition with_spec (r : AnimationRenderer.t) (spec : AnimationSpec) : AnimationRenderer.t :=
  AnimationRenderer.mk spec (AnimationRenderer.width r) (AnimationRenderer.height r)
    (AnimationRenderer.frames r) (AnimationRenderer.total_frames r)
    (AnimationRenderer.bg_color r) (AnimationRenderer.object_positions r)
    (AnimationRenderer.object_moves r).

(** A MOVE line whose target no object of the spec carries changes nothing
    in the frames, when the line is replaced by the lines [replacement]. *)
Definition unknown_move_is_inert (replacement : list string) : Prop :=
  forall (textbbox : Z -> string -> Z * Z * Z * Z) pre line post width height args cmd spec,
    command_of_line line = Some ("MOVE", args) ->
    parse_move_command args (S (length pre)) = Ok cmd ->
    parse_document (pre ++ line :: post) = Ok spec ->
    Forall (fun o => obj_id_of o <> MoveCommand.obj_id cmd) (objects spec) ->
    render_document textbbox (pre ++ line :: post) width height
    = render_document textbbox (pre ++ replacement ++ post) width height.

(** A first line that moves an id nobody carries, then a text without an
    ID, named after its line number, and a move of that name. *)
Definition renumbered_lines : list string :=
  ["MOVE ghost TO 10,10 DUR 1";
   "TEXT hi AT 0,0";
   "MOVE text_2 TO 100,100 DUR 1";
   "FPS 2";
   "DURATION 1"].

(** A finite value has at most 53 significant bits. *)
Definition tame (x : spec_float) : Prop :=
  match x with
  | S754_finite _ m _ => Zpos (digits2_pos m) <= 53
  | _ => True
  end.

(** A zero, or a finite value of magnitude below [2^B]. *)
Definition below (B : Z) (x : spec_float) : Prop :=
  match x with
  | S754_zero _ => True
  | S754_finite _ m e => Zpos (digits2_pos m) + e <= B
  | _ => False
  end.

(** [lo <= x <= hi] as Python compares floats. *)
Definition within (lo hi x : spec_float) : Prop :=
  PyFloat.leb lo x = true /\ PyFloat.leb x hi = true.

(** What the keywords of a TEXT guarantee beyond the coordinates. *)
Definition text_fields (c : TextCommand.t) : Prop :=
  8 <= TextCommand.size c <= 200
  /\ validate_color (TextCommand.color c) = true
  /\ tame (TextCommand.move_duration c)
  /\ within PyFloat.zero MAX_DURATION (TextCommand.move_duration c).

Definition shape_fields (c : ShapeCommand.t) : Prop :=
  str_in (ShapeCommand.shape_type c) ALLOWED_SHAPE_TYPES = true
  /\ 1 <= ShapeCommand.radius c <= 500
  /\ 1 <= ShapeCommand.width c <= MAX_WIDTH
  /\ 1 <= ShapeCommand.height c <= MAX_HEIGHT
  /\ validate_color (ShapeCommand.color c) = true
  /\ str_in (ShapeCommand.ease c) ALLOWED_EASE_TYPES = true
  /\ tame (ShapeCommand.move_duration c)
  /\ within PyFloat.zero MAX_DURATION (ShapeCommand.move_duration c).

Definition object_fields (o : scene_object) : Prop :=
  match o with
  | Text c => text_fields c
  | Shape c => shape_fields c
  end.

Definition move_fields (m : MoveCommand.t) : Prop :=
  str_in (MoveCommand.ease m) ALLOWED_EASE_TYPES = true
  /\ tame (MoveCommand.duration m)
  /\ within (PyFloat.dec 1 1) MAX_DURATION (MoveCommand.duration m).

(** The duration of a spec while the lines are read: NaN, or above zero and
    at most [MAX_DURATION]. *)
Definition duration_checked (d : spec_float) : Prop :=
  tame d
  /\ (d = S754_nan
      \/ (PyFloat.ltb PyFloat.zero d = true /\ PyFloat.leb d MAX_DURATION = true)).

(** What the loop over the lines keeps true of its state. *)
Record checked (st : parse_state) : Prop := mkChecked {
  ck_background : validate_color (background (st_spec st)) = true;
  ck_duration : duration_checked (duration (st_spec st));
  ck_count : length (objects (st_spec st)) = object_count st;
  ck_cap : (object_count st <= MAX_OBJECTS)%nat;
  ck_objects : Forall object_fields (objects (st_spec st));
  ck_moves : Forall move_fields (moves (st_spec st))
}.

(** What [parse_dsl] guarantees of the spec it returns. *)
Record accepted (spec : AnimationSpec) : Prop := mkAccepted {
  ac_background : validate_color (background spec) = true;
  ac_fps : 1 <= fps spec <= MAX_FPS;
  ac_duration :
    tame (duration spec)
    /\ PyFloat.ltb PyFloat.zero (duration spec) = true
    /\ PyFloat.leb (duration spec) MAX_DURATION = true;
  ac_frames : exists t, total_frames_of spec = Ok t /\ 0 <= t <= MAX_FRAMES;
  ac_count : (length (objects spec) <= MAX_OBJECTS)%nat;
  ac_positions : Forall object_ok (objects spec);
  ac_objects : Forall object_fields (objects spec);
  ac_targets : Forall move_ok (moves spec);
  ac_moves : Forall move_fields (moves spec)
}.

(** Two hexadecimal digits read as a number of 0..255. *)
Definition hex_pair_ok (c1 c2 : ascii) : bool :=
  if is_hex c1 && is_hex c2 then
    match PyStr.to_int16 (String c1 (String c2 EmptyString)) with
    | Some n => (0 <=? n) && (n <=? 255)
    | None => false
    end
  else true.

Definition all_ascii : list ascii := map ascii_of_nat (seq 0 256).

(** A colour channel. *)
Definition is_channel (n : Z) : Prop := 0 <= n <= 255.

Definition demo_spec : AnimationSpec :=
  Eval vm_compute in spec_or_default (parse_dsl demo_script).

(** A text that asks for more than the limits allow. *)
Definition greedy_text : list string :=
  ["Hello"; "AT"; "5000,-3"; "SIZE"; "999"; "MOVE"; "TO"; "-1,9999"; "DUR"; "60"].

Definition greedy_shape : list string :=
  ["rect"; "AT"; "-5,100"; "WIDTH"; "4000"; "HEIGHT"; "0"; "RADIUS"; "-2"; "DUR"; "-1";
   "EASE"; "Bounce"].

Definition greedy_move : list string :=
  ["ball"; "TO"; "2000,2000"; "DUR"; "0.001"; "EASE"; "EASE-OUT"].

(** The line number an exception carries in its message: every
    [DSLParseError] and every [DSLValidationError] but [TooManyFrames]. *)
Definition line_of_exn (e : exn) : option nat :=
  match e with
  | DSLParseError line _ => Some line
  | DSLValidationError (InvalidColor line _) => Some line
  | DSLValidationError (FpsOutOfRange line) => Some line
  | DSLValidationError (DurationOutOfRange line) => Some line
  | DSLValidationError (TooManyObjects line) => Some line
  | DSLValidationError (UnknownShapeType line _) => Some line
  | DSLValidationError (TooManyFrames _) => None
  | ValueError => None
  | OverflowError => None
  end.

(** A line with a tab where a space is meant. *)
Definition tabbed_line : string := "FPS" +:+ String "009"%char "12".

(** ** [video_engine/pipeline.py] *)

(** The outcome of a call that can raise an exception of type [E]. *)
Inductive outcome (E A : Type) :=
| Returns (a : A)
| Raises (e : E).
Arguments Returns {E A} a.
Arguments Raises {E A} e.

(** The keyword arguments of [save_video_metadata]. *)
Record metadata (bytes : Type) := mkMetadata {
  md_dsl_script : string;
  md_video_base64 : bytes;
  md_prompt : option string;
  md_model : string;
  md_duration : spec_float;
  md_fps : Z;
  md_width : Z;
  md_height : Z
}.
Arguments mkMetadata {bytes}.

Section Pipeline.

(** The environment: the font metrics; the bytes of a file; the encoder
    behind [imageio.mimsave] and the reading back of the temporary file,
    from the frames and the frame rate to the bytes of the MP4 or to an
    exception; [base64.b64encode(...).decode('utf-8')]; and the table of
    videos with [save_video_metadata], which returns the table it leaves and
    the exception it raised, if any. *)
Variable textbbox : Z -> string -> Z * Z * Z * Z.
Variable bytes : Type.
Variable encoder_error : Type.
Variable mimsave : list image -> Z -> encoder_error + bytes.
Variable b64encode : bytes -> string.
Variable database : Type.
Variable save_error : Type.
Variable save_video_metadata : metadata bytes -> database -> database * option save_error.

(** What an [except] clause of the pipeline catches: an exception of the
    parser or of the renderer, or one of the encoder. *)
Inductive caught :=
| CaughtExn (e : exn)
| CaughtEncoder (e : encoder_error).

(** A [PipelineError] is built from a fixed prefix and [str(e)] of the
    exception caught: [f"{prefix}: {str(e)}"]; the message is kept as the
    prefix and the exception. [Escaped] is an exception of [parse_dsl] that
    neither [except] clause catches. *)
Inductive pipeline_exn :=
| PipelineError (prefix : string) (cause : caught)
| Escaped (e : exn).

(** [AnimationRenderer.render_to_bytes]: the renderer afterwards and the
    bytes. [if not self.frames] renders when the list is empty. *)
Definition render_to_bytes (self : AnimationRenderer.t)
    : outcome caught (AnimationRenderer.t * bytes) :=
  let rendered :=
    match AnimationRenderer.frames self with
    | [] => AnimationRenderer.render_all_frames textbbox self
    | _ :: _ => Ok self
    end in
  match rendered with
  | Raise e => Raises (CaughtExn e)
  | Ok self =>
      match mimsave (AnimationRenderer.frames self) (fps (AnimationRenderer.spec self)) with
      | inl e => Raises (CaughtEncoder e)
      | inr video_bytes => Returns (self, video_bytes)
      end
  end.

(** The [try] block [renderer = AnimationRenderer(...); video_bytes =
    renderer.render_to_bytes()]. *)
Definition render_video (spec : AnimationSpec) (width height : Z)
    : outcome caught bytes :=
  match AnimationRenderer.init spec width height with
  | Raise e => Raises (CaughtExn e)
  | Ok renderer =>
      match render_to_bytes renderer with
      | Raises e => Raises e
      | Returns (_, video_bytes) => Returns video_bytes
      end
  end.

(** [generate_video_from_dsl]: the base64 text returned, the table
    afterwards and the exception behind the warning printed, if any. *)
Definition generate_video_from_dsl (dsl_script : string) (width height : Z)
    (save_metadata : bool) (db : database)
    : outcome pipeline_exn (string * database * option save_error) :=
  let width := Z.min (Z.max width 320) MAX_WIDTH in
  let height := Z.min (Z.max height 180) MAX_HEIGHT in
  match parse_dsl dsl_script with
  | Raise (DSLParseError line_num k) =>
      Raises (PipelineError "Invalid DSL script" (CaughtExn (DSLParseError line_num k)))
  | Raise (DSLValidationError k) =>
      Raises (PipelineError "DSL validation failed" (CaughtExn (DSLValidationError k)))
  | Raise e => Raises (Escaped e)
  | Ok spec =>
      match render_video spec width height with
      | Raises e => Raises (PipelineError "Rendering failed" e)
      | Returns video_bytes =>
          let video_b64 := b64encode video_bytes in
          if save_metadata then
            let '(db, warning) :=
              save_video_metadata
                (mkMetadata dsl_script video_bytes None "dsl" (duration spec) (fps spec)
                   width height) db in
            Returns (video_b64, db, warning)
          else Returns (video_b64, db, None)
      end
  end.

(** ** [main.py]: the endpoint [/generate-dsl] *)

Inductive http_response :=
| GenerateResponse (ok : bool) (video_base64 : string)
| HTTPException (status_code : Z) (detail : pipeline_exn).

(** The body of [generate_from_dsl], on a request that passed validation. *)
Definition generate_from_dsl (dsl : string) (width height : Z) (db : database)
    : http_response * database * option save_error :=
  match generate_video_from_dsl dsl width height true db with
  | Returns (video_b64, db, warning) => (GenerateResponse true video_b64, db, warning)
  | Raises (PipelineError prefix cause) =>
      (HTTPException 400 (PipelineError prefix cause), db, None)
  | Raises (Escaped e) => (HTTPException 500 (Escaped e), db, None)
  end.

End Pipeline.

Arguments render_to_bytes textbbox {bytes encoder_error} mimsave self.
Arguments render_video textbbox {bytes encoder_error} mimsave spec width height.
Arguments generate_video_from_dsl textbbox {bytes encoder_error} mimsave b64encode
  {database save_error} save_video_metadata dsl_script width height save_metadata db.
Arguments generate_from_dsl textbbox {bytes encoder_error} mimsave b64encode
  {database save_error} save_video_metadata dsl width height db.
Arguments CaughtExn {encoder_error} e.
Arguments CaughtEncoder {encoder_error} e.
Arguments PipelineError {encoder_error} prefix cause.
Arguments Escaped {encoder_error} e.
Arguments GenerateResponse {encoder_error} ok video_base64.
Arguments HTTPException {encoder_error} status_code detail.

(** The canvas the pipeline hands to the renderer. *)
Definition pipeline_width (width : Z) : Z := Z.min (Z.max width 320) MAX_WIDTH.
Definition pipeline_height (height : Z) : Z := Z.min (Z.max height 180) MAX_HEIGHT.

(** The status of a response. *)
Definition status_of {E} (r : http_response E) : Z :=
  match r with
  | GenerateResponse _ _ => 200
  | HTTPException status _ => status
  end.

(** An encoder for the examples: the number of frames as one byte-like
    number, and a table that counts the saves. *)
Definition count_frames (frames : list image) (fps : Z) : unit + nat := inr (length frames).
Definition show_count (n : nat) : string := PyStr.of_nat n.
Definition count_saves (m : metadata nat) (db : nat) : nat * option unit := (S db, None).

(** ** [video_engine/llm_translator.py] *)

(** [needle in haystack] on strings. *)
Fixpoint contains (needle haystack : string) : bool :=
  String.prefix needle haystack
  || match haystack with
     | EmptyString => false
     | String _ rest => contains needle rest
     end.

(** [any(word in text for word in words)] *)
Definition any_in (words : list string) (text : string) : bool :=
  existsb (fun word => contains word text) words.

Definition fence : string := "```".

Definition clean_dsl_output (content : string) : string :=
  let dsl_output := PyStr.strip content in
  if String.prefix fence dsl_output then
    let lines := PyStr.split PyStr.newline dsl_output in
    if String.eqb (PyStr.strip (List.last lines EmptyString)) fence
    then unlines (removelast (tail lines))
    else unlines (tail lines)
  else dsl_output.

(** The characters before the next [q], and the text after that [q] when
    there is one. *)
Fixpoint until_quote (q : ascii) (s : string) : string * option string :=
  match s with
  | EmptyString => (EmptyString, None)
  | String c r =>
      if Ascii.eqb c q then (EmptyString, Some r)
      else let '(run, rest) := until_quote q r in (String c run, rest)
  end.

(** Group 1 of [re.search] for the pattern [q([^q]+)q]: the leftmost [q]
    that is followed by at least one other character and then a [q]. *)
Fixpoint search_quoted (q : ascii) (s : string) : option string :=
  match s with
  | EmptyString => None
  | String c r =>
      if Ascii.eqb c q then
        match until_quote q r with
        | (String a run, Some _) => Some (String a run)
        | _ => search_quoted q r
        end
      else search_quoted q r
  end.

Definition extract_quoted_text (prompt : string) : string :=
  match search_quoted PyStr.dquote prompt with
  | Some text => text
  | None =>
      match search_quoted "'" prompt with
      | Some text => text
      | None => EmptyString
      end
  end.

(** [color_map], in the order of the source. *)
Definition color_map : list (string * string) :=
  [("red", "#FF4444"); ("blue", "#4444FF"); ("green", "#44FF44"); ("yellow", "#FFFF44");
   ("orange", "#FF8844"); ("purple", "#AA44FF"); ("pink", "#FF44AA"); ("white", "#FFFFFF");
   ("cyan", "#44FFFF"); ("neon", "#00FF88")].

Definition extract_color (prompt : string) : string :=
  let prompt_lower := PyStr.lower prompt in
  match List.find (fun entry => contains (fst entry) prompt_lower) color_map with
  | Some (_, hex_val) => hex_val
  | None => EmptyString
  end.

(** A line break as a string. *)
Definition nl : string := String PyStr.newline EmptyString.

Definition is_squote (c : ascii) : bool := Ascii.eqb c "'".

(** [x or default] on strings: the empty string is false. *)
Definition or_default (x default : string) : string :=
  if PyStr.nonempty x then x else default.

(** A zero, or a finite value of magnitude at most [2^B]; the exponents
    are shifted by 1074, the smallest exponent of binary64, to keep the
    powers in [Z]. *)
Definition at_most (B : Z) (x : spec_float) : Prop :=
  match x with
  | S754_zero _ => True
  | S754_finite _ m e => -1074 <= e /\ Zpos m * 2 ^ (e + 1074) <= 2 ^ (B + 1074)
  | _ => False
  end.

(** [str(n)] for an [int]. *)
Definition str_of_int (n : Z) : string :=
  match n with
  | Z0 => "0"
  | Zpos p => PyStr.of_nat (Pos.to_nat p)
  | Zneg p => "-" +:+ PyStr.of_nat (Pos.to_nat p)
  end.

Definition is_space_or_dquote (c : ascii) : bool :=
  PyStr.is_space c || Ascii.eqb c PyStr.dquote.

(** A token that a line can carry as it is: not empty, and free of blanks
    of any kind and of double quotes. *)
Definition is_token (w : string) : bool :=
  PyStr.nonempty w && free_of is_space_or_dquote w.

(** The first (last) character exists and does not satisfy [p]. *)
Definition starts_clean (p : ascii -> bool) (s : string) : bool :=
  match s with
  | String c _ => negb (p c)
  | EmptyString => false
  end.

Fixpoint ends_clean (p : ascii -> bool) (s : string) : bool :=
  match s with
  | EmptyString => false
  | String c EmptyString => negb (p c)
  | String _ r => ends_clean p r
  end.

(** ** [generate_fallback_dsl] *)

Section Fallback.

(** The text an f-string gives a float. *)
Variable float_str : spec_float -> string.

(** The templates, one line of the f-string per element; the last line
    of each ends with a line break. [6.0] is exact as [of_int 6]. *)
Definition generate_fallback_dsl (prompt : string) (duration : spec_float) (fps : Z)
    : string :=
  let prompt_lower := PyStr.lower prompt in
  let duration := PyFloat.min duration (PyFloat.of_int 6) in
  let fps := Z.min fps 24 in
  if any_in ["text"; "word"; "title"; "caption"; "hello"; "message"] prompt_lower then
    let text := or_default (extract_quoted_text prompt) "Hello World" in
    unlines
      ["BACKGROUND #202030";
       "FPS " +:+ str_of_int fps;
       "DURATION " +:+ float_str duration;
       "TEXT " +:+ dq +:+ text +:+ dq
         +:+ " AT 180,150 SIZE 48 COLOR #FFFFFF MOVE TO 280,150 DUR " +:+ float_str duration;
       ""]
  else if any_in ["ball"; "circle"; "bounce"; "dot"; "sphere"] prompt_lower then
    let color := or_default (extract_color prompt) "#FF4444" in
    unlines
      ["BACKGROUND #1a1a2e";
       "FPS " +:+ str_of_int fps;
       "DURATION " +:+ float_str duration;
       "SHAPE CIRCLE ID ball AT 50,180 RADIUS 35 COLOR " +:+ color
         +:+ " MOVE TO 550,180 DUR " +:+ float_str duration +:+ " EASE linear";
       ""]
  else if any_in ["square"; "rect"; "box"; "rectangle"] prompt_lower then
    let color := or_default (extract_color prompt) "#44FF44" in
    unlines
      ["BACKGROUND #1a1a2e";
       "FPS " +:+ str_of_int fps;
       "DURATION " +:+ float_str duration;
       "SHAPE RECT ID box AT 50,130 WIDTH 80 HEIGHT 80 COLOR " +:+ color
         +:+ " MOVE TO 510,130 DUR " +:+ float_str duration +:+ " EASE linear";
       ""]
  else if any_in ["slide"; "move"; "animate"] prompt_lower then
    unlines
      ["BACKGROUND #202040";
       "FPS " +:+ str_of_int fps;
       "DURATION " +:+ float_str duration;
       "SHAPE CIRCLE ID obj1 AT 100,100 RADIUS 25 COLOR #FF6600 MOVE TO 500,100 DUR "
         +:+ float_str duration +:+ " EASE linear";
       "SHAPE RECT ID obj2 AT 100,220 WIDTH 50 HEIGHT 50 COLOR #0066FF MOVE TO 500,220 DUR "
         +:+ float_str duration +:+ " EASE linear";
       ""]
  else
    unlines
      ["BACKGROUND #1e1e2e";
       "FPS " +:+ str_of_int fps;
       "DURATION " +:+ float_str duration;
       "SHAPE CIRCLE ID ball AT 100,180 RADIUS 30 COLOR #6699FF MOVE TO 540,180 DUR "
         +:+ float_str duration +:+ " EASE linear";
       "TEXT " +:+ dq +:+ "Animation" +:+ dq +:+ " AT 220,50 SIZE 36 COLOR #FFFFFF";
       ""].

End Fallback.

(** A [repr] for the examples: every float prints as [3.0]. *)
Definition three_str (x : spec_float) : string := "3.0".

(** ** [translate_prompt_to_dsl] and [generate_video_sync] *)

(** [if key:] on a value of [os.environ.get]. *)
Definition truthy (key : option string) : bool :=
  match key with
  | Some s => PyStr.nonempty s
  | None => false
  end.

Section Sync.

(** The environment of the pipeline, as for [generate_video_from_dsl]. *)
Variable textbbox : Z -> string -> Z * Z * Z * Z.
Variable bytes : Type.
Variable encoder_error : Type.
Variable mimsave : list image -> Z -> encoder_error + bytes.
Variable b64encode : bytes -> string.
Variable database : Type.
Variable save_error : Type.
Variable save_video_metadata : metadata bytes -> database -> database * option save_error.

(** The text an f-string gives a float; the two API keys; the two chat
    services, from the user message to the content of the first choice
    ([None] when it has none) or to the exception raised on the way, the
    import of the client library included. *)
Variable float_str : spec_float -> string.
Variable GROQ_API_KEY : option string.
Variable OPENAI_API_KEY : option string.
Variable provider_error : Type.
Variable groq_chat : string -> outcome provider_error (option string).
Variable openai_chat : string -> outcome provider_error (option string).

(** The readings of [time.time()], in the order of the calls, and the
    budget; [constants.py] is not among the sources and the specification
    gives no value for it. *)
Variable clock : nat -> spec_float.
Variable RENDER_TIMEOUT : spec_float.

Definition user_message (prompt : string) (duration : spec_float) (fps : Z) : string :=
  "Create a DSL animation script for: " +:+ prompt +:+ nl +:+ nl
  +:+ "Settings: duration=" +:+ float_str (PyFloat.min duration (PyFloat.of_int 6))
  +:+ " seconds, fps=" +:+ str_of_int (Z.min fps 24) +:+ nl +:+ nl
  +:+ "Output only the DSL script, nothing else.".

(** What both [translate_with_groq] and [translate_with_openai] do with
    the answer of their service. *)
Definition translate_with (chat : string -> outcome provider_error (option string))
    (prompt : string) (duration : spec_float) (fps : Z) : string :=
  match chat (user_message prompt duration fps) with
  | Returns (Some content) => clean_dsl_output content
  | Returns None => generate_fallback_dsl float_str prompt duration fps
  | Raises _ => generate_fallback_dsl float_str prompt duration fps
  end.

Definition translate_with_groq : string -> spec_float -> Z -> string :=
  translate_with groq_chat.
Definition translate_with_openai : string -> spec_float -> Z -> string :=
  translate_with openai_chat.

Definition translate_prompt_to_dsl (prompt : string) (duration : spec_float) (fps : Z)
    (model : string) : string :=
  let model :=
    if String.eqb model "auto" then
      if truthy GROQ_API_KEY then "groq"
      else if truthy OPENAI_API_KEY then "openai"
      else "fallback"
    else model in
  if String.eqb model "groq" && truthy GROQ_API_KEY then
    translate_with_groq prompt duration fps
  else if String.eqb model "openai" && truthy OPENAI_API_KEY then
    translate_with_openai prompt duration fps
  else generate_fallback_dsl float_str prompt duration fps.

(** What [generate_video_sync] raises: a [PipelineError] built from an
    exception caught or an exception that escapes, as for
    [generate_video_from_dsl], or the [PipelineError] of a checkpoint,
    which carries its message only. *)
Inductive sync_exn :=
| Failed (e : pipeline_exn encoder_error)
| Timeout (message : string).

(** [time.time() - start_time > RENDER_TIMEOUT] at the [i]-th reading
    after the first. *)
Definition over_budget (i : nat) : bool :=
  PyFloat.ltb RENDER_TIMEOUT (PyFloat.sub (clock i) (clock 0)).

(** [generate_video_sync]: the pair returned, the table afterwards and
    the exception behind the warning printed, if any. The translator
    raises nothing (each service call is inside a [try] that falls back,
    and the fallback is a pure function of strings), so the first
    [except] clause has no case. *)
Definition generate_video_sync (prompt : string) (duration : spec_float) (fps : Z)
    (width height : Z) (model : string) (save_metadata : bool) (db : database)
    : outcome sync_exn (string * string * database * option save_error) :=
  let duration := PyFloat.min (PyFloat.max duration (PyFloat.dec 5 1)) MAX_DURATION in
  let fps := Z.min (Z.max fps 1) MAX_FPS in
  let width := Z.min (Z.max width 320) MAX_WIDTH in
  let height := Z.min (Z.max height 180) MAX_HEIGHT in
  let dsl_script := translate_prompt_to_dsl prompt duration fps model in
  if over_budget 1 then Raises (Timeout "Timeout during script generation")
  else
    match parse_dsl dsl_script with
    | Raise (DSLParseError line_num k) =>
        Raises (Failed (PipelineError "Invalid animation script"
                          (CaughtExn (DSLParseError line_num k))))
    | Raise (DSLValidationError k) =>
        Raises (Failed (PipelineError "Animation validation failed"
                          (CaughtExn (DSLValidationError k))))
    | Raise e => Raises (Failed (Escaped e))
    | Ok spec =>
        if over_budget 2 then Raises (Timeout "Timeout during parsing")
        else
          match render_video textbbox mimsave spec width height with
          | Raises e => Raises (Failed (PipelineError "Rendering failed" e))
          | Returns video_bytes =>
              if over_budget 3 then Raises (Timeout "Timeout during rendering")
              else
                let video_b64 := b64encode video_bytes in
                if save_metadata then
                  let '(db, warning) :=
                    save_video_metadata
                      (mkMetadata dsl_script video_bytes (Some prompt) model duration fps
                         width height) db in
                  Returns (video_b64, dsl_script, db, warning)
                else Returns (video_b64, dsl_script, db, None)
          end
    end.

End Sync.

Arguments Failed {encoder_error} e.
Arguments Timeout {encoder_error} message.
Arguments translate_with float_str {provider_error} chat prompt duration fps.
Arguments translate_with_groq float_str {provider_error} groq_chat _ _ _.
Arguments translate_with_openai float_str {provider_error} openai_chat _ _ _.
Arguments translate_prompt_to_dsl float_str GROQ_API_KEY OPENAI_API_KEY {provider_error}
  groq_chat openai_chat prompt duration fps model.
Arguments generate_video_sync textbbox {bytes encoder_error} mimsave b64encode
  {database save_error} save_video_metadata float_str GROQ_API_KEY OPENAI_API_KEY
  {provider_error} groq_chat openai_chat clock RENDER_TIMEOUT
  prompt duration fps width height model save_metadata db.

(** Services and a clock for the examples: a service that always fails,
    and a clock that stands still. *)
Definition no_service (message : string) : outcome unit (option string) := Raises tt.
Definition still_clock (i : nat) : spec_float := PyFloat.zero.

(** The duration and the frame rate [generate_video_sync] works with. *)
Definition sync_duration_of (duration : spec_float) : spec_float :=
  PyFloat.min (PyFloat.max duration (PyFloat.dec 5 1)) MAX_DURATION.
Definition sync_fps_of (fps : Z) : Z := Z.min (Z.max fps 1) MAX_FPS.

(** A clock for the examples that passes the budget during rendering. *)
Definition late_clock (i : nat) : spec_float :=
  if (3 <=? i)%nat then PyFloat.of_int 100 else PyFloat.zero.

(** Only blanks, as [str.strip()] counts them. *)
Definition is_blank (s : string) : bool :=
  free_of (fun c => negb (PyStr.is_space c)) s.

(** A script whose first command stands on its third line. *)
Definition late_command : string := nl +:+ nl +:+ "JUMP 1".

(** The value of [x] lies within the integers [lo] and [hi]: a zero, or a
    finite number on a grid at least as fine as the integers whose signed
    mantissa lies within [lo] and [hi] scaled to that grid. *)
Definition within_Z (lo hi : Z) (x : spec_float) : Prop :=
  match x with
  | S754_zero _ => lo <= 0 <= hi
  | S754_finite s m e =>
      e <= 0 /\ lo * 2 ^ (- e) <= cond_Zopp s (Zpos m) <= hi * 2 ^ (- e)
  | _ => False
  end.

(** ** [main.py]: the endpoint [/generate] *)

Section Generate.

Context (textbbox : Z -> string -> Z * Z * Z * Z) {bytes encoder_error : Type}
  (mimsave : list image -> Z -> encoder_error + bytes) (b64encode : bytes -> string)
  {database save_error : Type}
  (save_video_metadata : metadata bytes -> database -> database * option save_error)
  (float_str : spec_float -> string) (GROQ_API_KEY OPENAI_API_KEY : option string)
  {provider_error : Type}
  (groq_chat openai_chat : string -> outcome provider_error (option string))
  (clock : nat -> spec_float) (RENDER_TIMEOUT : spec_float).

(** The answers of [/generate]: the [GenerateResponse] with its [dsl]
    field, or the [HTTPException] with what [generate_video_sync] raised. *)
Inductive generate_response :=
| Generated (ok : bool) (video_base64 dsl : string)
| Refused (status_code : Z) (detail : sync_exn encoder_error).

(** The body of [generate], on a request that passed validation; the
    checkpoint timeouts are [PipelineError]s as well. *)
Definition generate (prompt : string) (duration : spec_float) (fps width height : Z)
    (model : string) (db : database) : generate_response * database * option save_error :=
  match generate_video_sync textbbox mimsave b64encode save_video_metadata float_str
          GROQ_API_KEY OPENAI_API_KEY groq_chat openai_chat clock RENDER_TIMEOUT
          prompt duration fps width height model true db with
  | Returns (video_b64, dsl, db, warning) => (Generated true video_b64 dsl, db, warning)
  | Raises (Failed (PipelineError prefix cause)) =>
      (Refused 400 (Failed (PipelineError prefix cause)), db, None)
  | Raises (Timeout message) => (Refused 400 (Timeout message), db, None)
  | Raises (Failed (Escaped e)) => (Refused 500 (Failed (Escaped e)), db, None)
  end.

Definition generate_status_of (r : generate_response) : Z :=
  match r with
  | Generated _ _ _ => 200
  | Refused status _ => status
  end.

End Generate.

Arguments Generated {encoder_error} ok video_base64 dsl.
Arguments Refused {encoder_error} status_code detail.
Arguments generate textbbox {bytes encoder_error} mimsave b64encode
  {database save_error} save_video_metadata float_str GROQ_API_KEY OPENAI_API_KEY
  {provider_error} groq_chat openai_chat clock RENDER_TIMEOUT
  prompt duration fps width height model db.
Arguments generate_status_of {encoder_error} r.

(** A script for the examples, and the same with its command words in
    other cases. *)
Definition shout_script : string :=
  unlines ["FPS 12"; "SHAPE circle ID c AT 10,20"; "MOVE c TO 30,40 DUR 1"].
Definition whisper_script : string :=
  unlines ["fps 12"; "Shape circle ID c AT 10,20"; "move c TO 30,40 DUR 1"].

(** The first word of a line and what follows it: the line is cut before
    its first space. *)
Fixpoint first_word (line : string) : string * string :=
  match line with
  | EmptyString => (EmptyString, EmptyString)
  | String c r =>
      if Ascii.eqb c " " then (EmptyString, line)
      else let '(w, rest) := first_word r in (String c w, rest)
  end.

(** Two lines that are equal, or differ only in the case of the ASCII
    letters of their first word, a word without blank or quote. *)
Definition same_but_case (line line' : string) : bool :=
  String.eqb line line'
  || (let '(w, rest) := first_word line in
      let '(w', rest') := first_word line' in
      is_token w && is_token w' && String.eqb (PyStr.upper w) (PyStr.upper w')
      && String.eqb rest rest').

Fixpoint lines_match (lines lines' : list string) : bool :=
  match lines, lines' with
  | [], [] => true
  | line :: lines, line' :: lines' => same_but_case line line' && lines_match lines lines'
  | _, _ => false
  end.


(** * Properties *)

(** ** Strings *)

Lemma append_nil_l (t : string) : EmptyString +:+ t = t.
Proof. reflexivity. Qed.

Lemma append_cons (c : ascii) (s t : string) : String c s +:+ t = String c (s +:+ t).
Proof. reflexivity. Qed.

Lemma append_nil_r (s : string) : s +:+ EmptyString = s.
Proof.
  induction s as [|c s IH]; [reflexivity|].
  now rewrite append_cons, IH.
Qed.

Lemma append_assoc (a b c : string) : (a +:+ b) +:+ c = a +:+ (b +:+ c).
Proof.
  induction a as [|x a IH]; [reflexivity|].
  now rewrite !append_cons, IH.
Qed.

(** ** The tokenizer *)

Section Tokenizer.

Implicit Types (tokens : list string) (current line s : string).

(** Outside quotes the characters of a word are copied to the buffer. *)
Lemma tokenize_loop_word s line tokens current :
  free_of is_blank_or_dquote s = true ->
  tokenize_loop (s +:+ line) tokens current false
  = tokenize_loop line tokens (current +:+ s) false.
Proof.
  revert current. induction s as [|c s IH]; intros current Hs.
  - now rewrite append_nil_l, append_nil_r.
  - cbn [free_of] in Hs. apply andb_true_iff in Hs as [Hc Hs].
    unfold is_blank_or_dquote in Hc. apply negb_true_iff, orb_false_iff in Hc as [Hsp Hq].
    rewrite append_cons. cbn [tokenize_loop]. rewrite Hq, Hsp. cbn [andb].
    rewrite IH by assumption.
    now rewrite append_assoc.
Qed.

(** Inside quotes every character but the quote is copied, spaces and
    backslashes included. *)
Lemma tokenize_loop_quoted s line tokens current :
  free_of is_dquote s = true ->
  tokenize_loop (s +:+ line) tokens current true
  = tokenize_loop line tokens (current +:+ s) true.
Proof.
  revert current. induction s as [|c s IH]; intros current Hs.
  - now rewrite append_nil_l, append_nil_r.
  - cbn [free_of] in Hs. apply andb_true_iff in Hs as [Hc Hs].
    unfold is_dquote in Hc. apply negb_true_iff in Hc.
    rewrite append_cons. cbn [tokenize_loop]. rewrite Hc. cbn [andb negb].
    rewrite andb_false_r. rewrite IH by assumption.
    now rewrite append_assoc.
Qed.

Lemma tokenize_loop_words ws tokens :
  Forall (fun w => is_word w = true) ws ->
  tokenize_loop (String.concat " " ws) tokens EmptyString false = tokens ++ ws.
Proof.
  revert tokens. induction ws as [|w ws IH]; intros tokens Hws.
  - cbn. now rewrite app_nil_r.
  - inversion Hws as [|? ? Hw Hws']; subst.
    unfold is_word in Hw. apply andb_true_iff in Hw as [Hne Hfree].
    destruct ws as [|w' ws].
    + cbn [String.concat]. rewrite <- (append_nil_r w) at 1.
      rewrite tokenize_loop_word by assumption.
      rewrite append_nil_l. cbn [tokenize_loop]. now rewrite Hne.
    + change (String.concat " " (w :: w' :: ws))
        with (w +:+ String " " (String.concat " " (w' :: ws))).
      rewrite tokenize_loop_word by assumption. rewrite append_nil_l.
      cbn [tokenize_loop].
      change (Ascii.eqb " " PyStr.dquote) with false.
      change (Ascii.eqb " " " ") with true. cbn [andb negb]. rewrite Hne.
      rewrite IH by assumption. now rewrite <- app_assoc.
Qed.

End Tokenizer.

(** C7. The tokenizer splits on unquoted spaces, keeps a quoted span with
    its spaces and without its quotes in one token, treats the backslash as
    any other character, and on an unterminated quote returns the rest of the
    line in the current token; it is a total function, so it never fails.
    (1) The line [TEXT "Hello World" AT 10,10] gives the four tokens of the
    specification. (2) Words joined by single spaces are returned as they
    are. (3) From an opening quote on, a span [s] without a quote and the
    closing quote append [s] to the buffer and flush it as one token. (4) An
    opening quote that is never closed leaves the rest of the line in the
    buffer, flushed at the end of the line when it is not empty. *)
Theorem tokenize_line_quoted_spans :
  tokenize_line ("TEXT " +:+ dq +:+ "Hello World" +:+ dq +:+ " AT 10,10")
  = ["TEXT"; "Hello World"; "AT"; "10,10"]
  /\ (forall ws : list string,
        Forall (fun w => is_word w = true) ws ->
        tokenize_line (String.concat " " ws) = ws)
  /\ (forall (tokens : list string) (current s rest : string),
        free_of is_dquote s = true ->
        tokenize_loop (dq +:+ s +:+ dq +:+ rest) tokens current false
        = tokenize_loop rest (tokens ++ [current +:+ s]) EmptyString false)
  /\ (forall (tokens : list string) (current s : string),
        free_of is_dquote s = true ->
        tokenize_loop (dq +:+ s) tokens current false
        = if PyStr.nonempty (current +:+ s) then tokens ++ [current +:+ s] else tokens).
Proof.
  split; [reflexivity|]. split; [|split].
  - intros ws Hws. unfold tokenize_line. now rewrite tokenize_loop_words.
  - intros tokens current s rest Hs.
    change (dq +:+ s +:+ dq +:+ rest) with (String PyStr.dquote (s +:+ (dq +:+ rest))).
    cbn [tokenize_loop]. rewrite Ascii.eqb_refl. cbn [andb negb].
    rewrite tokenize_loop_quoted by assumption.
    change (dq +:+ rest) with (String PyStr.dquote rest).
    cbn [tokenize_loop]. rewrite Ascii.eqb_refl. reflexivity.
  - intros tokens current s Hs.
    change (dq +:+ s) with (String PyStr.dquote s).
    cbn [tokenize_loop]. rewrite Ascii.eqb_refl. cbn [andb negb].
    rewrite <- (append_nil_r s) at 1.
    rewrite tokenize_loop_quoted by assumption. reflexivity.
Qed.

Lemma tokenize_line_quoted_spans_witness :
  tokenize_line "MOVE ball TO 10,20" = ["MOVE"; "ball"; "TO"; "10,20"]
  /\ tokenize_loop (dq +:+ "a \ b" +:+ dq +:+ " c") ["TEXT"] "x" false
     = tokenize_loop " c" (["TEXT"] ++ ["x" +:+ "a \ b"]) EmptyString false
  /\ tokenize_loop (dq +:+ "rest of line") ["TEXT"] EmptyString false
     = ["TEXT"; "rest of line"].
Proof.
  destruct tokenize_line_quoted_spans as (_ & Hwords & Hspan & Hopen).
  split; [|split].
  - apply (Hwords ["MOVE"; "ball"; "TO"; "10,20"]).
    repeat constructor.
  - apply Hspan. reflexivity.
  - apply (Hopen ["TEXT"] EmptyString "rest of line"). reflexivity.
Defined.

(** ** Colours *)

Lemma in_class_hash (c : ascii) : Re.in_class [(35, 35)] c = Ascii.eqb c "#".
Proof.
  destruct c as [[] [] [] [] [] [] [] []]; reflexivity.
Qed.

Lemma exact_color_inv (t : string) :
  exact_color t = true ->
  exists c1 c2 c3 c4 c5 c6,
    t = String "#" (String c1 (String c2 (String c3 (String c4 (String c5 (String c6 EmptyString))))))
    /\ is_hex c1 && is_hex c2 && is_hex c3 && is_hex c4 && is_hex c5 && is_hex c6 = true.
Proof.
  destruct t as [|h [|c1 [|c2 [|c3 [|c4 [|c5 [|c6 [|c7 t]]]]]]]]; try discriminate.
  cbn [exact_color]. rewrite <- !andb_assoc. intros H.
  apply andb_true_iff in H as [Hh H]. apply Ascii.eqb_eq in Hh. subst h.
  exists c1, c2, c3, c4, c5, c6. split; [reflexivity|]. now rewrite <- !andb_assoc.
Qed.

(** What [validate_color] accepts: an exact colour, or an exact colour
    followed by one newline. *)
Lemma validate_color_accepts (s : string) :
  validate_color s = true
  <-> exists t, exact_color t = true
                /\ (s = t \/ s = t +:+ String PyStr.newline EmptyString).
Proof.
  split.
  - unfold validate_color, Re.match_, VALID_COLORS_PATTERN.
    destruct s as [|h [|c1 [|c2 [|c3 [|c4 [|c5 [|c6 s]]]]]]];
      cbn [PyStr.nonempty negb Re.match_here Re.consume andb Nat.eqb];
      repeat match goal with
             | |- context [if ?b then _ else _] => destruct b eqn:?
             end;
      try (intros ?; discriminate).
    rewrite andb_true_r. unfold Re.at_end. intros Hend.
    assert (Hex : exact_color (String h (String c1 (String c2 (String c3 (String c4
                     (String c5 (String c6 EmptyString))))))) = true).
    { cbn [exact_color]. unfold is_hex. rewrite in_class_hash in *.
      repeat match goal with H : _ = true |- _ => rewrite H end. reflexivity. }
    destruct s as [|n [|n' s]]; try discriminate.
    + eexists; split; [exact Hex | now left].
    + apply Ascii.eqb_eq in Hend. subst n.
      eexists; split; [exact Hex | now right].
  - intros (t & Ht & Hs). apply exact_color_inv in Ht as (c1 & c2 & c3 & c4 & c5 & c6 & -> & Hh).
    rewrite <- !andb_assoc in Hh.
    repeat match type of Hh with (_ && _ = true) => apply andb_true_iff in Hh as [? Hh] end.
    destruct Hs as [-> | ->];
      rewrite ?append_cons, ?append_nil_l;
      unfold validate_color, Re.match_, VALID_COLORS_PATTERN;
      cbn [PyStr.nonempty negb Re.match_here Re.consume andb Nat.eqb String.append];
      change (Re.in_class [(35, 35)] "#") with true;
      change (Re.in_class [(48, 57); (65, 70); (97, 102)]) with is_hex;
      cbn [Re.match_here Re.consume andb Nat.eqb];
      repeat match goal with H : is_hex _ = true |- _ => rewrite H; clear H end;
      reflexivity.
Qed.


(** On a text that ends with a newline the test is not the exact one: the
    [$] of the pattern also matches just before a newline that ends the
    text. *)
Example validate_color_trailing_newline :
  validate_color ("#FFFFFF" +:+ String PyStr.newline EmptyString) = true
  /\ exact_color ("#FFFFFF" +:+ String PyStr.newline EmptyString) = false.
Proof. split; reflexivity. Qed.

(** ** The error monad *)

Lemma bind_Ok {A B} (a : A) (k : A -> result B) : (Ok a ≫= k) = k a.
Proof. reflexivity. Qed.

Lemma bind_Raise {A B} (e : exn) (k : A -> result B) : (Raise e ≫= k) = Raise e.
Proof. reflexivity. Qed.

Lemma bind_Ok_inv {A B} (r : result A) (k : A -> result B) (b : B) :
  (r ≫= k) = Ok b -> exists a, r = Ok a /\ k a = Ok b.
Proof.
  destruct r as [a|e]; [rewrite bind_Ok; eauto | rewrite bind_Raise; discriminate].
Qed.

Lemma bind_Raise_inv {A B} (r : result A) (k : A -> result B) (e : exn) :
  (r ≫= k) = Raise e -> r = Raise e \/ exists a, r = Ok a /\ k a = Raise e.
Proof.
  destruct r as [a|e']; [rewrite bind_Ok | rewrite bind_Raise]; intros H;
    [right; eauto | left; congruence].
Qed.

Lemma or_value_error_raises {A} (o : option A) (e : exn) :
  or_value_error o = Raise e -> e = ValueError.
Proof. destruct o; [discriminate | now intros [= <-]]. Qed.

Lemma catch_syntax_Ok {A} (line_num : nat) (r : result A) (a : A) :
  catch_syntax line_num r = Ok a <-> r = Ok a.
Proof. destruct r as [|[]]; cbn; split; congruence. Qed.

(** ** What the command parsers can raise *)

#[local] Hint Constructors command_exn : core.

Lemma parse_coords_raises (token : string) (e : exn) :
  parse_coords token = Raise e -> e = ValueError.
Proof.
  unfold parse_coords.
  destruct (PyStr.split "," token) as [|a [|b [|c l]]]; try discriminate.
  intros H. apply bind_Raise_inv in H as [H | (x & _ & H)];
    [now apply or_value_error_raises in H|].
  apply bind_Raise_inv in H as [H | (y & _ & H)];
    [now apply or_value_error_raises in H | discriminate].
Qed.

(** One step of a proof about a keyword loop: split on the next test of the
    [if] chain or on the outcome of the next conversion. *)
Ltac loop_step :=
  match goal with
  | H : (?r ≫= _) = Raise _ |- _ =>
      apply bind_Raise_inv in H as [H | (? & ? & H)]
  | H : parse_coords _ = Raise _ |- _ => apply parse_coords_raises in H; subst
  | H : or_value_error _ = Raise _ |- _ => apply or_value_error_raises in H; subst
  | H : (if ?b then _ else _) = _ |- _ => destruct b eqn:?
  | H : match ?l with [] => _ | _ :: _ => _ end = _ |- _ => destruct l
  | H : Raise _ = Raise _ |- _ => injection H as <-
  end.

(** Every recursive call of a keyword loop is on a shorter list. *)
Ltac loop_rec IH :=
  match goal with
  | H : _ = Raise _ |- _ => eapply IH; [|exact H]; cbn [length] in *; lia
  end.

Lemma text_loop_raises (line_num : nat) (tokens : list string) :
  forall cmd e, text_loop line_num tokens cmd = Raise e -> command_exn line_num e.
Proof.
  remember (length tokens) as n eqn:Hn. assert (Hlen : (length tokens <= n)%nat) by lia.
  clear Hn. revert tokens Hlen.
  induction n as [|n IH]; intros tokens Hlen cmd e H;
    destruct tokens as [|tok [|v rest1]]; cbn [text_loop length] in *; try discriminate;
    try lia.
  repeat loop_step; auto; try discriminate; try loop_rec IH.
  all: match goal with H : negb (validate_color _) = true |- _ => apply negb_true_iff in H end.
  all: auto.
Qed.

Lemma shape_loop_raises (line_num : nat) (tokens : list string) :
  forall cmd e, shape_loop line_num tokens cmd = Raise e -> command_exn line_num e.
Proof.
  remember (length tokens) as n eqn:Hn. assert (Hlen : (length tokens <= n)%nat) by lia.
  clear Hn. revert tokens Hlen.
  induction n as [|n IH]; intros tokens Hlen cmd e H;
    destruct tokens as [|tok [|v rest1]]; cbn [shape_loop length] in *; try discriminate;
    try lia.
  repeat loop_step; auto; try discriminate; try loop_rec IH.
  all: match goal with H : negb (validate_color _) = true |- _ => apply negb_true_iff in H end.
  all: auto.
Qed.

Lemma move_loop_raises (tokens : list string) :
  forall cmd e, move_loop tokens cmd = Raise e -> e = ValueError.
Proof.
  remember (length tokens) as n eqn:Hn. assert (Hlen : (length tokens <= n)%nat) by lia.
  clear Hn. revert tokens Hlen.
  induction n as [|n IH]; intros tokens Hlen cmd e H;
    destruct tokens as [|tok [|v rest1]]; cbn [move_loop length] in *; try discriminate;
    try lia.
  repeat loop_step; auto; try discriminate; try loop_rec IH.
Qed.

Lemma parse_text_command_raises (tokens : list string) (line_num : nat) (e : exn) :
  parse_text_command tokens line_num = Raise e -> command_exn line_num e.
Proof.
  destruct tokens as [|text rest]; cbn [parse_text_command].
  - intros [= <-]. auto.
  - apply text_loop_raises.
Qed.

Lemma parse_shape_command_raises (tokens : list string) (line_num : nat) (e : exn) :
  parse_shape_command tokens line_num = Raise e -> command_exn line_num e.
Proof.
  destruct tokens as [|tok rest]; cbn [parse_shape_command].
  - intros [= <-]. auto.
  - destruct (negb _); [intros [= <-]; auto | apply shape_loop_raises].
Qed.

Lemma parse_move_command_raises (tokens : list string) (line_num : nat) (e : exn) :
  parse_move_command tokens line_num = Raise e -> command_exn line_num e.
Proof.
  unfold parse_move_command. destruct (_ <? _)%nat; [intros [= <-]; auto|].
  destruct tokens as [|obj_id rest]; [intros [= <-]; auto|].
  intros H. apply move_loop_raises in H. subst. auto.
Qed.


(** ** The loop over the lines *)

Lemma parse_line_command (line_num : nat) (line : string) (st : parse_state) :
  parse_line line_num line st
  = match command_of_line line with
    | None => Ok st
    | Some (command, args) =>
        if negb (str_in command ALLOWED_COMMANDS)
        then Raise (DSLParseError line_num UnknownCommand)
        else catch_syntax line_num (run_command command args line_num st)
    end.
Proof.
  unfold parse_line, command_of_line.
  destruct (negb _ || _); [reflexivity|].
  destruct (tokenize_line _); reflexivity.
Qed.

(** The six allowed command words, one case each. *)
Lemma allowed_command_cases (command : string) :
  str_in command ALLOWED_COMMANDS = true ->
  command = "BACKGROUND" \/ command = "FPS" \/ command = "DURATION"
  \/ command = "TEXT" \/ command = "SHAPE" \/ command = "MOVE".
Proof.
  unfold str_in, ALLOWED_COMMANDS. cbn [existsb].
  rewrite !orb_true_iff, !String.eqb_eq. intuition (try discriminate).
Qed.

Ltac command_cases H :=
  apply allowed_command_cases in H;
  destruct H as [-> | [-> | [-> | [-> | [-> | ->]]]]].

Lemma run_command_effect (command : string) (args : list string) (line_num : nat)
    (st st' : parse_state) :
  str_in command ALLOWED_COMMANDS = true ->
  run_command command args line_num st = Ok st' <-> line_effect line_num st command args st'.
Proof.
  intros Hallowed. split.
  - command_cases Hallowed; unfold run_command;
      cbn [String.eqb Ascii.eqb Bool.eqb]; intros H.
    + destruct (negb _) eqn:Hc; [discriminate|]. injection H as <-.
      apply negb_false_iff in Hc.
      apply eff_background; [now destruct args | exact Hc].
    + apply bind_Ok_inv in H as (v & Hv & H).
      destruct (_ || _) eqn:Hr; [discriminate|]. injection H as <-.
      apply orb_false_iff in Hr as [H1 H2].
      apply eff_fps; [destruct args as [|a args]; cbn in *; [congruence|]|lia].
      destruct (PyStr.to_int a); cbn in Hv; congruence.
    + apply bind_Ok_inv in H as (d & Hd & H).
      destruct (_ || _) eqn:Hr; [discriminate|]. injection H as <-.
      apply orb_false_iff in Hr as [H1 H2].
      apply eff_duration; [|assumption..].
      destruct args as [|a args]; cbn in *; [congruence|].
      destruct (PyStr.to_float a); cbn in Hd; congruence.
    + destruct (_ <? _)%nat eqn:Hc; [discriminate|].
      apply bind_Ok_inv in H as (c & Hp & [= <-]).
      apply Nat.ltb_ge in Hc. apply eff_text; [lia | assumption].
    + destruct (_ <? _)%nat eqn:Hc; [discriminate|].
      apply bind_Ok_inv in H as (c & Hp & [= <-]).
      apply Nat.ltb_ge in Hc. apply eff_shape; [lia | assumption].
    + apply bind_Ok_inv in H as (c & Hp & [= <-]). now apply eff_move.
  - intros Heff. clear Hallowed.
    destruct Heff as [args color -> Hc | args v Hv Hr | args d Hd H1 H2
                     | args cmd Hn Hp | args cmd Hn Hp | args cmd Hp];
      unfold run_command; cbn [String.eqb Ascii.eqb Bool.eqb].
    + destruct args; cbn [hd] in *; now rewrite Hc.
    + replace (match args with [] => Ok 24 | v0 :: _ => or_value_error (PyStr.to_int v0) end)
        with (Ok (A:=Z) v) by (destruct args; cbn in *; [congruence | now rewrite Hv]).
      rewrite bind_Ok.
      replace ((v <? 1) || (MAX_FPS <? v)) with false; [reflexivity|].
      symmetry. apply orb_false_iff. split; [apply Z.ltb_ge | apply Z.ltb_ge]; lia.
    + replace (match args with
               | [] => Ok (PyFloat.of_int 3)
               | v0 :: _ => or_value_error (PyStr.to_float v0)
               end)
        with (Ok (A:=spec_float) d) by (destruct args; cbn in *; [congruence | now rewrite Hd]).
      rewrite bind_Ok. now rewrite H1, H2.
    + replace (_ <? _)%nat with false by (symmetry; apply Nat.ltb_ge; lia).
      now rewrite Hp.
    + replace (_ <? _)%nat with false by (symmetry; apply Nat.ltb_ge; lia).
      now rewrite Hp.
    + now rewrite Hp.
Qed.

(** A line is skipped, or its command is allowed and has its effect. *)
Lemma parse_line_Ok (line_num : nat) (line : string) (st st' : parse_state) :
  parse_line line_num line st = Ok st'
  <-> match command_of_line line with
      | None => st' = st
      | Some (command, args) =>
          str_in command ALLOWED_COMMANDS = true
          /\ line_effect line_num st command args st'
      end.
Proof.
  rewrite parse_line_command.
  destruct (command_of_line line) as [[command args]|]; [|split; congruence].
  destruct (str_in command ALLOWED_COMMANDS) eqn:Hallowed; cbn [negb].
  - rewrite catch_syntax_Ok, run_command_effect by assumption. tauto.
  - split; [discriminate | intros [? _]; discriminate].
Qed.

#[local] Hint Constructors line_exn : core.

Lemma run_command_raises (command : string) (args : list string) (line_num : nat)
    (st : parse_state) (e : exn) :
  str_in command ALLOWED_COMMANDS = true ->
  run_command command args line_num st = Raise e ->
  line_exn line_num st command e.
Proof.
  intros Hallowed. command_cases Hallowed; unfold run_command;
    cbn [String.eqb Ascii.eqb Bool.eqb]; intros H.
  - destruct (negb _) eqn:Hc; [|discriminate]. injection H as <-.
    apply negb_true_iff in Hc. auto.
  - apply bind_Raise_inv in H as [H | (v & _ & H)].
    + destruct args; [discriminate|]. apply or_value_error_raises in H. subst. auto.
    + destruct (_ || _); [|discriminate]. injection H as <-. auto.
  - apply bind_Raise_inv in H as [H | (v & _ & H)].
    + destruct args; [discriminate|]. apply or_value_error_raises in H. subst. auto.
    + destruct (_ || _); [|discriminate]. injection H as <-. auto.
  - destruct (_ <? _)%nat eqn:Hc.
    + injection H as <-. apply Nat.ltb_lt in Hc. apply le_objects; [auto | lia].
    + apply bind_Raise_inv in H as [H | (v & _ & H)]; [|discriminate].
      apply parse_text_command_raises in H. auto.
  - destruct (_ <? _)%nat eqn:Hc.
    + injection H as <-. apply Nat.ltb_lt in Hc. apply le_objects; [auto | lia].
    + apply bind_Raise_inv in H as [H | (v & _ & H)]; [|discriminate].
      apply parse_shape_command_raises in H. auto.
  - apply bind_Raise_inv in H as [H | (v & _ & H)]; [|discriminate].
    apply parse_move_command_raises in H. auto.
Qed.

(** The exceptions that leave the body of the loop. *)
Lemma parse_line_raises (line_num : nat) (line : string) (st : parse_state) (e : exn) :
  parse_line line_num line st = Raise e ->
  exists command args,
    command_of_line line = Some (command, args)
    /\ (e = DSLParseError line_num UnknownCommand
        \/ (e <> ValueError /\ line_exn line_num st command e)
        \/ e = DSLParseError line_num InvalidSyntax).
Proof.
  rewrite parse_line_command.
  destruct (command_of_line line) as [[command args]|]; [|discriminate].
  intros H. exists command, args. split; [reflexivity|].
  destruct (str_in command ALLOWED_COMMANDS) eqn:Hallowed; cbn [negb] in H.
  - destruct (run_command command args line_num st) as [|e'] eqn:Hrun; [discriminate|].
    apply run_command_raises in Hrun; [|assumption].
    destruct e'; cbn in H; injection H as <-; auto.
    all: right; left; split; [discriminate | assumption].
  - injection H as <-. auto.
Qed.

(** The object counter is tested on TEXT and SHAPE lines and nowhere else. *)
Lemma parse_line_too_many (line_num k : nat) (line : string) (st : parse_state) :
  parse_line line_num line st = Raise (DSLValidationError (TooManyObjects k))
  <-> k = line_num /\ is_object_line line = true
      /\ (MAX_OBJECTS <= object_count st)%nat.
Proof.
  split.
  - intros H. apply parse_line_raises in H as (command & args & Hcmd & H).
    unfold is_object_line. rewrite Hcmd.
    destruct H as [H | [[_ H] | H]]; try discriminate.
    inversion H as [e Hce | | | Hc Hn]; subst.
    + inversion Hce.
    + repeat split; [|assumption]. destruct Hc as [-> | ->]; reflexivity.
  - intros (-> & Hobj & Hn). rewrite parse_line_command.
    unfold is_object_line in Hobj.
    destruct (command_of_line line) as [[command args]|]; [|discriminate].
    apply orb_true_iff in Hobj. rewrite !String.eqb_eq in Hobj.
    assert (Hlt : (MAX_OBJECTS <? S (object_count st))%nat = true)
      by (apply Nat.ltb_lt; lia).
    destruct Hobj as [-> | ->]; cbn [str_in ALLOWED_COMMANDS existsb String.eqb Ascii.eqb
      Bool.eqb orb negb]; unfold run_command; cbn [String.eqb Ascii.eqb Bool.eqb];
      now rewrite Hlt.
Qed.

(** A TEXT or SHAPE line that is accepted adds one to the counter; any other
    line leaves it as it is. *)
Lemma parse_line_count (line_num : nat) (line : string) (st st' : parse_state) :
  parse_line line_num line st = Ok st' ->
  object_count st' = (object_count st + if is_object_line line then 1 else 0)%nat.
Proof.
  rewrite parse_line_Ok. unfold is_object_line.
  destruct (command_of_line line) as [[command args]|]; [|intros ->; lia].
  intros [_ Heff]. destruct Heff; cbn; lia.
Qed.

Lemma count_object_lines_cons (line : string) (lines : list string) :
  count_object_lines (line :: lines)
  = ((if is_object_line line then 1 else 0) + count_object_lines lines)%nat.
Proof.
  unfold count_object_lines. rewrite filter_cons.
  destruct (decide (is_object_line line = true)) as [H | H].
  - now rewrite H.
  - apply not_true_is_false in H. now rewrite H.
Qed.

Lemma count_object_lines_app (l1 l2 : list string) :
  count_object_lines (l1 ++ l2) = (count_object_lines l1 + count_object_lines l2)%nat.
Proof. unfold count_object_lines. now rewrite filter_app, length_app. Qed.

Lemma parse_lines_count (lines : list string) :
  forall line_num st st',
    parse_lines line_num lines st = Ok st' ->
    object_count st' = (object_count st + count_object_lines lines)%nat.
Proof.
  induction lines as [|line lines IH]; intros line_num st st' H.
  - injection H as <-. cbn. lia.
  - cbn [parse_lines] in H. apply bind_Ok_inv in H as (st1 & H1 & H).
    apply IH in H. apply parse_line_count in H1.
    rewrite count_object_lines_cons. lia.
Qed.

Lemma parse_lines_app (l1 l2 : list string) :
  forall line_num st,
    parse_lines line_num (l1 ++ l2) st
    = parse_lines line_num l1 st ≫= parse_lines (line_num + length l1) l2.
Proof.
  induction l1 as [|line l1 IH]; intros line_num st.
  - cbn [app parse_lines length]. rewrite bind_Ok. now rewrite Nat.add_0_r.
  - cbn [app parse_lines length].
    destruct (parse_line line_num line st) as [st1|e]; [|reflexivity].
    rewrite !bind_Ok, IH. now replace (S line_num + length l1)%nat
      with (line_num + S (length l1))%nat by lia.
Qed.

(** With room left for every TEXT and SHAPE line, the loop does not raise
    [TooManyObjects]. *)
Lemma parse_lines_within_cap (lines : list string) :
  forall line_num st k,
    (object_count st + count_object_lines lines <= MAX_OBJECTS)%nat ->
    parse_lines line_num lines st <> Raise (DSLValidationError (TooManyObjects k)).
Proof.
  induction lines as [|line lines IH]; intros line_num st k Hcap H; [discriminate|].
  cbn [parse_lines] in H. rewrite count_object_lines_cons in Hcap.
  apply bind_Raise_inv in H as [H | (st1 & H1 & H)].
  - apply parse_line_too_many in H as (_ & Hobj & Hn). rewrite Hobj in Hcap. lia.
  - apply parse_line_count in H1. apply IH in H; [assumption|]. lia.
Qed.

Lemma check_frames_raises (spec : AnimationSpec) (e : exn) :
  check_frames spec = Raise e ->
  e = ValueError \/ e = OverflowError
  \/ exists t, total_frames_of spec = Ok t /\ MAX_FRAMES < t
               /\ e = DSLValidationError (TooManyFrames t).
Proof.
  unfold check_frames. intros H.
  apply bind_Raise_inv in H as [H | (t & Ht & H)].
  - unfold total_frames_of, PyFloat.to_int in H.
    destruct (PyFloat.mul _ _); try discriminate; injection H as <-; auto.
  - destruct (MAX_FRAMES <? t) eqn:Hlt; [|discriminate]. injection H as <-.
    apply Z.ltb_lt in Hlt. right; right. eauto.
Qed.

(** C6. Every TEXT or SHAPE line adds one to the object counter and no
    other line changes it; the TEXT or SHAPE line reached with the counter
    already at 50 raises [TooManyObjects] with its own line number and none
    of the lines after it is parsed; a document with at most 50 TEXT and
    SHAPE lines never raises that error. *)
Theorem object_cap :
  (forall line_num line st st',
      parse_line line_num line st = Ok st' ->
      object_count st' = (object_count st + if is_object_line line then 1 else 0)%nat)
  /\ (forall dsl_script pre line post st,
        script_lines dsl_script = pre ++ line :: post ->
        parse_lines 1 pre initial_state = Ok st ->
        count_object_lines pre = MAX_OBJECTS ->
        is_object_line line = true ->
        parse_dsl dsl_script
        = Raise (DSLValidationError (TooManyObjects (S (length pre)))))
  /\ (forall dsl_script k,
        (count_object_lines (script_lines dsl_script) <= MAX_OBJECTS)%nat ->
        parse_dsl dsl_script <> Raise (DSLValidationError (TooManyObjects k))).
Proof.
  split; [exact parse_line_count|]. split.
  - intros dsl_script pre line post st Hlines Hpre Hcount Hobj.
    unfold parse_dsl. fold (script_lines dsl_script). rewrite Hlines.
    rewrite parse_lines_app, Hpre, bind_Ok. cbn [parse_lines].
    apply parse_lines_count in Hpre. cbn [initial_state object_count] in Hpre.
    replace (parse_line (1 + length pre) line st)
      with (Raise (A:=parse_state) (DSLValidationError (TooManyObjects (S (length pre))))).
    + reflexivity.
    + symmetry. apply parse_line_too_many. repeat split; [assumption | lia].
  - intros dsl_script k Hcap H. unfold parse_dsl in H. fold (script_lines dsl_script) in H.
    apply bind_Raise_inv in H as [H | (st & _ & H)].
    + revert H. apply parse_lines_within_cap. cbn. lia.
    + apply check_frames_raises in H as [H | [H | (t & _ & _ & H)]]; discriminate.
Qed.

Lemma object_cap_witness :
  (exists st', parse_line 1 "TEXT hello AT 1,2" initial_state = Ok st' /\ object_count st' = 1%nat)
  /\ (exists st', parse_line 1 "FPS 12" initial_state = Ok st' /\ object_count st' = 0%nat)
  /\ parse_dsl (unlines (repeat "SHAPE CIRCLE" 51))
     = Raise (DSLValidationError (TooManyObjects 51))
  /\ parse_dsl (unlines (repeat "SHAPE CIRCLE" 50))
     <> Raise (DSLValidationError (TooManyObjects 50)).
Proof.
  destruct object_cap as (Hcount & Hraise & Hcap).
  split; [|split; [|split]].
  - eexists. split; [vm_compute; reflexivity|].
    erewrite (Hcount 1%nat "TEXT hello AT 1,2" initial_state) by (vm_compute; reflexivity).
    reflexivity.
  - eexists. split; [vm_compute; reflexivity|].
    erewrite (Hcount 1%nat "FPS 12" initial_state) by (vm_compute; reflexivity).
    reflexivity.
  - eapply (Hraise _ (repeat "SHAPE CIRCLE" 50) "SHAPE CIRCLE" []).
    + vm_compute. reflexivity.
    + vm_compute. reflexivity.
    + vm_compute. reflexivity.
    + vm_compute. reflexivity.
  - apply Hcap. vm_compute. lia.
Defined.

(** ** The frame limit *)

Lemma parse_line_rate (line_num : nat) (line : string) (st st' : parse_state) :
  parse_line line_num line st = Ok st' ->
  fps (st_spec st') = default (fps (st_spec st)) (fps_of_line line)
  /\ duration (st_spec st') = default (duration (st_spec st)) (duration_of_line line).
Proof.
  rewrite parse_line_Ok. unfold fps_of_line, duration_of_line.
  destruct (command_of_line line) as [[command args]|]; [|intros ->; auto].
  intros [_ Heff].
  destruct Heff as [args color -> Hc | args v Hv Hr | args d Hd H1 H2
                   | args cmd Hn Hp | args cmd Hn Hp | args cmd Hp];
    cbn [String.eqb Ascii.eqb Bool.eqb]; try rewrite Hv; try rewrite Hd; auto.
Qed.

Lemma parse_lines_rate (lines : list string) :
  forall line_num st st',
    parse_lines line_num lines st = Ok st' ->
    fps (st_spec st') = last_set fps_of_line lines (fps (st_spec st))
    /\ duration (st_spec st') = last_set duration_of_line lines (duration (st_spec st)).
Proof.
  induction lines as [|line lines IH]; intros line_num st st' H.
  - injection H as <-. auto.
  - cbn [parse_lines] in H. apply bind_Ok_inv in H as (st1 & H1 & H).
    apply IH in H as [Hf Hd]. apply parse_line_rate in H1 as [Hf1 Hd1].
    unfold last_set in *. cbn [fold_left]. now rewrite <- Hf1, <- Hd1.
Qed.

(** The loop over the lines never raises [TooManyFrames]. *)
Lemma parse_lines_no_frame_check (lines : list string) :
  forall line_num st t,
    parse_lines line_num lines st <> Raise (DSLValidationError (TooManyFrames t)).
Proof.
  induction lines as [|line lines IH]; intros line_num st t H; [discriminate|].
  cbn [parse_lines] in H. apply bind_Raise_inv in H as [H | (st1 & _ & H)].
  - apply parse_line_raises in H as (command & args & _ & [H | [[_ H] | H]]);
      try discriminate.
    inversion H as [e Hce | | |]; subst. inversion Hce.
  - now apply IH in H.
Qed.

(** C4. When the loop over the lines ends without an error, the spec holds
    the [fps] and [duration] of the last FPS and DURATION lines (24 and 3.0
    when there is none), and [parse_dsl] raises [TooManyFrames] exactly when
    [int(fps * duration)] on these final values exceeds 300. The loop itself
    never raises [TooManyFrames]: the test is made once, after the last
    line. *)
Theorem frame_limit_checked_once_at_end :
  (forall dsl_script st,
      parse_lines 1 (script_lines dsl_script) initial_state = Ok st ->
      fps (st_spec st) = final_fps (script_lines dsl_script)
      /\ duration (st_spec st) = final_duration (script_lines dsl_script)
      /\ ((exists t, parse_dsl dsl_script = Raise (DSLValidationError (TooManyFrames t)))
          <-> (exists t,
                  PyFloat.to_int
                    (PyFloat.mul (PyFloat.of_int (final_fps (script_lines dsl_script)))
                       (final_duration (script_lines dsl_script))) = Ok t
                  /\ MAX_FRAMES < t)))
  /\ (forall line_num lines st t,
        parse_lines line_num lines st <> Raise (DSLValidationError (TooManyFrames t))).
Proof.
  split; [|intros; apply parse_lines_no_frame_check].
  intros dsl_script st Hloop.
  destruct (parse_lines_rate _ _ _ _ Hloop) as [Hfps Hdur].
  cbn [initial_state st_spec default_spec fps duration] in Hfps, Hdur.
  fold (final_fps (script_lines dsl_script)) in Hfps.
  fold (final_duration (script_lines dsl_script)) in Hdur.
  split; [assumption|]. split; [assumption|].
  unfold parse_dsl. fold (script_lines dsl_script). rewrite Hloop, bind_Ok.
  rewrite <- Hfps, <- Hdur. fold (total_frames_of (st_spec st)).
  split.
  - intros [t H]. apply check_frames_raises in H as [H | [H | (t' & Ht & Hlt & H)]];
      try discriminate. eauto.
  - intros (t & Ht & Hlt). exists t. unfold check_frames. rewrite Ht, bind_Ok.
    apply Z.ltb_lt in Hlt. now rewrite Hlt.
Qed.

Lemma frame_limit_checked_once_at_end_witness :
  final_fps (script_lines demo_script) = 24
  /\ ((exists t, parse_dsl demo_script = Raise (DSLValidationError (TooManyFrames t)))
      <-> (exists t,
              PyFloat.to_int
                (PyFloat.mul (PyFloat.of_int (final_fps (script_lines demo_script)))
                   (final_duration (script_lines demo_script))) = Ok t
              /\ MAX_FRAMES < t)).
Proof.
  destruct frame_limit_checked_once_at_end as [Hend _].
  edestruct (Hend demo_script) as (Hfps & _ & Hiff).
  - vm_compute. reflexivity.
  - split; [|exact Hiff]. rewrite <- Hfps. reflexivity.
Defined.

(** ** The movement engine *)

Lemma for_each_snoc {S A} (body : S -> A -> result S) (l : list A) (a : A) (s : S) :
  for_each body (l ++ [a]) s = for_each body l s ≫= fun s' => body s' a.
Proof.
  revert s. induction l as [|x l IH]; intros s; cbn [app for_each].
  - rewrite bind_Ok. destruct (body s a); reflexivity.
  - destruct (body s x) as [s1|e]; [|reflexivity]. rewrite !bind_Ok. apply IH.
Qed.

(** A property that every run of the body keeps holds after the loop. *)
Lemma for_each_invariant {S A} (P : S -> Prop) (body : S -> A -> result S) (l : list A) :
  (forall s a s', P s -> body s a = Ok s' -> P s') ->
  forall s s', P s -> for_each body l s = Ok s' -> P s'.
Proof.
  intros Hbody. induction l as [|a l IH]; intros s s' Hs H; cbn [for_each] in H.
  - now injection H as <-.
  - apply bind_Ok_inv in H as (s1 & H1 & H). eauto.
Qed.

Lemma prepare_object_Ok (fps : Z) (reg reg' : registries) (obj : scene_object) :
  prepare_object fps reg obj = Ok reg' ->
  reg_positions reg' = <[obj_id_of obj := pos_of obj]> (reg_positions reg)
  /\ reg_moves reg'
     = match inline_declaration fps obj with
       | Some d => <[obj_id_of obj := d]> (reg_moves reg)
       | None => reg_moves reg
       end.
Proof.
  unfold prepare_object, inline_declaration, end_frame_of.
  destruct (move_to_of obj) as [target|]; [|intros [= <-]; auto].
  destruct (PyFloat.ltb _ _); [|intros [= <-]; auto].
  destruct (frames_of _ _) as [n|e]; [|discriminate].
  rewrite bind_Ok. intros [= <-]. auto.
Qed.

Lemma prepare_move_Ok (fps : Z) (reg reg' : registries) (move : MoveCommand.t) :
  prepare_move fps reg move = Ok reg' ->
  reg_positions reg' = reg_positions reg
  /\ reg_moves reg'
     = match reg_positions reg !! MoveCommand.obj_id move with
       | Some p =>
           <[MoveCommand.obj_id move :=
               Descriptor.mk p (MoveCommand.to_x move, MoveCommand.to_y move) 0
                 (end_frame_of (MoveCommand.duration move) fps) (MoveCommand.ease move)]>
             (reg_moves reg)
       | None => reg_moves reg
       end.
Proof.
  unfold prepare_move, end_frame_of.
  destruct (reg_positions reg !! _) as [p|]; [|intros [= <-]; auto].
  destruct (frames_of _ _) as [n|e]; [|discriminate].
  rewrite bind_Ok. intros [= <-]. auto.
Qed.

(** After the loop over the objects. *)
Lemma prepare_objects_spec (fps : Z) (objs : list scene_object) (reg : registries) :
  for_each (prepare_object fps) objs (mkReg ∅ ∅) = Ok reg ->
  forall id,
    reg_positions reg !! id = declared_position objs id
    /\ reg_moves reg !! id
       = last (omap (inline_declaration fps) (filter (fun o => obj_id_of o = id) objs)).
Proof.
  revert reg. induction objs as [|obj objs IH] using rev_ind; intros reg H id.
  - injection H as <-. cbn. now rewrite !lookup_empty.
  - rewrite for_each_snoc in H. apply bind_Ok_inv in H as (reg1 & H1 & H).
    destruct (IH _ H1 id) as [IHp IHm].
    apply prepare_object_Ok in H as [-> ->].
    unfold declared_position in *. rewrite filter_app, fmap_app, omap_app.
    destruct (decide (obj_id_of obj = id)) as [Heq | Hne].
    + rewrite filter_singleton_True by assumption. cbn [fmap list_fmap omap list_omap].
      rewrite last_snoc. subst id. rewrite lookup_insert_eq. split; [reflexivity|].
      destruct (inline_declaration fps obj) as [d|].
      * now rewrite lookup_insert_eq, last_snoc.
      * now rewrite app_nil_r.
    + rewrite filter_singleton_False by assumption. cbn [fmap list_fmap omap list_omap].
      rewrite !app_nil_r, lookup_insert_ne by assumption. split; [assumption|].
      destruct (inline_declaration fps obj); [now rewrite lookup_insert_ne | assumption].
Qed.

(** After the loop over the standalone moves: the positions are those it
    started with, and each id has the descriptor of the last move on it. *)
Lemma prepare_moves_spec (fps : Z) (ms : list MoveCommand.t) (reg0 reg : registries) :
  for_each (prepare_move fps) ms reg0 = Ok reg ->
  reg_positions reg = reg_positions reg0
  /\ forall id,
       reg_moves reg !! id
       = match last (omap (fun m =>
                             match reg_positions reg0 !! MoveCommand.obj_id m with
                             | Some p =>
                                 Some (Descriptor.mk p
                                         (MoveCommand.to_x m, MoveCommand.to_y m) 0
                                         (end_frame_of (MoveCommand.duration m) fps)
                                         (MoveCommand.ease m))
                             | None => None
                             end)
                          (filter (fun m => MoveCommand.obj_id m = id) ms)) with
         | Some d => Some d
         | None => reg_moves reg0 !! id
         end.
Proof.
  revert reg. induction ms as [|m ms IH] using rev_ind; intros reg H.
  - injection H as <-. auto.
  - rewrite for_each_snoc in H. apply bind_Ok_inv in H as (reg1 & H1 & H).
    destruct (IH _ H1) as [IHp IHm].
    apply prepare_move_Ok in H as [Hp ->]. rewrite Hp. split; [assumption|].
    intros id. rewrite filter_app, omap_app, IHp.
    destruct (decide (MoveCommand.obj_id m = id)) as [Heq | Hne].
    + rewrite filter_singleton_True by assumption. cbn [omap list_omap].
      subst id. destruct (reg_positions reg0 !! MoveCommand.obj_id m) as [p|].
      * now rewrite lookup_insert_eq, last_snoc.
      * rewrite app_nil_r. apply IHm.
    + rewrite filter_singleton_False by assumption. cbn [omap list_omap].
      rewrite app_nil_r.
      destruct (reg_positions reg0 !! MoveCommand.obj_id m);
        [rewrite lookup_insert_ne by assumption|]; apply IHm.
Qed.

Lemma prepare_movements_spec (spec : AnimationSpec) (reg : registries) :
  _prepare_movements spec (mkReg ∅ ∅) = Ok reg ->
  forall id,
    reg_positions reg !! id = declared_position (objects spec) id
    /\ reg_moves reg !! id = last (declarations spec id).
Proof.
  unfold _prepare_movements. intros H id.
  apply bind_Ok_inv in H as (reg1 & H1 & H).
  pose proof (prepare_objects_spec _ _ _ H1) as Hobj.
  apply prepare_moves_spec in H as [Hp Hm].
  rewrite Hp. split; [apply Hobj|].
  rewrite Hm. unfold declarations, standalone_declaration. rewrite last_app.
  erewrite (list_omap_ext _ (fun m => match declared_position (objects spec) (MoveCommand.obj_id m) with
      | Some p => Some (Descriptor.mk p (MoveCommand.to_x m, MoveCommand.to_y m) 0
                          (end_frame_of (MoveCommand.duration m) (fps spec)) (MoveCommand.ease m))
      | None => None end) _ (filter (fun m => MoveCommand.obj_id m = id) (moves spec))).
  - destruct (last (omap _ _)); [reflexivity | apply Hobj].
  - apply Forall2_same_length_lookup. split; [reflexivity|].
    intros i x y Hx Hy. rewrite Hx in Hy. injection Hy as <-.
    now rewrite (proj1 (Hobj _)).
Qed.

(** What [__init__] leaves in the renderer. *)
Lemma init_Ok (spec : AnimationSpec) (width height : Z) (r : AnimationRenderer.t) :
  AnimationRenderer.init spec width height = Ok r ->
  exists reg,
    _prepare_movements spec (mkReg ∅ ∅) = Ok reg
    /\ total_frames_of spec = Ok (AnimationRenderer.total_frames r)
    /\ hex_to_rgb (background spec) = Ok (AnimationRenderer.bg_color r)
    /\ r = AnimationRenderer.mk spec (Z.min width MAX_WIDTH) (Z.min height MAX_HEIGHT) []
             (AnimationRenderer.total_frames r) (AnimationRenderer.bg_color r)
             (reg_positions reg) (reg_moves reg).
Proof.
  unfold AnimationRenderer.init. intros H.
  apply bind_Ok_inv in H as (t & Ht & H).
  apply bind_Ok_inv in H as (bg & Hbg & H).
  apply bind_Ok_inv in H as (reg & Hreg & H).
  injection H as <-. exists reg. auto.
Qed.

(** The two dictionaries of a renderer, from the declarations of its spec. *)
Lemma renderer_registries (spec : AnimationSpec) (width height : Z)
    (r : AnimationRenderer.t) :
  AnimationRenderer.init spec width height = Ok r ->
  (forall id, AnimationRenderer.object_moves r !! id = last (declarations spec id))
  /\ (forall id,
        AnimationRenderer.object_positions r !! id = declared_position (objects spec) id).
Proof.
  intros Hinit. apply init_Ok in Hinit as (reg & Hreg & _ & _ & ->).
  cbn [AnimationRenderer.object_moves AnimationRenderer.object_positions].
  pose proof (prepare_movements_spec _ _ Hreg) as Hspec.
  split; intros id; apply Hspec.
Qed.

(** C3. The renderer keeps at most one motion descriptor per object id,
    that of the last declaration processed (inline moves in object order,
    then standalone moves in command order), whatever came before it; and
    the descriptor of a standalone MOVE starts at the declared position of
    its target, the AT coordinates of the object carrying that id, not at the
    end of an earlier move. *)
Theorem one_descriptor_per_object :
  forall spec width height r,
    AnimationRenderer.init spec width height = Ok r ->
    (forall id,
        AnimationRenderer.object_moves r !! id = last (declarations spec id))
    /\ (forall id,
          AnimationRenderer.object_positions r !! id = declared_position (objects spec) id)
    /\ (forall ms1 m ms2 p,
          moves spec = ms1 ++ m :: ms2 ->
          declared_position (objects spec) (MoveCommand.obj_id m) = Some p ->
          Forall (fun m' => MoveCommand.obj_id m' <> MoveCommand.obj_id m) ms2 ->
          exists d,
            AnimationRenderer.object_moves r !! MoveCommand.obj_id m = Some d
            /\ Descriptor.from d = p
            /\ Descriptor.to d = (MoveCommand.to_x m, MoveCommand.to_y m)
            /\ Descriptor.ease d = MoveCommand.ease m).
Proof.
  intros spec width height r Hinit.
  apply init_Ok in Hinit as (reg & Hreg & _ & _ & ->).
  cbn [AnimationRenderer.object_moves AnimationRenderer.object_positions].
  pose proof (prepare_movements_spec _ _ Hreg) as Hspec.
  split; [intros id; apply Hspec|]. split; [intros id; apply Hspec|].
  intros ms1 m ms2 p Hmoves Hpos Hlater.
  rewrite (proj2 (Hspec _)). unfold declarations. rewrite Hmoves.
  assert (Hnil : filter (fun m0 => MoveCommand.obj_id m0 = MoveCommand.obj_id m) ms2 = []).
  { clear -Hlater. induction Hlater as [|m' ms2 Hne _ IH]; [reflexivity|].
    now rewrite filter_cons_False. }
  rewrite filter_app, filter_cons_True, Hnil by reflexivity.
  rewrite omap_app. cbn [omap list_omap]. unfold standalone_declaration at 2.
  rewrite Hpos. rewrite app_assoc, last_snoc. eexists. split; [reflexivity|]. auto.
Qed.

Lemma one_descriptor_per_object_witness :
  exists r,
    AnimationRenderer.init chained_spec 640 360 = Ok r
    /\ AnimationRenderer.object_moves r !! "ball" = last (declarations chained_spec "ball")
    /\ exists d,
         AnimationRenderer.object_moves r !! "ball" = Some d
         /\ Descriptor.from d = (10, 20)
         /\ Descriptor.to d = (300, 300)
         /\ Descriptor.ease d = "ease-in".
Proof.
  assert (Hinit : exists r, AnimationRenderer.init chained_spec 640 360 = Ok r)
    by (eexists; vm_compute; reflexivity).
  destruct Hinit as [r Hinit]. exists r. split; [exact Hinit|].
  destruct (one_descriptor_per_object chained_spec 640 360 r Hinit) as (Hlast & _ & Hmove).
  split; [apply Hlast|].
  apply (Hmove [MoveCommand.mk "ball" 200 200 (PyFloat.of_int 2) "linear"]
               (MoveCommand.mk "ball" 300 300 (PyFloat.of_int 1) "ease-in") [] (10, 20)).
  - vm_compute. reflexivity.
  - vm_compute. reflexivity.
  - constructor.
Defined.

(** ** Facts about binary64 arithmetic *)

Lemma binary_round_aux_nonneg (m e : Z) (l : location) :
  nonneg (binary_round_aux PyFloat.prec PyFloat.emax false m e l) = true.
Proof.
  unfold binary_round_aux.
  destruct (shr_fexp _ _ _ _ _) as [mrs' e'].
  destruct (shr_fexp _ _ _ _ _) as [mrs'' e''].
  destruct (shr_m mrs''); [reflexivity | | reflexivity].
  destruct (_ <=? _); reflexivity.
Qed.

Lemma of_int_nonneg (z : Z) : 0 <= z -> nonneg (PyFloat.of_int z) = true.
Proof.
  destruct z as [|p|p]; [reflexivity | | lia]. intros _.
  unfold PyFloat.of_int, binary_normalize, binary_round.
  destruct (shl_align _ _ _). apply binary_round_aux_nonneg.
Qed.

Lemma mul_nonneg (x y : spec_float) :
  nonneg x = true -> nonneg y = true -> nonneg (PyFloat.mul x y) = true.
Proof.
  destruct x as [sx|sx| |sx mx ex], y as [sy|sy| |sy my ey]; cbn [nonneg];
    intros Hx Hy; try reflexivity;
    try (apply negb_true_iff in Hx; subst sx);
    try (apply negb_true_iff in Hy; subst sy);
    try reflexivity.
  apply binary_round_aux_nonneg.
Qed.

Lemma ltb_zero_nonneg (x : spec_float) :
  PyFloat.ltb PyFloat.zero x = true -> nonneg x = true.
Proof. destruct x as [s|[]| |[] m e]; cbn; congruence. Qed.

Lemma to_int_nonneg (x : spec_float) (n : Z) :
  nonneg x = true -> PyFloat.to_int x = Ok n -> 0 <= n.
Proof.
  destruct x as [s|s| |s m e]; cbn [PyFloat.to_int nonneg]; try discriminate.
  - intros _ [= <-]. lia.
  - intros Hs [= <-]. apply negb_true_iff in Hs. subst s. cbn [cond_Zopp].
    unfold PyFloat.trunc_mag. destruct e.
    + apply Z.shiftl_nonneg. lia.
    + apply Z.shiftl_nonneg. lia.
    + apply Z.shiftr_nonneg. lia.
Qed.

(** [int(duration * fps)] is not negative for a duration above zero. *)
Lemma frames_of_nonneg (duration : spec_float) (fps n : Z) :
  PyFloat.ltb PyFloat.zero duration = true -> 0 <= fps ->
  frames_of duration fps = Ok n -> 0 <= n.
Proof.
  intros Hd Hfps. apply to_int_nonneg, mul_nonneg.
  - now apply ltb_zero_nonneg.
  - now apply of_int_nonneg.
Qed.

(** A test that holds on every integer of a range, by enumeration. *)
Lemma range_forallb (P : Z -> bool) (lo n : Z) :
  forallb P (seqZ lo n) = true -> forall z, lo <= z < lo + n -> P z = true.
Proof.
  intros H z Hz. rewrite forallb_forall in H. apply H.
  apply list_elem_of_In, elem_of_seqZ. lia.
Qed.

Lemma mul_zero_range (d : Z) : -1280 <= d <= 1280 -> mul_zero_ok d = true.
Proof.
  intros Hd. apply (range_forallb mul_zero_ok (-1280) 2561); [|lia].
  vm_compute. reflexivity.
Qed.

Lemma add_zero_range (a : Z) : 0 <= a <= 1280 -> add_zero_ok a = true.
Proof.
  intros Ha. apply (range_forallb add_zero_ok 0 1281); [|lia].
  vm_compute. reflexivity.
Qed.

(** At progress zero the interpolation of a canvas coordinate is its start. *)
Lemma lerp_zero (a b : Z) :
  0 <= a <= 1280 -> 0 <= b <= 1280 ->
  AnimationRenderer.lerp a b PyFloat.zero = Ok a.
Proof.
  intros Ha Hb. unfold AnimationRenderer.lerp.
  pose proof (mul_zero_range (b - a) ltac:(lia)) as Hm. unfold mul_zero_ok in Hm.
  destruct (PyFloat.mul _ _) as [s| | |]; try discriminate.
  pose proof (add_zero_range a Ha) as Hadd. unfold add_zero_ok in Hadd.
  cbn [forallb] in Hadd. rewrite andb_true_r in Hadd.
  apply andb_true_iff in Hadd as [Hf Ht].
  destruct s; [revert Ht; clear Hf | revert Hf; clear Ht];
    (destruct (PyFloat.to_int _) as [n|]; [|discriminate]);
    intros H; apply Z.eqb_eq in H; now subst.
Qed.

(** ** The invariant of a parsed spec *)

Lemma clamp_coord_range (val max_val : Z) :
  0 <= max_val -> 0 <= clamp_coord val max_val <= max_val.
Proof. unfold clamp_coord. lia. Qed.

Lemma parse_coords_canvas (token : string) (p : Z * Z) :
  parse_coords token = Ok (Some p) -> in_canvas p.
Proof.
  unfold parse_coords.
  destruct (PyStr.split "," token) as [|a [|b [|c l]]]; try discriminate.
  intros H. apply bind_Ok_inv in H as (x & _ & H).
  apply bind_Ok_inv in H as (y & _ & H). injection H as <-.
  split; apply clamp_coord_range; unfold MAX_WIDTH, MAX_HEIGHT; lia.
Qed.

Ltac ok_step :=
  match goal with
  | H : (?r ≫= _) = Ok _ |- _ => apply bind_Ok_inv in H as (? & ? & H)
  | H : (if ?b then _ else _) = Ok _ |- _ => destruct b eqn:?
  | H : match ?l with [] => _ | _ :: _ => _ end = Ok _ |- _ => destruct l
  | H : Raise _ = Ok _ |- _ => discriminate H
  end.

(** The recursive call of a loop, with the invariant of the new record. *)
Ltac ok_rec IH :=
  match goal with
  | H : _ = Ok _ |- _ => eapply IH; [| |exact H]; [cbn [length] in *; lia|]
  end.

Ltac coords_case :=
  match goal with
  | H : parse_coords _ = Ok ?p |- _ =>
      destruct p as [[? ?]|]; [apply parse_coords_canvas in H|]
  end.

Lemma text_loop_canvas (line_num : nat) (tokens : list string) :
  forall cmd c,
    object_ok (Text cmd) -> text_loop line_num tokens cmd = Ok c -> object_ok (Text c).
Proof.
  remember (length tokens) as n eqn:Hn. assert (Hlen : (length tokens <= n)%nat) by lia.
  clear Hn. revert tokens Hlen.
  induction n as [|n IH]; intros tokens Hlen cmd c Hok H;
    (destruct tokens as [|tok rest]; [now injection H as <-|]);
    cbn [length] in Hlen; [lia|].
  cbn [text_loop] in H. destruct rest as [|v rest1]; [now injection H as <-|].
  cbv beta match in H.
  repeat ok_step; ok_rec IH; try assumption; try coords_case; try assumption;
    destruct Hok as [Hpos Hmove]; split; cbn in *; try assumption;
    try (intros ? [= <-]; assumption).
Qed.

Lemma shape_loop_canvas (line_num : nat) (tokens : list string) :
  forall cmd c,
    object_ok (Shape cmd) -> shape_loop line_num tokens cmd = Ok c -> object_ok (Shape c).
Proof.
  remember (length tokens) as n eqn:Hn. assert (Hlen : (length tokens <= n)%nat) by lia.
  clear Hn. revert tokens Hlen.
  induction n as [|n IH]; intros tokens Hlen cmd c Hok H;
    (destruct tokens as [|tok rest]; [now injection H as <-|]);
    cbn [length] in Hlen; [lia|].
  cbn [shape_loop] in H. destruct rest as [|v rest1]; [now injection H as <-|].
  cbv beta match in H.
  repeat ok_step; ok_rec IH; try assumption; try coords_case; try assumption;
    destruct Hok as [Hpos Hmove]; split; cbn in *; try assumption;
    try (intros ? [= <-]; assumption).
  all: match goal with |- context [if ?b then _ else _] => destruct b end; assumption.
Qed.

(** A clamped duration of a standalone move is above zero. *)
Lemma clamp_move_duration_positive (dur_val : spec_float) :
  PyFloat.ltb PyFloat.zero (clamp_move_duration dur_val) = true.
Proof.
  unfold clamp_move_duration, PyFloat.max.
  destruct (PyFloat.ltb (PyFloat.dec 1 1) _) eqn:H; [|reflexivity].
  revert H. generalize (PyFloat.min dur_val MAX_DURATION).
  intros x. destruct x as [s|[]| |[] m e]; vm_compute; congruence.
Qed.

Lemma move_loop_ok (tokens : list string) :
  forall cmd c, move_ok cmd -> move_loop tokens cmd = Ok c -> move_ok c.
Proof.
  remember (length tokens) as n eqn:Hn. assert (Hlen : (length tokens <= n)%nat) by lia.
  clear Hn. revert tokens Hlen.
  induction n as [|n IH]; intros tokens Hlen cmd c Hok H;
    (destruct tokens as [|tok rest]; [now injection H as <-|]);
    cbn [length] in Hlen; [lia|].
  cbn [move_loop] in H. destruct rest as [|v rest1]; [now injection H as <-|].
  cbv beta match in H.
  repeat ok_step; ok_rec IH; try assumption; try coords_case; try assumption;
    destruct Hok as [Hpos Hdur]; split; cbn in *; try assumption.
  apply clamp_move_duration_positive.
Qed.

Lemma parse_text_command_ok (tokens : list string) (line_num : nat) (c : TextCommand.t) :
  parse_text_command tokens line_num = Ok c -> object_ok (Text c).
Proof.
  destruct tokens as [|text rest]; [discriminate|]. cbn [parse_text_command].
  apply text_loop_canvas. split; [|discriminate].
  unfold in_canvas, MAX_WIDTH, MAX_HEIGHT. cbn. lia.
Qed.

Lemma parse_shape_command_ok (tokens : list string) (line_num : nat) (c : ShapeCommand.t) :
  parse_shape_command tokens line_num = Ok c -> object_ok (Shape c).
Proof.
  destruct tokens as [|tok rest]; [discriminate|]. cbn [parse_shape_command].
  destruct (negb _); [discriminate|].
  apply shape_loop_canvas. split; [|discriminate].
  unfold in_canvas, MAX_WIDTH, MAX_HEIGHT. cbn. lia.
Qed.

Lemma parse_move_command_ok (tokens : list string) (line_num : nat) (c : MoveCommand.t) :
  parse_move_command tokens line_num = Ok c -> move_ok c.
Proof.
  unfold parse_move_command. destruct (_ <? _)%nat; [discriminate|].
  destruct tokens as [|obj_id rest]; [discriminate|].
  apply move_loop_ok. split; [|reflexivity].
  unfold in_canvas, MAX_WIDTH, MAX_HEIGHT. cbn. lia.
Qed.

Lemma line_effect_well_formed (line_num : nat) (st st' : parse_state)
    (command : string) (args : list string) :
  well_formed (st_spec st) ->
  line_effect line_num st command args st' ->
  well_formed (st_spec st').
Proof.
  intros [Hfps Hobjs Hmoves] Heff.
  destruct Heff as [args color -> Hc | args v Hv Hr | args d Hd H1 H2
                   | args cmd Hn Hp | args cmd Hn Hp | args cmd Hp];
    constructor; cbn; try assumption.
  - apply Forall_app. split; [assumption|]. constructor; [|constructor].
    eapply parse_text_command_ok, Hp.
  - apply Forall_app. split; [assumption|]. constructor; [|constructor].
    eapply parse_shape_command_ok, Hp.
  - apply Forall_app. split; [assumption|]. constructor; [|constructor].
    eapply parse_move_command_ok, Hp.
Qed.

Lemma parse_lines_well_formed (lines : list string) :
  forall line_num st st',
    well_formed (st_spec st) ->
    parse_lines line_num lines st = Ok st' ->
    well_formed (st_spec st').
Proof.
  induction lines as [|line lines IH]; intros line_num st st' Hwf H.
  - now injection H as <-.
  - cbn [parse_lines] in H. apply bind_Ok_inv in H as (st1 & H1 & H).
    eapply IH; [|exact H]. apply parse_line_Ok in H1.
    destruct (command_of_line line) as [[command args]|]; [|now subst].
    destruct H1 as [_ Heff]. eapply line_effect_well_formed; eassumption.
Qed.

(** Every spec that [parse_dsl] returns is well formed. *)
Lemma parse_dsl_well_formed (dsl_script : string) (spec : AnimationSpec) :
  parse_dsl dsl_script = Ok spec -> well_formed spec.
Proof.
  unfold parse_dsl. intros H. apply bind_Ok_inv in H as (st & Hloop & H).
  unfold check_frames in H. apply bind_Ok_inv in H as (t & _ & H).
  destruct (MAX_FRAMES <? t); [discriminate|]. injection H as <-.
  eapply parse_lines_well_formed; [|exact Hloop].
  constructor; cbn; [unfold MAX_FPS; lia | constructor | constructor].
Qed.

(** ** Positions *)

Lemma ease_lookup (name : string) :
  default ease_linear (EASE_FUNCTIONS !! name) = easing_of name.
Proof.
  unfold EASE_FUNCTIONS, easing_of.
  destruct (String.eqb_spec name "ease-in") as [-> | Hin]; [reflexivity|].
  destruct (String.eqb_spec name "ease-out") as [-> | Hout]; [reflexivity|].
  destruct (decide (name = "linear")) as [-> | Hlin]; [reflexivity|].
  rewrite !lookup_insert_ne, lookup_empty by congruence. reflexivity.
Qed.

(** Every descriptor the renderer builds starts at frame 0. *)
Lemma descriptor_start_frame (spec : AnimationSpec) (width height : Z)
    (r : AnimationRenderer.t) (id : string) (m : Descriptor.t) :
  AnimationRenderer.init spec width height = Ok r ->
  AnimationRenderer.object_moves r !! id = Some m ->
  Descriptor.start_frame m = 0.
Proof.
  intros Hinit Hm.
  destruct (renderer_registries spec width height r Hinit) as [Hlast _].
  rewrite Hlast in Hm. apply last_Some_elem_of in Hm.
  unfold declarations in Hm. apply elem_of_app in Hm as [Hm | Hm];
    apply list_elem_of_omap in Hm as (x & _ & Hx).
  - unfold inline_declaration in Hx. destruct (move_to_of x); [|discriminate].
    destruct (PyFloat.ltb _ _); [|discriminate]. now injection Hx as <-.
  - unfold standalone_declaration in Hx. destruct (declared_position _ _); [|discriminate].
    now injection Hx as <-.
Qed.

Lemma get_position_moving (r : AnimationRenderer.t) (id : string) (m : Descriptor.t) (f : Z) :
  AnimationRenderer.object_moves r !! id = Some m ->
  Descriptor.start_frame m = 0 ->
  0 <= f < Descriptor.end_frame m ->
  AnimationRenderer._get_position r id f = stated_position PyFloat.to_int m f.
Proof.
  intros Hm Hstart Hf. unfold AnimationRenderer._get_position. rewrite Hm, Hstart.
  replace (f <? 0) with false by (symmetry; apply Z.ltb_ge; lia).
  replace (Descriptor.end_frame m <=? f) with false by (symmetry; apply Z.leb_gt; lia).
  rewrite ease_lookup.
  replace (f - 0) with f by lia.
  replace (Z.max 1 (Descriptor.end_frame m - 0)) with (Descriptor.end_frame m) by lia.
  reflexivity.
Qed.

Lemma get_position_done (r : AnimationRenderer.t) (id : string) (m : Descriptor.t) (f : Z) :
  AnimationRenderer.object_moves r !! id = Some m ->
  Descriptor.start_frame m = 0 ->
  0 <= f -> Descriptor.end_frame m <= f ->
  AnimationRenderer._get_position r id f = Ok (Descriptor.to m).
Proof.
  intros Hm Hstart H0 Hf. unfold AnimationRenderer._get_position. rewrite Hm, Hstart.
  replace (f <? 0) with false by (symmetry; apply Z.ltb_ge; lia).
  replace (Descriptor.end_frame m <=? f) with true by (symmetry; apply Z.leb_le; lia).
  reflexivity.
Qed.

(** C1, as stated, fails. With [round], frame 1 of the four-frame move from
    x = 0 to x = 3 would be at [round(0.75) = 1]; the renderer puts it at
    [int(0.75) = 0]. *)
Lemma interpolation_by_rounding_fails : ~ interpolation_law PyFloat.round.
Proof.
  intros Hlaw.
  specialize (Hlaw quarter_spec 640 360 (renderer_of quarter_spec) "a" quarter_move 1).
  assert (H : AnimationRenderer._get_position (renderer_of quarter_spec) "a" 1
              = stated_position PyFloat.round quarter_move 1).
  { apply Hlaw; [vm_compute; reflexivity | vm_compute; reflexivity | vm_compute; intuition discriminate]. }
  vm_compute in H. discriminate H.
Qed.

(** C1, amended. Before the end of its move an object is at
    [int(from + (to - from) * ease(f / end_frame))] on each axis, [int]
    truncating toward zero, with [ease] the function named by the
    descriptor; from frame [end_frame] on it is at [to]. *)
Theorem interpolation_by_truncation :
  interpolation_law PyFloat.to_int
  /\ (forall spec width height r id m f,
        AnimationRenderer.init spec width height = Ok r ->
        AnimationRenderer.object_moves r !! id = Some m ->
        0 <= f -> Descriptor.end_frame m <= f ->
        AnimationRenderer._get_position r id f = Ok (Descriptor.to m)).
Proof.
  split.
  - intros spec width height r id m f Hinit Hm Hf.
    apply get_position_moving; [assumption| |assumption].
    eapply descriptor_start_frame; eassumption.
  - intros spec width height r id m f Hinit Hm H0 Hf.
    apply get_position_done; try assumption.
    eapply descriptor_start_frame; eassumption.
Qed.

Lemma interpolation_by_truncation_witness :
  AnimationRenderer._get_position (renderer_of quarter_spec) "a" 1 = Ok (0, 0)
  /\ AnimationRenderer._get_position (renderer_of quarter_spec) "a" 3 = Ok (2, 0)
  /\ AnimationRenderer._get_position (renderer_of quarter_spec) "a" 4 = Ok (3, 0).
Proof.
  destruct interpolation_by_truncation as [Hlaw Hend].
  assert (Hinit : AnimationRenderer.init quarter_spec 640 360 = Ok (renderer_of quarter_spec))
    by (vm_compute; reflexivity).
  assert (Hm : AnimationRenderer.object_moves (renderer_of quarter_spec) !! "a"
               = Some quarter_move) by (vm_compute; reflexivity).
  split; [|split].
  - rewrite (Hlaw _ _ _ _ _ _ 1 Hinit Hm) by (cbn; lia). vm_compute. reflexivity.
  - rewrite (Hlaw _ _ _ _ _ _ 3 Hinit Hm) by (cbn; lia). vm_compute. reflexivity.
  - rewrite (Hend _ _ _ _ _ _ 4 Hinit Hm) by (cbn; lia). reflexivity.
Defined.

(** ** The boundary frames *)

Lemma declared_position_elem (objs : list scene_object) (id : string) (p : Z * Z) :
  declared_position objs id = Some p -> exists obj, obj ∈ objs /\ pos_of obj = p.
Proof.
  unfold declared_position. intros H. apply last_Some_elem_of in H.
  apply list_elem_of_fmap in H as (obj & -> & Hobj).
  apply list_elem_of_filter in Hobj as [_ Hobj]. eauto.
Qed.

Lemma end_frame_of_nonneg (duration : spec_float) (fps : Z) :
  PyFloat.ltb PyFloat.zero duration = true -> 0 <= fps -> 0 <= end_frame_of duration fps.
Proof.
  intros Hd Hfps. unfold end_frame_of.
  destruct (frames_of duration fps) as [n|] eqn:H; [|lia].
  eapply frames_of_nonneg; eassumption.
Qed.

(** The descriptors of a well-formed spec: they start at frame 0, end at a
    frame that is not negative, and run between two points of the canvas. *)
Lemma descriptor_ok (spec : AnimationSpec) (width height : Z)
    (r : AnimationRenderer.t) (id : string) (m : Descriptor.t) :
  well_formed spec ->
  AnimationRenderer.init spec width height = Ok r ->
  AnimationRenderer.object_moves r !! id = Some m ->
  0 <= Descriptor.end_frame m
  /\ in_canvas (Descriptor.from m) /\ in_canvas (Descriptor.to m).
Proof.
  intros [Hfps Hobjs Hmoves] Hinit Hm.
  destruct (renderer_registries spec width height r Hinit) as [Hlast _].
  rewrite Hlast in Hm. apply last_Some_elem_of in Hm.
  rewrite Forall_forall in Hobjs. rewrite Forall_forall in Hmoves.
  unfold declarations in Hm. apply elem_of_app in Hm as [Hm | Hm];
    apply list_elem_of_omap in Hm as (x & Hin & Hx);
    apply list_elem_of_filter in Hin as [_ Hin].
  - destruct (Hobjs x Hin) as [Hpos Hto].
    unfold inline_declaration in Hx. destruct (move_to_of x) as [target|]; [|discriminate].
    destruct (PyFloat.ltb _ _) eqn:Hd; [|discriminate]. injection Hx as <-.
    cbn. split; [apply end_frame_of_nonneg; [assumption | lia]|]. auto.
  - destruct (Hmoves x Hin) as [Hto Hd].
    unfold standalone_declaration in Hx.
    destruct (declared_position _ _) as [p|] eqn:Hp; [|discriminate]. injection Hx as <-.
    apply declared_position_elem in Hp as (obj & Hobj & <-).
    destruct (Hobjs obj Hobj) as [Hpos _].
    cbn. split; [apply end_frame_of_nonneg; [assumption | lia]|]. auto.
Qed.

Lemma int_truediv_zero (k : Z) : 0 < k -> PyFloat.int_truediv 0 k = PyFloat.zero.
Proof. destruct k; [lia | reflexivity | lia]. Qed.

Lemma easing_of_zero (name : string) : easing_of name PyFloat.zero = PyFloat.zero.
Proof.
  unfold easing_of. destruct (String.eqb name "ease-in"); [reflexivity|].
  destruct (String.eqb name "ease-out"); reflexivity.
Qed.

(** C2, as stated, fails. A move with [end_frame = 0] is over at frame 0: the
    object is at [to], not at [from]. *)
Lemma boundary_law_fails : ~ boundary_law.
Proof.
  intros Hlaw.
  destruct (Hlaw instant_script instant_spec 640 360 (renderer_of instant_spec) "a"
              instant_move) as [_ H].
  - vm_compute. reflexivity.
  - vm_compute. reflexivity.
  - vm_compute. reflexivity.
  - vm_compute in H. discriminate H.
Qed.

(** C2, amended. For every descriptor of a parsed spec the object is at
    [to] at frame [end_frame], the case [end_frame = 0] included; at frame 0
    it is at [from] when [end_frame] is above zero, and at [to] when
    [end_frame] is zero. This holds for the three easing kinds. *)
Theorem boundary_positions :
  forall dsl_script spec width height r id m,
    parse_dsl dsl_script = Ok spec ->
    AnimationRenderer.init spec width height = Ok r ->
    AnimationRenderer.object_moves r !! id = Some m ->
    AnimationRenderer._get_position r id (Descriptor.end_frame m) = Ok (Descriptor.to m)
    /\ (0 < Descriptor.end_frame m ->
        AnimationRenderer._get_position r id 0 = Ok (Descriptor.from m))
    /\ (Descriptor.end_frame m = 0 ->
        AnimationRenderer._get_position r id 0 = Ok (Descriptor.to m)).
Proof.
  intros dsl_script spec width height r id m Hparse Hinit Hm.
  apply parse_dsl_well_formed in Hparse.
  pose proof (descriptor_start_frame _ _ _ _ _ _ Hinit Hm) as Hstart.
  destruct (descriptor_ok _ _ _ _ _ _ Hparse Hinit Hm) as (Hend & Hfrom & Hto).
  split; [|split].
  - apply get_position_done; try assumption; lia.
  - intros Hpos. rewrite (get_position_moving r id m 0 Hm Hstart) by lia.
    unfold stated_position, stated_axis.
    rewrite int_truediv_zero, easing_of_zero by assumption.
    destruct Hfrom as [Hfx Hfy], Hto as [Htx Hty]. unfold MAX_WIDTH, MAX_HEIGHT in *.
    fold (AnimationRenderer.lerp (Descriptor.from m).1 (Descriptor.to m).1 PyFloat.zero).
    fold (AnimationRenderer.lerp (Descriptor.from m).2 (Descriptor.to m).2 PyFloat.zero).
    rewrite !lerp_zero by lia. rewrite !bind_Ok. now destruct (Descriptor.from m).
  - intros Hzero. rewrite <- Hzero at 1. apply get_position_done; try assumption; lia.
Qed.

Lemma boundary_positions_witness :
  AnimationRenderer._get_position (renderer_of quarter_spec) "a" 4 = Ok (3, 0)
  /\ AnimationRenderer._get_position (renderer_of quarter_spec) "a" 0 = Ok (0, 0)
  /\ AnimationRenderer._get_position (renderer_of instant_spec) "a" 0 = Ok (20, 20).
Proof.
  destruct (boundary_positions quarter_script quarter_spec 640 360 (renderer_of quarter_spec)
              "a" quarter_move) as (Hend & Hstart & _);
    [vm_compute; reflexivity..|].
  destruct (boundary_positions instant_script instant_spec 640 360 (renderer_of instant_spec)
              "a" instant_move) as (_ & _ & Hzero);
    [vm_compute; reflexivity..|].
  split; [exact Hend|]. split; [apply Hstart; cbn; lia | apply Hzero; reflexivity].
Defined.

(** ** The watermark *)

Lemma font_quotient_range (h : Z) : 0 <= h <= 720 -> font_quotient_ok h = true.
Proof.
  intros Hh. apply (range_forallb font_quotient_ok 0 721); [|lia].
  vm_compute. reflexivity.
Qed.

Lemma watermark_font_size_Ok (r : AnimationRenderer.t) :
  0 <= AnimationRenderer.height r <= MAX_HEIGHT ->
  AnimationRenderer.watermark_font_size r = Ok (Z.max 24 (AnimationRenderer.height r / 12)).
Proof.
  intros Hh. unfold AnimationRenderer.watermark_font_size.
  pose proof (font_quotient_range _ Hh) as Hq. unfold font_quotient_ok in Hq.
  destruct (PyFloat.to_int _) as [n|]; [|discriminate].
  apply Z.eqb_eq in Hq. now subst.
Qed.

Lemma draw_watermark_Ok (textbbox : Z -> string -> Z * Z * Z * Z) (r : AnimationRenderer.t) :
  0 <= AnimationRenderer.height r <= MAX_HEIGHT ->
  AnimationRenderer._draw_watermark textbbox r
  = Ok (DrawTextRGBA
          (watermark_xy textbbox r (Z.max 24 (AnimationRenderer.height r / 12)))
          "AnveshAI"
          (AnimationRenderer._get_contrasting_color (AnimationRenderer.bg_color r))
          (Z.max 24 (AnimationRenderer.height r / 12))).
Proof.
  intros Hh. unfold AnimationRenderer._draw_watermark, watermark_xy.
  rewrite watermark_font_size_Ok, bind_Ok by assumption.
  destruct (textbbox _ _) as [[[x0 y0] x1] y1]. reflexivity.
Qed.

(** The one background whose luminosity is exactly one half: in binary64 the
    sum comes out one unit in the last place above it, so the ink is dark. *)
Example luminosity_at_half :
  299 * 218 + 587 * 58 + 114 * 248 = 127500
  /\ AnimationRenderer._get_contrasting_color (218, 58, 248) = AnimationRenderer.dark_ink.
Proof. split; reflexivity. Qed.

(** The code computes the luminance of the specification and chooses the
    ink by it. *)
Lemma contrasting_color_spec (rgb : Z * Z * Z) :
  AnimationRenderer.luminosity rgb = spec_luminance rgb
  /\ AnimationRenderer._get_contrasting_color rgb = spec_ink rgb.
Proof.
  destruct rgb as [[r g] b].
  unfold AnimationRenderer._get_contrasting_color, spec_ink.
  split; reflexivity.
Qed.

(** C8. The ink of the watermark is chosen by the luminance of the
    background, [L = (0.299*r + 0.587*g + 0.114*b) / 255] computed in binary64
    from the RGB that [hex_to_rgb] reads from [spec.background]: dark
    (50,50,50,200) exactly when [L > 0.5], light (255,255,255,200) otherwise;
    [_get_contrasting_color] is that choice for every colour. On a canvas of
    non-negative height drawing the watermark never fails, its font size is
    [max(24, h / 12)] for the renderer's height [h] (the quotient as an
    integer), and every frame [render_frame] returns ends with it, whatever
    the objects and the frame number. *)
Theorem watermark_on_every_frame :
  forall (textbbox : Z -> string -> Z * Z * Z * Z) spec width height r,
    AnimationRenderer.init spec width height = Ok r ->
    0 <= height ->
    let h := Z.min height MAX_HEIGHT in
    let L := spec_luminance (AnimationRenderer.bg_color r) in
    let ink :=
      if PyFloat.ltb (PyFloat.dec 5 1) L then (50, 50, 50, 200) else (255, 255, 255, 200) in
    let mark :=
      DrawTextRGBA (watermark_xy textbbox r (Z.max 24 (h / 12))) "AnveshAI" ink
        (Z.max 24 (h / 12)) in
    hex_to_rgb (background spec) = Ok (AnimationRenderer.bg_color r)
    /\ (forall rgb, AnimationRenderer._get_contrasting_color rgb = spec_ink rgb)
    /\ AnimationRenderer._draw_watermark textbbox r = Ok mark
    /\ forall frame_num img,
         AnimationRenderer.render_frame textbbox r frame_num = Ok img ->
         exists ops, img_ops img = ops ++ [mark].
Proof.
  intros textbbox spec width height r Hinit Hheight h L ink mark.
  pose proof Hinit as Hr. apply init_Ok in Hr as (reg & _ & _ & Hbg & Hr).
  assert (Hh : AnimationRenderer.height r = h) by (rewrite Hr; reflexivity).
  assert (Hmark : AnimationRenderer._draw_watermark textbbox r = Ok mark).
  { rewrite draw_watermark_Ok by (rewrite Hh; unfold h, MAX_HEIGHT; lia).
    rewrite Hh. rewrite (proj2 (contrasting_color_spec _)). reflexivity. }
  split; [assumption|]. split; [intros rgb; apply contrasting_color_spec|].
  split; [assumption|].
  intros frame_num img H. unfold AnimationRenderer.render_frame in H.
  apply bind_Ok_inv in H as (new & Hnew & H).
  apply bind_Ok_inv in H as (ops & _ & H). rewrite Hmark, bind_Ok in H.
  injection H as <-. exists (img_ops new ++ ops). cbn [img_ops]. now rewrite app_assoc.
Qed.

Lemma watermark_on_every_frame_witness :
  (AnimationRenderer._draw_watermark demo_bbox (renderer_of quarter_spec)
   = Ok (DrawTextRGBA (385, 315) "AnveshAI" (255, 255, 255, 200) 30)
   /\ exists img ops,
        AnimationRenderer.render_frame demo_bbox (renderer_of quarter_spec) 1 = Ok img
        /\ img_ops img
           = ops ++ [DrawTextRGBA (385, 315) "AnveshAI" (255, 255, 255, 200) 30])
  /\ AnimationRenderer._draw_watermark demo_bbox (renderer_of white_spec)
     = Ok (DrawTextRGBA (385, 315) "AnveshAI" (50, 50, 50, 200) 30)
  /\ AnimationRenderer._draw_watermark demo_bbox (renderer_of half_spec)
     = Ok (DrawTextRGBA (385, 315) "AnveshAI" (50, 50, 50, 200) 30).
Proof.
  split; [|split].
  - destruct (watermark_on_every_frame demo_bbox quarter_spec 640 360 (renderer_of quarter_spec))
      as (_ & _ & Hmark & Hlast).
    + vm_compute. reflexivity.
    + lia.
    + assert (Hframe : exists img,
                 AnimationRenderer.render_frame demo_bbox (renderer_of quarter_spec) 1 = Ok img)
        by (eexists; vm_compute; reflexivity).
      destruct Hframe as [img Hframe]. destruct (Hlast 1 img Hframe) as [ops Hops].
      split; [rewrite Hmark; vm_compute; reflexivity|].
      exists img, ops. split; [exact Hframe|]. rewrite Hops. vm_compute. reflexivity.
  - destruct (watermark_on_every_frame demo_bbox white_spec 640 360 (renderer_of white_spec))
      as (_ & _ & Hmark & _); [vm_compute; reflexivity | lia |].
    rewrite Hmark. vm_compute. reflexivity.
  - destruct (watermark_on_every_frame demo_bbox half_spec 640 360 (renderer_of half_spec))
      as (_ & _ & Hmark & _); [vm_compute; reflexivity | lia |].
    rewrite Hmark. vm_compute. reflexivity.
Defined.

(** ** The loop over the frames *)

Lemma same_scene_with_frames (r : AnimationRenderer.t) (fs : list image) :
  same_scene (with_frames r fs) r.
Proof. repeat split. Qed.

Lemma for_each_ext {S A} (body body' : S -> A -> result S) (l : list A) (s : S) :
  (forall s a, body s a = body' s a) -> for_each body l s = for_each body' l s.
Proof.
  intros Hbody. revert s. induction l as [|a l IH]; intros s; [reflexivity|].
  cbn [for_each]. rewrite Hbody. destruct (body' s a); [apply IH | reflexivity].
Qed.

(** A frame depends on the scene only. *)
Lemma render_frame_same_scene (textbbox : Z -> string -> Z * Z * Z * Z)
    (r r' : AnimationRenderer.t) (frame_num : Z) :
  same_scene r r' ->
  AnimationRenderer.render_frame textbbox r frame_num
  = AnimationRenderer.render_frame textbbox r' frame_num.
Proof.
  intros (Hobjs & Hw & Hh & Hbg & Hpos & Hmoves).
  unfold AnimationRenderer.render_frame. rewrite Hobjs, Hw, Hh, Hbg.
  assert (Hget : forall id, AnimationRenderer._get_position r id frame_num
                            = AnimationRenderer._get_position r' id frame_num).
  { intros id. unfold AnimationRenderer._get_position. now rewrite Hpos, Hmoves. }
  assert (Hmark : AnimationRenderer._draw_watermark textbbox r
                  = AnimationRenderer._draw_watermark textbbox r').
  { unfold AnimationRenderer._draw_watermark, AnimationRenderer.watermark_font_size.
    now rewrite Hw, Hh, Hbg. }
  rewrite Hmark.
  rewrite (for_each_ext (AnimationRenderer.draw_object r frame_num)
             (AnimationRenderer.draw_object r' frame_num)); [reflexivity|].
  intros ops [cmd | cmd]; unfold AnimationRenderer.draw_object,
    AnimationRenderer._draw_text, AnimationRenderer._draw_shape; now rewrite Hget.
Qed.

Lemma map_result_ext {A B} (f g : A -> result B) (l : list A) :
  (forall a, f a = g a) -> map_result f l = map_result g l.
Proof.
  intros Hfg. induction l as [|a l IH]; [reflexivity|].
  cbn [map_result]. now rewrite Hfg, IH.
Qed.

Lemma map_result_lookup {A B} (f : A -> result B) (l : list A) (bs : list B) :
  map_result f l = Ok bs ->
  length bs = length l
  /\ forall i a, l !! i = Some a -> exists b, bs !! i = Some b /\ f a = Ok b.
Proof.
  revert bs. induction l as [|a l IH]; intros bs H.
  - injection H as <-. split; [reflexivity | intros i a H; discriminate H].
  - cbn [map_result] in H. apply bind_Ok_inv in H as (b & Hb & H).
    apply bind_Ok_inv in H as (bs' & Hbs & H). injection H as <-.
    destruct (IH _ Hbs) as [Hlen Hnth]. split; [cbn; lia|].
    intros [|i] a' Ha'; cbn in *; [injection Ha' as <-; eauto | eauto].
Qed.

(** The loop of [render_all_frames], started with any frames already there:
    each frame is rendered from the scene, none from an earlier frame. *)
Lemma render_loop (textbbox : Z -> string -> Z * Z * Z * Z) (r : AnimationRenderer.t)
    (l : list Z) :
  forall fs,
    for_each (fun self i =>
                frame ← AnimationRenderer.render_frame textbbox self i;
                Ok (AnimationRenderer.append_frame self frame)) l (with_frames r fs)
    = (imgs ← map_result (AnimationRenderer.render_frame textbbox r) l;
       Ok (with_frames r (fs ++ imgs))).
Proof.
  induction l as [|i l IH]; intros fs.
  - cbn [for_each map_result]. rewrite bind_Ok. now rewrite app_nil_r.
  - cbn [for_each map_result].
    rewrite (render_frame_same_scene textbbox (with_frames r fs) r)
      by apply same_scene_with_frames.
    destruct (AnimationRenderer.render_frame textbbox r i) as [img|e]; [|reflexivity].
    rewrite !bind_Ok.
    change (AnimationRenderer.append_frame (with_frames r fs) img)
      with (with_frames r (fs ++ [img])).
    rewrite IH. destruct (map_result _ l) as [imgs|e]; [|reflexivity].
    rewrite !bind_Ok. now rewrite <- app_assoc.
Qed.

Lemma render_all_frames_map (textbbox : Z -> string -> Z * Z * Z * Z)
    (r : AnimationRenderer.t) :
  AnimationRenderer.render_all_frames textbbox r
  = (imgs ← map_result (AnimationRenderer.render_frame textbbox r)
              (seqZ 0 (AnimationRenderer.total_frames r));
     Ok (with_frames r imgs)).
Proof.
  unfold AnimationRenderer.render_all_frames.
  change (AnimationRenderer.clear_frames r) with (with_frames r []).
  change (AnimationRenderer.total_frames (with_frames r [])) with (AnimationRenderer.total_frames r).
  apply render_loop.
Qed.

(** ** A MOVE whose target is not declared *)

Lemma parse_dsl_document (dsl_script : string) :
  parse_dsl dsl_script = parse_document (script_lines dsl_script).
Proof. reflexivity. Qed.

Lemma state_with_own_moves (st : parse_state) :
  state_with_moves st (moves (st_spec st)) = st.
Proof. now destruct st as [[] ?]. Qed.

(** A command only ever appends to the move list, and does the same
    whatever that list holds. *)
Lemma line_effect_moves (line_num : nat) (st st' : parse_state)
    (command : string) (args : list string) :
  line_effect line_num st command args st' ->
  exists ext,
    moves (st_spec st') = moves (st_spec st) ++ ext
    /\ forall ms,
         line_effect line_num (state_with_moves st ms) command args
           (state_with_moves st' (ms ++ ext)).
Proof.
  intros Heff.
  destruct Heff as [args color Hcol Hc | args v Hv Hr | args d Hd H1 H2
                   | args cmd Hn Hp | args cmd Hn Hp | args cmd Hp].
  - exists []. split; [cbn; now rewrite app_nil_r|]. intros ms. rewrite app_nil_r.
    now apply (eff_background line_num (state_with_moves st ms)).
  - exists []. split; [cbn; now rewrite app_nil_r|]. intros ms. rewrite app_nil_r.
    now apply (eff_fps line_num (state_with_moves st ms)).
  - exists []. split; [cbn; now rewrite app_nil_r|]. intros ms. rewrite app_nil_r.
    now apply (eff_duration line_num (state_with_moves st ms)).
  - exists []. split; [cbn; now rewrite app_nil_r|]. intros ms. rewrite app_nil_r.
    now apply (eff_text line_num (state_with_moves st ms)).
  - exists []. split; [cbn; now rewrite app_nil_r|]. intros ms. rewrite app_nil_r.
    now apply (eff_shape line_num (state_with_moves st ms)).
  - exists [cmd]. split; [reflexivity|]. intros ms.
    now apply (eff_move line_num (state_with_moves st ms)).
Qed.

Lemma parse_line_moves (line_num : nat) (line : string) (st st' : parse_state) :
  parse_line line_num line st = Ok st' ->
  exists ext,
    moves (st_spec st') = moves (st_spec st) ++ ext
    /\ forall ms,
         parse_line line_num line (state_with_moves st ms)
         = Ok (state_with_moves st' (ms ++ ext)).
Proof.
  intros H. apply parse_line_Ok in H.
  destruct (command_of_line line) as [[command args]|] eqn:Hcmd.
  - destruct H as [Hallowed Heff].
    apply line_effect_moves in Heff as (ext & Hext & Heff).
    exists ext. split; [assumption|]. intros ms.
    apply parse_line_Ok. rewrite Hcmd. auto.
  - subst st'. exists []. split; [now rewrite app_nil_r|]. intros ms.
    apply parse_line_Ok. rewrite Hcmd. now rewrite app_nil_r.
Qed.

Lemma parse_lines_moves (lines : list string) :
  forall line_num st st',
    parse_lines line_num lines st = Ok st' ->
    exists ext,
      moves (st_spec st') = moves (st_spec st) ++ ext
      /\ forall ms,
           parse_lines line_num lines (state_with_moves st ms)
           = Ok (state_with_moves st' (ms ++ ext)).
Proof.
  induction lines as [|line lines IH]; intros line_num st st' H.
  - injection H as <-. exists []. split; [now rewrite app_nil_r|].
    intros ms. now rewrite app_nil_r.
  - cbn [parse_lines] in H. apply bind_Ok_inv in H as (st1 & H1 & H).
    apply parse_line_moves in H1 as (ext1 & Hext1 & H1).
    apply IH in H as (ext2 & Hext2 & H).
    exists (ext1 ++ ext2). split; [rewrite Hext2, Hext1; now rewrite app_assoc|].
    intros ms. cbn [parse_lines]. rewrite H1, bind_Ok, H. now rewrite app_assoc.
Qed.

Lemma check_frames_moves (spec : AnimationSpec) (ms : list MoveCommand.t) :
  check_frames spec = Ok spec -> check_frames (spec_with_moves spec ms) = Ok (spec_with_moves spec ms).
Proof.
  unfold check_frames, total_frames_of. cbn [spec_with_moves fps duration].
  destruct (PyFloat.to_int _) as [t|]; [|discriminate]. rewrite !bind_Ok.
  destruct (MAX_FRAMES <? t); [discriminate | reflexivity].
Qed.

Lemma check_frames_Ok (spec spec' : AnimationSpec) :
  check_frames spec = Ok spec' -> spec' = spec.
Proof.
  unfold check_frames. intros H. apply bind_Ok_inv in H as (t & _ & H).
  destruct (MAX_FRAMES <? t); [discriminate | now injection H].
Qed.

(** Replacing a MOVE line by a comment line removes its command from the
    move list of the spec and changes nothing else. *)
Lemma comment_out_move (pre post : list string) (line : string) (args : list string)
    (cmd : MoveCommand.t) (spec : AnimationSpec) :
  command_of_line line = Some ("MOVE", args) ->
  parse_move_command args (S (length pre)) = Ok cmd ->
  parse_document (pre ++ line :: post) = Ok spec ->
  exists ms1 ms2,
    moves spec = ms1 ++ cmd :: ms2
    /\ parse_document (pre ++ "#" :: post) = Ok (spec_with_moves spec (ms1 ++ ms2)).
Proof.
  intros Hcmd Hmove Hdoc. unfold parse_document in *.
  apply bind_Ok_inv in Hdoc as (stf & Hloop & Hcheck).
  pose proof (check_frames_Ok _ _ Hcheck) as ->.
  rewrite parse_lines_app in Hloop.
  apply bind_Ok_inv in Hloop as (st1 & Hpre & Hloop).
  cbn [parse_lines] in Hloop. apply bind_Ok_inv in Hloop as (st2 & Hline & Hpost).
  replace (1 + length pre)%nat with (S (length pre)) in * by lia.
  apply parse_line_Ok in Hline. rewrite Hcmd in Hline. destruct Hline as [_ Heff].
  inversion Heff as [| | | | | args' cmd' Hp]; subst.
  rewrite Hmove in Hp. injection Hp as <-.
  apply parse_lines_moves in Hpost as (ext & Hext & Hpost).
  cbn [st_spec append_move moves] in Hext.
  exists (moves (st_spec st1)), ext.
  split; [now rewrite Hext, <- app_assoc|].
  rewrite parse_lines_app, Hpre, bind_Ok. cbn [parse_lines].
  replace (parse_line (1 + length pre) "#" st1) with (Ok st1) by reflexivity.
  rewrite bind_Ok.
  specialize (Hpost (moves (st_spec st1))).
  replace (state_with_moves _ (moves (st_spec st1))) with st1 in Hpost
    by now destruct st1 as [[] ?].
  replace (1 + length pre)%nat with (S (length pre)) by lia.
  rewrite Hpost, bind_Ok. cbn [state_with_moves st_spec].
  now apply check_frames_moves.
Qed.

Lemma for_each_app {S A} (body : S -> A -> result S) (l1 l2 : list A) (s : S) :
  for_each body (l1 ++ l2) s = for_each body l1 s ≫= for_each body l2.
Proof.
  revert s. induction l1 as [|a l1 IH]; intros s; cbn [app for_each].
  - now rewrite bind_Ok.
  - destruct (body s a) as [s1|e]; [|reflexivity]. rewrite !bind_Ok. apply IH.
Qed.

Lemma declared_position_None (objs : list scene_object) (id : string) :
  Forall (fun o => obj_id_of o <> id) objs -> declared_position objs id = None.
Proof.
  intros H. unfold declared_position.
  replace (filter (fun o => obj_id_of o = id) objs) with (@nil scene_object); [reflexivity|].
  symmetry. induction H as [|o objs Hne _ IH]; [reflexivity|].
  now rewrite filter_cons_False.
Qed.

(** A move on an id that no object carries leaves both dictionaries as
    they are. *)
Lemma prepare_movements_unknown_move (spec : AnimationSpec)
    (ms1 ms2 : list MoveCommand.t) (cmd : MoveCommand.t) :
  moves spec = ms1 ++ cmd :: ms2 ->
  Forall (fun o => obj_id_of o <> MoveCommand.obj_id cmd) (objects spec) ->
  _prepare_movements (spec_with_moves spec (ms1 ++ ms2)) (mkReg ∅ ∅)
  = _prepare_movements spec (mkReg ∅ ∅).
Proof.
  intros Hmoves Hunknown. unfold _prepare_movements.
  cbn [spec_with_moves fps objects moves]. rewrite Hmoves.
  destruct (for_each (prepare_object (fps spec)) (objects spec) _) as [reg1|] eqn:H1;
    [|reflexivity].
  rewrite !bind_Ok, !for_each_app.
  destruct (for_each (prepare_move (fps spec)) ms1 reg1) as [reg2|] eqn:H2; [|reflexivity].
  rewrite !bind_Ok. cbn [for_each].
  replace (prepare_move (fps spec) reg2 cmd) with (Ok reg2); [now rewrite bind_Ok|].
  unfold prepare_move.
  apply prepare_moves_spec in H2 as [-> _].
  rewrite (proj1 (prepare_objects_spec _ _ _ H1 _)).
  now rewrite declared_position_None.
Qed.

Lemma init_unknown_move (spec : AnimationSpec) (width height : Z)
    (ms1 ms2 : list MoveCommand.t) (cmd : MoveCommand.t) :
  moves spec = ms1 ++ cmd :: ms2 ->
  Forall (fun o => obj_id_of o <> MoveCommand.obj_id cmd) (objects spec) ->
  AnimationRenderer.init (spec_with_moves spec (ms1 ++ ms2)) width height
  = (r ← AnimationRenderer.init spec width height;
     Ok (with_spec r (spec_with_moves spec (ms1 ++ ms2)))).
Proof.
  intros Hmoves Hunknown. unfold AnimationRenderer.init.
  rewrite (prepare_movements_unknown_move spec ms1 ms2 cmd) by assumption.
  change (total_frames_of (spec_with_moves spec (ms1 ++ ms2))) with (total_frames_of spec).
  cbn [spec_with_moves background].
  destruct (total_frames_of spec); [|reflexivity]. rewrite !bind_Ok.
  destruct (hex_to_rgb (background spec)); [|reflexivity]. rewrite !bind_Ok.
  destruct (_prepare_movements spec _); reflexivity.
Qed.

Lemma frames_same_scene (textbbox : Z -> string -> Z * Z * Z * Z)
    (r r' : AnimationRenderer.t) :
  same_scene r r' ->
  AnimationRenderer.total_frames r = AnimationRenderer.total_frames r' ->
  (x ← AnimationRenderer.render_all_frames textbbox r; Ok (AnimationRenderer.frames x))
  = (x ← AnimationRenderer.render_all_frames textbbox r'; Ok (AnimationRenderer.frames x)).
Proof.
  intros Hscene Htotal. rewrite !render_all_frames_map, Htotal.
  rewrite (map_result_ext _ (AnimationRenderer.render_frame textbbox r'))
    by (intros i; now apply render_frame_same_scene).
  destruct (map_result _ _); reflexivity.
Qed.

(** C10, as stated, fails. Deleting the MOVE line renumbers the lines after
    it: the text, named [text_2] after its line, becomes [text_1], the move
    of [text_2] no longer finds it, and frame 1 shows the text at (0,0)
    instead of (50,50). *)
Lemma unknown_move_removed_fails : ~ unknown_move_is_inert [].
Proof.
  intros Hinert.
  specialize (Hinert demo_bbox [] "MOVE ghost TO 10,10 DUR 1" (tl renumbered_lines) 640 360
                ["ghost"; "TO"; "10,10"; "DUR"; "1"]
                (MoveCommand.mk "ghost" 10 10 (PyFloat.of_int 1) "linear")
                (spec_or_default (parse_document renumbered_lines))).
  assert (H : render_document demo_bbox renumbered_lines 640 360
              = render_document demo_bbox (tl renumbered_lines) 640 360).
  { apply Hinert; [vm_compute; reflexivity..|].
    vm_compute. repeat constructor. discriminate. }
  vm_compute in H. discriminate H.
Qed.

(** C10, amended. The parser accepts a well-formed MOVE line whatever the
    declared objects are and appends its command to the move list; when no
    object of the spec carries the target id the renderer holds no
    descriptor for that id, and the frames are those of the document with
    the MOVE line replaced by a comment line, which keeps the numbers of the
    other lines. *)
Theorem unknown_move_inert_in_place :
  (forall line_num st args cmd,
      parse_move_command args line_num = Ok cmd ->
      run_command "MOVE" args line_num st
      = Ok (mkState (append_move (st_spec st) cmd) (object_count st)))
  /\ (forall spec width height r id,
        AnimationRenderer.init spec width height = Ok r ->
        Forall (fun o => obj_id_of o <> id) (objects spec) ->
        AnimationRenderer.object_moves r !! id = None)
  /\ unknown_move_is_inert ["#"].
Proof.
  split; [|split].
  - intros line_num st args cmd Hp. apply run_command_effect; [reflexivity|].
    now apply eff_move.
  - intros spec width height r id Hinit Hunknown.
    destruct (renderer_registries spec width height r Hinit) as [Hlast _].
    rewrite Hlast. unfold declarations.
    replace (filter (fun o => obj_id_of o = id) (objects spec)) with (@nil scene_object).
    + cbn [omap list_omap app]. apply last_None.
      assert (Hall : Forall (fun m => MoveCommand.obj_id m = id)
                       (filter (fun m => MoveCommand.obj_id m = id) (moves spec)))
        by (apply Forall_forall; intros m Hm; now apply list_elem_of_filter in Hm).
      induction Hall as [|m l Hm _ IH]; [reflexivity|].
      cbn [omap list_omap]. unfold standalone_declaration at 1.
      rewrite Hm, declared_position_None by assumption. exact IH.
    + symmetry. clear Hlast. induction Hunknown as [|o objs Hne _ IH]; [reflexivity|].
      now rewrite filter_cons_False.
  - intros textbbox pre line post width height args cmd spec Hcmd Hmove Hdoc Hunknown.
    destruct (comment_out_move pre post line args cmd spec Hcmd Hmove Hdoc)
      as (ms1 & ms2 & Hmoves & Hdoc').
    unfold render_document. cbn [app]. rewrite Hdoc, Hdoc', !bind_Ok.
    rewrite (init_unknown_move spec width height ms1 ms2 cmd) by assumption.
    destruct (AnimationRenderer.init spec width height) as [r|] eqn:Hinit; [|reflexivity].
    rewrite !bind_Ok. symmetry.
    apply init_Ok in Hinit as (reg & _ & _ & _ & Hr).
    apply frames_same_scene; [|reflexivity].
    rewrite Hr. repeat split.
Qed.

Lemma unknown_move_inert_in_place_witness :
  run_command "MOVE" ["ghost"; "TO"; "10,10"; "DUR"; "1"] 1 initial_state
  = Ok (mkState (append_move default_spec
                   (MoveCommand.mk "ghost" 10 10 (PyFloat.of_int 1) "linear")) 0)
  /\ render_document demo_bbox renumbered_lines 640 360
     = render_document demo_bbox ("#" :: tl renumbered_lines) 640 360
  /\ AnimationRenderer.object_moves
       (renderer_of (spec_or_default (parse_document renumbered_lines))) !! "ghost" = None.
Proof.
  destruct unknown_move_inert_in_place as (Haccept & Hnone & Hinert).
  split; [apply (Haccept 1%nat initial_state); vm_compute; reflexivity|].
  split.
  - apply (Hinert demo_bbox [] "MOVE ghost TO 10,10 DUR 1" (tl renumbered_lines) 640 360
             ["ghost"; "TO"; "10,10"; "DUR"; "1"]
             (MoveCommand.mk "ghost" 10 10 (PyFloat.of_int 1) "linear")
             (spec_or_default (parse_document renumbered_lines)));
      [vm_compute; reflexivity..|].
    vm_compute. repeat constructor. discriminate.
  - apply (Hnone (spec_or_default (parse_document renumbered_lines)) 640 360).
    + vm_compute. reflexivity.
    + vm_compute. repeat constructor. discriminate.
Defined.

(** ** Binary64 magnitudes *)

Lemma digits2_pos_spec (p : positive) :
  2 ^ (Zpos (digits2_pos p) - 1) <= Zpos p < 2 ^ Zpos (digits2_pos p).
Proof.
  induction p as [p IH|p IH|]; cbn [digits2_pos]; [| |cbn; lia].
  all: rewrite Pos2Z.inj_succ, <- Z.add_1_r;
    replace (Z.pos (digits2_pos p) + 1 - 1) with (Z.succ (Z.pos (digits2_pos p) - 1)) by lia;
    rewrite Z.pow_succ_r by lia; rewrite Z.add_1_r, Z.pow_succ_r by lia; lia.
Qed.

Lemma Zdigits2_log2 (m : Z) : 0 < m -> Zdigits2 m = Z.log2 m + 1.
Proof.
  destruct m as [|p|p]; try lia. intros _. cbn [Zdigits2].
  pose proof (digits2_pos_spec p) as H.
  rewrite (Z.log2_unique (Zpos p) (Zpos (digits2_pos p) - 1)); [lia|lia|].
  replace (Z.succ (Z.pos (digits2_pos p) - 1)) with (Z.pos (digits2_pos p)) by lia. exact H.
Qed.

Lemma Zdigits2_nonneg (m : Z) : 0 <= Zdigits2 m.
Proof. destruct m; cbn; lia. Qed.

Lemma Zdigits2_abs (m : Z) : Zdigits2 (Z.abs m) = Zdigits2 m.
Proof. destruct m; reflexivity. Qed.

Lemma Zdigits2_mono (a b : Z) : 0 <= a <= b -> Zdigits2 a <= Zdigits2 b.
Proof.
  intros [Ha Hab]. destruct (Z.eq_dec a 0) as [->|Hne]; [apply Zdigits2_nonneg|].
  rewrite !Zdigits2_log2 by lia. pose proof (Z.log2_le_mono a b Hab). lia.
Qed.

Lemma Zdigits2_succ (m : Z) : 0 <= m -> Zdigits2 (m + 1) <= Zdigits2 m + 1.
Proof.
  intros Hm. destruct (Z.eq_dec m 0) as [->|Hne]; [vm_compute; discriminate|].
  rewrite !Zdigits2_log2 by lia. pose proof (Z.log2_succ_le m) as H. rewrite <- Z.add_1_r in H. lia.
Qed.

Lemma Zdigits2_mul (a b : Z) : 0 < a -> 0 < b -> Zdigits2 (a * b) <= Zdigits2 a + Zdigits2 b.
Proof.
  intros Ha Hb. rewrite !Zdigits2_log2 by lia.
  pose proof (Z.log2_mul_above a b ltac:(lia) ltac:(lia)). lia.
Qed.

Lemma Zdigits2_shiftl (m s : Z) : 0 < m -> 0 <= s -> Zdigits2 (Z.shiftl m s) = Zdigits2 m + s.
Proof.
  intros Hm Hs. rewrite Z.shiftl_mul_pow2 by lia.
  assert (0 < 2 ^ s) by (apply Z.pow_pos_nonneg; lia).
  rewrite !Zdigits2_log2 by lia. rewrite Z.log2_mul_pow2 by lia. lia.
Qed.

Lemma Zdigits2_add (a b : Z) :
  0 <= a -> 0 <= b -> Zdigits2 (a + b) <= Z.max (Zdigits2 a) (Zdigits2 b) + 1.
Proof.
  intros Ha Hb.
  assert (H : forall c, 0 <= c -> Zdigits2 (2 * c) <= Zdigits2 c + 1).
  { intros c Hc. destruct (Z.eq_dec c 0) as [->|Hne]; [vm_compute; discriminate|].
    rewrite !Zdigits2_log2 by lia. rewrite Z.log2_double by lia. lia. }
  destruct (Z.le_ge_cases a b).
  - pose proof (Zdigits2_mono (a + b) (2 * b) ltac:(lia)). pose proof (H b Hb). lia.
  - pose proof (Zdigits2_mono (a + b) (2 * a) ltac:(lia)). pose proof (H a Ha). lia.
Qed.

Lemma Zdigits2_div2 (m : Z) : 0 <= m -> Zdigits2 (Z.div2 m) = Z.max 0 (Zdigits2 m - 1).
Proof. destruct m as [|[p|p|]|]; cbn; lia. Qed.

Lemma shr_1_m (mrs : shr_record) :
  0 <= shr_m mrs -> shr_m (shr_1 mrs) = Z.div2 (shr_m mrs).
Proof. destruct mrs as [m r s]. destruct m as [|[p|p|]|]; cbn; try reflexivity; lia. Qed.

Lemma iter_pos_shr_1 (n : positive) :
  forall mrs, 0 <= shr_m mrs ->
    0 <= shr_m (SpecFloat.iter_pos shr_1 n mrs)
    /\ Zdigits2 (shr_m (SpecFloat.iter_pos shr_1 n mrs)) = Z.max 0 (Zdigits2 (shr_m mrs) - Zpos n).
Proof.
  assert (Hone : forall mrs, 0 <= shr_m mrs ->
            0 <= shr_m (shr_1 mrs)
            /\ Zdigits2 (shr_m (shr_1 mrs)) = Z.max 0 (Zdigits2 (shr_m mrs) - 1)).
  { intros mrs H. rewrite shr_1_m by assumption. split; [|now apply Zdigits2_div2].
    apply Z.div2_nonneg. assumption. }
  induction n as [n IH|n IH|]; intros mrs H; cbn [SpecFloat.iter_pos].
  - destruct (Hone mrs H) as [H1 E1]. destruct (IH _ H1) as [H2 E2].
    destruct (IH _ H2) as [H3 E3]. split; [assumption|]. rewrite E3, E2, E1. lia.
  - destruct (IH _ H) as [H2 E2].
    destruct (IH _ H2) as [H3 E3]. split; [assumption|]. rewrite E3, E2. lia.
  - apply Hone. assumption.
Qed.

Lemma shr_fexp_spec (m e : Z) (l : location) (mrs : shr_record) (e' : Z) :
  0 <= m ->
  shr_fexp 53 1024 m e l = (mrs, e') ->
  0 <= shr_m mrs
  /\ e' = Z.max e (Z.max (Zdigits2 m + e - 53) (-1074))
  /\ Zdigits2 (shr_m mrs) = Z.max 0 (Zdigits2 m - (e' - e)).
Proof.
  intros Hm. unfold shr_fexp, shr.
  assert (Hrec : shr_m (shr_record_of_loc m l) = m) by (destruct l as [|[]]; reflexivity).
  change (fexp 53 1024 (Zdigits2 m + e)) with (Z.max (Zdigits2 m + e - 53) (-1074)).
  pose proof (Zdigits2_nonneg m) as Hd.
  destruct (Z.max (Zdigits2 m + e - 53) (-1074) - e) as [|n|n] eqn:Hn; intros [= <- <-].
  - rewrite Hrec. lia.
  - destruct (iter_pos_shr_1 n (shr_record_of_loc m l)) as [H1 H2]; [rewrite Hrec; lia|].
    rewrite Hrec in H2. rewrite H2. lia.
  - rewrite Hrec. lia.
Qed.

Lemma round_nearest_even_range (m : Z) (l : location) :
  m <= round_nearest_even m l <= m + 1.
Proof. destruct l as [|[]]; cbn; try lia. destruct (Z.even m); lia. Qed.

(** What comes out of rounding has at most 53 bits, and is finite and at
    most one binade above what went in. *)
Lemma binary_round_aux_below (s : bool) (m e : Z) (l : location) (B : Z) :
  0 <= m ->
  tame (binary_round_aux 53 1024 s m e l)
  /\ (e <= 971 -> Zdigits2 m + e <= B -> -1074 <= B <= 1022 ->
      below (B + 1) (binary_round_aux 53 1024 s m e l)).
Proof.
  intros Hm. unfold binary_round_aux.
  destruct (shr_fexp 53 1024 m e l) as [mrs' e'] eqn:H1.
  apply shr_fexp_spec in H1 as (Hm' & He' & Hd'); [|assumption].
  pose proof (round_nearest_even_range (shr_m mrs') (loc_of_shr_record mrs')) as Hr.
  set (m1 := round_nearest_even _ _) in *.
  destruct (shr_fexp 53 1024 m1 e' loc_Exact) as [mrs'' e''] eqn:H2.
  apply shr_fexp_spec in H2 as (Hm'' & He'' & Hd''); [|lia].
  pose proof (Zdigits2_nonneg m) as Hd.
  pose proof (Zdigits2_mono (shr_m mrs') m1 ltac:(lia)) as Hlo.
  pose proof (Zdigits2_succ (shr_m mrs') Hm') as Hsu.
  pose proof (Zdigits2_mono m1 (shr_m mrs' + 1) ltac:(lia)) as Hhi.
  destruct (shr_m mrs'') as [|p|p] eqn:Hp; [cbn; auto | | lia].
  cbn [Zdigits2] in Hd''.
  assert (Htame : Zpos (digits2_pos p) <= 53) by lia.
  split.
  - destruct (e'' <=? 1024 - 53); cbn; auto.
  - intros He HB HBr.
    destruct (Z.leb_spec e'' (1024 - 53)) as [Hfin|Hinf]; cbn [below]; lia.
Qed.

Lemma below_mono (B B' : Z) (x : spec_float) : B <= B' -> below B x -> below B' x.
Proof. destruct x; cbn; auto. lia. Qed.

Lemma digits2_iter_xO (m d : positive) :
  Zpos (digits2_pos (Pos.iter xO m d)) = Zpos (digits2_pos m) + Zpos d.
Proof.
  induction d as [|d IH] using Pos.peano_ind.
  - cbn. lia.
  - rewrite Pos.iter_succ. cbn [digits2_pos]. lia.
Qed.

Lemma shl_align_spec (mx : positive) (ex ex' : Z) (mz : positive) (ez : Z) :
  shl_align mx ex ex' = (mz, ez) ->
  Zpos (digits2_pos mz) + ez = Zpos (digits2_pos mx) + ex /\ ez = Z.min ex ex'.
Proof.
  unfold shl_align. destruct (ex' - ex) as [|d|d] eqn:Hd; intros [= <- <-].
  - lia.
  - lia.
  - rewrite digits2_iter_xO. lia.
Qed.

Lemma binary_round_below (s : bool) (mx : positive) (ex B : Z) :
  tame (binary_round 53 1024 s mx ex)
  /\ (ex <= 971 -> Zpos (digits2_pos mx) + ex <= B -> -1074 <= B <= 1022 ->
      below (B + 1) (binary_round 53 1024 s mx ex)).
Proof.
  unfold binary_round. destruct (shl_align _ _ _) as [mz ez] eqn:H.
  apply shl_align_spec in H as [Hd He].
  destruct (binary_round_aux_below s (Zpos mz) ez loc_Exact B) as [Ht Hb]; [lia|].
  split; [exact Ht|]. intros. apply Hb; cbn [Zdigits2]; lia.
Qed.

Lemma binary_normalize_below (m e B : Z) :
  tame (binary_normalize 53 1024 m e false)
  /\ (e <= 971 -> Zdigits2 m + e <= B -> -1074 <= B <= 1022 ->
      below (B + 1) (binary_normalize 53 1024 m e false)).
Proof.
  destruct m as [|p|p]; cbn [binary_normalize Zdigits2]; [cbn; auto | |];
    apply binary_round_below.
Qed.

Lemma Zdigits2_bound (z N : Z) : Z.abs z <= N -> Zdigits2 z <= Zdigits2 N.
Proof. intros H. rewrite <- Zdigits2_abs. apply Zdigits2_mono. lia. Qed.

Lemma of_int_tame (z : Z) : tame (PyFloat.of_int z).
Proof. apply (binary_normalize_below z 0 0). Qed.

Lemma of_int_below (z B : Z) :
  Zdigits2 z <= B -> B <= 1022 -> below (B + 1) (PyFloat.of_int z).
Proof.
  intros Hd HB. pose proof (Zdigits2_nonneg z).
  apply (binary_normalize_below z 0 B); lia.
Qed.

Lemma mul_below (A B : Z) (x y : spec_float) :
  below A x -> below B y -> -400 <= A <= 400 -> -400 <= B <= 400 ->
  below (A + B + 1) (PyFloat.mul x y).
Proof.
  destruct x as [sx|sx| |sx mx ex], y as [sy|sy| |sy my ey]; cbn [below];
    try contradiction; try (intros; exact I).
  intros Hx Hy HA HB. unfold PyFloat.mul, SFmul.
  pose proof (Pos2Z.is_pos (digits2_pos mx)). pose proof (Pos2Z.is_pos (digits2_pos my)).
  pose proof (Zdigits2_mul (Zpos mx) (Zpos my) ltac:(lia) ltac:(lia)) as Hd.
  cbn [Zdigits2] in Hd. change (Zpos mx * Zpos my) with (Zpos (mx * my)) in Hd.
  cbn [Zdigits2] in Hd.
  apply binary_round_aux_below; cbn [Zdigits2]; lia.
Qed.

Lemma add_below (A B : Z) (x y : spec_float) :
  below A x -> below B y -> -400 <= A <= 400 -> -400 <= B <= 400 ->
  below (Z.max A B + 2) (PyFloat.add x y).
Proof.
  destruct x as [sx|sx| |sx mx ex], y as [sy|sy| |sy my ey]; cbn [below];
    try contradiction; intros Hx Hy HA HB.
  - destruct sx, sy; exact I.
  - cbn. lia.
  - cbn. lia.
  - unfold PyFloat.add, SFadd.
    destruct (shl_align mx ex (Z.min ex ey)) as [mx' e1] eqn:H1.
    destruct (shl_align my ey (Z.min ex ey)) as [my' e2] eqn:H2.
    apply shl_align_spec in H1 as [Hd1 He1]. apply shl_align_spec in H2 as [Hd2 He2].
    cbn [fst].
    set (S := cond_Zopp sx (Zpos mx') + cond_Zopp sy (Zpos my')).
    assert (Habs : Z.abs S <= Zpos mx' + Zpos my')
      by (unfold S; destruct sx, sy; cbn [cond_Zopp]; lia).
    pose proof (Zdigits2_bound _ _ Habs) as Hd. clearbody S.
    pose proof (Zdigits2_add (Zpos mx') (Zpos my') ltac:(lia) ltac:(lia)) as Hs.
    cbn [Zdigits2] in Hs.
    replace (Z.max A B + 2) with (Z.max A B + 1 + 1) by lia.
    apply binary_normalize_below; change IntDef.Z.min with Z.min; lia.
Qed.

Lemma sub_below (A B : Z) (x y : spec_float) :
  below A x -> below B y -> -400 <= A <= 400 -> -400 <= B <= 400 ->
  below (Z.max A B + 2) (PyFloat.sub x y).
Proof.
  destruct x as [sx|sx| |sx mx ex], y as [sy|sy| |sy my ey]; cbn [below];
    try contradiction; intros Hx Hy HA HB.
  - destruct sx, sy; exact I.
  - cbn. lia.
  - cbn. lia.
  - unfold PyFloat.sub, SFsub.
    destruct (shl_align mx ex (Z.min ex ey)) as [mx' e1] eqn:H1.
    destruct (shl_align my ey (Z.min ex ey)) as [my' e2] eqn:H2.
    apply shl_align_spec in H1 as [Hd1 He1]. apply shl_align_spec in H2 as [Hd2 He2].
    cbn [fst].
    set (S := cond_Zopp sx (Zpos mx') - cond_Zopp sy (Zpos my')).
    assert (Habs : Z.abs S <= Zpos mx' + Zpos my')
      by (unfold S; destruct sx, sy; cbn [cond_Zopp]; lia).
    pose proof (Zdigits2_bound _ _ Habs) as Hd. clearbody S.
    pose proof (Zdigits2_add (Zpos mx') (Zpos my') ltac:(lia) ltac:(lia)) as Hs.
    cbn [Zdigits2] in Hs.
    replace (Z.max A B + 2) with (Z.max A B + 1 + 1) by lia.
    apply binary_normalize_below; change IntDef.Z.min with Z.min; lia.
Qed.

Lemma SFdiv_core_binary_spec (m1 e1 m2 e2 q e' : Z) (l : location) :
  0 < m1 -> 0 < m2 ->
  SFdiv_core_binary 53 1024 m1 e1 m2 e2 = (q, e', l) ->
  0 <= q /\ e' <= e1 - e2 /\ Zdigits2 q + e' <= Zdigits2 m1 + e1 - e2.
Proof.
  intros H1 H2. unfold SFdiv_core_binary.
  set (e0 := Z.min _ (e1 - e2)).
  assert (He0 : e0 <= e1 - e2) by (unfold e0; lia).
  set (m' := match e1 - e2 - e0 with Z0 => m1 | Zpos _ => Z.shiftl m1 (e1 - e2 - e0)
                                | Zneg _ => 0 end).
  assert (Hm' : 0 < m' /\ Zdigits2 m' = Zdigits2 m1 + (e1 - e2 - e0)).
  { unfold m'. destruct (e1 - e2 - e0) as [|s|s] eqn:Hs; [lia| |lia].
    split; [|apply Zdigits2_shiftl; lia].
    rewrite Z.shiftl_mul_pow2 by lia. apply Z.mul_pos_pos; [lia|].
    apply Z.pow_pos_nonneg; lia. }
  destruct Hm' as [Hpos Hdig].
  pose proof (Z.div_eucl_eq m' m2 ltac:(lia)) as Heq.
  pose proof (Z.mod_pos_bound m' m2 H2) as Hmod. unfold Z.modulo in Hmod.
  destruct (Z.div_eucl m' m2) as [q0 r0]. intros [= <- <- <-].
  assert (Hq : 0 <= q0 <= m') by nia.
  pose proof (Zdigits2_mono q0 m' Hq). lia.
Qed.

Lemma div_tame (x y : spec_float) : tame (PyFloat.div x y).
Proof.
  destruct x as [sx|sx| |sx mx ex], y as [sy|sy| |sy my ey]; try exact I.
  unfold PyFloat.div, SFdiv.
  destruct (SFdiv_core_binary _ _ _ _ _ _) as [[q e'] l] eqn:H.
  apply SFdiv_core_binary_spec in H as (Hq & _ & _); [|lia|lia].
  apply (binary_round_aux_below _ _ _ _ 0). exact Hq.
Qed.

(** [a / b] on integers is finite and below a power of two that the
    numerator fixes. *)
Lemma int_truediv_below (a b B : Z) :
  0 <= a -> 0 < b -> Zdigits2 a <= B -> B <= 1022 ->
  below (B + 1) (PyFloat.int_truediv a b).
Proof.
  intros Ha Hb Hd HB. destruct a as [|pa|pa]; [|clear Ha|lia].
  - destruct b; [lia|exact I|lia].
  - destruct b as [|pb|pb]; [lia| |lia].
    unfold PyFloat.int_truediv, PyFloat.div, PyFloat.raw, SFdiv.
    destruct (SFdiv_core_binary _ _ _ _ _ _) as [[q e'] l] eqn:H.
    apply SFdiv_core_binary_spec in H as (Hq & He & Hm); [|lia|lia].
    cbn [Zdigits2] in *. apply binary_round_aux_below; lia.
Qed.

Lemma to_int_total (B : Z) (x : spec_float) :
  below B x -> exists n, PyFloat.to_int x = Ok n.
Proof. destruct x; cbn; try contradiction; eauto. Qed.

Lemma trunc_mag_bound (m : positive) (e B : Z) :
  Zpos (digits2_pos m) + e <= B -> 0 <= B -> 0 <= PyFloat.trunc_mag m e < 2 ^ B.
Proof.
  intros Hd HB. pose proof (digits2_pos_spec m) as [_ Hm].
  set (d := Zpos (digits2_pos m)) in *. assert (0 < d) by (unfold d; lia).
  unfold PyFloat.trunc_mag. destruct e as [|k|k].
  - rewrite Z.shiftl_0_r. split; [lia|].
    eapply Z.lt_le_trans; [exact Hm|]. apply Z.pow_le_mono_r; lia.
  - rewrite Z.shiftl_mul_pow2 by lia.
    assert (0 < 2 ^ Zpos k) by (apply Z.pow_pos_nonneg; lia).
    split; [nia|].
    apply Z.lt_le_trans with (2 ^ d * 2 ^ Zpos k); [nia|].
    rewrite <- Z.pow_add_r by lia. apply Z.pow_le_mono_r; lia.
  - rewrite Z.shiftr_div_pow2 by lia.
    assert (Hk : 0 < 2 ^ Zpos k) by (apply Z.pow_pos_nonneg; lia).
    split; [apply Z.div_pos; lia|].
    assert (HB' : 0 < 2 ^ B) by (apply Z.pow_pos_nonneg; lia).
    apply Z.div_lt_upper_bound; [lia|].
    destruct (Z.le_gt_cases d (Zpos k)).
    + apply Z.lt_le_trans with (2 ^ Zpos k * 1); [|nia].
      rewrite Z.mul_1_r. eapply Z.lt_le_trans; [exact Hm|]. apply Z.pow_le_mono_r; lia.
    + rewrite <- Z.pow_add_r by lia.
      eapply Z.lt_le_trans; [exact Hm|]. apply Z.pow_le_mono_r; lia.
Qed.

Lemma to_int_bound (B : Z) (x : spec_float) (n : Z) :
  below B x -> 0 <= B -> PyFloat.to_int x = Ok n -> Z.abs n < 2 ^ B.
Proof.
  destruct x as [s|s| |s m e]; cbn [below PyFloat.to_int]; try contradiction.
  - intros _ HB [= <-]. cbn. apply Z.pow_pos_nonneg; lia.
  - intros Hd HB [= <-]. pose proof (trunc_mag_bound m e B Hd HB).
    destruct s; cbn [cond_Zopp]; lia.
Qed.

(** ** Comparisons *)

Lemma SFcompare_antisym (a b : spec_float) :
  SFcompare b a = CompOpp <$> SFcompare a b.
Proof.
  destruct a as [sa|sa| |sa ma ea], b as [sb|sb| |sb mb eb]; cbn;
    try reflexivity; try (destruct sa; reflexivity); try (destruct sb; reflexivity);
    try (destruct sa, sb; reflexivity).
  destruct sa, sb; try reflexivity; f_equal.
  - rewrite (Z.compare_antisym ea eb). destruct (ea ?= eb); cbn; try reflexivity.
    rewrite (Pos.compare_cont_antisym ma mb Eq). cbn. reflexivity.
  - rewrite (Z.compare_antisym ea eb). destruct (ea ?= eb); cbn; try reflexivity.
    rewrite (Pos.compare_cont_antisym ma mb Eq). cbn.
    now destruct (Pos.compare_cont Eq ma mb).
Qed.

Lemma SFcompare_None (a b : spec_float) :
  SFcompare a b = None -> a = S754_nan \/ b = S754_nan.
Proof.
  destruct a as [sa|sa| |sa ma ea], b as [sb|sb| |sb mb eb]; cbn; auto; try discriminate;
    destruct sa, sb; discriminate.
Qed.

Lemma ltb_leb (a b : spec_float) : PyFloat.ltb a b = true -> PyFloat.leb a b = true.
Proof.
  unfold PyFloat.ltb, PyFloat.leb, SFltb, SFleb.
  destruct (SFcompare a b) as [[]|]; congruence.
Qed.

(** Of two numbers that compare, one is at most the other. *)
Lemma not_ltb_leb (a b : spec_float) :
  PyFloat.ltb a b = false -> SFcompare a b <> None -> PyFloat.leb b a = true.
Proof.
  unfold PyFloat.ltb, PyFloat.leb, SFltb, SFleb. rewrite (SFcompare_antisym a b).
  destruct (SFcompare a b) as [[]|]; cbn; congruence.
Qed.

Lemma leb_positive (lo x : spec_float) :
  PyFloat.ltb PyFloat.zero lo = true -> nonneg lo = true ->
  PyFloat.leb lo x = true -> PyFloat.ltb PyFloat.zero x = true.
Proof.
  destruct lo as [s|[]| |[] m e], x as [s'|[]| |[] m' e']; cbn; congruence.
Qed.

(** A binary64 number above zero and at most 6 is below 8. *)
Lemma duration_below (d : spec_float) :
  tame d -> PyFloat.ltb PyFloat.zero d = true -> PyFloat.leb d MAX_DURATION = true ->
  below 3 d.
Proof.
  assert (Hsix : MAX_DURATION = S754_finite false 6755399441055744 (-50))
    by (vm_compute; reflexivity).
  rewrite Hsix. destruct d as [s|[]| |[] m e]; cbn [tame below]; try discriminate.
  intros Ht _. unfold PyFloat.leb, SFleb, SFcompare.
  destruct (Z.compare_spec e (-50)) as [->|Hlt|Hgt]; [lia | lia | discriminate].
Qed.

(** ** The clamps of the durations *)

Lemma clamp_duration_within (lo dur_val : spec_float) :
  PyFloat.ltb lo MAX_DURATION = true ->
  PyFloat.leb lo lo = true ->
  PyFloat.leb MAX_DURATION MAX_DURATION = true ->
  within lo MAX_DURATION (PyFloat.max lo (PyFloat.min dur_val MAX_DURATION)).
Proof.
  intros Hlo Hrefl Hmax. unfold PyFloat.max, PyFloat.min.
  destruct (PyFloat.ltb MAX_DURATION dur_val) eqn:Hd.
  - rewrite Hlo. split; [now apply ltb_leb | assumption].
  - destruct (PyFloat.ltb lo dur_val) eqn:Hl.
    + split; [now apply ltb_leb|]. apply not_ltb_leb; [assumption|].
      intros Hnone. apply SFcompare_None in Hnone as [Hnan | ->].
      * rewrite Hnan in Hmax. discriminate Hmax.
      * destruct lo; discriminate Hl.
    + split; [assumption | now apply ltb_leb].
Qed.

Lemma clamp_duration_tame (lo dur_val : spec_float) :
  tame lo -> tame dur_val ->
  tame (PyFloat.max lo (PyFloat.min dur_val MAX_DURATION)).
Proof.
  intros Hlo Hd. unfold PyFloat.max, PyFloat.min.
  destruct (PyFloat.ltb MAX_DURATION dur_val);
    destruct (PyFloat.ltb lo _); try assumption; apply of_int_tame.
Qed.

Lemma clamp_inline_duration_ok (dur_val : spec_float) :
  tame dur_val ->
  tame (clamp_inline_duration dur_val)
  /\ within PyFloat.zero MAX_DURATION (clamp_inline_duration dur_val).
Proof.
  intros Ht. split.
  - now apply clamp_duration_tame.
  - apply clamp_duration_within; vm_compute; reflexivity.
Qed.

Lemma clamp_move_duration_ok (dur_val : spec_float) :
  tame dur_val ->
  tame (clamp_move_duration dur_val)
  /\ within (PyFloat.dec 1 1) MAX_DURATION (clamp_move_duration dur_val).
Proof.
  intros Ht. split.
  - apply clamp_duration_tame; [apply div_tame | assumption].
  - apply clamp_duration_within; vm_compute; reflexivity.
Qed.

(** ** [float(s)] gives a binary64 number *)

Lemma SFopp_tame (x : spec_float) : tame x -> tame (SFopp x).
Proof. destruct x; cbn; auto. Qed.

Lemma decimal_value_tame (m e : Z) : tame (PyStr.decimal_value m e).
Proof.
  unfold PyStr.decimal_value. destruct (0 <=? e); [apply of_int_tame | apply div_tame].
Qed.

Lemma to_float_tame (s : string) (x : spec_float) : PyStr.to_float s = Some x -> tame x.
Proof.
  unfold PyStr.to_float.
  destruct (PyStr.split_sign _) as [neg body].
  destruct (_ || _); [intros [= <-]; exact I|].
  destruct (String.eqb _ "nan"); [intros [= <-]; exact I|].
  destruct (PyStr.scan_digits _ _ _ _ body) as [[i ni] r1].
  destruct (match r1 with EmptyString => _ | String _ _ => _ end) as [[m nf] r2].
  destruct (Nat.eqb _ _); [discriminate|].
  destruct (PyStr.scan_exponent r2) as [e|]; [|discriminate].
  cbn. intros [= <-]. destruct neg; [apply SFopp_tame|]; apply decimal_value_tame.
Qed.

Lemma float_argument_tame (v : string) (x : spec_float) :
  or_value_error (PyStr.to_float v) = Ok x -> tame x.
Proof.
  destruct (PyStr.to_float v) as [y|] eqn:H; [|discriminate].
  intros [= <-]. eapply to_float_tame, H.
Qed.

(** ** The fields of the commands *)

Ltac fields_step :=
  match goal with
  | |- _ /\ _ => split
  | H : negb (validate_color ?v) = false |- validate_color ?v = true =>
      apply negb_false_iff in H; exact H
  | H : or_value_error (PyStr.to_float _) = Ok ?x |- tame (clamp_inline_duration ?x) =>
      apply clamp_inline_duration_ok; eapply float_argument_tame; exact H
  | H : or_value_error (PyStr.to_float _) = Ok ?x |- within _ _ (clamp_inline_duration ?x) =>
      apply clamp_inline_duration_ok; eapply float_argument_tame; exact H
  | H : or_value_error (PyStr.to_float _) = Ok ?x |- tame (clamp_move_duration ?x) =>
      apply clamp_move_duration_ok; eapply float_argument_tame; exact H
  | H : or_value_error (PyStr.to_float _) = Ok ?x |- within _ _ (clamp_move_duration ?x) =>
      apply clamp_move_duration_ok; eapply float_argument_tame; exact H
  | |- _ <= _ => unfold MAX_WIDTH, MAX_HEIGHT in *; lia
  | |- _ => assumption
  end.

Lemma text_loop_fields (line_num : nat) (tokens : list string) :
  forall cmd c,
    text_fields cmd -> text_loop line_num tokens cmd = Ok c -> text_fields c.
Proof.
  remember (length tokens) as n eqn:Hn. assert (Hlen : (length tokens <= n)%nat) by lia.
  clear Hn. revert tokens Hlen.
  induction n as [|n IH]; intros tokens Hlen cmd c Hok H;
    (destruct tokens as [|tok rest]; [now injection H as <-|]);
    cbn [length] in Hlen; [lia|].
  cbn [text_loop] in H. destruct rest as [|v rest1]; [now injection H as <-|].
  cbv beta match in H.
  repeat ok_step; ok_rec IH; try assumption;
    try (match goal with |- text_fields (match ?p with Some _ => _ | None => _ end) =>
           destruct p as [[]|] end); try assumption;
    destruct Hok as (Hsize & Hcolor & Htame & Hdur); unfold text_fields; cbn;
    repeat fields_step.
Qed.

Lemma shape_loop_fields (line_num : nat) (tokens : list string) :
  forall cmd c,
    shape_fields cmd -> shape_loop line_num tokens cmd = Ok c -> shape_fields c.
Proof.
  remember (length tokens) as n eqn:Hn. assert (Hlen : (length tokens <= n)%nat) by lia.
  clear Hn. revert tokens Hlen.
  induction n as [|n IH]; intros tokens Hlen cmd c Hok H;
    (destruct tokens as [|tok rest]; [now injection H as <-|]);
    cbn [length] in Hlen; [lia|].
  cbn [shape_loop] in H. destruct rest as [|v rest1]; [now injection H as <-|].
  cbv beta match in H.
  repeat ok_step; ok_rec IH; try assumption;
    try (match goal with |- shape_fields (if ?b then _ else _) =>
           destruct b eqn:Hease end); try assumption;
    try (match goal with |- shape_fields (match ?p with Some _ => _ | None => _ end) =>
           destruct p as [[]|] end); try assumption;
    destruct Hok as (Htype & Hr & Hw & Hh & Hcolor & Hease' & Htame & Hdur);
    unfold shape_fields; cbn; repeat fields_step.
Qed.

Lemma move_loop_fields (tokens : list string) :
  forall cmd c, move_fields cmd -> move_loop tokens cmd = Ok c -> move_fields c.
Proof.
  remember (length tokens) as n eqn:Hn. assert (Hlen : (length tokens <= n)%nat) by lia.
  clear Hn. revert tokens Hlen.
  induction n as [|n IH]; intros tokens Hlen cmd c Hok H;
    (destruct tokens as [|tok rest]; [now injection H as <-|]);
    cbn [length] in Hlen; [lia|].
  cbn [move_loop] in H. destruct rest as [|v rest1]; [now injection H as <-|].
  cbv beta match in H.
  repeat ok_step; ok_rec IH; try assumption;
    try (match goal with |- move_fields (match ?p with Some _ => _ | None => _ end) =>
           destruct p as [[]|] end); try assumption;
    destruct Hok as (Hease & Htame & Hdur); unfold move_fields;
    cbn [MoveCommand.ease MoveCommand.duration]; repeat fields_step.
  destruct (str_in (PyStr.lower v) _) eqn:E; [exact E | reflexivity].
Qed.

Lemma parse_text_command_fields (tokens : list string) (line_num : nat) (c : TextCommand.t) :
  parse_text_command tokens line_num = Ok c -> text_fields c.
Proof.
  destruct tokens as [|text rest]; [discriminate|]. cbn [parse_text_command].
  apply text_loop_fields. unfold text_fields. cbn.
  repeat split; try lia; vm_compute; congruence.
Qed.

Lemma parse_shape_command_fields (tokens : list string) (line_num : nat)
    (c : ShapeCommand.t) :
  parse_shape_command tokens line_num = Ok c -> shape_fields c.
Proof.
  destruct tokens as [|tok rest]; [discriminate|]. cbn [parse_shape_command].
  destruct (str_in _ _) eqn:Htype; [|discriminate]. cbn [negb].
  apply shape_loop_fields. unfold shape_fields. cbn.
  repeat split; try assumption; try (unfold MAX_WIDTH, MAX_HEIGHT; lia);
    vm_compute; congruence.
Qed.

Lemma parse_move_command_fields (tokens : list string) (line_num : nat)
    (c : MoveCommand.t) :
  parse_move_command tokens line_num = Ok c -> move_fields c.
Proof.
  unfold parse_move_command. destruct (_ <? _)%nat; [discriminate|].
  destruct tokens as [|obj_id rest]; [discriminate|].
  apply move_loop_fields. unfold move_fields. cbn.
  repeat split; try apply of_int_tame; vm_compute; congruence.
Qed.

(** ** The state of the loop over the lines *)

Lemma duration_line_checked (d : spec_float) :
  tame d -> PyFloat.leb d PyFloat.zero = false -> PyFloat.ltb MAX_DURATION d = false ->
  duration_checked d.
Proof.
  intros Ht Hz Hm. split; [assumption|].
  destruct d as [s|s| |s m e]; [discriminate Hz | | now left | ]; right.
  - destruct s; [discriminate Hz | discriminate Hm].
  - split; [destruct s; [discriminate Hz | reflexivity]|].
    apply not_ltb_leb; [assumption|].
    intros Hnone. apply SFcompare_None in Hnone as [Hnan | Hnan]; discriminate Hnan.
Qed.

Lemma duration_argument_tame (args : list string) (d : spec_float) :
  duration_argument args = Some d -> tame d.
Proof.
  destruct args as [|v args]; cbn [duration_argument].
  - intros H. assert (d = PyFloat.of_int 3) as -> by congruence. apply of_int_tame.
  - apply to_float_tame.
Qed.

Lemma line_effect_checked (line_num : nat) (st st' : parse_state)
    (command : string) (args : list string) :
  checked st -> line_effect line_num st command args st' -> checked st'.
Proof.
  intros [Hbg Hdur Hcount Hcap Hobjs Hmoves] Heff.
  destruct Heff as [args color -> Hc | args v Hv Hr | args d Hd H1 H2
                   | args cmd Hn Hp | args cmd Hn Hp | args cmd Hp];
    constructor; cbn; try assumption.
  - apply duration_line_checked; [eapply duration_argument_tame, Hd | assumption..].
  - rewrite length_app. cbn. lia.
  - apply Forall_app. split; [assumption|]. constructor; [|constructor].
    eapply parse_text_command_fields, Hp.
  - rewrite length_app. cbn. lia.
  - apply Forall_app. split; [assumption|]. constructor; [|constructor].
    eapply parse_shape_command_fields, Hp.
  - apply Forall_app. split; [assumption|]. constructor; [|constructor].
    eapply parse_move_command_fields, Hp.
Qed.

Lemma parse_lines_checked (lines : list string) :
  forall line_num st st',
    checked st -> parse_lines line_num lines st = Ok st' -> checked st'.
Proof.
  induction lines as [|line lines IH]; intros line_num st st' Hck H.
  - now injection H as <-.
  - cbn [parse_lines] in H. apply bind_Ok_inv in H as (st1 & H1 & H).
    eapply IH; [|exact H]. apply parse_line_Ok in H1.
    destruct (command_of_line line) as [[command args]|]; [|now subst].
    destruct H1 as [_ Heff]. eapply line_effect_checked; eassumption.
Qed.

Lemma initial_state_checked : checked initial_state.
Proof.
  constructor.
  - vm_compute. reflexivity.
  - split; [apply of_int_tame|]. right. split; vm_compute; reflexivity.
  - reflexivity.
  - unfold MAX_OBJECTS. cbn. lia.
  - constructor.
  - constructor.
Qed.

Lemma parse_dsl_accepted (dsl_script : string) (spec : AnimationSpec) :
  parse_dsl dsl_script = Ok spec -> accepted spec.
Proof.
  intros H. pose proof (parse_dsl_well_formed _ _ H) as [Hfps Hpos Htargets].
  unfold parse_dsl in H. apply bind_Ok_inv in H as (st & Hloop & H).
  apply parse_lines_checked in Hloop as [Hbg [Htame Hdur] Hcount Hcap Hobjs Hmoves];
    [|apply initial_state_checked].
  unfold check_frames in H. apply bind_Ok_inv in H as (t & Ht & H).
  destruct (Z.ltb_spec MAX_FRAMES t) as [|Hle]; [discriminate|]. injection H as <-.
  assert (Hpositive : PyFloat.ltb PyFloat.zero (duration (st_spec st)) = true
                      /\ PyFloat.leb (duration (st_spec st)) MAX_DURATION = true).
  { destruct Hdur as [Hnan | Hd]; [|exact Hd].
    unfold total_frames_of in Ht. rewrite Hnan in Ht.
    destruct (PyFloat.of_int _); discriminate Ht. }
  constructor; try assumption.
  - split; [assumption | exact Hpositive].
  - exists t. split; [assumption|]. split; [|assumption].
    eapply to_int_nonneg; [|exact Ht]. apply mul_nonneg.
    + apply of_int_nonneg. lia.
    + apply ltb_zero_nonneg, Hpositive.
  - now rewrite Hcount.
Qed.

(** ** Colours as RGB *)

Lemma in_all_ascii (c : ascii) : In c all_ascii.
Proof.
  unfold all_ascii. rewrite <- (ascii_nat_embedding c). apply in_map, in_seq.
  pose proof (nat_ascii_bounded c). lia.
Qed.

Lemma hex_pair_all (c1 c2 : ascii) : hex_pair_ok c1 c2 = true.
Proof.
  assert (H : forallb (fun a => forallb (hex_pair_ok a) all_ascii) all_ascii = true)
    by (vm_compute; reflexivity).
  rewrite forallb_forall in H. specialize (H c1 (in_all_ascii c1)).
  rewrite forallb_forall in H. apply H, in_all_ascii.
Qed.

Lemma hex_pair_channel (c1 c2 : ascii) :
  is_hex c1 = true -> is_hex c2 = true ->
  exists n, PyStr.to_int16 (String c1 (String c2 EmptyString)) = Some n /\ is_channel n.
Proof.
  intros H1 H2. pose proof (hex_pair_all c1 c2) as H. unfold hex_pair_ok in H.
  rewrite H1, H2 in H. cbn [andb] in H.
  destruct (PyStr.to_int16 _) as [n|]; [|discriminate].
  exists n. split; [reflexivity|]. unfold is_channel. lia.
Qed.

Lemma is_hex_not_hash (c : ascii) : is_hex c = true -> Ascii.eqb c "#" = false.
Proof.
  intros H. destruct (Ascii.eqb_spec c "#") as [->|]; [discriminate H | reflexivity].
Qed.

(** On a colour that [validate_color] accepts, [hex_to_rgb] reads three
    pairs of hexadecimal digits. *)
Lemma hex_to_rgb_pairs (color : string) :
  validate_color color = true ->
  exists c1 c2 c3 c4 c5 c6,
    (is_hex c1 = true /\ is_hex c2 = true /\ is_hex c3 = true
     /\ is_hex c4 = true /\ is_hex c5 = true /\ is_hex c6 = true)
    /\ hex_to_rgb color
       = (r ← or_value_error (PyStr.to_int16 (String c1 (String c2 EmptyString)));
          g ← or_value_error (PyStr.to_int16 (String c3 (String c4 EmptyString)));
          b ← or_value_error (PyStr.to_int16 (String c5 (String c6 EmptyString)));
          Ok (r, g, b)).
Proof.
  intros H. apply validate_color_accepts in H as (t & Ht & Hs).
  apply exact_color_inv in Ht as (c1 & c2 & c3 & c4 & c5 & c6 & -> & Hh).
  rewrite <- !andb_assoc in Hh.
  repeat match type of Hh with (_ && _ = true) => apply andb_true_iff in Hh as [? Hh] end.
  exists c1, c2, c3, c4, c5, c6. split; [auto 10|].
  destruct Hs as [-> | ->]; rewrite ?append_cons, ?append_nil_l;
    unfold hex_to_rgb; cbn [PyStr.lstrip_by];
    change (Ascii.eqb "#" "#") with true; cbv beta match;
    rewrite (is_hex_not_hash c1) by assumption;
    unfold PyStr.slice; cbn [Nat.sub String.substring]; reflexivity.
Qed.

Lemma hex_to_rgb_total (color : string) :
  validate_color color = true -> exists rgb, hex_to_rgb color = Ok rgb.
Proof.
  intros H.
  apply hex_to_rgb_pairs in H as (c1 & c2 & c3 & c4 & c5 & c6 & Hhex & ->).
  destruct Hhex as (H1 & H2 & H3 & H4 & H5 & H6).
  destruct (hex_pair_channel c1 c2 H1 H2) as (r & -> & _).
  destruct (hex_pair_channel c3 c4 H3 H4) as (g & -> & _).
  destruct (hex_pair_channel c5 c6 H5 H6) as (b & -> & _).
  cbn [or_value_error]. rewrite !bind_Ok. eauto.
Qed.

(** X5. Every colour [validate_color] accepts converts: [hex_to_rgb] raises
    nothing on it, also when a newline follows the six digits, and each of
    the three channels is within 0..255. *)
Theorem valid_color_converts :
  forall color,
    validate_color color = true ->
    exists r g b,
      hex_to_rgb color = Ok (r, g, b) /\ is_channel r /\ is_channel g /\ is_channel b.
Proof.
  intros color H.
  apply hex_to_rgb_pairs in H as (c1 & c2 & c3 & c4 & c5 & c6 & Hhex & ->).
  destruct Hhex as (H1 & H2 & H3 & H4 & H5 & H6).
  destruct (hex_pair_channel c1 c2 H1 H2) as (r & -> & Hr).
  destruct (hex_pair_channel c3 c4 H3 H4) as (g & -> & Hg).
  destruct (hex_pair_channel c5 c6 H5 H6) as (b & -> & Hb).
  cbn [or_value_error]. rewrite !bind_Ok. exists r, g, b. auto.
Qed.

Lemma valid_color_converts_witness :
  hex_to_rgb "#1a1a2e" = Ok (26, 26, 46) /\ is_channel 26 /\ is_channel 46.
Proof.
  destruct (valid_color_converts "#1a1a2e") as (r & g & b & H & Hr & _ & Hb);
    [vm_compute; reflexivity|].
  vm_compute in H. injection H as <- <- <-. auto.
Defined.

(** ** No accepted spec fails in the renderer *)

Lemma for_each_total {S A} (P : A -> Prop) (body : S -> A -> result S) (l : list A) :
  (forall s a, P a -> exists s', body s a = Ok s') ->
  Forall P l -> forall s, exists s', for_each body l s = Ok s'.
Proof.
  intros Hbody Hl. induction Hl as [|a l Ha _ IH]; intros s; cbn [for_each]; [eauto|].
  destruct (Hbody s a Ha) as [s' ->]. rewrite bind_Ok. apply IH.
Qed.

Lemma fps_below (fps : Z) : 1 <= fps <= MAX_FPS -> below 6 (PyFloat.of_int fps).
Proof.
  unfold MAX_FPS. intros H. apply (of_int_below fps 5); [|lia].
  apply (Zdigits2_bound fps 24). lia.
Qed.

Lemma coordinate_below (z : Z) : -1280 <= z <= 1280 -> below 12 (PyFloat.of_int z).
Proof.
  intros H. apply (of_int_below z 11); [|lia]. apply (Zdigits2_bound z 1280). lia.
Qed.

(** [int(duration * fps)] for a duration in (0, 6] at an accepted rate. *)
Lemma frames_of_total (d : spec_float) (fps : Z) :
  tame d -> PyFloat.ltb PyFloat.zero d = true -> PyFloat.leb d MAX_DURATION = true ->
  1 <= fps <= MAX_FPS ->
  exists n, frames_of d fps = Ok n /\ 0 <= n < 1024.
Proof.
  intros Ht Hpos Hmax Hfps.
  pose proof (mul_below 3 6 d (PyFloat.of_int fps) (duration_below d Ht Hpos Hmax)
                (fps_below fps Hfps) ltac:(lia) ltac:(lia)) as Hb.
  destruct (to_int_total _ _ Hb) as [n Hn]. exists n. split; [exact Hn|].
  pose proof (to_int_bound _ _ _ Hb ltac:(lia) Hn) as Habs.
  assert (0 <= n) by (eapply frames_of_nonneg; [exact Hpos | | exact Hn]; lia).
  change (2 ^ (3 + 6 + 1)) with 1024 in Habs. lia.
Qed.

Lemma end_frame_of_bound (d : spec_float) (fps : Z) :
  tame d -> PyFloat.ltb PyFloat.zero d = true -> PyFloat.leb d MAX_DURATION = true ->
  1 <= fps <= MAX_FPS ->
  0 <= end_frame_of d fps < 1024.
Proof.
  intros Ht Hpos Hmax Hfps. unfold end_frame_of.
  destruct (frames_of_total d fps Ht Hpos Hmax Hfps) as (n & -> & Hn). exact Hn.
Qed.

Lemma object_duration_checked (obj : scene_object) :
  object_fields obj ->
  tame (move_duration_of obj) /\ PyFloat.leb (move_duration_of obj) MAX_DURATION = true.
Proof.
  destruct obj as [c|c]; cbn [object_fields move_duration_of].
  - intros (_ & _ & Ht & _ & Hle). auto.
  - intros (_ & _ & _ & _ & _ & _ & Ht & _ & Hle). auto.
Qed.

Lemma move_duration_checked (m : MoveCommand.t) :
  move_fields m ->
  tame (MoveCommand.duration m)
  /\ PyFloat.ltb PyFloat.zero (MoveCommand.duration m) = true
  /\ PyFloat.leb (MoveCommand.duration m) MAX_DURATION = true.
Proof.
  intros (_ & Ht & Hlo & Hhi). split; [assumption|]. split; [|assumption].
  eapply leb_positive; [| |exact Hlo]; vm_compute; reflexivity.
Qed.

Lemma prepare_object_total (fps : Z) (reg : registries) (obj : scene_object) :
  1 <= fps <= MAX_FPS -> object_fields obj ->
  exists reg', prepare_object fps reg obj = Ok reg'.
Proof.
  intros Hfps Hobj. apply object_duration_checked in Hobj as [Ht Hle]. unfold prepare_object.
  destruct (move_to_of obj) as [target|]; [|eauto].
  destruct (PyFloat.ltb _ _) eqn:Hpos; [|eauto].
  destruct (frames_of_total _ fps Ht Hpos Hle Hfps) as (n & -> & _).
  rewrite bind_Ok. eauto.
Qed.

Lemma prepare_move_total (fps : Z) (reg : registries) (m : MoveCommand.t) :
  1 <= fps <= MAX_FPS -> move_fields m ->
  exists reg', prepare_move fps reg m = Ok reg'.
Proof.
  intros Hfps Hm. apply move_duration_checked in Hm as (Ht & Hpos & Hle). unfold prepare_move.
  destruct (reg_positions reg !! _) as [p|]; [|eauto].
  destruct (frames_of_total _ fps Ht Hpos Hle Hfps) as (n & -> & _).
  rewrite bind_Ok. eauto.
Qed.

Lemma init_total (spec : AnimationSpec) (width height : Z) :
  accepted spec -> exists r, AnimationRenderer.init spec width height = Ok r.
Proof.
  intros [Hbg Hfps _ (t & Ht & _) _ _ Hobjs _ Hmoves]. unfold AnimationRenderer.init.
  rewrite Ht, bind_Ok.
  destruct (hex_to_rgb_total _ Hbg) as [[[r g] b] ->]. rewrite bind_Ok.
  unfold _prepare_movements.
  destruct (for_each_total object_fields (prepare_object (fps spec)) (objects spec)
              (fun s a => prepare_object_total (fps spec) s a Hfps) Hobjs (mkReg ∅ ∅))
    as [reg1 ->].
  rewrite bind_Ok.
  destruct (for_each_total move_fields (prepare_move (fps spec)) (moves spec)
              (fun s a => prepare_move_total (fps spec) s a Hfps) Hmoves reg1)
    as [reg ->].
  rewrite bind_Ok. eauto.
Qed.

(** The descriptors of an accepted spec end before frame 1024. *)
Lemma descriptor_bounded (spec : AnimationSpec) (width height : Z)
    (r : AnimationRenderer.t) (id : string) (m : Descriptor.t) :
  accepted spec ->
  AnimationRenderer.init spec width height = Ok r ->
  AnimationRenderer.object_moves r !! id = Some m ->
  Descriptor.end_frame m < 1024.
Proof.
  intros [_ Hfps _ _ _ _ Hobjs _ Hmoves] Hinit Hm.
  destruct (renderer_registries spec width height r Hinit) as [Hlast _].
  rewrite Hlast in Hm. apply last_Some_elem_of in Hm.
  rewrite Forall_forall in Hobjs. rewrite Forall_forall in Hmoves.
  unfold declarations in Hm. apply elem_of_app in Hm as [Hm | Hm];
    apply list_elem_of_omap in Hm as (x & Hin & Hx);
    apply list_elem_of_filter in Hin as [_ Hin].
  - destruct (object_duration_checked x (Hobjs x Hin)) as [Ht Hle].
    unfold inline_declaration in Hx. destruct (move_to_of x) as [target|]; [|discriminate].
    destruct (PyFloat.ltb _ _) eqn:Hd; [|discriminate]. injection Hx as <-.
    cbn. now apply end_frame_of_bound.
  - destruct (move_duration_checked x (Hmoves x Hin)) as (Ht & Hpos & Hle).
    unfold standalone_declaration in Hx.
    destruct (declared_position _ _) as [p|] eqn:Hp; [|discriminate]. injection Hx as <-.
    cbn. now apply end_frame_of_bound.
Qed.

Lemma easing_of_below (name : string) (t : spec_float) :
  below 12 t -> below 31 (easing_of name t).
Proof.
  intros Ht. unfold easing_of.
  assert (Hone : below 2 (PyFloat.of_int 1)) by (vm_compute; discriminate).
  destruct (String.eqb name "ease-in").
  - apply (below_mono 25); [lia|]. apply (mul_below 12 12); auto; lia.
  - destruct (String.eqb name "ease-out"); [|apply (below_mono 12); [lia | assumption]].
    pose proof (sub_below 2 12 _ _ Hone Ht ltac:(lia) ltac:(lia)) as Hs.
    change (Z.max 2 12 + 2) with 14 in Hs.
    pose proof (mul_below 14 14 _ _ Hs Hs ltac:(lia) ltac:(lia)) as Hm.
    apply (sub_below 2 29 _ _ Hone Hm); lia.
Qed.

Lemma lerp_total (a b : Z) (t : spec_float) :
  0 <= a <= 1280 -> 0 <= b <= 1280 -> below 31 t ->
  exists n, AnimationRenderer.lerp a b t = Ok n.
Proof.
  intros Ha Hb Ht. unfold AnimationRenderer.lerp.
  pose proof (mul_below 12 31 _ _ (coordinate_below (b - a) ltac:(lia)) Ht
                ltac:(lia) ltac:(lia)) as Hm.
  pose proof (add_below 12 44 _ _ (coordinate_below a ltac:(lia)) Hm
                ltac:(lia) ltac:(lia)) as Hs.
  eapply to_int_total, Hs.
Qed.

Lemma in_canvas_coordinates (p : Z * Z) :
  in_canvas p -> 0 <= p.1 <= 1280 /\ 0 <= p.2 <= 1280.
Proof. unfold in_canvas, MAX_WIDTH, MAX_HEIGHT. lia. Qed.

Lemma accepted_well_formed (spec : AnimationSpec) : accepted spec -> well_formed spec.
Proof. intros [_ Hfps _ _ _ Hpos _ Htargets _]. now constructor. Qed.

(** The position of any id at any frame number. *)
Lemma get_position_total (spec : AnimationSpec) (width height : Z)
    (r : AnimationRenderer.t) (id : string) (f : Z) :
  accepted spec ->
  AnimationRenderer.init spec width height = Ok r ->
  exists p, AnimationRenderer._get_position r id f = Ok p.
Proof.
  intros Hacc Hinit.
  destruct (AnimationRenderer.object_moves r !! id) as [m|] eqn:Hm;
    [|unfold AnimationRenderer._get_position; rewrite Hm; eauto].
  pose proof (descriptor_start_frame _ _ _ _ _ _ Hinit Hm) as Hstart.
  pose proof (descriptor_bounded _ _ _ _ _ _ Hacc Hinit Hm) as Hend.
  destruct (descriptor_ok _ _ _ _ _ _ (accepted_well_formed _ Hacc) Hinit Hm)
    as (_ & Hfrom & Hto).
  apply in_canvas_coordinates in Hfrom as [Hfx Hfy].
  apply in_canvas_coordinates in Hto as [Htx Hty].
  destruct (Z.lt_ge_cases f 0) as [Hneg | Hnonneg].
  { unfold AnimationRenderer._get_position. rewrite Hm, Hstart.
    replace (f <? 0) with true by (symmetry; apply Z.ltb_lt; lia). eauto. }
  destruct (Z.le_gt_cases (Descriptor.end_frame m) f) as [Hdone | Hmoving].
  { rewrite (get_position_done r id m f) by assumption. eauto. }
  rewrite (get_position_moving r id m f) by (try assumption; lia).
  unfold stated_position, stated_axis.
  assert (Hp : below 12 (PyFloat.int_truediv f (Descriptor.end_frame m))).
  { apply (int_truediv_below f _ 11); [lia | lia | | lia].
    apply (Zdigits2_bound f 1024). lia. }
  apply (easing_of_below (Descriptor.ease m)) in Hp.
  destruct (lerp_total _ _ _ Hfx Htx Hp) as [x Hx].
  destruct (lerp_total _ _ _ Hfy Hty Hp) as [y Hy].
  unfold AnimationRenderer.lerp in Hx, Hy. rewrite Hx, bind_Ok, Hy, bind_Ok. eauto.
Qed.

Lemma allowed_shape_cases (shape_type : string) :
  str_in shape_type ALLOWED_SHAPE_TYPES = true ->
  shape_type = "CIRCLE" \/ shape_type = "RECT".
Proof.
  unfold str_in, ALLOWED_SHAPE_TYPES. cbn [existsb].
  destruct (String.eqb_spec shape_type "CIRCLE"); [auto|].
  destruct (String.eqb_spec shape_type "RECT"); [auto | discriminate].
Qed.

(** Each object of an accepted spec is drawn by one call. *)
Lemma draw_object_total (spec : AnimationSpec) (width height : Z)
    (r : AnimationRenderer.t) (f : Z) (ops : list draw_op) (obj : scene_object) :
  accepted spec ->
  AnimationRenderer.init spec width height = Ok r ->
  object_fields obj ->
  exists op, AnimationRenderer.draw_object r f ops obj = Ok (ops ++ [op]).
Proof.
  intros Hacc Hinit Hobj.
  destruct obj as [c|c]; cbn [object_fields AnimationRenderer.draw_object] in *.
  - destruct Hobj as (_ & Hcolor & _).
    unfold AnimationRenderer._draw_text.
    destruct (get_position_total _ _ _ _ (TextCommand.obj_id c) f Hacc Hinit) as [p ->].
    rewrite bind_Ok.
    destruct (hex_to_rgb_total _ Hcolor) as [rgb ->].
    rewrite !bind_Ok. eauto.
  - destruct Hobj as (Htype & _ & _ & _ & Hcolor & _).
    unfold AnimationRenderer._draw_shape.
    destruct (get_position_total _ _ _ _ (ShapeCommand.obj_id c) f Hacc Hinit) as [[x y] ->].
    rewrite bind_Ok.
    destruct (hex_to_rgb_total _ Hcolor) as [rgb ->].
    rewrite bind_Ok.
    destruct (allowed_shape_cases _ Htype) as [-> | ->];
      repeat match goal with
             | |- context [String.eqb ?a ?b] =>
                 let v := eval vm_compute in (String.eqb a b) in
                 change (String.eqb a b) with v
             end;
      cbv iota; rewrite bind_Ok; eauto.
Qed.

Lemma draw_objects_total (spec : AnimationSpec) (width height : Z)
    (r : AnimationRenderer.t) (f : Z) (objs : list scene_object) :
  accepted spec ->
  AnimationRenderer.init spec width height = Ok r ->
  Forall object_fields objs ->
  forall ops,
    exists new,
      for_each (AnimationRenderer.draw_object r f) objs ops = Ok (ops ++ new)
      /\ length new = length objs.
Proof.
  intros Hacc Hinit Hobjs.
  induction Hobjs as [|obj objs Hobj _ IH]; intros ops; cbn [for_each].
  - exists []. now rewrite app_nil_r.
  - destruct (draw_object_total _ _ _ _ f ops obj Hacc Hinit Hobj) as [op ->].
    rewrite bind_Ok. destruct (IH (ops ++ [op])) as (new & -> & Hlen).
    exists (op :: new). rewrite <- app_assoc. split; [reflexivity | cbn; lia].
Qed.

Lemma map_result_total {A B} (f : A -> result B) (l : list A) :
  (forall a, exists b, f a = Ok b) ->
  exists bs, map_result f l = Ok bs /\ length bs = length l.
Proof.
  intros Hf. induction l as [|a l (bs & IH & Hlen)]; cbn [map_result]; [eauto|].
  destruct (Hf a) as [b ->]. rewrite bind_Ok, IH, bind_Ok.
  exists (b :: bs). split; [reflexivity | cbn; lia].
Qed.

(** ** Rendering what the parser accepts *)

Lemma Image_new_Ok (width height : Z) (color : Z * Z * Z) :
  0 <= width -> 0 <= height ->
  Image_new (width, height) color = Ok (mkImage (width, height) color []).
Proof.
  intros Hw Hh. unfold Image_new. cbn [fst snd].
  destruct (Z.ltb_spec width 0); [lia|]. destruct (Z.ltb_spec height 0); [lia|]. reflexivity.
Qed.

Lemma render_frame_accepted (textbbox : Z -> string -> Z * Z * Z * Z)
    (spec : AnimationSpec) (width height : Z) (r : AnimationRenderer.t) (f : Z) :
  accepted spec ->
  AnimationRenderer.init spec width height = Ok r ->
  0 <= width -> 0 <= height ->
  exists ops mark,
    AnimationRenderer.render_frame textbbox r f
    = Ok (mkImage (Z.min width MAX_WIDTH, Z.min height MAX_HEIGHT)
            (AnimationRenderer.bg_color r) (ops ++ [mark]))
    /\ length ops = length (objects spec)
    /\ AnimationRenderer._draw_watermark textbbox r = Ok mark.
Proof.
  intros Hacc Hinit Hwidth Hheight. pose proof Hinit as Hr.
  apply init_Ok in Hr as (reg & _ & _ & _ & Hr).
  assert (Hspec : AnimationRenderer.spec r = spec) by (rewrite Hr; reflexivity).
  assert (Hw : AnimationRenderer.width r = Z.min width MAX_WIDTH) by (rewrite Hr; reflexivity).
  assert (Hh : AnimationRenderer.height r = Z.min height MAX_HEIGHT)
    by (rewrite Hr; reflexivity).
  unfold AnimationRenderer.render_frame. rewrite Hspec.
  rewrite (Image_new_Ok (AnimationRenderer.width r) (AnimationRenderer.height r))
    by (rewrite ?Hw, ?Hh; unfold MAX_WIDTH, MAX_HEIGHT; lia).
  destruct (draw_objects_total spec width height r f (objects spec) Hacc Hinit
              (ac_objects _ Hacc) []) as (ops & Hops & Hlen).
  pose proof (draw_watermark_Ok textbbox r ltac:(rewrite Hh; unfold MAX_HEIGHT; lia))
    as Hmark.
  rewrite bind_Ok, Hops, bind_Ok, Hmark, bind_Ok, Hw, Hh. cbn [img_size img_color img_ops app].
  eauto.
Qed.

Lemma render_frame_refused (textbbox : Z -> string -> Z * Z * Z * Z)
    (spec : AnimationSpec) (width height : Z) (r : AnimationRenderer.t) (f : Z) :
  AnimationRenderer.init spec width height = Ok r ->
  width < 0 \/ height < 0 ->
  AnimationRenderer.render_frame textbbox r f = Raise ValueError.
Proof.
  intros Hinit Hsize. apply init_Ok in Hinit as (reg & _ & _ & _ & ->).
  unfold AnimationRenderer.render_frame, Image_new.
  cbn [AnimationRenderer.width AnimationRenderer.height fst snd].
  replace ((Z.min width MAX_WIDTH <? 0) || (Z.min height MAX_HEIGHT <? 0)) with true;
    [reflexivity|].
  symmetry. apply orb_true_iff. rewrite !Z.ltb_lt. unfold MAX_WIDTH, MAX_HEIGHT. lia.
Qed.

(** X6. A spec that [parse_dsl] returns renders at every frame number, also
    at a negative one and at one past the end: on a canvas of non-negative
    width and height [render_frame] raises nothing, and the frame has the
    size of the canvas clamped to 1280x720, the background of the spec, one
    drawing call per object and the watermark as the last call. On a canvas
    of negative width or height it raises [ValueError] at every frame
    number, since the constructor clamps the canvas from above only. *)
Theorem render_frame_never_fails :
  forall (textbbox : Z -> string -> Z * Z * Z * Z) dsl_script spec width height r frame_num,
    parse_dsl dsl_script = Ok spec ->
    AnimationRenderer.init spec width height = Ok r ->
    (0 <= width -> 0 <= height ->
     exists ops mark,
       AnimationRenderer.render_frame textbbox r frame_num
       = Ok (mkImage (Z.min width MAX_WIDTH, Z.min height MAX_HEIGHT)
               (AnimationRenderer.bg_color r) (ops ++ [mark]))
       /\ hex_to_rgb (background spec) = Ok (AnimationRenderer.bg_color r)
       /\ length ops = length (objects spec)
       /\ AnimationRenderer._draw_watermark textbbox r = Ok mark)
    /\ (width < 0 \/ height < 0 ->
        AnimationRenderer.render_frame textbbox r frame_num = Raise ValueError).
Proof.
  intros textbbox dsl_script spec width height r frame_num Hparse Hinit.
  split; [|now apply (render_frame_refused textbbox spec)].
  intros Hwidth Hheight. apply parse_dsl_accepted in Hparse.
  destruct (render_frame_accepted textbbox spec width height r frame_num Hparse Hinit
              Hwidth Hheight) as (ops & mark & Hframe & Hlen & Hmark).
  exists ops, mark. split; [exact Hframe|].
  pose proof Hinit as Hr. apply init_Ok in Hr as (reg & _ & _ & Hbg & _). auto.
Qed.

Lemma render_frame_never_fails_witness :
  (exists ops mark,
      AnimationRenderer.render_frame demo_bbox (renderer_of demo_spec) (-7)
      = Ok (mkImage (640, 360) (26, 26, 46) (ops ++ [mark]))
      /\ length ops = 2%nat)
  /\ forall r,
       AnimationRenderer.init demo_spec (-5) 100 = Ok r ->
       AnimationRenderer.render_frame demo_bbox r 0 = Raise ValueError.
Proof.
  split.
  - destruct (render_frame_never_fails demo_bbox demo_script demo_spec 640 360
                (renderer_of demo_spec) (-7)) as [Hrenders _].
    + vm_compute. reflexivity.
    + vm_compute. reflexivity.
    + destruct Hrenders as (ops & mark & Hframe & _ & Hlen & _); [lia | lia |].
      exists ops, mark. split; [|exact Hlen].
      rewrite Hframe. f_equal.
  - intros r Hinit.
    apply (render_frame_never_fails demo_bbox demo_script demo_spec (-5) 100 r 0);
      [vm_compute; reflexivity | exact Hinit | lia].
Defined.

(** On an accepted script the renderer is constructed and every frame is
    rendered. *)
Lemma compile_and_render_accepted (textbbox : Z -> string -> Z * Z * Z * Z)
    (dsl_script : string) (width height : Z) (spec : AnimationSpec) :
  parse_dsl dsl_script = Ok spec ->
  0 <= width -> 0 <= height ->
  exists r frames,
    AnimationRenderer.init spec width height = Ok r
    /\ length frames = Z.to_nat (AnimationRenderer.total_frames r)
    /\ compile_and_render textbbox dsl_script width height = Ok (spec, frames).
Proof.
  intros Hparse Hwidth Hheight.
  pose proof (parse_dsl_accepted _ _ Hparse) as Hacc.
  destruct (init_total spec width height Hacc) as [r Hinit].
  destruct (map_result_total (AnimationRenderer.render_frame textbbox r)
              (seqZ 0 (AnimationRenderer.total_frames r))) as (imgs & Himgs & Hlen).
  { intros f.
    destruct (render_frame_accepted textbbox spec width height r f Hacc Hinit Hwidth Hheight)
      as (ops & mark & -> & _). eauto. }
  exists r, imgs. split; [exact Hinit|]. split; [now rewrite Hlen, length_seqZ|].
  unfold compile_and_render.
  now rewrite Hparse, bind_Ok, Hinit, bind_Ok, render_all_frames_map, Himgs, !bind_Ok.
Qed.

(** X7. Whatever [parse_dsl] accepts, the renderer renders: constructing
    the renderer and rendering every frame raise nothing on a canvas of
    non-negative width and height, and the frames returned are as many as
    [int(fps * duration)], a number within 0..300. *)
Theorem accepted_script_renders :
  forall (textbbox : Z -> string -> Z * Z * Z * Z) dsl_script width height spec,
    parse_dsl dsl_script = Ok spec ->
    0 <= width -> 0 <= height ->
    exists frames t,
      compile_and_render textbbox dsl_script width height = Ok (spec, frames)
      /\ total_frames_of spec = Ok t
      /\ 0 <= t <= MAX_FRAMES
      /\ length frames = Z.to_nat t.
Proof.
  intros textbbox dsl_script width height spec Hparse Hwidth Hheight.
  destruct (compile_and_render_accepted textbbox dsl_script width height spec Hparse
              Hwidth Hheight)
    as (r & imgs & Hinit & Hlen & Hrun).
  destruct (ac_frames _ (parse_dsl_accepted _ _ Hparse)) as (t & Ht & Hrange).
  apply init_Ok in Hinit as (reg & _ & Htotal & _ & _).
  rewrite Ht in Htotal. injection Htotal as Htotal.
  exists imgs, t. split; [exact Hrun|]. split; [exact Ht|]. split; [exact Hrange|].
  rewrite Hlen, Htotal. reflexivity.
Qed.

Lemma accepted_script_renders_witness :
  exists frames,
    compile_and_render demo_bbox demo_script 640 360 = Ok (demo_spec, frames)
    /\ length frames = 72%nat.
Proof.
  destruct (accepted_script_renders demo_bbox demo_script 640 360 demo_spec)
    as (frames & t & Hrun & Ht & _ & Hlen).
  - vm_compute. reflexivity.
  - lia.
  - lia.
  - exists frames. split; [exact Hrun|].
    assert (Ht' : total_frames_of demo_spec = Ok 72) by (vm_compute; reflexivity).
    rewrite Ht in Ht'. injection Ht' as ->. exact Hlen.
Defined.

(** ** What the parsers guarantee *)

(** X2. A TEXT command that parses is within the limits whatever its
    keywords asked for: position and MOVE TO target on the largest canvas,
    size within 8..200, a colour that [validate_color] accepts, and an
    inline duration that is a binary64 number within 0..[MAX_DURATION]. *)
Theorem text_command_within_limits :
  forall tokens line_num c,
    parse_text_command tokens line_num = Ok c ->
    in_canvas (TextCommand.x c, TextCommand.y c)
    /\ (forall target, TextCommand.move_to c = Some target -> in_canvas target)
    /\ 8 <= TextCommand.size c <= 200
    /\ validate_color (TextCommand.color c) = true
    /\ tame (TextCommand.move_duration c)
    /\ within PyFloat.zero MAX_DURATION (TextCommand.move_duration c).
Proof.
  intros tokens line_num c H.
  destruct (parse_text_command_ok _ _ _ H) as [Hpos Hto].
  destruct (parse_text_command_fields _ _ _ H) as (Hsize & Hcolor & Htame & Hdur).
  split; [exact Hpos|]. split; [exact Hto|]. auto.
Qed.

Lemma text_command_within_limits_witness :
  exists c,
    parse_text_command greedy_text 1 = Ok c
    /\ (TextCommand.x c, TextCommand.y c) = (1280, 0)
    /\ TextCommand.size c = 200
    /\ TextCommand.move_to c = Some (0, 720)
    /\ TextCommand.move_duration c = MAX_DURATION
    /\ in_canvas (TextCommand.x c, TextCommand.y c).
Proof.
  assert (H : exists c, parse_text_command greedy_text 1 = Ok c)
    by (eexists; vm_compute; reflexivity).
  destruct H as [c H]. exists c.
  destruct (text_command_within_limits greedy_text 1 c H) as (Hpos & _).
  vm_compute in H. injection H as <-.
  repeat split; try reflexivity; apply Hpos.
Defined.

(** X3. A SHAPE command that parses has an allowed type and easing and is
    within the limits: position and MOVE TO target on the largest canvas,
    radius within 1..500, width within 1..1280, height within 1..720, a
    colour that [validate_color] accepts, and an inline duration that is a
    binary64 number within 0..[MAX_DURATION]. *)
Theorem shape_command_within_limits :
  forall tokens line_num c,
    parse_shape_command tokens line_num = Ok c ->
    in_canvas (ShapeCommand.x c, ShapeCommand.y c)
    /\ (forall target, ShapeCommand.move_to c = Some target -> in_canvas target)
    /\ (ShapeCommand.shape_type c = "CIRCLE" \/ ShapeCommand.shape_type c = "RECT")
    /\ 1 <= ShapeCommand.radius c <= 500
    /\ 1 <= ShapeCommand.width c <= MAX_WIDTH
    /\ 1 <= ShapeCommand.height c <= MAX_HEIGHT
    /\ validate_color (ShapeCommand.color c) = true
    /\ str_in (ShapeCommand.ease c) ALLOWED_EASE_TYPES = true
    /\ tame (ShapeCommand.move_duration c)
    /\ within PyFloat.zero MAX_DURATION (ShapeCommand.move_duration c).
Proof.
  intros tokens line_num c H.
  destruct (parse_shape_command_ok _ _ _ H) as [Hpos Hto].
  destruct (parse_shape_command_fields _ _ _ H)
    as (Htype & Hr & Hw & Hh & Hcolor & Hease & Htame & Hdur).
  apply allowed_shape_cases in Htype.
  split; [exact Hpos|]. split; [exact Hto|]. split; [exact Htype|]. auto 10.
Qed.

Lemma shape_command_within_limits_witness :
  exists c,
    parse_shape_command greedy_shape 1 = Ok c
    /\ ShapeCommand.shape_type c = "RECT"
    /\ (ShapeCommand.x c, ShapeCommand.y c) = (0, 100)
    /\ (ShapeCommand.radius c, ShapeCommand.width c, ShapeCommand.height c) = (1, 1280, 1)
    /\ ShapeCommand.ease c = "linear"
    /\ ShapeCommand.move_duration c = PyFloat.zero
    /\ in_canvas (ShapeCommand.x c, ShapeCommand.y c).
Proof.
  assert (H : exists c, parse_shape_command greedy_shape 1 = Ok c)
    by (eexists; vm_compute; reflexivity).
  destruct H as [c H]. exists c.
  destruct (shape_command_within_limits greedy_shape 1 c H) as (Hpos & _).
  vm_compute in H. injection H as <-.
  repeat split; try reflexivity; apply Hpos.
Defined.

(** X4. A MOVE command that parses names its target on the largest canvas,
    an allowed easing, and a duration that is a binary64 number within
    0.1..[MAX_DURATION], so above zero. *)
Theorem move_command_within_limits :
  forall tokens line_num c,
    parse_move_command tokens line_num = Ok c ->
    in_canvas (MoveCommand.to_x c, MoveCommand.to_y c)
    /\ str_in (MoveCommand.ease c) ALLOWED_EASE_TYPES = true
    /\ tame (MoveCommand.duration c)
    /\ within (PyFloat.dec 1 1) MAX_DURATION (MoveCommand.duration c)
    /\ PyFloat.ltb PyFloat.zero (MoveCommand.duration c) = true.
Proof.
  intros tokens line_num c H.
  destruct (parse_move_command_ok _ _ _ H) as [Hpos Hdur].
  destruct (parse_move_command_fields _ _ _ H) as (Hease & Htame & Hwithin).
  split; [exact Hpos|]. auto.
Qed.

Lemma move_command_within_limits_witness :
  exists c,
    parse_move_command greedy_move 1 = Ok c
    /\ c = MoveCommand.mk "ball" 1280 720 (PyFloat.dec 1 1) "ease-out"
    /\ in_canvas (MoveCommand.to_x c, MoveCommand.to_y c).
Proof.
  assert (H : exists c, parse_move_command greedy_move 1 = Ok c)
    by (eexists; vm_compute; reflexivity).
  destruct H as [c H]. exists c.
  destruct (move_command_within_limits greedy_move 1 c H) as (Hpos & _).
  vm_compute in H. injection H as <-.
  repeat split; try reflexivity; apply Hpos.
Defined.

(** X1. A spec that [parse_dsl] returns is within the resource limits: a
    background that [validate_color] accepts, a frame rate within 1..24, a
    duration above zero and at most [MAX_DURATION], a frame count
    [int(fps * duration)] within 0..300, at most 50 objects, and every
    object and every standalone move within the limits of its parser. *)
Theorem parsed_spec_within_limits :
  forall dsl_script spec,
    parse_dsl dsl_script = Ok spec ->
    validate_color (background spec) = true
    /\ 1 <= fps spec <= MAX_FPS
    /\ PyFloat.ltb PyFloat.zero (duration spec) = true
    /\ PyFloat.leb (duration spec) MAX_DURATION = true
    /\ (exists t, total_frames_of spec = Ok t /\ 0 <= t <= MAX_FRAMES)
    /\ (length (objects spec) <= MAX_OBJECTS)%nat
    /\ Forall (fun o => object_ok o /\ object_fields o) (objects spec)
    /\ Forall (fun m => move_ok m /\ move_fields m) (moves spec).
Proof.
  intros dsl_script spec H.
  destruct (parse_dsl_accepted _ _ H)
    as [Hbg Hfps (_ & Hpos & Hle) Hframes Hcount Hok Hfields Hmok Hmfields].
  repeat split; try assumption; try lia.
  - rewrite Forall_forall in *. auto.
  - rewrite Forall_forall in *. auto.
Qed.

Lemma parsed_spec_within_limits_witness :
  parse_dsl demo_script = Ok demo_spec
  /\ fps demo_spec = 24
  /\ total_frames_of demo_spec = Ok 72
  /\ length (objects demo_spec) = 2%nat
  /\ validate_color (background demo_spec) = true.
Proof.
  assert (H : parse_dsl demo_script = Ok demo_spec) by (vm_compute; reflexivity).
  destruct (parsed_spec_within_limits demo_script demo_spec H) as (Hbg & _).
  repeat split; try exact H; try exact Hbg; vm_compute; reflexivity.
Defined.

(** ** The errors of [parse_dsl] *)

(** The loop stops at the first line that raises. *)
Lemma parse_lines_raises (lines : list string) :
  forall line_num st e,
    parse_lines line_num lines st = Raise e ->
    exists pre line post st',
      lines = pre ++ line :: post
      /\ parse_lines line_num pre st = Ok st'
      /\ parse_line (line_num + length pre) line st' = Raise e.
Proof.
  induction lines as [|line lines IH]; intros line_num st e H; [discriminate|].
  cbn [parse_lines] in H. apply bind_Raise_inv in H as [H | (st1 & H1 & H)].
  - exists [], line, lines, st. cbn [app length parse_lines].
    rewrite Nat.add_0_r. auto.
  - apply IH in H as (pre & l & post & st' & -> & Hpre & Hl).
    exists (line :: pre), l, post, st'. cbn [app length parse_lines].
    rewrite H1, bind_Ok, <- Nat.add_succ_comm. auto.
Qed.

(** What a line raises carries the number of the line. *)
Lemma parse_line_raises_line (line_num : nat) (line : string) (st : parse_state) (e : exn) :
  parse_line line_num line st = Raise e -> line_of_exn e = Some line_num.
Proof.
  intros H. apply parse_line_raises in H as (command & args & _ & H).
  destruct H as [-> | [[Hne H] | ->]]; [reflexivity | | reflexivity].
  destruct H as [e Hce | | |]; try reflexivity.
  destruct Hce; try reflexivity. congruence.
Qed.

Lemma total_frames_total (spec : AnimationSpec) :
  1 <= fps spec <= MAX_FPS ->
  tame (duration spec) ->
  PyFloat.ltb PyFloat.zero (duration spec) = true ->
  PyFloat.leb (duration spec) MAX_DURATION = true ->
  exists t, total_frames_of spec = Ok t.
Proof.
  intros Hfps Ht Hpos Hle. unfold total_frames_of.
  eapply to_int_total.
  apply (mul_below 6 3); [now apply fps_below | now apply duration_below | lia | lia].
Qed.

(** After the loop: the frame count is above the limit, or the duration
    is NaN. *)
Lemma check_frames_after_loop (lines : list string) (st : parse_state) (e : exn) :
  parse_lines 1 lines initial_state = Ok st ->
  check_frames (st_spec st) = Raise e ->
  (exists t, total_frames_of (st_spec st) = Ok t /\ MAX_FRAMES < t
             /\ e = DSLValidationError (TooManyFrames t))
  \/ (duration (st_spec st) = S754_nan /\ e = ValueError).
Proof.
  intros Hloop H.
  pose proof (parse_lines_checked _ _ _ _ initial_state_checked Hloop) as Hck.
  assert (Hwf : well_formed (st_spec st)).
  { eapply parse_lines_well_formed; [|exact Hloop].
    constructor; cbn; [unfold MAX_FPS; lia | constructor | constructor]. }
  destruct (ck_duration _ Hck) as [Htame [Hnan | [Hpos Hle]]].
  - right. split; [assumption|].
    unfold check_frames, total_frames_of in H. rewrite Hnan in H.
    destruct (PyFloat.of_int _); cbn in H; congruence.
  - left. destruct (total_frames_total _ (wf_fps _ Hwf) Htame Hpos Hle) as [t Ht].
    unfold check_frames in H. rewrite Ht, bind_Ok in H.
    destruct (Z.ltb_spec MAX_FRAMES t); [|discriminate].
    injection H as <-. eauto.
Qed.

(** X8. What [parse_dsl] raises. Either the loop stopped at the first line
    that raised, and the exception carries the 1-based number of that line;
    or every line was accepted and the frame count is above 300
    ([TooManyFrames]); or every line was accepted and the duration they
    leave is NaN, and what is raised is the [ValueError] of [int(nan)],
    neither a [DSLParseError] nor a [DSLValidationError]. *)
Theorem parse_dsl_error_kinds :
  forall dsl_script e,
    parse_dsl dsl_script = Raise e ->
    (exists pre line post st,
        script_lines dsl_script = pre ++ line :: post
        /\ parse_lines 1 pre initial_state = Ok st
        /\ parse_line (S (length pre)) line st = Raise e
        /\ line_of_exn e = Some (S (length pre)))
    \/ (exists st,
          parse_lines 1 (script_lines dsl_script) initial_state = Ok st
          /\ ((exists t, total_frames_of (st_spec st) = Ok t /\ MAX_FRAMES < t
                         /\ e = DSLValidationError (TooManyFrames t))
              \/ (duration (st_spec st) = S754_nan /\ e = ValueError))).
Proof.
  intros dsl_script e H. unfold parse_dsl in H. fold (script_lines dsl_script) in H.
  apply bind_Raise_inv in H as [H | (st & Hloop & H)].
  - left. apply parse_lines_raises in H as (pre & line & post & st & Hlines & Hpre & Hline).
    exists pre, line, post, st. cbn [Nat.add] in Hline.
    repeat split; try assumption. eapply parse_line_raises_line, Hline.
  - right. exists st. split; [assumption|].
    eapply check_frames_after_loop; eassumption.
Qed.

Lemma parse_dsl_error_kinds_witness :
  exists st,
    parse_lines 1 (script_lines "DURATION nan") initial_state = Ok st
    /\ duration (st_spec st) = S754_nan.
Proof.
  destruct (parse_dsl_error_kinds "DURATION nan" ValueError) as [H | H].
  - vm_compute. reflexivity.
  - destruct H as (pre & line & post & st & _ & _ & _ & H). discriminate H.
  - destruct H as (st & Hloop & [(t & _ & _ & H) | [Hnan _]]); [discriminate H|].
    exists st. auto.
Defined.

(** ** Tokens *)

Lemma free_of_app (p : ascii -> bool) (a b : string) :
  free_of p (a +:+ b) = free_of p a && free_of p b.
Proof.
  induction a as [|c a IH]; [reflexivity|].
  rewrite append_cons. cbn [free_of]. now rewrite IH, andb_assoc.
Qed.

Lemma tokenize_loop_quote_free (line : string) :
  forall tokens current in_quotes,
    Forall (fun t => free_of is_dquote t = true) tokens ->
    free_of is_dquote current = true ->
    Forall (fun t => free_of is_dquote t = true) (tokenize_loop line tokens current in_quotes).
Proof.
  induction line as [|c line IH]; intros tokens current in_quotes Htokens Hcurrent;
    cbn [tokenize_loop].
  - destruct (PyStr.nonempty current); [|assumption].
    apply Forall_app. split; [assumption|]. now constructor.
  - assert (Hsnoc : Forall (fun t => free_of is_dquote t = true) (tokens ++ [current]))
      by (apply Forall_app; split; [assumption | now constructor]).
    destruct (Ascii.eqb c PyStr.dquote) eqn:Hq; cbn [andb].
    + destruct in_quotes; cbn [negb]; apply IH; auto.
    + destruct (Ascii.eqb c " " && negb in_quotes).
      * destruct (PyStr.nonempty current); apply IH; auto.
      * apply IH; [assumption|]. rewrite free_of_app, Hcurrent. cbn [free_of andb].
        unfold is_dquote. now rewrite Hq.
Qed.

Lemma tokenize_loop_unquoted (line : string) :
  free_of is_dquote line = true ->
  forall tokens current,
    Forall (fun t => is_word t = true) tokens ->
    free_of is_blank_or_dquote current = true ->
    Forall (fun t => is_word t = true) (tokenize_loop line tokens current false).
Proof.
  induction line as [|c line IH]; intros Hline tokens current Htokens Hcurrent;
    cbn [tokenize_loop].
  - destruct (PyStr.nonempty current) eqn:Hne; [|assumption].
    apply Forall_app. split; [assumption|]. constructor; [|constructor].
    unfold is_word. now rewrite Hne, Hcurrent.
  - cbn [free_of] in Hline. apply andb_true_iff in Hline as [Hc Hline].
    unfold is_dquote in Hc. apply negb_true_iff in Hc. rewrite Hc. cbn [andb negb].
    rewrite andb_true_r. destruct (Ascii.eqb c " ") eqn:Hsp.
    + destruct (PyStr.nonempty current) eqn:Hne; apply IH; auto.
      apply Forall_app. split; [assumption|]. constructor; [|constructor].
      unfold is_word. now rewrite Hne, Hcurrent.
    + apply IH; auto. rewrite free_of_app, Hcurrent. cbn [free_of andb].
      unfold is_blank_or_dquote. now rewrite Hsp, Hc.
Qed.

(** X9. No token holds a double quote, whatever the line. On a line
    without double quotes the tokens are its maximal runs of characters
    other than the space: none is empty and none holds a space; only the
    space separates, a tab does not. *)
Theorem tokens_hold_no_quote :
  forall line,
    Forall (fun t => free_of is_dquote t = true) (tokenize_line line)
    /\ (free_of is_dquote line = true ->
        Forall (fun t => is_word t = true) (tokenize_line line)).
Proof.
  intros line. split.
  - apply tokenize_loop_quote_free; [constructor | reflexivity].
  - intros Hline. apply tokenize_loop_unquoted; [assumption | constructor | reflexivity].
Qed.

Lemma tokens_hold_no_quote_witness :
  tokenize_line tabbed_line = [tabbed_line]
  /\ Forall (fun t => is_word t = true) (tokenize_line tabbed_line).
Proof.
  split; [vm_compute; reflexivity|].
  apply (tokens_hold_no_quote tabbed_line). vm_compute. reflexivity.
Defined.

(** ** Objects that do not move *)

(** X10. An id without a declaration of movement (no object carrying it has
    a MOVE TO with a duration above zero, and no standalone MOVE names it
    while an object carries it) is at its declared position on every
    frame: the AT coordinates of the last object carrying the id, or (0, 0)
    when no object carries it. *)
Theorem static_object_position :
  forall spec width height r id frame,
    AnimationRenderer.init spec width height = Ok r ->
    declarations spec id = [] ->
    AnimationRenderer._get_position r id frame
    = Ok (default (0, 0) (declared_position (objects spec) id)).
Proof.
  intros spec width height r id frame Hinit Hnone.
  destruct (renderer_registries spec width height r Hinit) as [Hmoves Hpos].
  unfold AnimationRenderer._get_position. rewrite Hmoves, Hnone, Hpos. reflexivity.
Qed.

Lemma static_object_position_witness :
  AnimationRenderer._get_position (renderer_of demo_spec) "text_5" 17 = Ok (280, 50)
  /\ AnimationRenderer._get_position (renderer_of demo_spec) "nobody" 17 = Ok (0, 0).
Proof.
  split.
  - rewrite (static_object_position demo_spec 640 360 (renderer_of demo_spec) "text_5" 17);
      vm_compute; reflexivity.
  - rewrite (static_object_position demo_spec 640 360 (renderer_of demo_spec) "nobody" 17);
      vm_compute; reflexivity.
Defined.

(** ** The canvas *)

Lemma init_canvas (spec : AnimationSpec) (width height width' height' : Z)
    (r : AnimationRenderer.t) :
  AnimationRenderer.init spec width height = Ok r ->
  AnimationRenderer.init spec width' height'
  = Ok (AnimationRenderer.mk spec (Z.min width' MAX_WIDTH) (Z.min height' MAX_HEIGHT) []
          (AnimationRenderer.total_frames r) (AnimationRenderer.bg_color r)
          (AnimationRenderer.object_positions r) (AnimationRenderer.object_moves r)).
Proof.
  intros Hinit. apply init_Ok in Hinit as (reg & Hreg & Ht & Hbg & ->).
  unfold AnimationRenderer.init. cbn in *. rewrite Ht, bind_Ok, Hbg, bind_Ok, Hreg, bind_Ok.
  reflexivity.
Qed.

(** X11. Coordinates are absolute pixels: nothing is scaled to the canvas.
    A renderer for the same spec on a canvas of another size is constructed
    as well, gives every id the same position at every frame, and makes the
    same drawing calls for the objects; only the size of the image and the
    watermark depend on the canvas. *)
Theorem objects_ignore_canvas_size :
  forall spec width height width' height' r,
    AnimationRenderer.init spec width height = Ok r ->
    exists r',
      AnimationRenderer.init spec width' height' = Ok r'
      /\ (forall id frame,
            AnimationRenderer._get_position r' id frame
            = AnimationRenderer._get_position r id frame)
      /\ (forall frame,
            for_each (AnimationRenderer.draw_object r' frame) (objects spec) []
            = for_each (AnimationRenderer.draw_object r frame) (objects spec) []).
Proof.
  intros spec width height width' height' r Hinit.
  eexists. split; [eapply init_canvas, Hinit|].
  assert (Hget : forall id frame,
             AnimationRenderer._get_position
               (AnimationRenderer.mk spec (Z.min width' MAX_WIDTH) (Z.min height' MAX_HEIGHT) []
                  (AnimationRenderer.total_frames r) (AnimationRenderer.bg_color r)
                  (AnimationRenderer.object_positions r) (AnimationRenderer.object_moves r))
               id frame
             = AnimationRenderer._get_position r id frame) by reflexivity.
  split; [exact Hget|].
  intros frame. apply for_each_ext. intros ops [cmd | cmd];
    unfold AnimationRenderer.draw_object, AnimationRenderer._draw_text,
      AnimationRenderer._draw_shape; now rewrite Hget.
Qed.

Lemma objects_ignore_canvas_size_witness :
  exists r',
    AnimationRenderer.init quarter_spec 320 180 = Ok r'
    /\ AnimationRenderer._get_position r' "a" 3 = Ok (2, 0).
Proof.
  destruct (objects_ignore_canvas_size quarter_spec 640 360 320 180 (renderer_of quarter_spec))
    as (r' & Hinit & Hget & _).
  - vm_compute. reflexivity.
  - exists r'. split; [exact Hinit|]. rewrite Hget. vm_compute. reflexivity.
Defined.

(** ** The pipeline *)

Section PipelineProperties.

Context (textbbox : Z -> string -> Z * Z * Z * Z) {bytes encoder_error : Type}
  (mimsave : list image -> Z -> encoder_error + bytes) (b64encode : bytes -> string)
  {database save_error : Type}
  (save_video_metadata : metadata bytes -> database -> database * option save_error).

Lemma pipeline_canvas (width height : Z) :
  320 <= pipeline_width width <= 1280 /\ 180 <= pipeline_height height <= 720.
Proof. unfold pipeline_width, pipeline_height, MAX_WIDTH, MAX_HEIGHT. lia. Qed.

(** The renderer does not fail on what the parser accepted: the outcome of
    the [try] block is that of the encoder, on the frames of
    [compile_and_render]. *)
Lemma render_video_accepted (dsl_script : string) (spec : AnimationSpec) (width height : Z) :
  parse_dsl dsl_script = Ok spec ->
  0 <= width -> 0 <= height ->
  exists frames,
    compile_and_render textbbox dsl_script width height = Ok (spec, frames)
    /\ render_video textbbox mimsave spec width height
       = match mimsave frames (fps spec) with
         | inl e => Raises (CaughtEncoder e)
         | inr video_bytes => Returns video_bytes
         end.
Proof.
  intros Hparse Hwidth Hheight.
  destruct (compile_and_render_accepted textbbox dsl_script width height spec Hparse
              Hwidth Hheight) as (r0 & frames & _ & _ & Hrun).
  exists frames. split; [exact Hrun|].
  unfold compile_and_render in Hrun. rewrite Hparse, bind_Ok in Hrun.
  apply bind_Ok_inv in Hrun as (r & Hinit & Hrun).
  apply bind_Ok_inv in Hrun as (r' & Hall & Hrun). injection Hrun as <-.
  unfold render_video, render_to_bytes. rewrite Hinit.
  pose proof Hinit as Hr. apply init_Ok in Hr as (reg & _ & _ & _ & Hr).
  assert (Hframes : AnimationRenderer.frames r = []) by (rewrite Hr; reflexivity).
  rewrite Hframes, Hall.
  assert (Hspec : AnimationRenderer.spec r' = spec).
  { rewrite render_all_frames_map in Hall.
    apply bind_Ok_inv in Hall as (imgs & _ & Hall). injection Hall as <-.
    rewrite Hr. reflexivity. }
  rewrite Hspec. destruct (mimsave _ _); reflexivity.
Qed.

Lemma frames_have_canvas_size (dsl_script : string) (spec : AnimationSpec)
    (width height : Z) (frames : list image) :
  0 <= width -> 0 <= height ->
  compile_and_render textbbox dsl_script width height = Ok (spec, frames) ->
  Forall (fun img => img_size img = (Z.min width MAX_WIDTH, Z.min height MAX_HEIGHT)) frames.
Proof.
  intros Hwidth Hheight Hrun. unfold compile_and_render in Hrun.
  apply bind_Ok_inv in Hrun as (spec0 & Hparse & Hrun).
  apply bind_Ok_inv in Hrun as (r & Hinit & Hrun).
  apply bind_Ok_inv in Hrun as (r' & Hall & Hrun). injection Hrun as -> <-.
  rewrite render_all_frames_map in Hall.
  apply bind_Ok_inv in Hall as (imgs & Hmap & Hall). injection Hall as <-.
  cbn [with_frames AnimationRenderer.frames].
  destruct (map_result_lookup _ _ _ Hmap) as [Hlen Hnth].
  apply Forall_lookup. intros i img Hi.
  assert (Hlt : (i < length (seqZ 0 (AnimationRenderer.total_frames r)))%nat)
    by (rewrite <- Hlen; eapply lookup_lt_Some; eassumption).
  destruct (lookup_lt_is_Some_2 _ _ Hlt) as [f Hf].
  destruct (Hnth i f Hf) as (img' & Hi' & Hframe).
  rewrite Hi in Hi'. injection Hi' as <-.
  destruct (render_frame_accepted textbbox spec width height r f
              (parse_dsl_accepted _ _ Hparse) Hinit Hwidth Hheight) as (ops & mark & Hok & _).
  rewrite Hok in Hframe. injection Hframe as <-. reflexivity.
Qed.

Lemma pipeline_canvas_min (width height : Z) :
  Z.min (pipeline_width width) MAX_WIDTH = pipeline_width width
  /\ Z.min (pipeline_height height) MAX_HEIGHT = pipeline_height height.
Proof. unfold pipeline_width, pipeline_height. lia. Qed.

Lemma nan_duration_raises (dsl_script : string) (st : parse_state) :
  parse_lines 1 (script_lines dsl_script) initial_state = Ok st ->
  duration (st_spec st) = S754_nan ->
  parse_dsl dsl_script = Raise ValueError.
Proof.
  intros Hloop Hnan. unfold parse_dsl. fold (script_lines dsl_script).
  rewrite Hloop, bind_Ok. unfold check_frames, total_frames_of. rewrite Hnan.
  destruct (PyFloat.of_int _); reflexivity.
Qed.

(** What [parse_dsl] raises besides its own two exceptions is the
    [ValueError] of a NaN duration. *)
Lemma parse_dsl_escapes (dsl_script : string) (e : exn) :
  parse_dsl dsl_script = Raise e ->
  (exists line_num k, e = DSLParseError line_num k)
  \/ (exists k, e = DSLValidationError k)
  \/ (e = ValueError
      /\ exists st,
           parse_lines 1 (script_lines dsl_script) initial_state = Ok st
           /\ duration (st_spec st) = S754_nan).
Proof.
  intros H. unfold parse_dsl in H. fold (script_lines dsl_script) in H.
  apply bind_Raise_inv in H as [H | (st & Hloop & H)].
  - apply parse_lines_raises in H as (pre & line & post & st & _ & _ & Hline).
    apply parse_line_raises_line in Hline.
    destruct e as [l k | k | |]; try discriminate Hline; eauto.
  - destruct (check_frames_after_loop _ _ _ Hloop H) as [(t & _ & _ & ->) | [Hnan ->]];
      eauto 10.
Qed.

(** On an accepted script the call is the encoder on the frames of
    [compile_and_render], then the saving of the metadata when asked for. *)
Lemma generate_video_accepted (dsl_script : string) (spec : AnimationSpec)
    (width height : Z) (save_metadata : bool) (db : database) :
  parse_dsl dsl_script = Ok spec ->
  exists frames,
    compile_and_render textbbox dsl_script (pipeline_width width) (pipeline_height height)
    = Ok (spec, frames)
    /\ generate_video_from_dsl textbbox mimsave b64encode save_video_metadata
         dsl_script width height save_metadata db
       = match mimsave frames (fps spec) with
         | inl e => Raises (PipelineError "Rendering failed" (CaughtEncoder e))
         | inr video_bytes =>
             let saved :=
               save_video_metadata
                 (mkMetadata dsl_script video_bytes None "dsl" (duration spec) (fps spec)
                    (pipeline_width width) (pipeline_height height)) db in
             Returns (b64encode video_bytes,
                      if save_metadata then saved.1 else db,
                      if save_metadata then saved.2 else None)
         end.
Proof.
  intros Hparse.
  destruct (pipeline_canvas width height) as [Hw Hh].
  destruct (render_video_accepted dsl_script spec (pipeline_width width)
              (pipeline_height height) Hparse ltac:(lia) ltac:(lia)) as (frames & Hrun & Hvideo).
  exists frames. split; [exact Hrun|].
  unfold generate_video_from_dsl. rewrite Hparse.
  fold (pipeline_width width) (pipeline_height height). rewrite Hvideo.
  destruct (mimsave frames (fps spec)) as [e | video_bytes]; [reflexivity|].
  destruct save_metadata; [|reflexivity].
  destruct (save_video_metadata _ db) as [db' warning]. reflexivity.
Qed.

(** X12. On a script that [parse_dsl] accepts the pipeline is the encoder
    after the renderer: the canvas is clamped to 320..1280 by 180..720
    whatever was asked for, every frame has that size, the renderer raises
    nothing, and the call returns the base64 text of the bytes the encoder
    gives for the frames, or raises [PipelineError] "Rendering failed" with
    the exception of the encoder. The metadata is saved only when asked for,
    and a failure to save it changes neither the text returned nor the
    outcome. *)
Theorem pipeline_is_encoder_after_renderer :
  forall dsl_script spec width height save_metadata (db : database),
    parse_dsl dsl_script = Ok spec ->
    let w := pipeline_width width in
    let h := pipeline_height height in
    exists frames,
      compile_and_render textbbox dsl_script w h = Ok (spec, frames)
      /\ (320 <= w <= 1280 /\ 180 <= h <= 720)
      /\ Forall (fun img => img_size img = (w, h)) frames
      /\ generate_video_from_dsl textbbox mimsave b64encode save_video_metadata
           dsl_script width height save_metadata db
         = match mimsave frames (fps spec) with
           | inl e => Raises (PipelineError "Rendering failed" (CaughtEncoder e))
           | inr video_bytes =>
               let saved :=
                 save_video_metadata
                   (mkMetadata dsl_script video_bytes None "dsl" (duration spec) (fps spec)
                      w h) db in
               Returns (b64encode video_bytes,
                        if save_metadata then saved.1 else db,
                        if save_metadata then saved.2 else None)
           end.
Proof.
  intros dsl_script spec width height save_metadata db Hparse w h.
  destruct (pipeline_canvas width height) as [Hw Hh]. fold w h in Hw, Hh.
  destruct (generate_video_accepted dsl_script spec width height save_metadata db Hparse)
    as (frames & Hrun & Hgen). fold w h in Hrun, Hgen.
  exists frames. split; [exact Hrun|]. split; [auto|]. split; [|exact Hgen].
  destruct (pipeline_canvas_min width height) as [Ew Eh]. fold w h in Ew, Eh.
  pose proof (frames_have_canvas_size dsl_script spec w h frames ltac:(lia) ltac:(lia) Hrun)
    as Hsize.
  rewrite Ew, Eh in Hsize. exact Hsize.
Qed.

(** X13. What [generate_video_from_dsl] raises: [PipelineError] "Invalid
    DSL script" for a [DSLParseError] of the parser, "DSL validation failed"
    for a [DSLValidationError], "Rendering failed" for an exception of the
    encoder and for nothing else, since the renderer raises nothing on an
    accepted spec; and, not wrapped in a [PipelineError], the [ValueError]
    of a script whose lines are accepted and leave a NaN duration. *)
Theorem pipeline_failures :
  forall dsl_script width height save_metadata (db : database) e,
    generate_video_from_dsl textbbox mimsave b64encode save_video_metadata
      dsl_script width height save_metadata db = Raises e ->
    (exists line_num k,
        parse_dsl dsl_script = Raise (DSLParseError line_num k)
        /\ e = PipelineError "Invalid DSL script" (CaughtExn (DSLParseError line_num k)))
    \/ (exists k,
          parse_dsl dsl_script = Raise (DSLValidationError k)
          /\ e = PipelineError "DSL validation failed" (CaughtExn (DSLValidationError k)))
    \/ (exists spec frames err,
          compile_and_render textbbox dsl_script (pipeline_width width)
            (pipeline_height height) = Ok (spec, frames)
          /\ mimsave frames (fps spec) = inl err
          /\ e = PipelineError "Rendering failed" (CaughtEncoder err))
    \/ (e = Escaped ValueError
        /\ exists st,
             parse_lines 1 (script_lines dsl_script) initial_state = Ok st
             /\ duration (st_spec st) = S754_nan).
Proof.
  intros dsl_script width height save_metadata db e H.
  destruct (parse_dsl dsl_script) as [spec | e0] eqn:Hparse.
  - destruct (generate_video_accepted dsl_script spec width height save_metadata db Hparse)
      as (frames & Hrun & Hgen).
    rewrite Hgen in H. right; right; left.
    destruct (mimsave frames (fps spec)) as [err | video_bytes] eqn:Henc; [|discriminate].
    injection H as <-. eauto 10.
  - unfold generate_video_from_dsl in H. rewrite Hparse in H.
    destruct (parse_dsl_escapes _ _ Hparse) as [(l & k & ->) | [(k & ->) | (-> & Hnan)]];
      injection H as <-; eauto 10.
Qed.


Lemma generate_video_nan (dsl_script : string) (width height : Z) (save_metadata : bool)
    (db : database) (st : parse_state) :
  parse_lines 1 (script_lines dsl_script) initial_state = Ok st ->
  duration (st_spec st) = S754_nan ->
  generate_video_from_dsl textbbox mimsave b64encode save_video_metadata
    dsl_script width height save_metadata db = Raises (Escaped ValueError).
Proof.
  intros Hloop Hnan. unfold generate_video_from_dsl.
  now rewrite (nan_duration_raises _ _ Hloop Hnan).
Qed.

(** X14. The endpoint [/generate-dsl] answers 200, 400 or 500. It answers
    500 exactly on a script whose lines are all accepted and leave a NaN
    duration ([DURATION nan]), an invalid script that is not reported as
    one; it answers 200 exactly when the script parses and the encoder
    returns the bytes, with their base64 text; every other failure,
    including a failure of the encoder, is a 400. *)
Theorem endpoint_status :
  forall dsl width height (db : database),
    let response :=
      (generate_from_dsl textbbox mimsave b64encode save_video_metadata dsl width height db).1.1 in
    (status_of response = 200 \/ status_of response = 400 \/ status_of response = 500)
    /\ (status_of response = 500
        <-> exists st,
              parse_lines 1 (script_lines dsl) initial_state = Ok st
              /\ duration (st_spec st) = S754_nan)
    /\ (status_of response = 200
        <-> exists spec frames video_bytes,
              compile_and_render textbbox dsl (pipeline_width width) (pipeline_height height)
              = Ok (spec, frames)
              /\ mimsave frames (fps spec) = inr video_bytes
              /\ response = GenerateResponse true (b64encode video_bytes)).
Proof.
  intros dsl width height db. unfold generate_from_dsl.
  destruct (generate_video_from_dsl _ _ _ _ dsl width height true db)
    as [[[video_b64 db'] warning] | [prefix cause | e]] eqn:Hgen; cbn.
  - split; [auto|]. split.
    + split; [discriminate|]. intros (st & Hloop & Hnan).
      rewrite (generate_video_nan _ _ _ _ _ _ Hloop Hnan) in Hgen. discriminate Hgen.
    + split; [intros _ | reflexivity].
      destruct (parse_dsl dsl) as [spec | e] eqn:Hparse.
      * destruct (generate_video_accepted dsl spec width height true db Hparse)
          as (frames & Hrun & Heq).
        rewrite Heq in Hgen.
        destruct (mimsave frames (fps spec)) as [err | video_bytes] eqn:Henc;
          [discriminate Hgen|].
        injection Hgen as <- _ _. eauto 10.
      * unfold generate_video_from_dsl in Hgen. rewrite Hparse in Hgen.
        destruct e as [l k | k | |]; discriminate Hgen.
  - split; [auto|]. split.
    + split; [discriminate|]. intros (st & Hloop & Hnan).
      rewrite (generate_video_nan _ _ _ _ _ _ Hloop Hnan) in Hgen. discriminate Hgen.
    + split; [discriminate|]. intros (spec & frames & v & _ & _ & H). discriminate H.
  - split; [auto|]. split.
    + split; [intros _ | reflexivity].
      unfold generate_video_from_dsl in Hgen.
      destruct (parse_dsl dsl) as [spec | e0] eqn:Hparse.
      * destruct (render_video _ _ _ _ _); [destruct (save_video_metadata _ _)|];
          discriminate Hgen.
      * destruct (parse_dsl_escapes _ _ Hparse) as [(l & k & ->) | [(k & ->) | [_ Hnan]]];
          [discriminate Hgen | discriminate Hgen | exact Hnan].
    + split; [discriminate|]. intros (spec & frames & v & _ & _ & H). discriminate H.
Qed.

(** ** The frames kept by the renderer *)

Lemma render_all_frames_again (r r1 : AnimationRenderer.t) :
  AnimationRenderer.render_all_frames textbbox r = Ok r1 ->
  r1 = with_frames r (AnimationRenderer.frames r1)
  /\ AnimationRenderer.render_all_frames textbbox r1 = Ok r1.
Proof.
  intros H. rewrite render_all_frames_map in H.
  apply bind_Ok_inv in H as (imgs & Hmap & H). injection H as <-.
  split; [reflexivity|]. rewrite render_all_frames_map.
  rewrite (map_result_ext _ (AnimationRenderer.render_frame textbbox r))
    by (intros i; apply render_frame_same_scene, same_scene_with_frames).
  change (AnimationRenderer.total_frames (with_frames r imgs))
    with (AnimationRenderer.total_frames r).
  rewrite Hmap, bind_Ok. reflexivity.
Qed.

(** X15. [render_to_bytes] renders only when the renderer holds no frame:
    on a renderer that holds frames it encodes those and leaves the
    renderer as it is; and a second call on the renderer a first call
    leaves returns the same bytes and the same renderer, also when the
    animation has no frame at all and is rendered again. *)
Theorem render_to_bytes_keeps_frames :
  forall r r1 video_bytes,
    render_to_bytes textbbox mimsave r = Returns (r1, video_bytes) ->
    render_to_bytes textbbox mimsave r1 = Returns (r1, video_bytes)
    /\ mimsave (AnimationRenderer.frames r1) (fps (AnimationRenderer.spec r1))
       = inr video_bytes
    /\ (AnimationRenderer.frames r <> [] -> r1 = r).
Proof.
  intros r r1 video_bytes H. unfold render_to_bytes in H.
  destruct (AnimationRenderer.frames r) as [|img imgs] eqn:Hframes.
  - destruct (AnimationRenderer.render_all_frames textbbox r) as [r'|e] eqn:Hall;
      [|discriminate H].
    destruct (mimsave _ _) as [err|v] eqn:Henc; [discriminate H|].
    injection H as <- <-. split; [|split; [exact Henc | congruence]].
    destruct (render_all_frames_again _ _ Hall) as [_ Hagain].
    assert (Hrendered : match AnimationRenderer.frames r' with
                        | [] => AnimationRenderer.render_all_frames textbbox r'
                        | _ :: _ => Ok r'
                        end = Ok r')
      by (destruct (AnimationRenderer.frames r'); [exact Hagain | reflexivity]).
    unfold render_to_bytes. now rewrite Hrendered, Henc.
  - destruct (mimsave _ _) as [err|v] eqn:Henc; [discriminate H|].
    injection H as <- <-. split; [|split; [exact Henc | reflexivity]].
    unfold render_to_bytes. now rewrite Hframes, Henc.
Qed.

End PipelineProperties.

Lemma pipeline_is_encoder_after_renderer_witness :
  exists frames,
    compile_and_render demo_bbox demo_script 1280 180 = Ok (demo_spec, frames)
    /\ generate_video_from_dsl demo_bbox count_frames show_count count_saves
         demo_script 9999 0 true 0%nat
       = Returns (show_count (length frames), 1%nat, None).
Proof.
  destruct (pipeline_is_encoder_after_renderer demo_bbox count_frames show_count count_saves
              demo_script demo_spec 9999 0 true 0%nat)
    as (frames & Hrun & _ & _ & Hgen); [vm_compute; reflexivity|].
  exists frames. split; [exact Hrun|]. rewrite Hgen. reflexivity.
Defined.

Lemma pipeline_failures_witness :
  exists st,
    parse_lines 1 (script_lines "DURATION nan") initial_state = Ok st
    /\ duration (st_spec st) = S754_nan.
Proof.
  destruct (pipeline_failures demo_bbox count_frames show_count count_saves
              "DURATION nan" 640 360 true 0%nat (Escaped ValueError))
    as [(l & k & _ & H) | [(k & _ & H) | [(spec & frames & err & _ & _ & H) | [_ H]]]];
    try discriminate H.
  - vm_compute. reflexivity.
  - exact H.
Defined.

Lemma endpoint_status_witness :
  status_of
    (generate_from_dsl demo_bbox count_frames show_count count_saves
       "DURATION nan" 640 360 0%nat).1.1 = 500.
Proof.
  apply (endpoint_status demo_bbox count_frames show_count count_saves "DURATION nan" 640 360
           0%nat).
  eexists. split; vm_compute; reflexivity.
Defined.

Lemma render_to_bytes_keeps_frames_witness :
  exists r1,
    render_to_bytes demo_bbox count_frames r1 = Returns (r1, 12%nat)
    /\ length (AnimationRenderer.frames r1) = 12%nat.
Proof.
  assert (H : exists r1, render_to_bytes demo_bbox count_frames (renderer_of quarter_spec)
                         = Returns (r1, 12%nat)) by (eexists; vm_compute; reflexivity).
  destruct H as [r1 H]. exists r1.
  destruct (render_to_bytes_keeps_frames demo_bbox count_frames _ _ _ H) as (Hagain & Henc & _).
  split; [exact Hagain|]. unfold count_frames in Henc. congruence.
Defined.

(** ** Lines *)

Lemma split_nonempty (sep : ascii) (s : string) : PyStr.split sep s <> [].
Proof.
  destruct s as [|c s]; cbn [PyStr.split]; [discriminate|].
  destruct (Ascii.eqb c sep); [discriminate|]. destruct (PyStr.split sep s); discriminate.
Qed.

Lemma split_app (sep : ascii) (a b : string) :
  PyStr.split sep (a +:+ String sep b) = PyStr.split sep a ++ PyStr.split sep b.
Proof.
  induction a as [|c a IH].
  - rewrite append_nil_l. cbn [PyStr.split]. now rewrite Ascii.eqb_refl.
  - rewrite append_cons. cbn [PyStr.split]. rewrite IH.
    destruct (Ascii.eqb c sep); [reflexivity|].
    pose proof (split_nonempty sep a) as Hne.
    destruct (PyStr.split sep a) as [|h t]; [contradiction | reflexivity].
Qed.

Lemma split_free (sep : ascii) (s : string) :
  free_of (fun c => Ascii.eqb c sep) s = true -> PyStr.split sep s = [s].
Proof.
  induction s as [|c s IH]; [reflexivity|]. cbn [free_of PyStr.split].
  intros H. apply andb_true_iff in H as [Hc Hs]. apply negb_true_iff in Hc.
  now rewrite Hc, IH.
Qed.

Lemma concat_cons_char (sep : string) (c : ascii) (h : string) (t : list string) :
  String.concat sep (String c h :: t) = String c (String.concat sep (h :: t)).
Proof. destruct t; cbn [String.concat]; rewrite ?append_cons; reflexivity. Qed.

Lemma unlines_split (s : string) : unlines (PyStr.split PyStr.newline s) = s.
Proof.
  unfold unlines. induction s as [|c s IH]; [reflexivity|]. cbn [PyStr.split].
  pose proof (split_nonempty PyStr.newline s) as Hs.
  destruct (PyStr.split PyStr.newline s) as [|h t] eqn:E; [contradiction|].
  destruct (Ascii.eqb_spec c PyStr.newline) as [->|Hne].
  - change (String.concat (String PyStr.newline "") ("" :: h :: t))
      with ("" +:+ String PyStr.newline "" +:+ String.concat (String PyStr.newline "") (h :: t)).
    now rewrite IH.
  - now rewrite concat_cons_char, IH.
Qed.

Lemma rstrip_by_keeps (p : ascii -> bool) (a : string) (c : ascii) :
  p c = false ->
  PyStr.rstrip_by p (a +:+ String c EmptyString) = a +:+ String c EmptyString.
Proof.
  intros Hc. induction a as [|x a IH].
  - rewrite append_nil_l. cbn [PyStr.rstrip_by]. now rewrite Hc.
  - rewrite append_cons. cbn [PyStr.rstrip_by]. rewrite IH.
    destruct a; reflexivity.
Qed.

(** A text that starts and ends with a character [strip] keeps is left
    as it is. *)
Lemma strip_keeps (c : ascii) (a : string) (d : ascii) :
  PyStr.is_space c = false -> PyStr.is_space d = false ->
  PyStr.strip (String c (a +:+ String d EmptyString)) = String c (a +:+ String d EmptyString).
Proof.
  intros Hc Hd. unfold PyStr.strip, PyStr.strip_by. cbn [PyStr.lstrip_by]. rewrite Hc.
  rewrite <- append_cons. now apply rstrip_by_keeps.
Qed.

(** ** [clean_dsl_output] *)

Lemma prefix_app (a b : string) : String.prefix a (a +:+ b) = true.
Proof.
  induction a as [|c a IH]; [destruct b; reflexivity|].
  rewrite append_cons. cbn [String.prefix]. destruct (ascii_dec c c); [exact IH | contradiction].
Qed.

Lemma strip_fenced (inner : string) :
  PyStr.strip (fence +:+ inner +:+ fence) = fence +:+ inner +:+ fence.
Proof.
  change (fence +:+ inner +:+ fence) with (String "`" ("``" +:+ inner +:+ fence)).
  replace ("``" +:+ inner +:+ fence) with (("``" +:+ inner +:+ "``") +:+ String "`" "")
    by (rewrite !append_assoc; reflexivity).
  apply strip_keeps; reflexivity.
Qed.

(** X16. A script in a Markdown fence comes out as it went in:
    [clean_dsl_output] drops the line of the opening fence, whatever
    follows the fence on it, and the closing fence, and returns the lines
    between them unchanged; a text that does not start with a fence after
    stripping is returned stripped. *)
Theorem fenced_script_unwrapped :
  (forall lang body,
      free_of is_newline lang = true ->
      clean_dsl_output (fence +:+ lang +:+ nl +:+ body +:+ nl +:+ fence) = body)
  /\ (forall content,
        String.prefix fence (PyStr.strip content) = false ->
        clean_dsl_output content = PyStr.strip content).
Proof.
  split.
  - intros lang body Hlang. unfold clean_dsl_output.
    assert (Hstrip : PyStr.strip (fence +:+ lang +:+ nl +:+ body +:+ nl +:+ fence)
                     = fence +:+ lang +:+ nl +:+ body +:+ nl +:+ fence).
    { replace (fence +:+ lang +:+ nl +:+ body +:+ nl +:+ fence)
        with (fence +:+ (lang +:+ nl +:+ body +:+ nl) +:+ fence)
        by (rewrite !append_assoc; reflexivity).
      apply strip_fenced. }
    rewrite Hstrip.
    rewrite prefix_app.
    replace (fence +:+ lang +:+ nl +:+ body +:+ nl +:+ fence)
      with ((fence +:+ lang) +:+ String PyStr.newline (body +:+ String PyStr.newline fence))
      by (unfold nl; rewrite !append_assoc, !append_cons, !append_nil_l; reflexivity).
    rewrite !split_app.
    rewrite (split_free PyStr.newline (fence +:+ lang))
      by (rewrite free_of_app; change (free_of _ fence) with true; exact Hlang).
    change (PyStr.split PyStr.newline fence) with [fence].
    rewrite (app_assoc [_] _ [fence]), last_last. cbn [app tail].
    change (PyStr.strip fence) with fence. rewrite String.eqb_refl.
    rewrite removelast_last. apply unlines_split.
  - intros content H. unfold clean_dsl_output. now rewrite H.
Qed.

Lemma fenced_script_unwrapped_witness :
  clean_dsl_output (fence +:+ "dsl" +:+ nl +:+ demo_script +:+ nl +:+ fence) = demo_script
  /\ clean_dsl_output "  FPS 12  " = "FPS 12".
Proof.
  destruct fenced_script_unwrapped as [Hfenced Hplain]. split.
  - apply Hfenced. reflexivity.
  - rewrite Hplain; reflexivity.
Defined.

(** ** [extract_color] *)

Lemma color_map_valid (entry : string * string) :
  In entry color_map -> validate_color (snd entry) = true.
Proof.
  unfold color_map. cbn [In]. intros H.
  repeat (destruct H as [<- | H]; [reflexivity|]). contradiction.
Qed.

(** X17. [extract_color] never returns an invalid colour: its result is
    empty or a colour that [validate_color] accepts, so the colour a
    fallback script is given, [extract_color(prompt) or default], always
    is one. The names are tried in the order of [color_map] and as
    substrings of the lowercased prompt: a prompt holding [red] anywhere,
    inside another word or after another colour, gives the red of the
    map. *)
Theorem extract_color_valid :
  (forall prompt,
      extract_color prompt = EmptyString \/ validate_color (extract_color prompt) = true)
  /\ (forall prompt default,
        validate_color default = true ->
        validate_color (or_default (extract_color prompt) default) = true)
  /\ (forall prompt,
        contains "red" (PyStr.lower prompt) = true -> extract_color prompt = "#FF4444").
Proof.
  assert (Hvalid : forall prompt,
             extract_color prompt = EmptyString
             \/ validate_color (extract_color prompt) = true).
  { intros prompt. unfold extract_color.
    destruct (find _ color_map) as [[name hex_val]|] eqn:Hfind; [|now left].
    right. apply find_some in Hfind as [Hin _]. apply (color_map_valid _ Hin). }
  split; [exact Hvalid|]. split.
  - intros prompt default Hdefault. unfold or_default.
    destruct (Hvalid prompt) as [-> | Hok]; [exact Hdefault|].
    destruct (PyStr.nonempty _); assumption.
  - intros prompt Hred. unfold extract_color, color_map. cbn [find fst]. now rewrite Hred.
Qed.

Lemma extract_color_valid_witness :
  extract_color "A blue ball on a coloured floor" = "#FF4444"
  /\ validate_color (or_default (extract_color "a ball") "#FF4444") = true.
Proof.
  destruct extract_color_valid as (_ & Hdefault & Hred). split.
  - apply Hred. vm_compute. reflexivity.
  - apply Hdefault. vm_compute. reflexivity.
Defined.

(** ** [extract_quoted_text] *)

Lemma until_quote_run (q : ascii) (t rest : string) :
  free_of (fun c => Ascii.eqb c q) t = true ->
  until_quote q (t +:+ String q rest) = (t, Some rest).
Proof.
  induction t as [|c t IH]; intros Ht.
  - rewrite append_nil_l. cbn [until_quote]. now rewrite Ascii.eqb_refl.
  - cbn [free_of] in Ht. apply andb_true_iff in Ht as [Hc Ht]. apply negb_true_iff in Hc.
    rewrite append_cons. cbn [until_quote]. now rewrite Hc, IH.
Qed.

Lemma search_quoted_skip (q : ascii) (pre s : string) :
  free_of (fun c => Ascii.eqb c q) pre = true ->
  search_quoted q (pre +:+ s) = search_quoted q s.
Proof.
  induction pre as [|c pre IH]; intros Hpre; [reflexivity|].
  cbn [free_of] in Hpre. apply andb_true_iff in Hpre as [Hc Hpre]. apply negb_true_iff in Hc.
  rewrite append_cons. cbn [search_quoted]. now rewrite Hc, IH.
Qed.

Lemma search_quoted_none (q : ascii) (s : string) :
  free_of (fun c => Ascii.eqb c q) s = true -> search_quoted q s = None.
Proof.
  intros Hs. rewrite <- (append_nil_r s). now rewrite search_quoted_skip.
Qed.

Lemma search_quoted_span (q : ascii) (pre t post : string) :
  free_of (fun c => Ascii.eqb c q) pre = true ->
  free_of (fun c => Ascii.eqb c q) t = true ->
  PyStr.nonempty t = true ->
  search_quoted q (pre +:+ String q (t +:+ String q post)) = Some t.
Proof.
  intros Hpre Ht Hne. rewrite search_quoted_skip by assumption.
  cbn [search_quoted]. rewrite Ascii.eqb_refl, until_quote_run by assumption.
  destruct t; [discriminate Hne | reflexivity].
Qed.

(** What [search_quoted] finds is not empty and holds no [q]. *)
Lemma search_quoted_found (q : ascii) (s t : string) :
  search_quoted q s = Some t ->
  PyStr.nonempty t = true /\ free_of (fun c => Ascii.eqb c q) t = true.
Proof.
  assert (Hrun : forall s run rest,
             until_quote q s = (run, rest) -> free_of (fun c => Ascii.eqb c q) run = true).
  { clear. induction s as [|c s IH]; intros run rest H; cbn [until_quote] in H.
    - now injection H as <- <-.
    - destruct (Ascii.eqb c q) eqn:Hc; [now injection H as <- <-|].
      destruct (until_quote q s) as [run' rest'] eqn:E. injection H as <- <-.
      cbn [free_of]. rewrite Hc. cbn [negb andb]. eapply IH. reflexivity. }
  induction s as [|c s IH]; cbn [search_quoted]; [discriminate|].
  destruct (Ascii.eqb c q); [|exact IH].
  destruct (until_quote q s) as [[|a run] [rest|]] eqn:E; try exact IH.
  intros [= <-]. split; [reflexivity|]. eapply Hrun, E.
Qed.

(** X18. [extract_quoted_text] returns what stands between the first
    double quote that is followed by at least one other character and the
    next double quote; the quotes are not paired, so after two quotes
    with nothing between them the text up to the next quote is taken. With no such span it
    returns the first one between single quotes, and the empty text when
    the prompt holds no quote of either kind. What it returns from double
    quotes holds no double quote. *)
Theorem first_quoted_span_extracted :
  (forall pre t post,
      free_of is_dquote pre = true -> free_of is_dquote t = true ->
      PyStr.nonempty t = true ->
      extract_quoted_text (pre +:+ dq +:+ t +:+ dq +:+ post) = t)
  /\ (forall pre t post,
        free_of is_dquote (pre +:+ t +:+ post) = true ->
        free_of is_squote pre = true -> free_of is_squote t = true ->
        PyStr.nonempty t = true ->
        extract_quoted_text (pre +:+ "'" +:+ t +:+ "'" +:+ post) = t)
  /\ (forall prompt,
        free_of is_dquote prompt = true -> free_of is_squote prompt = true ->
        extract_quoted_text prompt = EmptyString)
  /\ (forall prompt t,
        search_quoted PyStr.dquote prompt = Some t ->
        extract_quoted_text prompt = t /\ free_of is_dquote t = true).
Proof.
  split; [|split; [|split]].
  - intros pre t post Hpre Ht Hne. unfold extract_quoted_text.
    change (pre +:+ dq +:+ t +:+ dq +:+ post)
      with (pre +:+ String PyStr.dquote (t +:+ String PyStr.dquote post)).
    now rewrite (search_quoted_span PyStr.dquote).
  - intros pre t post Hd Hpre Ht Hne. unfold extract_quoted_text.
    rewrite !free_of_app in Hd.
    apply andb_true_iff in Hd as [Hd1 Hd]. apply andb_true_iff in Hd as [Hd2 Hd3].
    rewrite search_quoted_none.
    + change (pre +:+ "'" +:+ t +:+ "'" +:+ post)
        with (pre +:+ String "'" (t +:+ String "'" post)).
      now rewrite (search_quoted_span "'").
    + change (pre +:+ "'" +:+ t +:+ "'" +:+ post)
        with (pre +:+ String "'" (t +:+ String "'" post)).
      rewrite !free_of_app. cbn [free_of]. rewrite !free_of_app. cbn [free_of].
      fold is_dquote. rewrite Hd1, Hd2, Hd3. reflexivity.
  - intros prompt Hd Hs. unfold extract_quoted_text.
    now rewrite (search_quoted_none PyStr.dquote), (search_quoted_none "'").
  - intros prompt t H. unfold extract_quoted_text. rewrite H. split; [reflexivity|].
    eapply search_quoted_found, H.
Qed.

Lemma first_quoted_span_extracted_witness :
  extract_quoted_text ("a title " +:+ dq +:+ "Big News" +:+ dq +:+ " in red") = "Big News"
  /\ extract_quoted_text ("a title " +:+ dq +:+ dq +:+ " then " +:+ dq +:+ "Big News" +:+ dq)
     = " then "
  /\ extract_quoted_text "say 'hi there' twice" = "hi there"
  /\ extract_quoted_text "a red ball" = EmptyString.
Proof.
  destruct first_quoted_span_extracted as (Hdouble & Hsingle & Hnone & Hfound).
  split; [|split; [|split]].
  - apply (Hdouble "a title " "Big News" " in red"); reflexivity.
  - apply (Hfound _ " then "). vm_compute. reflexivity.
  - apply (Hsingle "say " "hi there" " twice"); reflexivity.
  - apply Hnone; reflexivity.
Defined.

(** ** The value that rounding keeps *)

Lemma iter_pos_shr_1_value (n : positive) :
  forall mrs, 0 <= shr_m mrs ->
    shr_m (SpecFloat.iter_pos shr_1 n mrs) * 2 ^ Zpos n <= shr_m mrs.
Proof.
  assert (Hone : forall mrs, 0 <= shr_m mrs -> shr_m (shr_1 mrs) * 2 <= shr_m mrs).
  { intros mrs H. rewrite shr_1_m by assumption.
    rewrite Z.div2_div. pose proof (Z.mul_div_le (shr_m mrs) 2 ltac:(lia)). lia. }
  induction n as [n IH|n IH|]; intros mrs H; cbn [SpecFloat.iter_pos].
  - pose proof (Hone mrs H) as E1.
    assert (H1 : 0 <= shr_m (shr_1 mrs))
      by (rewrite shr_1_m by assumption; apply Z.div2_nonneg; assumption).
    destruct (iter_pos_shr_1 n _ H1) as [H2 _].
    pose proof (IH _ H1) as E2. pose proof (IH _ H2) as E3.
    replace (Zpos n~1) with (Zpos n + Zpos n + 1) by lia.
    rewrite !Z.pow_add_r, Z.pow_1_r by lia.
    assert (0 < 2 ^ Zpos n) by (apply Z.pow_pos_nonneg; lia).
    set (a := shr_m (shr_1 mrs)) in *.
    set (c := shr_m (SpecFloat.iter_pos shr_1 n (SpecFloat.iter_pos shr_1 n _))) in *.
    set (b := shr_m (SpecFloat.iter_pos shr_1 n (shr_1 mrs))) in *.
    set (k := 2 ^ Zpos n) in *. clearbody a b c k.
    assert (c * k * k <= b * k) by nia. nia.
  - destruct (iter_pos_shr_1 n mrs H) as [H2 _].
    pose proof (IH _ H) as E1. pose proof (IH _ H2) as E2.
    replace (Zpos n~0) with (Zpos n + Zpos n) by lia. rewrite Z.pow_add_r by lia.
    assert (0 < 2 ^ Zpos n) by (apply Z.pow_pos_nonneg; lia).
    nia.
  - rewrite Z.pow_1_r. apply Hone. assumption.
Qed.

Lemma shr_fexp_value (m e : Z) (l : location) (mrs : shr_record) (e' : Z) :
  0 <= m ->
  shr_fexp 53 1024 m e l = (mrs, e') ->
  e <= e' /\ shr_m mrs * 2 ^ (e' - e) <= m.
Proof.
  intros Hm. unfold shr_fexp, shr.
  assert (Hrec : shr_m (shr_record_of_loc m l) = m) by (destruct l as [|[]]; reflexivity).
  change (fexp 53 1024 (Zdigits2 m + e)) with (Z.max (Zdigits2 m + e - 53) (-1074)).
  destruct (Z.max (Zdigits2 m + e - 53) (-1074) - e) as [|n|n] eqn:Hn; intros [= <- <-].
  - rewrite Hrec, Z.sub_diag. cbn. lia.
  - replace (e + Zpos n - e) with (Zpos n) by lia. split; [lia|].
    rewrite <- Hrec at 2. apply iter_pos_shr_1_value. rewrite Hrec. assumption.
  - rewrite Hrec, Z.sub_diag. cbn. lia.
Qed.

Lemma Zdigits2_above (m : Z) : 0 <= m -> m < 2 ^ Zdigits2 m.
Proof.
  destruct m as [|p|p]; cbn [Zdigits2]; intros H; [reflexivity | | lia].
  apply digits2_pos_spec.
Qed.

(** Rounding to nearest never carries a value below a power of two over
    that power. *)
Lemma binary_round_aux_at_most (s : bool) (m e : Z) (l : location) (B : Z) :
  0 <= m -> e <= 971 -> Zdigits2 m + e <= B -> -1074 <= B <= 1022 ->
  at_most B (binary_round_aux 53 1024 s m e l).
Proof.
  intros Hm He HB HBr. unfold binary_round_aux.
  destruct (shr_fexp 53 1024 m e l) as [mrs' e'] eqn:H1.
  pose proof (shr_fexp_value _ _ _ _ _ Hm H1) as [Hee' Hv'].
  apply shr_fexp_spec in H1 as (Hm' & He' & Hd'); [|assumption].
  pose proof (round_nearest_even_range (shr_m mrs') (loc_of_shr_record mrs')) as Hr.
  set (m1 := round_nearest_even _ _) in *.
  destruct (shr_fexp 53 1024 m1 e' loc_Exact) as [mrs'' e''] eqn:H2.
  pose proof (shr_fexp_value m1 e' loc_Exact mrs'' e'' ltac:(lia) H2) as [Hee'' Hv''].
  apply shr_fexp_spec in H2 as (Hm'' & He'' & Hd''); [|lia].
  pose proof (Zdigits2_nonneg m) as Hd.
  pose proof (Zdigits2_mono (shr_m mrs') m1 ltac:(lia)) as Hlo.
  pose proof (Zdigits2_succ (shr_m mrs') Hm') as Hsu.
  pose proof (Zdigits2_mono m1 (shr_m mrs' + 1) ltac:(lia)) as Hhi.
  pose proof (Zdigits2_above _ Hm') as Hab.
  assert (Hm1 : m1 <= 2 ^ (B - e')).
  { apply Z.le_trans with (2 ^ Zdigits2 (shr_m mrs')); [lia|].
    apply Z.pow_le_mono_r; lia. }
  destruct (shr_m mrs'') as [|p|p] eqn:Hp; [cbn; auto | | lia].
  cbn [Zdigits2] in Hd''.
  destruct (Z.leb_spec e'' (1024 - 53)) as [Hfin|Hinf]; [|lia].
  cbn [at_most]. split; [lia|].
  replace (e'' + 1074) with ((e'' - e') + (e' + 1074)) by lia.
  replace (B + 1074) with ((B - e') + (e' + 1074)) by lia.
  rewrite (Z.pow_add_r 2 (e'' - e')), (Z.pow_add_r 2 (B - e')) by lia.
  assert (0 < 2 ^ (e' + 1074)) by (apply Z.pow_pos_nonneg; lia).
  rewrite Z.mul_assoc. apply Z.mul_le_mono_nonneg_r; lia.
Qed.

(** The product of a number below [2^A] and one below [2^B] is at most
    [2^(A+B)], rounding included. *)
Lemma mul_at_most (A B : Z) (x y : spec_float) :
  below A x -> below B y -> -400 <= A <= 400 -> -400 <= B <= 400 ->
  at_most (A + B) (PyFloat.mul x y).
Proof.
  destruct x as [sx|sx| |sx mx ex], y as [sy|sy| |sy my ey]; cbn [below];
    try contradiction; try (intros; exact I).
  intros Hx Hy HA HB. unfold PyFloat.mul, SFmul.
  pose proof (Pos2Z.is_pos (digits2_pos mx)). pose proof (Pos2Z.is_pos (digits2_pos my)).
  pose proof (Zdigits2_mul (Zpos mx) (Zpos my) ltac:(lia) ltac:(lia)) as Hd.
  cbn [Zdigits2] in Hd. change (Zpos mx * Zpos my) with (Zpos (mx * my)) in Hd.
  cbn [Zdigits2] in Hd.
  apply binary_round_aux_at_most; cbn [Zdigits2]; lia.
Qed.

Lemma trunc_mag_at_most (m : positive) (e B : Z) :
  -1074 <= e -> Zpos m * 2 ^ (e + 1074) <= 2 ^ (B + 1074) -> 0 <= B ->
  PyFloat.trunc_mag m e <= 2 ^ B.
Proof.
  intros He Hv HB. unfold PyFloat.trunc_mag.
  assert (HB' : 0 < 2 ^ B) by (apply Z.pow_pos_nonneg; lia).
  destruct e as [|k|k].
  - rewrite Z.shiftl_0_r. rewrite (Z.pow_add_r 2 B 1074) in Hv by lia.
    cbn [Z.add] in Hv. assert (0 < 2 ^ 1074) by (apply Z.pow_pos_nonneg; lia). nia.
  - rewrite Z.shiftl_mul_pow2 by lia.
    rewrite (Z.pow_add_r 2 B 1074), (Z.pow_add_r 2 (Zpos k) 1074) in Hv by lia.
    assert (0 < 2 ^ 1074) by (apply Z.pow_pos_nonneg; lia). nia.
  - rewrite Z.shiftr_div_pow2 by lia.
    assert (Hk : 0 < 2 ^ Zpos k) by (apply Z.pow_pos_nonneg; lia).
    apply Z.div_le_upper_bound; [lia|].
    replace (B + 1074) with ((B + Zpos k) + (Z.neg k + 1074)) in Hv by lia.
    rewrite (Z.pow_add_r 2 (B + Zpos k)) in Hv by lia.
    rewrite (Z.pow_add_r 2 B (Zpos k)) in Hv by lia.
    assert (0 < 2 ^ (Z.neg k + 1074)) by (apply Z.pow_pos_nonneg; lia). nia.
Qed.

Lemma to_int_at_most (B : Z) (x : spec_float) :
  at_most B x -> 0 <= B -> exists n, PyFloat.to_int x = Ok n /\ Z.abs n <= 2 ^ B.
Proof.
  destruct x as [s|s| |s m e]; cbn [at_most PyFloat.to_int]; try contradiction.
  - intros _ HB. exists 0. split; [reflexivity|]. cbn.
    pose proof (Z.pow_pos_nonneg 2 B ltac:(lia) HB). lia.
  - intros [He Hv] HB. eexists. split; [reflexivity|].
    pose proof (trunc_mag_at_most m e B He Hv HB).
    pose proof (trunc_mag_bound m e (Z.max 0 (Zpos (digits2_pos m) + e)) ltac:(lia) ltac:(lia)).
    destruct s; cbn [cond_Zopp]; lia.
Qed.

(** A frame rate within 1..24 is below 32 as a float. *)
Lemma fps_below_32 (fps : Z) : 1 <= fps <= MAX_FPS -> below 5 (PyFloat.of_int fps).
Proof.
  unfold MAX_FPS. intros H. destruct fps as [|p|p]; try lia.
  do 5 (try destruct p as [p|p|]; try lia); vm_compute; discriminate.
Qed.

(** [int(fps * duration)] of an accepted rate and duration is at most 256. *)
Lemma total_frames_at_most (spec : AnimationSpec) :
  1 <= fps spec <= MAX_FPS ->
  tame (duration spec) ->
  PyFloat.ltb PyFloat.zero (duration spec) = true ->
  PyFloat.leb (duration spec) MAX_DURATION = true ->
  exists t, total_frames_of spec = Ok t /\ t <= 256.
Proof.
  intros Hfps Ht Hpos Hle. unfold total_frames_of.
  destruct (to_int_at_most 8 (PyFloat.mul (PyFloat.of_int (fps spec)) (duration spec)))
    as (t & Ht' & Hb); [|lia|].
  - apply (mul_at_most 5 3); [now apply fps_below_32 | now apply duration_below | lia | lia].
  - exists t. split; [exact Ht'|]. change (2 ^ 8) with 256 in Hb. lia.
Qed.

(** ** Lines that [strip] and the tokenizer leave as they are *)

Lemma rstrip_by_clean (p : ascii -> bool) (s : string) :
  ends_clean p s = true -> PyStr.rstrip_by p s = s.
Proof.
  induction s as [|c s IH]; [discriminate|]. cbn [ends_clean PyStr.rstrip_by].
  destruct s as [|d s].
  - intros H. apply negb_true_iff in H. cbn. now rewrite H.
  - intros H. rewrite (IH H). reflexivity.
Qed.

Lemma strip_clean (s : string) :
  starts_clean PyStr.is_space s = true -> ends_clean PyStr.is_space s = true ->
  PyStr.strip s = s.
Proof.
  intros Hs He. unfold PyStr.strip, PyStr.strip_by.
  destruct s as [|c s]; [discriminate|]. cbn [starts_clean] in Hs.
  apply negb_true_iff in Hs. cbn [PyStr.lstrip_by]. rewrite Hs.
  now apply rstrip_by_clean.
Qed.

Lemma ends_clean_app (p : ascii -> bool) (a t : string) :
  ends_clean p t = true -> ends_clean p (a +:+ t) = true.
Proof.
  intros H. induction a as [|c a IH]; [exact H|].
  rewrite append_cons. cbn [ends_clean].
  destruct (a +:+ t) eqn:E; [discriminate IH | exact IH].
Qed.

Lemma ends_clean_free (p : ascii -> bool) (t : string) :
  PyStr.nonempty t = true -> free_of p t = true -> ends_clean p t = true.
Proof.
  induction t as [|c t IH]; [discriminate|]. intros _ H. cbn [free_of] in H.
  apply andb_true_iff in H as [Hc Ht]. cbn [ends_clean].
  destruct t as [|d t]; [exact Hc|]. now apply IH.
Qed.

Lemma free_of_weaken (p q : ascii -> bool) (s : string) :
  (forall c, q c = true -> p c = true) -> free_of p s = true -> free_of q s = true.
Proof.
  intros Hpq. induction s as [|c s IH]; [reflexivity|]. cbn [free_of].
  intros H. apply andb_true_iff in H as [Hc Hs]. rewrite (IH Hs), andb_true_r.
  apply negb_true_iff in Hc. apply negb_true_iff.
  destruct (q c) eqn:E; [|reflexivity]. rewrite (Hpq c E) in Hc. discriminate.
Qed.

Lemma token_parts (w : string) :
  is_token w = true ->
  PyStr.nonempty w = true
  /\ free_of PyStr.is_space w = true
  /\ free_of is_blank_or_dquote w = true
  /\ free_of is_dquote w = true
  /\ free_of is_newline w = true.
Proof.
  unfold is_token. intros H. apply andb_true_iff in H as [Hne Hfree].
  split; [exact Hne|].
  repeat split; (eapply free_of_weaken; [|exact Hfree]); intros c Hc;
    unfold is_space_or_dquote, is_blank_or_dquote, is_dquote, is_newline in *.
  - now rewrite Hc.
  - apply orb_true_iff in Hc as [Hc | Hc].
    + apply Ascii.eqb_eq in Hc as ->. reflexivity.
    + rewrite Hc. apply orb_true_r.
  - rewrite Hc. apply orb_true_r.
  - apply Ascii.eqb_eq in Hc as ->. reflexivity.
Qed.

Lemma token_ends_clean (a w : string) :
  is_token w = true -> ends_clean PyStr.is_space (a +:+ w) = true.
Proof.
  intros H. apply token_parts in H as (Hne & Hsp & _).
  apply ends_clean_app, ends_clean_free; assumption.
Qed.

(** ** The tokenizer on a line of words *)

Lemma tokenize_quoted (text rest : string) :
  free_of is_dquote text = true ->
  forall tokens current,
    tokenize_loop (text +:+ String PyStr.dquote rest) tokens current true
    = tokenize_loop rest (tokens ++ [current +:+ text]) EmptyString false.
Proof.
  induction text as [|c text IH]; intros Ht tokens current.
  - rewrite append_nil_l, append_nil_r. reflexivity.
  - cbn [free_of] in Ht. apply andb_true_iff in Ht as [Hc Ht].
    unfold is_dquote in Hc. apply negb_true_iff in Hc.
    rewrite append_cons. cbn [tokenize_loop]. rewrite Hc. cbn [andb negb].
    rewrite andb_false_r. rewrite (IH Ht). now rewrite append_assoc.
Qed.

Lemma token_is_word (w : string) : is_token w = true -> is_word w = true.
Proof.
  intros H. apply token_parts in H as (Hne & _ & Hw & _). unfold is_word.
  now rewrite Hne, Hw.
Qed.

Lemma token_starts_clean (w rest : string) :
  is_token w = true -> starts_clean PyStr.is_space (w +:+ rest) = true.
Proof.
  intros H. apply token_parts in H as (Hne & Hsp & _).
  destruct w as [|c w]; [discriminate|]. cbn [free_of] in Hsp.
  apply andb_true_iff in Hsp as [Hc _]. exact Hc.
Qed.

(** A line of tokens joined by single spaces starts and ends with a
    character [strip] keeps and holds no line break. *)
Lemma words_clean (ws : list string) :
  ws <> [] -> Forall (fun w => is_token w = true) ws ->
  starts_clean PyStr.is_space (String.concat " " ws) = true
  /\ ends_clean PyStr.is_space (String.concat " " ws) = true
  /\ free_of is_newline (String.concat " " ws) = true.
Proof.
  induction ws as [|w ws IH]; [contradiction|]. intros _ Hws.
  apply Forall_cons in Hws as [Hw Hws]. destruct ws as [|w' ws].
  - cbn [String.concat]. rewrite <- (append_nil_r w) at 1.
    split; [now apply token_starts_clean|]. split.
    + now apply (token_ends_clean EmptyString).
    + now apply token_parts in Hw.
  - destruct (IH ltac:(discriminate) Hws) as (_ & He & Hn).
    change (String.concat " " (w :: w' :: ws))
      with (w +:+ String " " (String.concat " " (w' :: ws))).
    split; [now apply token_starts_clean|]. split.
    + apply ends_clean_app. cbn [ends_clean].
      destruct (String.concat " " (w' :: ws)); [discriminate He | exact He].
    + rewrite free_of_app. cbn [free_of]. rewrite Hn.
      apply token_parts in Hw as (_ & _ & _ & _ & ->). reflexivity.
Qed.

(** The command and the arguments of a line of tokens. *)
Lemma command_of_words (w : string) (args : list string) :
  Forall (fun w => is_token w = true) (w :: args) ->
  PyStr.startswith "#" w = false ->
  command_of_line (String.concat " " (w :: args)) = Some (PyStr.upper w, args).
Proof.
  intros Hws Hhash. destruct (words_clean (w :: args) ltac:(discriminate) Hws) as (Hs & He & _).
  unfold command_of_line. rewrite (strip_clean _ Hs He).
  assert (Hline : exists c r, String.concat " " (w :: args) = String c r
                              /\ Ascii.eqb c "#" = false).
  { pose proof (Forall_inv Hws) as Hw. apply token_parts in Hw as (Hne & _).
    destruct w as [|c w]; [discriminate|]. exists c.
    destruct args; cbn [String.concat]; rewrite ?append_cons; eauto. }
  destruct Hline as (c & r & Hline & Hc).
  unfold tokenize_line. rewrite tokenize_loop_words by (eapply Forall_impl; [exact Hws|]; apply token_is_word).
  rewrite Hline. cbn [PyStr.nonempty PyStr.startswith negb orb]. rewrite Hc. reflexivity.
Qed.

(** The same for a TEXT line that gives its text in double quotes. *)
Lemma command_of_text_line (text : string) (ws : list string) :
  free_of is_dquote text = true ->
  ws <> [] -> Forall (fun w => is_token w = true) ws ->
  command_of_line
    ("TEXT " +:+ String PyStr.dquote (text +:+ String PyStr.dquote (String " " (String.concat " " ws))))
  = Some ("TEXT", text :: ws).
Proof.
  intros Ht Hne Hws. destruct (words_clean ws Hne Hws) as (_ & He & _).
  set (quoted := String PyStr.dquote (text +:+ _)).
  change ("TEXT " +:+ quoted) with ("TEXT" +:+ String " " quoted).
  set (rest := String " " quoted).
  unfold command_of_line. rewrite strip_clean; [|reflexivity|].
  - change (negb (PyStr.nonempty ("TEXT" +:+ rest)) || PyStr.startswith "#" ("TEXT" +:+ rest))
      with false. cbv iota.
    unfold tokenize_line. rewrite (tokenize_loop_word "TEXT" rest _ _ eq_refl), append_nil_l.
    unfold rest, quoted. cbn [tokenize_loop].
    change (Ascii.eqb " " PyStr.dquote) with false. rewrite !Ascii.eqb_refl.
    cbn [andb negb PyStr.nonempty app].
    rewrite (tokenize_quoted _ _ Ht), append_nil_l. cbn [tokenize_loop].
    change (Ascii.eqb " " PyStr.dquote) with false. rewrite Ascii.eqb_refl.
    cbn [andb negb PyStr.nonempty app].
    rewrite tokenize_loop_words by (eapply Forall_impl; [exact Hws|]; apply token_is_word).
    reflexivity.
  - apply ends_clean_app. unfold rest, quoted. cbn [ends_clean].
    destruct (text +:+ _) eqn:E; [destruct text; discriminate E|]. rewrite <- E.
    apply ends_clean_app. cbn [ends_clean].
    destruct (String.concat " " ws); [discriminate He | exact He].
Qed.

(** ** Scripts written line by line *)

Lemma concat_snoc_empty (sep : string) (lines : list string) :
  lines <> [] ->
  String.concat sep (lines ++ [EmptyString]) = String.concat sep lines +:+ sep.
Proof.
  induction lines as [|l lines IH]; [contradiction|]. intros _.
  destruct lines as [|l' lines].
  - cbn. now rewrite append_nil_r.
  - cbn [app String.concat] in *. rewrite IH by discriminate.
    now rewrite !append_assoc.
Qed.

Lemma rstrip_by_drop (p : ascii -> bool) (s : string) (c : ascii) :
  p c = true -> PyStr.rstrip_by p (s +:+ String c EmptyString) = PyStr.rstrip_by p s.
Proof.
  intros Hc. induction s as [|x s IH].
  - rewrite append_nil_l. cbn [PyStr.rstrip_by]. now rewrite Hc.
  - rewrite append_cons. cbn [PyStr.rstrip_by]. now rewrite IH.
Qed.

Lemma split_unlines (lines : list string) :
  lines <> [] -> Forall (fun l => free_of is_newline l = true) lines ->
  PyStr.split PyStr.newline (unlines lines) = lines.
Proof.
  unfold unlines. induction lines as [|l lines IH]; [contradiction|]. intros _ H.
  apply Forall_cons in H as [Hl H]. destruct lines as [|l' lines].
  - cbn [String.concat]. now apply split_free.
  - change (String.concat (String PyStr.newline "") (l :: l' :: lines))
      with (l +:+ String PyStr.newline (String.concat (String PyStr.newline "") (l' :: lines))).
    rewrite split_app, IH by (discriminate || assumption).
    now rewrite (split_free _ _ Hl).
Qed.

Lemma unlines_clean (lines : list string) :
  lines <> [] ->
  Forall (fun l => starts_clean PyStr.is_space l = true
                   /\ ends_clean PyStr.is_space l = true
                   /\ free_of is_newline l = true) lines ->
  starts_clean PyStr.is_space (unlines lines) = true
  /\ ends_clean PyStr.is_space (unlines lines) = true.
Proof.
  unfold unlines. induction lines as [|l lines IH]; [contradiction|]. intros _ H.
  apply Forall_cons in H as [(Hs & He & _) H]. destruct lines as [|l' lines].
  - cbn [String.concat]. auto.
  - destruct (IH ltac:(discriminate) H) as [_ He'].
    change (String.concat (String PyStr.newline "") (l :: l' :: lines))
      with (l +:+ String PyStr.newline (String.concat (String PyStr.newline "") (l' :: lines))).
    split.
    + destruct l; [discriminate Hs | exact Hs].
    + apply ends_clean_app. cbn [ends_clean].
      destruct (String.concat _ (l' :: lines)); [discriminate He' | exact He'].
Qed.

(** What [parse_dsl] iterates over when a script is written line by line,
    each line ended by a line break. *)
Lemma script_lines_unlines (lines : list string) :
  lines <> [] ->
  Forall (fun l => starts_clean PyStr.is_space l = true
                   /\ ends_clean PyStr.is_space l = true
                   /\ free_of is_newline l = true) lines ->
  script_lines (unlines (lines ++ [EmptyString])) = lines.
Proof.
  intros Hne H. destruct (unlines_clean lines Hne H) as [Hs He].
  unfold script_lines. unfold unlines at 1. rewrite concat_snoc_empty by assumption.
  fold (unlines lines).
  replace (PyStr.strip (unlines lines +:+ String PyStr.newline "")) with (unlines lines).
  - apply split_unlines; [assumption|]. eapply Forall_impl; [exact H|]. now intros l (_ & _ & Hl).
  - unfold PyStr.strip, PyStr.strip_by.
    destruct (unlines lines) as [|c r] eqn:E; [discriminate Hs|].
    cbn [starts_clean] in Hs. apply negb_true_iff in Hs.
    rewrite append_cons. cbn [PyStr.lstrip_by]. rewrite Hs.
    rewrite <- append_cons, rstrip_by_drop by reflexivity.
    symmetry. now apply rstrip_by_clean.
Qed.

(** ** Commands key by key *)

Lemma parse_line_effect (line_num : nat) (line : string) (st st' : parse_state)
    (command : string) (args : list string) :
  command_of_line line = Some (command, args) ->
  str_in command ALLOWED_COMMANDS = true ->
  line_effect line_num st command args st' ->
  parse_line line_num line st = Ok st'.
Proof. intros Hc Ha He. apply parse_line_Ok. rewrite Hc. auto. Qed.

Lemma clamp_inline_duration_keeps (d : spec_float) :
  PyFloat.ltb PyFloat.zero d = true -> PyFloat.ltb MAX_DURATION d = false ->
  clamp_inline_duration d = d.
Proof.
  intros Hpos Hmax. unfold clamp_inline_duration, PyFloat.max, PyFloat.min.
  now rewrite Hmax, Hpos.
Qed.

Lemma shape_key_id (n : nat) (v : string) (rest : list string) (cmd : ShapeCommand.t) :
  shape_loop n ("ID" :: v :: rest) cmd = shape_loop n rest (ShapeCommand.set_obj_id cmd v).
Proof. reflexivity. Qed.

Lemma shape_key_at (n : nat) (v : string) (rest : list string) (cmd : ShapeCommand.t)
    (x y : Z) :
  parse_coords v = Ok (Some (x, y)) ->
  shape_loop n ("AT" :: v :: rest) cmd = shape_loop n rest (ShapeCommand.set_pos cmd x y).
Proof.
  intros H.
  change (shape_loop n ("AT" :: v :: rest) cmd)
    with (p ← parse_coords v;
          shape_loop n rest (match p with
                             | Some (x, y) => ShapeCommand.set_pos cmd x y
                             | None => cmd
                             end)).
  now rewrite H.
Qed.

Lemma shape_key_radius (n : nat) (v : string) (rest : list string) (cmd : ShapeCommand.t)
    (r : Z) :
  PyStr.to_int v = Some r ->
  shape_loop n ("RADIUS" :: v :: rest) cmd
  = shape_loop n rest (ShapeCommand.set_radius cmd (Z.min (Z.max r 1) 500)).
Proof.
  intros H.
  change (shape_loop n ("RADIUS" :: v :: rest) cmd)
    with (r ← or_value_error (PyStr.to_int v);
          shape_loop n rest (ShapeCommand.set_radius cmd (Z.min (Z.max r 1) 500))).
  now rewrite H.
Qed.

Lemma shape_key_width (n : nat) (v : string) (rest : list string) (cmd : ShapeCommand.t)
    (w : Z) :
  PyStr.to_int v = Some w ->
  shape_loop n ("WIDTH" :: v :: rest) cmd
  = shape_loop n rest (ShapeCommand.set_width cmd (Z.min (Z.max w 1) MAX_WIDTH)).
Proof.
  intros H.
  change (shape_loop n ("WIDTH" :: v :: rest) cmd)
    with (w ← or_value_error (PyStr.to_int v);
          shape_loop n rest (ShapeCommand.set_width cmd (Z.min (Z.max w 1) MAX_WIDTH))).
  now rewrite H.
Qed.

Lemma shape_key_height (n : nat) (v : string) (rest : list string) (cmd : ShapeCommand.t)
    (h : Z) :
  PyStr.to_int v = Some h ->
  shape_loop n ("HEIGHT" :: v :: rest) cmd
  = shape_loop n rest (ShapeCommand.set_height cmd (Z.min (Z.max h 1) MAX_HEIGHT)).
Proof.
  intros H.
  change (shape_loop n ("HEIGHT" :: v :: rest) cmd)
    with (h ← or_value_error (PyStr.to_int v);
          shape_loop n rest (ShapeCommand.set_height cmd (Z.min (Z.max h 1) MAX_HEIGHT))).
  now rewrite H.
Qed.

Lemma shape_key_color (n : nat) (v : string) (rest : list string) (cmd : ShapeCommand.t) :
  validate_color v = true ->
  shape_loop n ("COLOR" :: v :: rest) cmd = shape_loop n rest (ShapeCommand.set_color cmd v).
Proof.
  intros H.
  change (shape_loop n ("COLOR" :: v :: rest) cmd)
    with (if negb (validate_color v)
          then Raise (DSLValidationError (InvalidColor n v))
          else shape_loop n rest (ShapeCommand.set_color cmd v)).
  now rewrite H.
Qed.

Lemma shape_key_move_to (n : nat) (w : string) (rest : list string) (cmd : ShapeCommand.t)
    (xy : Z * Z) :
  parse_coords w = Ok (Some xy) ->
  shape_loop n ("MOVE" :: "TO" :: w :: rest) cmd
  = shape_loop n rest (ShapeCommand.set_move_to cmd xy).
Proof.
  intros H.
  change (shape_loop n ("MOVE" :: "TO" :: w :: rest) cmd)
    with (p ← parse_coords w;
          shape_loop n rest (match p with
                             | Some xy => ShapeCommand.set_move_to cmd xy
                             | None => cmd
                             end)).
  now rewrite H.
Qed.

Lemma shape_key_dur (n : nat) (v : string) (rest : list string) (cmd : ShapeCommand.t)
    (d : spec_float) :
  PyStr.to_float v = Some d ->
  shape_loop n ("DUR" :: v :: rest) cmd
  = shape_loop n rest (ShapeCommand.set_move_duration cmd (clamp_inline_duration d)).
Proof.
  intros H.
  change (shape_loop n ("DUR" :: v :: rest) cmd)
    with (d ← or_value_error (PyStr.to_float v);
          shape_loop n rest (ShapeCommand.set_move_duration cmd (clamp_inline_duration d))).
  now rewrite H.
Qed.

Lemma text_key_at (n : nat) (v : string) (rest : list string) (cmd : TextCommand.t)
    (x y : Z) :
  parse_coords v = Ok (Some (x, y)) ->
  text_loop n ("AT" :: v :: rest) cmd = text_loop n rest (TextCommand.set_pos cmd x y).
Proof.
  intros H.
  change (text_loop n ("AT" :: v :: rest) cmd)
    with (p ← parse_coords v;
          text_loop n rest (match p with
                            | Some (x, y) => TextCommand.set_pos cmd x y
                            | None => cmd
                            end)).
  now rewrite H.
Qed.

Lemma text_key_size (n : nat) (v : string) (rest : list string) (cmd : TextCommand.t)
    (s : Z) :
  PyStr.to_int v = Some s ->
  text_loop n ("SIZE" :: v :: rest) cmd
  = text_loop n rest (TextCommand.set_size cmd (Z.min (Z.max s 8) 200)).
Proof.
  intros H.
  change (text_loop n ("SIZE" :: v :: rest) cmd)
    with (s ← or_value_error (PyStr.to_int v);
          text_loop n rest (TextCommand.set_size cmd (Z.min (Z.max s 8) 200))).
  now rewrite H.
Qed.

Lemma text_key_color (n : nat) (v : string) (rest : list string) (cmd : TextCommand.t) :
  validate_color v = true ->
  text_loop n ("COLOR" :: v :: rest) cmd = text_loop n rest (TextCommand.set_color cmd v).
Proof.
  intros H.
  change (text_loop n ("COLOR" :: v :: rest) cmd)
    with (if negb (validate_color v)
          then Raise (DSLValidationError (InvalidColor n v))
          else text_loop n rest (TextCommand.set_color cmd v)).
  now rewrite H.
Qed.

Lemma text_key_move_to (n : nat) (w : string) (rest : list string) (cmd : TextCommand.t)
    (xy : Z * Z) :
  parse_coords w = Ok (Some xy) ->
  text_loop n ("MOVE" :: "TO" :: w :: rest) cmd
  = text_loop n rest (TextCommand.set_move_to cmd xy).
Proof.
  intros H.
  change (text_loop n ("MOVE" :: "TO" :: w :: rest) cmd)
    with (p ← parse_coords w;
          text_loop n rest (match p with
                            | Some xy => TextCommand.set_move_to cmd xy
                            | None => cmd
                            end)).
  now rewrite H.
Qed.

Lemma text_key_dur (n : nat) (v : string) (rest : list string) (cmd : TextCommand.t)
    (d : spec_float) :
  PyStr.to_float v = Some d ->
  text_loop n ("DUR" :: v :: rest) cmd
  = text_loop n rest (TextCommand.set_move_duration cmd (clamp_inline_duration d)).
Proof.
  intros H.
  change (text_loop n ("DUR" :: v :: rest) cmd)
    with (d ← or_value_error (PyStr.to_float v);
          text_loop n rest (TextCommand.set_move_duration cmd (clamp_inline_duration d))).
  now rewrite H.
Qed.

(** ** The fallback scripts *)

Lemma str_of_int_fps (k : Z) :
  1 <= k <= MAX_FPS ->
  PyStr.to_int (str_of_int k) = Some k /\ is_token (str_of_int k) = true.
Proof.
  unfold MAX_FPS. intros H. destruct k as [|p|p]; try lia.
  do 5 (try destruct p as [p|p|]; try lia); vm_compute; auto.
Qed.

Lemma fallback_color (prompt default : string) :
  validate_color default = true -> is_token default = true ->
  validate_color (or_default (extract_color prompt) default) = true
  /\ is_token (or_default (extract_color prompt) default) = true.
Proof.
  intros Hv Ht. unfold or_default, extract_color.
  destruct (List.find _ color_map) as [[name hex_val]|] eqn:E; [|cbn; auto].
  apply find_some in E as [Hin _]. unfold color_map in Hin. cbn [In] in Hin.
  repeat (destruct Hin as [[= <- <-] | Hin]; [cbn; auto|]). contradiction.
Qed.

(** The three lines every template starts with, then the lines of its
    objects. *)
Lemma header_accepted (bg : string) (k : Z) (ds : string) (d : spec_float)
    (object_lines : list string) (objs : list scene_object) (n : nat) :
  validate_color bg = true -> is_token bg = true ->
  1 <= k <= MAX_FPS ->
  PyStr.to_float ds = Some d -> is_token ds = true ->
  PyFloat.ltb PyFloat.zero d = true -> PyFloat.ltb MAX_DURATION d = false ->
  Forall (fun l => starts_clean PyStr.is_space l = true
                   /\ ends_clean PyStr.is_space l = true
                   /\ free_of is_newline l = true) object_lines ->
  parse_lines 4 object_lines (mkState (mkSpec bg k d [] []) 0)
  = Ok (mkState (mkSpec bg k d objs []) n) ->
  parse_dsl (unlines (("BACKGROUND " +:+ bg) :: ("FPS " +:+ str_of_int k)
                      :: ("DURATION " +:+ ds) :: object_lines ++ [EmptyString]))
  = Ok (mkSpec bg k d objs []).
Proof.
  intros Hbg Hbgt Hk Hds Hdst Hpos Hmax Hclean Hobjs.
  destruct (str_of_int_fps k Hk) as [Hint Hkt].
  set (l1 := "BACKGROUND " +:+ bg). set (l2 := "FPS " +:+ str_of_int k).
  set (l3 := "DURATION " +:+ ds).
  assert (H1 : l1 = String.concat " " ["BACKGROUND"; bg]) by reflexivity.
  assert (H2 : l2 = String.concat " " ["FPS"; str_of_int k]) by reflexivity.
  assert (H3 : l3 = String.concat " " ["DURATION"; ds]) by reflexivity.
  assert (Hlines : script_lines (unlines ((l1 :: l2 :: l3 :: object_lines) ++ [EmptyString]))
                   = l1 :: l2 :: l3 :: object_lines).
  { apply script_lines_unlines; [discriminate|].
    repeat (apply Forall_cons; split); try exact Hclean.
    - rewrite H1. apply words_clean; [discriminate|]. repeat constructor; assumption.
    - rewrite H2. apply words_clean; [discriminate|]. repeat constructor; assumption.
    - rewrite H3. apply words_clean; [discriminate|]. repeat constructor; assumption. }
  assert (Hloop : parse_lines 1 (l1 :: l2 :: l3 :: object_lines) initial_state
                  = Ok (mkState (mkSpec bg k d objs []) n)).
  { pose (s1 := mkState (set_background default_spec bg) 0).
    pose (s2 := mkState (set_fps (st_spec s1) k) 0).
    pose (s3 := mkState (set_duration (st_spec s2) d) 0).
    assert (Hleb : PyFloat.leb d PyFloat.zero = false)
      by (destruct d as [s|[]| |[] m e]; try discriminate Hpos; reflexivity).
    cbn [parse_lines].
    rewrite (parse_line_effect 1 l1 initial_state s1 "BACKGROUND" [bg]), bind_Ok.
    - rewrite (parse_line_effect 2 l2 s1 s2 "FPS" [str_of_int k]), bind_Ok.
      + rewrite (parse_line_effect 3 l3 s2 s3 "DURATION" [ds]), bind_Ok.
        * exact Hobjs.
        * rewrite H3. apply (command_of_words "DURATION" [ds]); [|reflexivity].
          repeat constructor; assumption.
        * reflexivity.
        * exact (eff_duration 3 s2 [ds] d Hds Hleb Hmax).
      + rewrite H2. apply (command_of_words "FPS" [str_of_int k]); [|reflexivity].
        repeat constructor; assumption.
      + reflexivity.
      + exact (eff_fps 2 s1 [str_of_int k] k Hint Hk).
    - rewrite H1. apply (command_of_words "BACKGROUND" [bg]); [|reflexivity].
      repeat constructor; assumption.
    - reflexivity.
    - exact (eff_background 1 initial_state [bg] bg eq_refl Hbg). }
  change ((l1 :: l2 :: l3 :: object_lines) ++ [""])
    with (l1 :: l2 :: l3 :: object_lines ++ [""]) in Hlines.
  change (parse_dsl ?s)
    with (st ← parse_lines 1 (script_lines s) initial_state; check_frames (st_spec st)).
  rewrite Hlines, Hloop, bind_Ok. cbn [st_spec]. unfold check_frames.
  destruct (total_frames_at_most (mkSpec bg k d objs [])) as (t & -> & Ht); cbn [fps duration].
  - exact Hk.
  - eapply to_float_tame, Hds.
  - exact Hpos.
  - unfold PyFloat.leb, PyFloat.ltb, SFleb, SFltb in *.
    rewrite (SFcompare_antisym d MAX_DURATION) in Hmax.
    destruct (SFcompare d MAX_DURATION) as [[]|] eqn:E; try reflexivity; try discriminate Hmax.
    apply SFcompare_None in E as [-> | E]; [discriminate Hpos | discriminate E].
  - rewrite bind_Ok. destruct (Z.ltb_spec MAX_FRAMES t) as [Hover|_]; [|reflexivity].
    unfold MAX_FRAMES in Hover. lia.
Qed.

Lemma text_line_clean (text : string) (ws : list string) :
  free_of is_newline text = true ->
  ws <> [] -> Forall (fun w => is_token w = true) ws ->
  let line := "TEXT " +:+ String PyStr.dquote
                (text +:+ String PyStr.dquote (String " " (String.concat " " ws))) in
  starts_clean PyStr.is_space line = true
  /\ ends_clean PyStr.is_space line = true
  /\ free_of is_newline line = true.
Proof.
  intros Ht Hne Hws line. destruct (words_clean ws Hne Hws) as (_ & He & Hn).
  split; [reflexivity|]. split.
  - apply ends_clean_app. cbn [ends_clean].
    destruct (text +:+ _) eqn:E; [destruct text; discriminate E|]. rewrite <- E.
    apply ends_clean_app. cbn [ends_clean].
    destruct (String.concat " " ws); [discriminate He | exact He].
  - unfold line. rewrite free_of_app. cbn [free_of]. rewrite free_of_app. cbn [free_of].
    rewrite Ht, Hn. reflexivity.
Qed.

(** A TEXT line with its text in double quotes adds the command that
    [parse_text_command] makes of its tokens. *)
Lemma text_line_accepted (n : nat) (st : parse_state) (text : string) (ws : list string)
    (cmd : TextCommand.t) :
  free_of is_dquote text = true ->
  ws <> [] -> Forall (fun w => is_token w = true) ws ->
  parse_text_command (text :: ws) n = Ok cmd ->
  (object_count st < MAX_OBJECTS)%nat ->
  parse_line n ("TEXT " +:+ String PyStr.dquote
                  (text +:+ String PyStr.dquote (String " " (String.concat " " ws)))) st
  = Ok (mkState (append_object (st_spec st) (Text cmd)) (S (object_count st))).
Proof.
  intros Ht Hne Hws Hcmd Hcount.
  apply (parse_line_effect n _ st _ "TEXT" (text :: ws)).
  - now apply command_of_text_line.
  - reflexivity.
  - now apply eff_text.
Qed.

Lemma shape_line_accepted (n : nat) (st : parse_state) (ws : list string)
    (cmd : ShapeCommand.t) :
  Forall (fun w => is_token w = true) ws ->
  parse_shape_command ws n = Ok cmd ->
  (object_count st < MAX_OBJECTS)%nat ->
  parse_line n (String.concat " " ("SHAPE" :: ws)) st
  = Ok (mkState (append_object (st_spec st) (Shape cmd)) (S (object_count st))).
Proof.
  intros Hws Hcmd Hcount.
  apply (parse_line_effect n _ st _ "SHAPE" ws).
  - apply (command_of_words "SHAPE" ws); [|reflexivity]. now constructor.
  - reflexivity.
  - now apply eff_shape.
Qed.

Lemma fallback_duration (duration : spec_float) :
  PyFloat.ltb PyFloat.zero duration = true ->
  let d := PyFloat.min duration (PyFloat.of_int 6) in
  PyFloat.ltb PyFloat.zero d = true /\ PyFloat.ltb MAX_DURATION d = false.
Proof.
  intros Hpos d. unfold d, PyFloat.min. fold MAX_DURATION.
  destruct (PyFloat.ltb MAX_DURATION duration) eqn:E; [split; reflexivity | auto].
Qed.

Ltac all_tokens :=
  repeat (constructor; [first [assumption | reflexivity]|]); constructor.

Lemma circle_template (n : nat) (id at_ radius color to_ ds : string) (d : spec_float)
    (x y r : Z) (target : Z * Z) :
  parse_coords at_ = Ok (Some (x, y)) -> PyStr.to_int radius = Some r ->
  validate_color color = true -> parse_coords to_ = Ok (Some target) ->
  PyStr.to_float ds = Some d ->
  exists cmd,
    parse_shape_command
      ["CIRCLE"; "ID"; id; "AT"; at_; "RADIUS"; radius; "COLOR"; color;
       "MOVE"; "TO"; to_; "DUR"; ds; "EASE"; "linear"] n = Ok cmd
    /\ ShapeCommand.move_to cmd = Some target
    /\ ShapeCommand.move_duration cmd = clamp_inline_duration d.
Proof.
  intros Hat Hr Hc Hto Hds. eexists. split.
  - unfold parse_shape_command.
    change (negb (str_in (PyStr.upper "CIRCLE") ALLOWED_SHAPE_TYPES)) with false. cbv iota.
    rewrite shape_key_id, (shape_key_at _ _ _ _ _ _ Hat), (shape_key_radius _ _ _ _ _ Hr),
      (shape_key_color _ _ _ _ Hc), (shape_key_move_to _ _ _ _ _ Hto),
      (shape_key_dur _ _ _ _ _ Hds).
    reflexivity.
  - split; reflexivity.
Qed.

Lemma rect_template (n : nat) (id at_ width height color to_ ds : string) (d : spec_float)
    (x y w h : Z) (target : Z * Z) :
  parse_coords at_ = Ok (Some (x, y)) ->
  PyStr.to_int width = Some w -> PyStr.to_int height = Some h ->
  validate_color color = true -> parse_coords to_ = Ok (Some target) ->
  PyStr.to_float ds = Some d ->
  exists cmd,
    parse_shape_command
      ["RECT"; "ID"; id; "AT"; at_; "WIDTH"; width; "HEIGHT"; height; "COLOR"; color;
       "MOVE"; "TO"; to_; "DUR"; ds; "EASE"; "linear"] n = Ok cmd
    /\ ShapeCommand.move_to cmd = Some target
    /\ ShapeCommand.move_duration cmd = clamp_inline_duration d.
Proof.
  intros Hat Hw Hh Hc Hto Hds. eexists. split.
  - unfold parse_shape_command.
    change (negb (str_in (PyStr.upper "RECT") ALLOWED_SHAPE_TYPES)) with false. cbv iota.
    rewrite shape_key_id, (shape_key_at _ _ _ _ _ _ Hat), (shape_key_width _ _ _ _ _ Hw),
      (shape_key_height _ _ _ _ _ Hh), (shape_key_color _ _ _ _ Hc),
      (shape_key_move_to _ _ _ _ _ Hto), (shape_key_dur _ _ _ _ _ Hds).
    reflexivity.
  - split; reflexivity.
Qed.

Lemma text_template (n : nat) (text at_ size color to_ ds : string) (d : spec_float)
    (x y s : Z) (target : Z * Z) :
  parse_coords at_ = Ok (Some (x, y)) -> PyStr.to_int size = Some s ->
  validate_color color = true -> parse_coords to_ = Ok (Some target) ->
  PyStr.to_float ds = Some d ->
  exists cmd,
    parse_text_command
      [text; "AT"; at_; "SIZE"; size; "COLOR"; color; "MOVE"; "TO"; to_; "DUR"; ds] n = Ok cmd
    /\ TextCommand.text cmd = text
    /\ TextCommand.move_to cmd = Some target
    /\ TextCommand.move_duration cmd = clamp_inline_duration d.
Proof.
  intros Hat Hs Hc Hto Hds. eexists. split.
  - unfold parse_text_command.
    rewrite (text_key_at _ _ _ _ _ _ Hat), (text_key_size _ _ _ _ _ Hs),
      (text_key_color _ _ _ _ Hc), (text_key_move_to _ _ _ _ _ Hto),
      (text_key_dur _ _ _ _ _ Hds).
    reflexivity.
  - repeat split; reflexivity.
Qed.

(** The script that [generate_fallback_dsl] writes is accepted by
    [parse_dsl], whichever of the five templates the prompt selects. *)
Lemma fallback_accepted (float_str : spec_float -> string) (prompt : string)
    (duration : spec_float) (fps : Z) (d : spec_float) :
  d = PyFloat.min duration (PyFloat.of_int 6) ->
  PyStr.to_float (float_str d) = Some d ->
  is_token (float_str d) = true ->
  PyFloat.ltb PyFloat.zero duration = true ->
  1 <= fps ->
  free_of is_dquote (extract_quoted_text prompt) = true ->
  free_of is_newline (extract_quoted_text prompt) = true ->
  exists bg objs,
    parse_dsl (generate_fallback_dsl float_str prompt duration fps)
    = Ok (mkSpec bg (Z.min fps 24) d objs [])
    /\ (1 <= length objs <= 2)%nat.
Proof.
  intros Hd Hds Htok Hpos Hfps Hq Hn.
  destruct (fallback_duration duration Hpos) as [Hdpos Hdmax]. rewrite <- Hd in Hdpos, Hdmax.
  assert (Hk : 1 <= Z.min fps 24 <= MAX_FPS) by (unfold MAX_FPS; lia).
  pose proof (clamp_inline_duration_keeps d Hdpos Hdmax) as Hclamp.
  unfold generate_fallback_dsl. rewrite <- Hd. set (ds := float_str d) in *.
  set (k := Z.min fps 24) in *.
  set (st0 := fun bg => mkState (mkSpec bg k d [] []) 0).
  destruct (any_in ["text"; _; _; _; _; _] _).
  { set (text := or_default (extract_quoted_text prompt) "Hello World").
    assert (Htext : free_of is_dquote text = true /\ free_of is_newline text = true).
    { unfold text, or_default. destruct (PyStr.nonempty _); auto. }
    destruct Htext as [Htq Htn].
    set (ws := ["AT"; "180,150"; "SIZE"; "48"; "COLOR"; "#FFFFFF"; "MOVE"; "TO"; "280,150";
                "DUR"; ds]).
    assert (Hws : Forall (fun w => is_token w = true) ws) by all_tokens.
    destruct (text_template 4 text "180,150" "48" "#FFFFFF" "280,150" ds d 180 150 48 (280, 150))
      as (cmd & Hcmd & _); try reflexivity; try exact Hds.
    exists "#202030", [Text cmd].
    split; [|cbn; lia].
    apply (header_accepted "#202030" k ds d
             ["TEXT " +:+ String PyStr.dquote
                (text +:+ String PyStr.dquote (String " " (String.concat " " ws)))]
             [Text cmd] 1); try reflexivity; try assumption.
    - constructor; [|constructor]. now apply text_line_clean.
    - cbn [parse_lines]. change (mkState (mkSpec "#202030" k d [] []) 0) with (st0 "#202030").
      rewrite (text_line_accepted 4 (st0 "#202030") text ws cmd Htq ltac:(discriminate) Hws Hcmd)
        by (cbn; unfold MAX_OBJECTS; lia).
      reflexivity. }
  destruct (any_in ["ball"; _; _; _; _] _).
  { set (color := or_default (extract_color prompt) "#FF4444").
    destruct (fallback_color prompt "#FF4444" eq_refl eq_refl) as [Hcv Hct].
    fold color in Hcv, Hct.
    set (ws := ["CIRCLE"; "ID"; "ball"; "AT"; "50,180"; "RADIUS"; "35"; "COLOR"; color;
                "MOVE"; "TO"; "550,180"; "DUR"; ds; "EASE"; "linear"]).
    assert (Hws : Forall (fun w => is_token w = true) ws) by all_tokens.
    destruct (circle_template 4 "ball" "50,180" "35" color "550,180" ds d 50 180 35 (550, 180))
      as (cmd & Hcmd & _); try reflexivity; try assumption.
    exists "#1a1a2e", [Shape cmd].
    split; [|cbn; lia].
    apply (header_accepted "#1a1a2e" k ds d [String.concat " " ("SHAPE" :: ws)]
             [Shape cmd] 1); try reflexivity; try assumption.
    - constructor; [|constructor]. apply words_clean; [discriminate|].
      constructor; [reflexivity | exact Hws].
    - cbn [parse_lines]. change (mkState (mkSpec "#1a1a2e" k d [] []) 0) with (st0 "#1a1a2e").
      rewrite (shape_line_accepted 4 (st0 "#1a1a2e") ws cmd Hws Hcmd)
        by (cbn; unfold MAX_OBJECTS; lia).
      reflexivity. }
  destruct (any_in ["square"; _; _; _] _).
  { set (color := or_default (extract_color prompt) "#44FF44").
    destruct (fallback_color prompt "#44FF44" eq_refl eq_refl) as [Hcv Hct].
    fold color in Hcv, Hct.
    set (ws := ["RECT"; "ID"; "box"; "AT"; "50,130"; "WIDTH"; "80"; "HEIGHT"; "80";
                "COLOR"; color; "MOVE"; "TO"; "510,130"; "DUR"; ds; "EASE"; "linear"]).
    assert (Hws : Forall (fun w => is_token w = true) ws) by all_tokens.
    destruct (rect_template 4 "box" "50,130" "80" "80" color "510,130" ds d 50 130 80 80
                (510, 130)) as (cmd & Hcmd & _); try reflexivity; try assumption.
    exists "#1a1a2e", [Shape cmd].
    split; [|cbn; lia].
    apply (header_accepted "#1a1a2e" k ds d [String.concat " " ("SHAPE" :: ws)]
             [Shape cmd] 1); try reflexivity; try assumption.
    - constructor; [|constructor]. apply words_clean; [discriminate|].
      constructor; [reflexivity | exact Hws].
    - cbn [parse_lines]. change (mkState (mkSpec "#1a1a2e" k d [] []) 0) with (st0 "#1a1a2e").
      rewrite (shape_line_accepted 4 (st0 "#1a1a2e") ws cmd Hws Hcmd)
        by (cbn; unfold MAX_OBJECTS; lia).
      reflexivity. }
  destruct (any_in ["slide"; _; _] _).
  { set (ws1 := ["CIRCLE"; "ID"; "obj1"; "AT"; "100,100"; "RADIUS"; "25"; "COLOR"; "#FF6600";
                 "MOVE"; "TO"; "500,100"; "DUR"; ds; "EASE"; "linear"]).
    set (ws2 := ["RECT"; "ID"; "obj2"; "AT"; "100,220"; "WIDTH"; "50"; "HEIGHT"; "50";
                 "COLOR"; "#0066FF"; "MOVE"; "TO"; "500,220"; "DUR"; ds; "EASE"; "linear"]).
    assert (Hws1 : Forall (fun w => is_token w = true) ws1) by all_tokens.
    assert (Hws2 : Forall (fun w => is_token w = true) ws2) by all_tokens.
    destruct (circle_template 4 "obj1" "100,100" "25" "#FF6600" "500,100" ds d 100 100 25
                (500, 100)) as (c1 & Hc1 & _); try reflexivity; try assumption.
    destruct (rect_template 5 "obj2" "100,220" "50" "50" "#0066FF" "500,220" ds d 100 220 50 50
                (500, 220)) as (c2 & Hc2 & _); try reflexivity; try assumption.
    exists "#202040", [Shape c1; Shape c2].
    split; [|cbn; lia].
    apply (header_accepted "#202040" k ds d
             [String.concat " " ("SHAPE" :: ws1); String.concat " " ("SHAPE" :: ws2)]
             [Shape c1; Shape c2] 2); try reflexivity; try assumption.
    - constructor; [|constructor; [|constructor]]; (apply words_clean; [discriminate|]);
        (constructor; [reflexivity | assumption]).
    - cbn [parse_lines]. change (mkState (mkSpec "#202040" k d [] []) 0) with (st0 "#202040").
      rewrite (shape_line_accepted 4 (st0 "#202040") ws1 c1 Hws1 Hc1)
        by (cbn; unfold MAX_OBJECTS; lia).
      rewrite bind_Ok.
      rewrite (shape_line_accepted 5 _ ws2 c2 Hws2 Hc2) by (cbn; unfold MAX_OBJECTS; lia).
      reflexivity. }
  set (ws1 := ["CIRCLE"; "ID"; "ball"; "AT"; "100,180"; "RADIUS"; "30"; "COLOR"; "#6699FF";
               "MOVE"; "TO"; "540,180"; "DUR"; ds; "EASE"; "linear"]).
  set (ws2 := ["AT"; "220,50"; "SIZE"; "36"; "COLOR"; "#FFFFFF"]).
  assert (Hws1 : Forall (fun w => is_token w = true) ws1) by all_tokens.
  assert (Hws2 : Forall (fun w => is_token w = true) ws2) by all_tokens.
  destruct (circle_template 4 "ball" "100,180" "30" "#6699FF" "540,180" ds d 100 180 30
              (540, 180)) as (c1 & Hc1 & _); try reflexivity; try assumption.
  pose (c2 := TextCommand.mk "Animation" 220 50 36 "#FFFFFF" None PyFloat.zero "text_5").
  assert (Hc2 : parse_text_command ("Animation" :: ws2) 5 = Ok c2) by (vm_compute; reflexivity).
  exists "#1e1e2e", [Shape c1; Text c2].
  split; [|cbn; lia].
  apply (header_accepted "#1e1e2e" k ds d
           [String.concat " " ("SHAPE" :: ws1);
            "TEXT " +:+ String PyStr.dquote
              ("Animation" +:+ String PyStr.dquote (String " " (String.concat " " ws2)))]
           [Shape c1; Text c2] 2); try reflexivity; try assumption.
  - constructor; [|constructor; [|constructor]].
    + apply words_clean; [discriminate|]. constructor; [reflexivity | assumption].
    + now apply text_line_clean.
  - cbn [parse_lines]. change (mkState (mkSpec "#1e1e2e" k d [] []) 0) with (st0 "#1e1e2e").
    rewrite (shape_line_accepted 4 (st0 "#1e1e2e") ws1 c1 Hws1 Hc1)
      by (cbn; unfold MAX_OBJECTS; lia).
    rewrite bind_Ok.
    rewrite (text_line_accepted 5 _ "Animation" ws2 c2 eq_refl ltac:(discriminate) Hws2 Hc2)
      by (cbn; unfold MAX_OBJECTS; lia).
    reflexivity.
Qed.

(** X20. The script that [generate_fallback_dsl] writes is accepted by
    [parse_dsl] and rendered, whichever of the five templates the prompt
    selects. This holds for a duration above zero (so not NaN) and a frame
    rate of at least 1, when the text the f-string gives the duration
    [min(duration, 6.0)] is one token that [float] reads back as that
    number, and when the quoted text taken from the prompt holds no double
    quote and no line break (a text taken from single quotes can hold a
    double quote). The spec has the frame rate [min(fps, 24)], that
    duration, one or two objects and no standalone move, and every frame
    is rendered on a canvas of non-negative width and height. *)
Theorem fallback_script_renders :
  forall (textbbox : Z -> string -> Z * Z * Z * Z) (float_str : spec_float -> string)
         prompt duration fps d width height,
    d = PyFloat.min duration (PyFloat.of_int 6) ->
    PyStr.to_float (float_str d) = Some d ->
    is_token (float_str d) = true ->
    PyFloat.ltb PyFloat.zero duration = true ->
    1 <= fps ->
    free_of is_dquote (extract_quoted_text prompt) = true ->
    free_of is_newline (extract_quoted_text prompt) = true ->
    0 <= width -> 0 <= height ->
    exists bg objs frames,
      parse_dsl (generate_fallback_dsl float_str prompt duration fps)
      = Ok (mkSpec bg (Z.min fps 24) d objs [])
      /\ (1 <= length objs <= 2)%nat
      /\ compile_and_render textbbox (generate_fallback_dsl float_str prompt duration fps)
           width height = Ok (mkSpec bg (Z.min fps 24) d objs [], frames).
Proof.
  intros textbbox float_str prompt duration fps d width height Hd Hds Htok Hpos Hfps Hq Hn
    Hwidth Hheight.
  destruct (fallback_accepted float_str prompt duration fps d Hd Hds Htok Hpos Hfps Hq Hn)
    as (bg & objs & Hparse & Hobjs).
  destruct (compile_and_render_accepted textbbox _ width height _ Hparse Hwidth Hheight)
    as (r & frames & _ & _ & Hrun).
  exists bg, objs, frames. split; [exact Hparse|]. split; [exact Hobjs | exact Hrun].
Qed.

Lemma fallback_script_renders_witness :
  exists objs frames,
    compile_and_render demo_bbox
      (generate_fallback_dsl three_str "a red ball" (PyFloat.of_int 3) 30) 640 360
    = Ok (mkSpec "#1a1a2e" 24 (PyFloat.of_int 3) objs [], frames)
    /\ length objs = 1%nat.
Proof.
  destruct (fallback_script_renders demo_bbox three_str "a red ball" (PyFloat.of_int 3) 30
              (PyFloat.of_int 3) 640 360)
    as (bg & objs & frames & Hparse & _ & Hrun).
  - vm_compute. reflexivity.
  - vm_compute. reflexivity.
  - reflexivity.
  - vm_compute. reflexivity.
  - lia.
  - reflexivity.
  - reflexivity.
  - lia.
  - lia.
  - vm_compute in Hparse. injection Hparse as <- <-.
    eexists. exists frames. split; [exact Hrun | reflexivity].
Defined.

(** ** The translator and the pipeline from a prompt *)

Section SyncProperties.

Context (textbbox : Z -> string -> Z * Z * Z * Z) {bytes encoder_error : Type}
  (mimsave : list image -> Z -> encoder_error + bytes) (b64encode : bytes -> string)
  {database save_error : Type}
  (save_video_metadata : metadata bytes -> database -> database * option save_error)
  (float_str : spec_float -> string) (GROQ_API_KEY OPENAI_API_KEY : option string)
  {provider_error : Type}
  (groq_chat openai_chat : string -> outcome provider_error (option string))
  (clock : nat -> spec_float) (RENDER_TIMEOUT : spec_float).

(** Without a key the translator is the fallback, whatever model is
    asked for. *)
Lemma translate_without_keys (prompt : string) (duration : spec_float) (fps : Z)
    (model : string) :
  truthy GROQ_API_KEY = false -> truthy OPENAI_API_KEY = false ->
  translate_prompt_to_dsl float_str GROQ_API_KEY OPENAI_API_KEY groq_chat openai_chat
    prompt duration fps model
  = generate_fallback_dsl float_str prompt duration fps.
Proof.
  intros Hg Ho. unfold translate_prompt_to_dsl. rewrite Hg, Ho, !andb_false_r. reflexivity.
Qed.

(** The duration [generate_video_sync] works with. *)
Lemma sync_duration (duration : spec_float) :
  duration <> S754_nan ->
  PyFloat.ltb PyFloat.zero
    (PyFloat.min (PyFloat.max duration (PyFloat.dec 5 1)) MAX_DURATION) = true
  /\ PyFloat.ltb MAX_DURATION
       (PyFloat.min (PyFloat.max duration (PyFloat.dec 5 1)) MAX_DURATION) = false.
Proof.
  intros Hnan.
  assert (Hhalf : PyFloat.dec 5 1 = S754_finite false 4503599627370496 (-53))
    by (vm_compute; reflexivity).
  rewrite Hhalf. unfold PyFloat.max, PyFloat.min.
  destruct (PyFloat.ltb duration _) eqn:E1.
  - split; vm_compute; reflexivity.
  - destruct (PyFloat.ltb MAX_DURATION duration) eqn:E2; [split; vm_compute; reflexivity|].
    split; [|exact E2].
    destruct duration as [s|[]| |[] m e]; try reflexivity; try discriminate E1.
    contradiction.
Qed.

(** X21. Where the translator takes its script from. Without an API key
    it is the fallback script whatever model is asked for, and so it is for
    a model name other than [auto], [groq] and [openai]. In every case the
    script is the fallback script or the cleaned content of an answer of a
    service whose key is set: a service that raises, or answers without
    content, gives the fallback script. *)
Theorem translation_source :
  forall prompt duration fps model,
    (truthy GROQ_API_KEY = false -> truthy OPENAI_API_KEY = false ->
     translate_prompt_to_dsl float_str GROQ_API_KEY OPENAI_API_KEY groq_chat openai_chat
       prompt duration fps model
     = generate_fallback_dsl float_str prompt duration fps)
    /\ (String.eqb model "auto" = false -> String.eqb model "groq" = false ->
        String.eqb model "openai" = false ->
        translate_prompt_to_dsl float_str GROQ_API_KEY OPENAI_API_KEY groq_chat openai_chat
          prompt duration fps model
        = generate_fallback_dsl float_str prompt duration fps)
    /\ (translate_prompt_to_dsl float_str GROQ_API_KEY OPENAI_API_KEY groq_chat openai_chat
          prompt duration fps model
        = generate_fallback_dsl float_str prompt duration fps
        \/ exists content,
             ((truthy GROQ_API_KEY = true
               /\ groq_chat (user_message float_str prompt duration fps)
                  = Returns (Some content))
              \/ (truthy OPENAI_API_KEY = true
                  /\ openai_chat (user_message float_str prompt duration fps)
                     = Returns (Some content)))
             /\ translate_prompt_to_dsl float_str GROQ_API_KEY OPENAI_API_KEY groq_chat
                  openai_chat prompt duration fps model
                = clean_dsl_output content).
Proof.
  intros prompt duration fps model. split; [|split].
  - apply translate_without_keys.
  - intros Ha Hg Ho. unfold translate_prompt_to_dsl. now rewrite Ha, Hg, Ho.
  - assert (Hwith : forall (chat : string -> outcome provider_error (option string)) key,
               truthy key = true ->
               translate_with float_str chat prompt duration fps
               = generate_fallback_dsl float_str prompt duration fps
               \/ exists content,
                    (truthy key = true
                     /\ chat (user_message float_str prompt duration fps)
                        = Returns (Some content))
                    /\ translate_with float_str chat prompt duration fps
                       = clean_dsl_output content).
    { intros chat key Hkey. cbv beta delta [translate_with].
      destruct (chat _) as [[content|]|e]; eauto. }
    cbv beta zeta delta [translate_prompt_to_dsl translate_with_groq translate_with_openai].
    set (chosen := if String.eqb model "auto" then _ else model).
    destruct (String.eqb chosen "groq" && truthy GROQ_API_KEY) eqn:Eg.
    + apply andb_true_iff in Eg as [_ Hkey].
      destruct (Hwith groq_chat _ Hkey) as [-> | (content & Hc & ->)]; [now left|].
      right. exists content. split; [now left | reflexivity].
    + destruct (String.eqb chosen "openai" && truthy OPENAI_API_KEY) eqn:Eo; [|auto].
      apply andb_true_iff in Eo as [_ Hkey].
      destruct (Hwith openai_chat _ Hkey) as [-> | (content & Hc & ->)]; [now left|].
      right. exists content. split; [now right | reflexivity].
Qed.

(** X22. From a prompt to a video without an API key. For a duration
    that is not NaN, whatever frame rate and canvas are asked for, the
    script is the fallback script for the duration clamped to 0.5..6 and
    the rate clamped to 1..24, [parse_dsl] accepts it and the renderer
    renders it: the call raises neither "Invalid animation script" nor
    "Animation validation failed", and no exception escapes. What is left
    are the three checkpoints of the budget and the encoder: the call
    returns the base64 text of the bytes the encoder gives for the frames
    together with the script, or raises "Rendering failed" with the
    exception of the encoder, or a timeout. This assumes of the f-string
    that the text it gives the clamped duration is one token that [float]
    reads back as that number, and of the prompt that its quoted text holds
    no double quote and no line break. *)
Theorem offline_prompt_pipeline :
  forall prompt duration fps width height model save_metadata (db : database) d k,
    truthy GROQ_API_KEY = false -> truthy OPENAI_API_KEY = false ->
    d = PyFloat.min (PyFloat.max duration (PyFloat.dec 5 1)) MAX_DURATION ->
    k = Z.min (Z.max fps 1) MAX_FPS ->
    duration <> S754_nan ->
    PyStr.to_float (float_str d) = Some d ->
    is_token (float_str d) = true ->
    free_of is_dquote (extract_quoted_text prompt) = true ->
    free_of is_newline (extract_quoted_text prompt) = true ->
    exists spec frames,
      compile_and_render textbbox (generate_fallback_dsl float_str prompt d k)
        (pipeline_width width) (pipeline_height height) = Ok (spec, frames)
      /\ generate_video_sync textbbox mimsave b64encode save_video_metadata float_str
           GROQ_API_KEY OPENAI_API_KEY groq_chat openai_chat clock RENDER_TIMEOUT
           prompt duration fps width height model save_metadata db
         = if over_budget clock RENDER_TIMEOUT 1
           then Raises (Timeout "Timeout during script generation")
           else if over_budget clock RENDER_TIMEOUT 2
           then Raises (Timeout "Timeout during parsing")
           else
             match mimsave frames k with
             | inl e => Raises (Failed (PipelineError "Rendering failed" (CaughtEncoder e)))
             | inr video_bytes =>
                 if over_budget clock RENDER_TIMEOUT 3
                 then Raises (Timeout "Timeout during rendering")
                 else
                   let saved :=
                     save_video_metadata
                       (mkMetadata (generate_fallback_dsl float_str prompt d k) video_bytes
                          (Some prompt) model d k (pipeline_width width)
                          (pipeline_height height)) db in
                   Returns (b64encode video_bytes,
                            generate_fallback_dsl float_str prompt d k,
                            if save_metadata then saved.1 else db,
                            if save_metadata then saved.2 else None)
             end.
Proof.
  intros prompt duration fps width height model save_metadata db d k Hg Ho Hd Hk Hnan
    Hround Htok Hq Hn.
  destruct (sync_duration duration Hnan) as [Hpos Hmax]. rewrite <- Hd in Hpos, Hmax.
  assert (Hmin : d = PyFloat.min d (PyFloat.of_int 6)).
  { unfold PyFloat.min. fold MAX_DURATION. now rewrite Hmax. }
  destruct (fallback_accepted float_str prompt d k d Hmin Hround Htok Hpos
              ltac:(unfold MAX_FPS in Hk; lia) Hq Hn) as (bg & objs & Hparse & _).
  replace (Z.min k 24) with k in Hparse by (unfold MAX_FPS in Hk; lia).
  destruct (pipeline_canvas width height) as [Hw Hh].
  destruct (render_video_accepted textbbox mimsave _ _ (pipeline_width width)
              (pipeline_height height) Hparse ltac:(lia) ltac:(lia)) as (frames & Hrun & Hvideo).
  change (mimsave frames _) with (mimsave frames k) in Hvideo.
  exists (mkSpec bg k d objs []), frames. split; [exact Hrun|].
  unfold generate_video_sync. rewrite (translate_without_keys _ _ _ _ Hg Ho), <- Hd, <- Hk.
  rewrite Hparse. fold (pipeline_width width) (pipeline_height height). rewrite Hvideo.
  destruct (over_budget clock RENDER_TIMEOUT 1); [reflexivity|].
  destruct (over_budget clock RENDER_TIMEOUT 2); [reflexivity|].
  destruct (mimsave frames k) as [e | video_bytes]; [reflexivity|].
  destruct (over_budget clock RENDER_TIMEOUT 3); [reflexivity|].
  destruct save_metadata; [|reflexivity].
  destruct (save_video_metadata _ db) as [db' warning]. reflexivity.
Qed.

End SyncProperties.

Lemma translation_source_witness :
  translate_prompt_to_dsl three_str None None no_service no_service
    "a red ball" (PyFloat.of_int 3) 24 "groq"
  = generate_fallback_dsl three_str "a red ball" (PyFloat.of_int 3) 24.
Proof.
  destruct (translation_source three_str None None no_service no_service
              "a red ball" (PyFloat.of_int 3) 24 "groq") as (Hoffline & _).
  apply Hoffline; reflexivity.
Defined.

Lemma offline_prompt_pipeline_witness :
  exists frames : list image,
    generate_video_sync demo_bbox count_frames show_count count_saves three_str None None
      no_service no_service still_clock (PyFloat.of_int 30)
      "a red ball" (PyFloat.of_int 3) 30 640 360 "auto" true 0%nat
    = Returns (show_count (length frames),
               generate_fallback_dsl three_str "a red ball" (PyFloat.of_int 3) 24,
               1%nat, None).
Proof.
  destruct (offline_prompt_pipeline demo_bbox count_frames show_count count_saves three_str
              None None no_service no_service still_clock (PyFloat.of_int 30)
              "a red ball" (PyFloat.of_int 3) 30 640 360 "auto" true 0%nat
              (PyFloat.of_int 3) 24) as (spec & frames & _ & Hsync).
  - reflexivity.
  - reflexivity.
  - vm_compute. reflexivity.
  - reflexivity.
  - discriminate.
  - vm_compute. reflexivity.
  - reflexivity.
  - reflexivity.
  - reflexivity.
  - exists frames. rewrite Hsync. reflexivity.
Defined.

Section SyncFailures.

Context (textbbox : Z -> string -> Z * Z * Z * Z) {bytes encoder_error : Type}
  (mimsave : list image -> Z -> encoder_error + bytes) (b64encode : bytes -> string)
  {database save_error : Type}
  (save_video_metadata : metadata bytes -> database -> database * option save_error)
  (float_str : spec_float -> string) (GROQ_API_KEY OPENAI_API_KEY : option string)
  {provider_error : Type}
  (groq_chat openai_chat : string -> outcome provider_error (option string))
  (clock : nat -> spec_float) (RENDER_TIMEOUT : spec_float).

(** X23. What [generate_video_sync] raises, whatever script the
    translator returned. The budget is looked at only at the three
    checkpoints, each before the next stage: over budget after the
    translation the call raises the timeout without parsing; otherwise a
    script that [parse_dsl] refuses gives "Invalid animation script" or
    "Animation validation failed", or lets the [ValueError] of a NaN
    duration escape; an accepted script gives the timeout of the second
    checkpoint, or is rendered, and then the call raises "Rendering failed"
    for an exception of the encoder and for nothing else, or the timeout of
    the third checkpoint although the video is there. *)
Theorem sync_failures :
  forall prompt asked_duration asked_fps width height model save_metadata (db : database) e,
    generate_video_sync textbbox mimsave b64encode save_video_metadata float_str
      GROQ_API_KEY OPENAI_API_KEY groq_chat openai_chat clock RENDER_TIMEOUT
      prompt asked_duration asked_fps width height model save_metadata db = Raises e ->
    let dsl_script :=
      translate_prompt_to_dsl float_str GROQ_API_KEY OPENAI_API_KEY groq_chat openai_chat
        prompt (sync_duration_of asked_duration) (sync_fps_of asked_fps) model in
    (over_budget clock RENDER_TIMEOUT 1 = true
     /\ e = Timeout "Timeout during script generation")
    \/ (over_budget clock RENDER_TIMEOUT 1 = false
        /\ ((exists line_num k,
                parse_dsl dsl_script = Raise (DSLParseError line_num k)
                /\ e = Failed (PipelineError "Invalid animation script"
                                 (CaughtExn (DSLParseError line_num k))))
            \/ (exists k,
                  parse_dsl dsl_script = Raise (DSLValidationError k)
                  /\ e = Failed (PipelineError "Animation validation failed"
                                   (CaughtExn (DSLValidationError k))))
            \/ (e = Failed (Escaped ValueError)
                /\ exists st,
                     parse_lines 1 (script_lines dsl_script) initial_state = Ok st
                     /\ duration (st_spec st) = S754_nan)
            \/ (exists spec frames,
                  compile_and_render textbbox dsl_script (pipeline_width width)
                    (pipeline_height height) = Ok (spec, frames)
                  /\ ((over_budget clock RENDER_TIMEOUT 2 = true
                       /\ e = Timeout "Timeout during parsing")
                      \/ (over_budget clock RENDER_TIMEOUT 2 = false
                          /\ exists err,
                               mimsave frames (fps spec) = inl err
                               /\ e = Failed (PipelineError "Rendering failed"
                                                (CaughtEncoder err)))
                      \/ (over_budget clock RENDER_TIMEOUT 2 = false
                          /\ over_budget clock RENDER_TIMEOUT 3 = true
                          /\ (exists video_bytes, mimsave frames (fps spec) = inr video_bytes)
                          /\ e = Timeout "Timeout during rendering"))))).
Proof.
  intros prompt asked_duration asked_fps width height model save_metadata db e H dsl_script.
  unfold generate_video_sync in H.
  fold (sync_duration_of asked_duration) (sync_fps_of asked_fps) in H. fold dsl_script in H.
  fold (pipeline_width width) (pipeline_height height) in H.
  destruct (over_budget clock RENDER_TIMEOUT 1); [left; split; congruence|].
  right. split; [reflexivity|].
  destruct (parse_dsl dsl_script) as [spec | e0] eqn:Hparse.
  - right; right; right.
    destruct (pipeline_canvas width height) as [Hw Hh].
    destruct (render_video_accepted textbbox mimsave dsl_script spec (pipeline_width width)
                (pipeline_height height) Hparse ltac:(lia) ltac:(lia)) as (frames & Hrun & Hvideo).
    exists spec, frames. split; [exact Hrun|].
    destruct (over_budget clock RENDER_TIMEOUT 2); [left; split; congruence|].
    right. rewrite Hvideo in H.
    destruct (mimsave frames (fps spec)) as [err | video_bytes];
      [left; split; [reflexivity|]; exists err; split; congruence|].
    right. destruct (over_budget clock RENDER_TIMEOUT 3).
    + repeat split; eauto; congruence.
    + destruct save_metadata; [destruct (save_video_metadata _ db)|]; discriminate H.
  - destruct (parse_dsl_escapes _ _ Hparse) as [(l & k & ->) | [(k & ->) | (-> & Hnan)]];
      injection H as <-; eauto 10.
Qed.

End SyncFailures.

Lemma sync_failures_witness :
  exists spec frames,
    compile_and_render demo_bbox
      (generate_fallback_dsl three_str "a red ball" (PyFloat.of_int 3) 24) 640 360
    = Ok (spec, frames)
    /\ over_budget late_clock (PyFloat.of_int 30) 3 = true
    /\ (exists video_bytes, count_frames frames (fps spec) = inr video_bytes).
Proof.
  destruct (sync_failures demo_bbox count_frames show_count count_saves three_str None None
              no_service no_service late_clock (PyFloat.of_int 30)
              "a red ball" (PyFloat.of_int 3) 24 640 360 "auto" true 0%nat
              (Timeout "Timeout during rendering"))
    as [[_ H] | [_ H]].
  - vm_compute. reflexivity.
  - discriminate H.
  - destruct H as [(l & k & _ & H) | [(k & _ & H) | [(H & _) | (spec & frames & Hrun & H)]]];
      try discriminate H.
    destruct H as [[_ H] | [(_ & err & _ & H) | (_ & Hlate & Henc & _)]];
      try discriminate H.
    exists spec, frames. auto.
Defined.

(** ** Paint order *)

Lemma draw_object_prefix (r : AnimationRenderer.t) (f : Z) (ops : list draw_op)
    (obj : scene_object) :
  AnimationRenderer.draw_object r f ops obj
  = new ← AnimationRenderer.draw_object r f [] obj; Ok (ops ++ new).
Proof.
  destruct obj as [c|c]; cbn [AnimationRenderer.draw_object].
  - destruct (AnimationRenderer._draw_text r c f); reflexivity.
  - destruct (AnimationRenderer._draw_shape r c f); reflexivity.
Qed.

Lemma draw_objects_in_order (spec : AnimationSpec) (width height : Z)
    (r : AnimationRenderer.t) (f : Z) (objs : list scene_object) :
  accepted spec ->
  AnimationRenderer.init spec width height = Ok r ->
  Forall object_fields objs ->
  forall ops,
    exists new,
      for_each (AnimationRenderer.draw_object r f) objs ops = Ok (ops ++ new)
      /\ Forall2 (fun obj op => AnimationRenderer.draw_object r f [] obj = Ok [op]) objs new.
Proof.
  intros Hacc Hinit Hobjs.
  induction Hobjs as [|obj objs Hobj _ IH]; intros ops; cbn [for_each].
  - exists []. rewrite app_nil_r. split; [reflexivity | constructor].
  - destruct (draw_object_total _ _ _ _ f [] obj Hacc Hinit Hobj) as [op Hop].
    rewrite draw_object_prefix, Hop, !bind_Ok.
    destruct (IH (ops ++ [] ++ [op])) as (new & -> & Hnew).
    exists (op :: new). split; [now rewrite <- app_assoc | now constructor].
Qed.

(** X24. Paint order is declaration order. On a spec that [parse_dsl]
    returns and a canvas of non-negative width and height, every frame
    holds one drawing call per object, in the order
    of the objects in the script, then the watermark: the call at index [i]
    is the one [draw_object] makes for the object at index [i] on an empty
    canvas, independent of the objects around it, so that a later object
    is painted over an earlier one and the watermark over all. *)
Theorem paint_order :
  forall (textbbox : Z -> string -> Z * Z * Z * Z) dsl_script spec width height r frame_num,
    parse_dsl dsl_script = Ok spec ->
    AnimationRenderer.init spec width height = Ok r ->
    0 <= width -> 0 <= height ->
    exists ops mark,
      AnimationRenderer.render_frame textbbox r frame_num
      = Ok (mkImage (Z.min width MAX_WIDTH, Z.min height MAX_HEIGHT)
              (AnimationRenderer.bg_color r) (ops ++ [mark]))
      /\ AnimationRenderer._draw_watermark textbbox r = Ok mark
      /\ Forall2 (fun obj op => AnimationRenderer.draw_object r frame_num [] obj = Ok [op])
           (objects spec) ops.
Proof.
  intros textbbox dsl_script spec width height r frame_num Hparse Hinit Hwidth Hheight.
  pose proof (parse_dsl_accepted _ _ Hparse) as Hacc.
  pose proof Hinit as Hr. apply init_Ok in Hr as (reg & _ & _ & _ & Hr).
  assert (Hspec : AnimationRenderer.spec r = spec) by (rewrite Hr; reflexivity).
  assert (Hw : AnimationRenderer.width r = Z.min width MAX_WIDTH) by (rewrite Hr; reflexivity).
  assert (Hh : AnimationRenderer.height r = Z.min height MAX_HEIGHT)
    by (rewrite Hr; reflexivity).
  assert (Hnew : Image_new (AnimationRenderer.width r, AnimationRenderer.height r)
                   (AnimationRenderer.bg_color r)
                 = Ok (mkImage (AnimationRenderer.width r, AnimationRenderer.height r)
                         (AnimationRenderer.bg_color r) []))
    by (apply Image_new_Ok; rewrite ?Hw, ?Hh; unfold MAX_WIDTH, MAX_HEIGHT; lia).
  destruct (draw_objects_in_order spec width height r frame_num (objects spec) Hacc Hinit
              (ac_objects _ Hacc) []) as (ops & Hops & Horder).
  pose proof (draw_watermark_Ok textbbox r ltac:(rewrite Hh; unfold MAX_HEIGHT; lia))
    as Hmark.
  eexists ops, _. split; [|split; [exact Hmark | exact Horder]].
  unfold AnimationRenderer.render_frame.
  rewrite Hnew, bind_Ok, Hspec, Hops, bind_Ok, Hmark, bind_Ok.
  cbn [img_size img_color img_ops app]. rewrite Hw, Hh. reflexivity.
Qed.

Lemma paint_order_witness :
  exists ops mark,
    img_ops <$> (match AnimationRenderer.render_frame demo_bbox (renderer_of demo_spec) 10 with
                 | Ok img => Some img
                 | Raise _ => None
                 end) = Some (ops ++ [mark])
    /\ Forall2 (fun obj op =>
                  AnimationRenderer.draw_object (renderer_of demo_spec) 10 [] obj = Ok [op])
         (objects demo_spec) ops.
Proof.
  destruct (paint_order demo_bbox demo_script demo_spec 640 360 (renderer_of demo_spec) 10)
    as (ops & mark & Hframe & _ & Horder).
  - vm_compute. reflexivity.
  - vm_compute. reflexivity.
  - lia.
  - lia.
  - exists ops, mark. rewrite Hframe. split; [reflexivity | exact Horder].
Defined.

(** ** Blanks around a script *)

Lemma lstrip_blank (p : ascii -> bool) (pre s : string) :
  free_of (fun c => negb (p c)) pre = true ->
  PyStr.lstrip_by p (pre +:+ s) = PyStr.lstrip_by p s.
Proof.
  induction pre as [|c pre IH]; [reflexivity|]. cbn [free_of]. intros H.
  apply andb_true_iff in H as [Hc H]. apply negb_true_iff, negb_false_iff in Hc.
  rewrite append_cons. cbn [PyStr.lstrip_by]. rewrite Hc. now apply IH.
Qed.

Lemma rstrip_blank (p : ascii -> bool) (post : string) :
  free_of (fun c => negb (p c)) post = true ->
  forall s, PyStr.rstrip_by p (s +:+ post) = PyStr.rstrip_by p s.
Proof.
  induction post as [|c post IH]; intros H s; [now rewrite append_nil_r|].
  cbn [free_of] in H. apply andb_true_iff in H as [Hc H].
  apply negb_true_iff, negb_false_iff in Hc.
  change (String c post) with (String c EmptyString +:+ post).
  rewrite <- append_assoc, (IH H). now apply rstrip_by_drop.
Qed.

Lemma strip_blank_after (post : string) :
  is_blank post = true -> forall s, PyStr.strip (s +:+ post) = PyStr.strip s.
Proof.
  intros H s. unfold PyStr.strip, PyStr.strip_by.
  induction s as [|c s IH].
  - rewrite append_nil_l. cbn [PyStr.lstrip_by PyStr.rstrip_by].
    rewrite <- (append_nil_r post), (lstrip_blank _ post "" H). reflexivity.
  - rewrite append_cons. cbn [PyStr.lstrip_by]. destruct (PyStr.is_space c); [exact IH|].
    rewrite <- append_cons. now apply rstrip_blank.
Qed.

(** X25. [parse_dsl] does not see the blanks around a script: line
    breaks, spaces and the other characters [str.strip()] removes, before
    the first and after the last visible character, change nothing. The
    line numbers of the errors therefore count from the first line that is
    not blank, not from the first line of the text. *)
Theorem blanks_around_script_ignored :
  forall before dsl_script after,
    is_blank before = true -> is_blank after = true ->
    script_lines (before +:+ dsl_script +:+ after) = script_lines dsl_script
    /\ parse_dsl (before +:+ dsl_script +:+ after) = parse_dsl dsl_script.
Proof.
  intros before dsl_script after Hb Ha.
  assert (Hstrip : PyStr.strip (before +:+ dsl_script +:+ after) = PyStr.strip dsl_script).
  { rewrite <- append_assoc, (strip_blank_after after Ha).
    unfold PyStr.strip, PyStr.strip_by. now rewrite (lstrip_blank _ before _ Hb). }
  unfold parse_dsl, script_lines. now rewrite Hstrip.
Qed.

Lemma blanks_around_script_ignored_witness :
  parse_dsl late_command = Raise (DSLParseError 1 UnknownCommand).
Proof.
  destruct (blanks_around_script_ignored (nl +:+ nl) "JUMP 1" "") as [_ H];
    [reflexivity | reflexivity |].
  transitivity (parse_dsl "JUMP 1"); [exact H | vm_compute; reflexivity].
Defined.

(** ** Rounding between two integers *)

Lemma Zdigits2_lt_pow (m k : Z) : 0 <= m < 2 ^ k -> 0 <= k -> Zdigits2 m <= k.
Proof.
  intros [Hm Hlt] Hk. destruct m as [|p|p]; [cbn; lia| |lia]. cbn [Zdigits2].
  pose proof (digits2_pos_spec p) as [Hlo _].
  destruct (Z.le_gt_cases (Zpos (digits2_pos p)) k) as [|Hgt]; [assumption|].
  pose proof (Z.pow_le_mono_r 2 k (Zpos (digits2_pos p) - 1) ltac:(lia) ltac:(lia)). lia.
Qed.

Lemma shr_1_flags (mrs : shr_record) :
  0 <= shr_m mrs -> shr_r mrs = false -> shr_s mrs = false -> (2 | shr_m mrs) ->
  shr_r (shr_1 mrs) = false /\ shr_s (shr_1 mrs) = false.
Proof.
  destruct mrs as [m r s]. cbn [shr_m shr_r shr_s]. intros Hm -> -> [z Hz].
  destruct m as [|[p|p|]|]; cbn; auto; lia.
Qed.

Lemma iter_pos_shr_1_exact (n : positive) :
  forall mrs, 0 <= shr_m mrs ->
    shr_m (SpecFloat.iter_pos shr_1 n mrs) = shr_m mrs / 2 ^ Zpos n
    /\ (shr_r mrs = false -> shr_s mrs = false -> (2 ^ Zpos n | shr_m mrs) ->
        shr_r (SpecFloat.iter_pos shr_1 n mrs) = false
        /\ shr_s (SpecFloat.iter_pos shr_1 n mrs) = false).
Proof.
  assert (Hone : forall mrs, 0 <= shr_m mrs ->
            0 <= shr_m (shr_1 mrs) /\ shr_m (shr_1 mrs) = shr_m mrs / 2).
  { intros mrs H. rewrite shr_1_m by assumption. rewrite Z.div2_div.
    split; [apply Z.div_pos; lia | reflexivity]. }
  assert (Hdiv : forall a b m, 0 < a -> 0 < b -> (a * b | m) -> (a | m) /\ (b | m / a)).
  { intros a b m Ha Hb [z ->]. split.
    - exists (z * b). lia.
    - exists z. replace (z * (a * b)) with (z * b * a) by lia.
      now rewrite Z.div_mul by lia. }
  induction n as [n IH|n IH|]; intros mrs H; cbn [SpecFloat.iter_pos].
  - destruct (Hone mrs H) as [H1 E1].
    destruct (IH _ H1) as [E2 F2].
    assert (H2 : 0 <= shr_m (SpecFloat.iter_pos shr_1 n (shr_1 mrs)))
      by (rewrite E2; apply Z.div_pos; [lia | apply Z.pow_pos_nonneg; lia]).
    destruct (IH _ H2) as [E3 F3].
    assert (Hp : 0 < 2 ^ Zpos n) by (apply Z.pow_pos_nonneg; lia).
    replace (2 ^ Zpos n~1) with (2 * (2 ^ Zpos n * 2 ^ Zpos n))
      by (replace (Zpos n~1) with (1 + (Zpos n + Zpos n)) by lia;
          rewrite !Z.pow_add_r by lia; reflexivity).
    split.
    + rewrite E3, E2, E1, !Z.div_div by lia. reflexivity.
    + intros Hr Hs Hd. apply Hdiv in Hd as [Hd2 Hd]; [|lia|lia].
      apply Hdiv in Hd as [Hda Hdb]; [|lia|lia].
      destruct (shr_1_flags mrs H Hr Hs Hd2) as [Hr1 Hs1].
      rewrite <- E1 in Hda, Hdb. destruct (F2 Hr1 Hs1 Hda) as [Hr2 Hs2].
      rewrite <- E2 in Hdb. exact (F3 Hr2 Hs2 Hdb).
  - destruct (IH _ H) as [E2 F2].
    assert (H2 : 0 <= shr_m (SpecFloat.iter_pos shr_1 n mrs))
      by (rewrite E2; apply Z.div_pos; [lia | apply Z.pow_pos_nonneg; lia]).
    destruct (IH _ H2) as [E3 F3].
    assert (Hp : 0 < 2 ^ Zpos n) by (apply Z.pow_pos_nonneg; lia).
    replace (2 ^ Zpos n~0) with (2 ^ Zpos n * 2 ^ Zpos n)
      by (replace (Zpos n~0) with (Zpos n + Zpos n) by lia;
          rewrite !Z.pow_add_r by lia; reflexivity).
    split.
    + rewrite E3, E2, !Z.div_div by lia. reflexivity.
    + intros Hr Hs Hd. apply Hdiv in Hd as [Hda Hdb]; [|lia|lia].
      destruct (F2 Hr Hs Hda) as [Hr2 Hs2].
      rewrite <- E2 in Hdb. exact (F3 Hr2 Hs2 Hdb).
  - destruct (Hone mrs H) as [H1 E1]. change (2 ^ 1) with 2. split; [exact E1|].
    intros Hr Hs Hd. now apply shr_1_flags.
Qed.

(** Shifting an exact mantissa: the quotient, and no remainder noted
    when there is none. *)
Lemma shr_fexp_exact (m e : Z) (mrs : shr_record) (e' : Z) :
  0 <= m ->
  shr_fexp 53 1024 m e loc_Exact = (mrs, e') ->
  e <= e'
  /\ shr_m mrs = m / 2 ^ (e' - e)
  /\ ((2 ^ (e' - e) | m) -> loc_of_shr_record mrs = loc_Exact).
Proof.
  intros Hm. unfold shr_fexp, shr. cbn [shr_record_of_loc].
  change (fexp 53 1024 (Zdigits2 m + e)) with (Z.max (Zdigits2 m + e - 53) (-1074)).
  destruct (Z.max (Zdigits2 m + e - 53) (-1074) - e) as [|n|n] eqn:Hn; intros [= <- <-].
  - rewrite Z.sub_diag. cbn [shr_m]. rewrite Z.div_1_r. auto with lia.
  - replace (e + Zpos n - e) with (Zpos n) by lia.
    destruct (iter_pos_shr_1_exact n (Build_shr_record m false false) Hm) as [E F].
    cbn [shr_m shr_r shr_s] in *. split; [lia|]. split; [exact E|].
    intros Hd. destruct (F eq_refl eq_refl Hd) as [Hr Hs].
    destruct (SpecFloat.iter_pos shr_1 n _) as [m' r s]. cbn in Hr, Hs. now subst.
  - rewrite Z.sub_diag. cbn [shr_m]. rewrite Z.div_1_r. auto with lia.
Qed.

(** Rounding a value that lies within two integers below [2^53] gives a
    number within these integers: both are on the grid of the result. *)
Lemma binary_round_aux_between (s : bool) (m e lo hi : Z) :
  0 <= lo -> hi < 2 ^ 53 -> e <= 0 ->
  lo * 2 ^ (- e) <= m <= hi * 2 ^ (- e) ->
  match binary_round_aux 53 1024 s m e loc_Exact with
  | S754_zero _ => lo = 0
  | S754_finite s' m' e' =>
      s' = s /\ e' <= 0 /\ lo * 2 ^ (- e') <= Zpos m' <= hi * 2 ^ (- e')
  | _ => False
  end.
Proof.
  intros Hlo Hhi He [Hlow Hupp].
  assert (Hpow : forall k, 0 <= k -> 0 < 2 ^ k) by (intros; apply Z.pow_pos_nonneg; lia).
  assert (Hsplit : forall a b, a <= b -> b <= 0 -> 2 ^ (- a) = 2 ^ (- b) * 2 ^ (b - a)).
  { intros a b Hab Hb. rewrite <- Z.pow_add_r by lia. f_equal. lia. }
  assert (Hdigits : forall x c, 0 <= x -> c <= 0 -> x <= hi * 2 ^ (- c) ->
            Zdigits2 x + c <= 53).
  { intros x c Hx Hc Hle. pose proof (Hpow (- c) ltac:(lia)).
    assert (x < 2 ^ (53 - c)).
    { replace (53 - c) with (53 + - c) by lia. rewrite Z.pow_add_r by lia. nia. }
    pose proof (Zdigits2_lt_pow x (53 - c) ltac:(lia) ltac:(lia)). lia. }
  pose proof (Hpow (- e) ltac:(lia)) as Hpe.
  assert (Hm : 0 <= m) by nia.
  pose proof (Hdigits m e Hm He Hupp) as Hdm.
  unfold binary_round_aux.
  destruct (shr_fexp 53 1024 m e loc_Exact) as [mrs' e'] eqn:H1.
  pose proof (shr_fexp_exact _ _ _ _ Hm H1) as (Hee' & Hm' & Hexact).
  apply shr_fexp_spec in H1 as (Hm'0 & He' & _); [|assumption].
  assert (He'0 : e' <= 0) by lia.
  pose proof (Hpow (e' - e) ltac:(lia)) as Hpn. pose proof (Hpow (- e') ltac:(lia)) as Hpe'.
  rewrite (Hsplit e e' Hee' He'0) in Hlow, Hupp.
  assert (Hm'hi : shr_m mrs' <= hi * 2 ^ (- e'))
    by (rewrite Hm'; apply Z.div_le_upper_bound; [lia | nia]).
  assert (Hm'lo : lo * 2 ^ (- e') <= shr_m mrs')
    by (rewrite Hm'; apply Z.div_le_lower_bound; [lia | nia]).
  pose proof (round_nearest_even_range (shr_m mrs') (loc_of_shr_record mrs')) as Hr.
  assert (Hm1 : round_nearest_even (shr_m mrs') (loc_of_shr_record mrs') <= hi * 2 ^ (- e')).
  { destruct (Z.eq_dec (shr_m mrs') (hi * 2 ^ (- e'))) as [Heq | Hne]; [|lia].
    rewrite Hexact; [cbn [round_nearest_even]; lia|].
    exists (shr_m mrs'). pose proof (Z.mul_div_le m (2 ^ (e' - e)) Hpn) as Hfloor.
    rewrite <- Hm' in Hfloor. nia. }
  set (m1 := round_nearest_even _ _) in *.
  assert (Hm10 : 0 <= m1) by lia.
  destruct (shr_fexp 53 1024 m1 e' loc_Exact) as [mrs'' e''] eqn:H2.
  pose proof (shr_fexp_exact _ _ _ _ Hm10 H2) as (Hee'' & Hm'' & _).
  apply shr_fexp_spec in H2 as (Hm''0 & He'' & _); [|assumption].
  pose proof (Hdigits m1 e' Hm10 He'0 Hm1) as Hdm1.
  assert (He''0 : e'' <= 0) by lia.
  pose proof (Hpow (e'' - e') ltac:(lia)) as Hpn2.
  pose proof (Hpow (- e'') ltac:(lia)) as Hpe''.
  rewrite (Hsplit e' e'' Hee'' He''0) in Hm1, Hm'lo.
  assert (Hhi'' : shr_m mrs'' <= hi * 2 ^ (- e''))
    by (rewrite Hm''; apply Z.div_le_upper_bound; [lia | nia]).
  assert (Hlo'' : lo * 2 ^ (- e'') <= shr_m mrs'')
    by (rewrite Hm''; apply Z.div_le_lower_bound; [lia | nia]).
  destruct (shr_m mrs'') as [|p|p]; [nia | | lia].
  destruct (Z.leb_spec e'' (1024 - 53)); [auto | lia].
Qed.

Lemma iter_xO_value (m d : positive) : Zpos (Pos.iter xO m d) = Zpos m * 2 ^ Zpos d.
Proof.
  induction d as [|d IH] using Pos.peano_ind.
  - cbn. lia.
  - rewrite Pos.iter_succ, Pos2Z.inj_xO, IH, Pos2Z.inj_succ, Z.pow_succ_r by lia. lia.
Qed.

Lemma shl_align_value (mx : positive) (ex ex' : Z) :
  (shl_align mx ex ex').2 <= ex
  /\ Zpos (shl_align mx ex ex').1 = Zpos mx * 2 ^ (ex - (shl_align mx ex ex').2).
Proof.
  unfold shl_align. destruct (ex' - ex) as [|d|d] eqn:Hd; cbn [fst snd].
  - rewrite Z.sub_diag. cbn. lia.
  - rewrite Z.sub_diag. cbn. lia.
  - split; [lia|]. rewrite iter_xO_value. f_equal. f_equal. lia.
Qed.

Lemma within_Z_weaken (lo hi lo' hi' : Z) (x : spec_float) :
  within_Z lo hi x -> lo' <= lo -> hi <= hi' -> within_Z lo' hi' x.
Proof.
  destruct x as [s|s| |s m e]; cbn [within_Z]; try tauto; try lia.
  intros (He & Hl & Hh) Hlo Hhi. split; [exact He|].
  assert (0 < 2 ^ (- e)) by (apply Z.pow_pos_nonneg; lia). nia.
Qed.

(** An exact signed mantissa on a grid at least as fine as the integers,
    rounded. *)
Lemma binary_normalize_within (m e lo hi : Z) :
  - 2 ^ 53 < lo -> hi < 2 ^ 53 -> e <= 0 ->
  lo * 2 ^ (- e) <= m <= hi * 2 ^ (- e) ->
  within_Z lo hi (binary_normalize 53 1024 m e false).
Proof.
  intros Hlo Hhi He [Hlow Hupp].
  assert (Hpe : 0 < 2 ^ (- e)) by (apply Z.pow_pos_nonneg; lia).
  assert (Hcase : forall (s : bool) (p : positive) (l h : Z),
             0 <= l -> h < 2 ^ 53 -> l * 2 ^ (- e) <= Zpos p <= h * 2 ^ (- e) ->
             match binary_round 53 1024 s p e with
             | S754_zero _ => l = 0
             | S754_finite s' m' e' =>
                 s' = s /\ e' <= 0 /\ l * 2 ^ (- e') <= Zpos m' <= h * 2 ^ (- e')
             | _ => False
             end).
  { intros s p l h Hl Hh Hp. unfold binary_round.
    pose proof (shl_align_value p e (fexp 53 1024 (Zpos (digits2_pos p) + e))) as [Hez Hmz].
    destruct (shl_align p e _) as [mz ez]. cbn [fst snd] in Hez, Hmz.
    apply binary_round_aux_between; try assumption; [lia|].
    rewrite Hmz. assert (0 < 2 ^ (e - ez)) by (apply Z.pow_pos_nonneg; lia).
    replace (2 ^ (- ez)) with (2 ^ (- e) * 2 ^ (e - ez))
      by (rewrite <- Z.pow_add_r by lia; f_equal; lia).
    nia. }
  destruct m as [|p|p]; cbn [binary_normalize].
  - cbn [within_Z]. nia.
  - pose proof (Hcase false p (Z.max lo 0) hi ltac:(lia) Hhi ltac:(nia)) as H.
    destruct (binary_round 53 1024 false p e) as [s'|s'| |s' m' e']; cbn [within_Z];
      try contradiction; [nia|].
    destruct H as (-> & He' & Hl & Hh). split; [exact He'|]. cbn [cond_Zopp].
    assert (0 < 2 ^ (- e')) by (apply Z.pow_pos_nonneg; lia). nia.
  - pose proof (Hcase true p (Z.max (- hi) 0) (- lo) ltac:(lia) ltac:(lia) ltac:(nia)) as H.
    destruct (binary_round 53 1024 true p e) as [s'|s'| |s' m' e']; cbn [within_Z];
      try contradiction; [nia|].
    destruct H as (-> & He' & Hl & Hh). split; [exact He'|]. cbn [cond_Zopp].
    assert (0 < 2 ^ (- e')) by (apply Z.pow_pos_nonneg; lia). nia.
Qed.

(** An integer below [2^53] is itself as a float. *)
Lemma of_int_within (a : Z) : - 2 ^ 53 < a < 2 ^ 53 -> within_Z a a (PyFloat.of_int a).
Proof.
  intros Ha. apply binary_normalize_within; lia.
Qed.

(** A number within [lo] and [hi], of either sign, times a number within
    0 and [B]. *)
Lemma mul_within_scaled (lo hi B : Z) (x y : spec_float) :
  within_Z lo hi x -> within_Z 0 B y ->
  - 2 ^ 53 < lo * B -> lo <= 0 -> 0 <= hi -> hi * B < 2 ^ 53 ->
  within_Z (lo * B) (hi * B) (PyFloat.mul x y).
Proof.
  destruct x as [sx|sx| |sx mx ex], y as [sy|sy| |sy my ey]; cbn [within_Z];
    try (intros []; fail); try (intros ? []; fail);
    try (intros; cbn [PyFloat.mul SFmul within_Z]; nia).
  intros (Hex & Hxl & Hxh) (Hey & Hyl & Hyh) HloB Hlo Hhi HhiB.
  assert (Hpx : 0 < 2 ^ (- ex)) by (apply Z.pow_pos_nonneg; lia).
  assert (Hpy : 0 < 2 ^ (- ey)) by (apply Z.pow_pos_nonneg; lia).
  assert (Hsy : sy = false) by (destruct sy; [cbn in Hyl; lia | reflexivity]). subst sy.
  cbn [cond_Zopp] in Hyh.
  assert (HB : 0 < B) by nia.
  assert (Hpow : 2 ^ (- (ex + ey)) = 2 ^ (- ex) * 2 ^ (- ey))
    by (rewrite <- Z.pow_add_r by lia; f_equal; lia).
  assert (Hprod : 0 * 2 ^ (- (ex + ey)) <= Zpos (mx * my)
                  <= (if sx then - (lo * B) else hi * B) * 2 ^ (- (ex + ey))).
  { rewrite Hpow, Pos2Z.inj_mul. split; [lia|].
    destruct sx; cbn [cond_Zopp] in Hxl, Hxh.
    - apply Z.le_trans with ((- lo * 2 ^ (- ex)) * (B * 2 ^ (- ey))); [|lia].
      apply Z.mul_le_mono_nonneg; lia.
    - apply Z.le_trans with ((hi * 2 ^ (- ex)) * (B * 2 ^ (- ey))); [|lia].
      apply Z.mul_le_mono_nonneg; lia. }
  unfold PyFloat.mul, SFmul. rewrite xorb_false_r.
  change PyFloat.prec with 53. change PyFloat.emax with 1024.
  pose proof (binary_round_aux_between sx (Zpos (mx * my)) (ex + ey) 0
                (if sx then - (lo * B) else hi * B) ltac:(lia)
                ltac:(destruct sx; lia) ltac:(lia) Hprod) as H.
  destruct (binary_round_aux 53 1024 sx _ _ _) as [s'|s'| |s' m' e'] eqn:E;
    cbn [within_Z]; try contradiction; [nia|].
  destruct H as (-> & He' & Hl & Hh). split; [exact He'|].
  assert (0 < 2 ^ (- e')) by (apply Z.pow_pos_nonneg; lia).
  destruct sx; cbn [cond_Zopp]; nia.
Qed.

Lemma mul_within (lo hi : Z) (x y : spec_float) :
  within_Z lo hi x -> within_Z 0 1 y -> - 2 ^ 53 < lo <= 0 -> 0 <= hi < 2 ^ 53 ->
  within_Z lo hi (PyFloat.mul x y).
Proof.
  intros Hx Hy Hlo Hhi.
  apply (within_Z_weaken (lo * 1) (hi * 1)); [|lia|lia].
  apply mul_within_scaled; auto; lia.
Qed.

Lemma shl_align_min (mx : positive) (ex ez : Z) :
  ez <= ex -> Zpos (shl_align mx ex ez).1 = Zpos mx * 2 ^ (ex - ez).
Proof.
  intros H. unfold shl_align. destruct (ez - ex) as [|d|d] eqn:Hd; cbn [fst]; try lia.
  - replace (ex - ez) with 0 by lia. cbn. lia.
  - rewrite iter_xO_value. f_equal. f_equal. lia.
Qed.

(** The sum of a number within [a] and [a'] and one within [lo] and [hi],
    each on a grid at least as fine as the integers. *)
Lemma add_within (a a' lo hi : Z) (x y : spec_float) :
  within_Z a a' x -> within_Z lo hi y ->
  - 2 ^ 53 < a + lo -> a' + hi < 2 ^ 53 ->
  within_Z (a + lo) (a' + hi) (PyFloat.add x y).
Proof.
  destruct x as [sx|sx| |sx mx ex], y as [sy|sy| |sy my ey]; cbn [within_Z];
    try (intros []; fail); try (intros ? []; fail); intros Hx Hy Hlo Hhi.
  - destruct sx, sy; cbn; lia.
  - cbn [PyFloat.add SFadd]. apply (within_Z_weaken lo hi); [exact Hy | lia | lia].
  - cbn [PyFloat.add SFadd]. apply (within_Z_weaken a a'); [exact Hx | lia | lia].
  - destruct Hx as (Hex & Hxl & Hxh). destruct Hy as (Hey & Hyl & Hyh).
    unfold PyFloat.add, SFadd. change IntDef.Z.min with Z.min.
    set (ez := Z.min ex ey).
    pose proof (shl_align_min mx ex ez ltac:(unfold ez; lia)) as H1.
    pose proof (shl_align_min my ey ez ltac:(unfold ez; lia)) as H2.
    assert (Hpx : 0 < 2 ^ (ex - ez)) by (apply Z.pow_pos_nonneg; unfold ez; lia).
    assert (Hpy : 0 < 2 ^ (ey - ez)) by (apply Z.pow_pos_nonneg; unfold ez; lia).
    assert (Hsx : 2 ^ (- ez) = 2 ^ (- ex) * 2 ^ (ex - ez))
      by (rewrite <- Z.pow_add_r by (unfold ez; lia); f_equal; lia).
    assert (Hsy : 2 ^ (- ez) = 2 ^ (- ey) * 2 ^ (ey - ez))
      by (rewrite <- Z.pow_add_r by (unfold ez; lia); f_equal; lia).
    apply binary_normalize_within; [lia | lia | unfold ez; lia |].
    assert (Hx' : a * 2 ^ (- ez) <= cond_Zopp sx (Zpos (shl_align mx ex ez).1)
                  <= a' * 2 ^ (- ez))
      by (rewrite Hsx; destruct sx; cbn [cond_Zopp] in *; rewrite H1; nia).
    assert (Hy' : lo * 2 ^ (- ez) <= cond_Zopp sy (Zpos (shl_align my ey ez).1)
                  <= hi * 2 ^ (- ez))
      by (rewrite Hsy; destruct sy; cbn [cond_Zopp] in *; rewrite H2; nia).
    lia.
Qed.

(** The same for a difference. *)
Lemma sub_within (a a' lo hi : Z) (x y : spec_float) :
  within_Z a a' x -> within_Z lo hi y ->
  - 2 ^ 53 < a - hi -> a' - lo < 2 ^ 53 ->
  within_Z (a - hi) (a' - lo) (PyFloat.sub x y).
Proof.
  destruct x as [sx|sx| |sx mx ex], y as [sy|sy| |sy my ey]; cbn [within_Z];
    try (intros []; fail); try (intros ? []; fail); intros Hx Hy Hlo Hhi.
  - destruct sx, sy; cbn; lia.
  - cbn [PyFloat.sub SFsub within_Z]. destruct Hy as (Hey & Hyl & Hyh). split; [exact Hey|].
    assert (0 < 2 ^ (- ey)) by (apply Z.pow_pos_nonneg; lia).
    destruct sy; cbn [negb cond_Zopp] in *; nia.
  - cbn [PyFloat.sub SFsub]. apply (within_Z_weaken a a'); [exact Hx | lia | lia].
  - destruct Hx as (Hex & Hxl & Hxh). destruct Hy as (Hey & Hyl & Hyh).
    unfold PyFloat.sub, SFsub. change IntDef.Z.min with Z.min.
    set (ez := Z.min ex ey).
    pose proof (shl_align_min mx ex ez ltac:(unfold ez; lia)) as H1.
    pose proof (shl_align_min my ey ez ltac:(unfold ez; lia)) as H2.
    assert (Hpx : 0 < 2 ^ (ex - ez)) by (apply Z.pow_pos_nonneg; unfold ez; lia).
    assert (Hpy : 0 < 2 ^ (ey - ez)) by (apply Z.pow_pos_nonneg; unfold ez; lia).
    assert (Hsx : 2 ^ (- ez) = 2 ^ (- ex) * 2 ^ (ex - ez))
      by (rewrite <- Z.pow_add_r by (unfold ez; lia); f_equal; lia).
    assert (Hsy : 2 ^ (- ez) = 2 ^ (- ey) * 2 ^ (ey - ez))
      by (rewrite <- Z.pow_add_r by (unfold ez; lia); f_equal; lia).
    apply binary_normalize_within; [lia | lia | unfold ez; lia |].
    assert (Hx' : a * 2 ^ (- ez) <= cond_Zopp sx (Zpos (shl_align mx ex ez).1)
                  <= a' * 2 ^ (- ez))
      by (rewrite Hsx; destruct sx; cbn [cond_Zopp] in *; rewrite H1; nia).
    assert (Hy' : lo * 2 ^ (- ez) <= cond_Zopp sy (Zpos (shl_align my ey ez).1)
                  <= hi * 2 ^ (- ez))
      by (rewrite Hsy; destruct sy; cbn [cond_Zopp] in *; rewrite H2; nia).
    lia.
Qed.

(** [int(x)] of a number within two integers lies within them. *)
Lemma to_int_within (lo hi : Z) (x : spec_float) (n : Z) :
  within_Z lo hi x -> PyFloat.to_int x = Ok n -> lo <= n <= hi.
Proof.
  destruct x as [s|s| |s m e]; cbn [within_Z PyFloat.to_int]; try contradiction.
  - intros H [= <-]. exact H.
  - intros (He & Hl & Hh) [= <-]. unfold PyFloat.trunc_mag.
    destruct e as [|k|k]; [|lia|].
    + rewrite Z.shiftl_0_r. cbn in Hl, Hh. lia.
    + rewrite Z.shiftr_div_pow2 by lia. change (- Zneg k) with (Zpos k) in Hl, Hh.
      assert (Hp : 0 < 2 ^ Zpos k) by (apply Z.pow_pos_nonneg; lia).
      destruct s; cbn [cond_Zopp] in *.
      * assert (Zpos m / 2 ^ Zpos k <= - lo)
          by (apply Z.div_le_upper_bound; [lia | nia]).
        assert (- hi <= Zpos m / 2 ^ Zpos k)
          by (apply Z.div_le_lower_bound; [lia | nia]).
        lia.
      * assert (Zpos m / 2 ^ Zpos k <= hi)
          by (apply Z.div_le_upper_bound; [lia | nia]).
        assert (lo <= Zpos m / 2 ^ Zpos k)
          by (apply Z.div_le_lower_bound; [lia | nia]).
        lia.
Qed.

Lemma binary_round_aux_sign (s : bool) (m e : Z) (l : location) :
  match binary_round_aux 53 1024 s m e l with
  | S754_finite s' _ _ => s' = s
  | _ => True
  end.
Proof.
  unfold binary_round_aux. destruct (shr_fexp 53 1024 m e l) as [mrs' e'].
  destruct (shr_fexp 53 1024 _ e' loc_Exact) as [mrs'' e''].
  destruct (shr_m mrs''); try exact I. now destruct (e'' <=? 1024 - 53).
Qed.

(** The quotient the division rounds: below one when the numerator is
    below the denominator. *)
Lemma SFdiv_core_binary_unit (m1 m2 q e' : Z) (l : location) :
  0 < m1 < m2 ->
  SFdiv_core_binary 53 1024 m1 0 m2 0 = (q, e', l) ->
  0 <= q /\ e' <= 0 /\ Zdigits2 q + e' <= 0.
Proof.
  intros [H1 H2]. unfold SFdiv_core_binary.
  set (e0 := Z.min _ (0 - 0)).
  assert (He0 : e0 <= 0) by (unfold e0; lia).
  set (m' := match 0 - 0 - e0 with Z0 => m1 | Zpos _ => Z.shiftl m1 (0 - 0 - e0)
                              | Zneg _ => 0 end).
  assert (Hm' : m' = m1 * 2 ^ (- e0)).
  { unfold m'. destruct (0 - 0 - e0) as [|s|s] eqn:Hs; [|  |lia].
    - replace (- e0) with 0 by lia. cbn. lia.
    - rewrite Z.shiftl_mul_pow2 by lia. f_equal. f_equal. lia. }
  clearbody m'. pose proof (Z_div_mod m' m2 ltac:(lia)) as Hdiv.
  destruct (Z.div_eucl m' m2) as [q0 r0]. intros [= <- <- _]. destruct Hdiv as [Hq Hr].
  assert (Hp : 0 < 2 ^ (- e0)) by (apply Z.pow_pos_nonneg; lia).
  assert (Hq0 : 0 <= q0 < 2 ^ (- e0)) by nia.
  split; [lia|]. split; [lia|].
  pose proof (Zdigits2_lt_pow q0 (- e0) Hq0 ltac:(lia)). lia.
Qed.

(** [f / n] for [0 <= f < n] is a number within 0 and 1. *)
Lemma int_truediv_unit (f n : Z) : 0 <= f < n -> within_Z 0 1 (PyFloat.int_truediv f n).
Proof.
  intros [Hf Hn]. destruct f as [|pf|pf]; [|clear Hf|lia].
  - destruct n; [lia | cbn; lia | lia].
  - destruct n as [|pn|pn]; [lia| |lia].
    unfold PyFloat.int_truediv, PyFloat.div, PyFloat.raw, SFdiv.
    destruct (SFdiv_core_binary _ _ _ _ _ _) as [[q e'] l] eqn:H.
    apply SFdiv_core_binary_unit in H as (Hq & He & Hd); [|lia].
    cbn [xorb].
    pose proof (binary_round_aux_at_most false q e' l 0 Hq ltac:(lia) Hd ltac:(lia)) as Hm.
    pose proof (binary_round_aux_sign false q e' l) as Hs.
    change PyFloat.prec with 53. change PyFloat.emax with 1024.
    destruct (binary_round_aux 53 1024 false q e' l) as [s|s| |s m e];
      cbn [at_most within_Z] in *; try contradiction; [lia|].
    subst s. destruct Hm as [He0 Hv]. cbn [cond_Zopp].
    assert (Hp : 0 < 2 ^ (e + 1074)) by (apply Z.pow_pos_nonneg; lia).
    assert (Hle : e <= 0).
    { destruct (Z.le_gt_cases e 0) as [|Hgt]; [assumption|].
      pose proof (Z.pow_lt_mono_r 2 (0 + 1074) (e + 1074) ltac:(lia) ltac:(lia) ltac:(lia)).
      nia. }
    split; [exact Hle|]. split; [lia|].
    replace (0 + 1074) with (- e + (e + 1074)) in Hv by lia.
    rewrite (Z.pow_add_r 2 (- e) (e + 1074)) in Hv by lia. nia.
Qed.

(** The three easings keep a progress within 0 and 1 within 0 and 1. *)
Lemma easing_of_unit (name : string) (t : spec_float) :
  within_Z 0 1 t -> within_Z 0 1 (easing_of name t).
Proof.
  intros Ht. unfold easing_of.
  assert (Hone : within_Z 1 1 (PyFloat.of_int 1)) by (apply of_int_within; lia).
  assert (Hrest : forall u, within_Z 0 1 u -> within_Z 0 1 (PyFloat.sub (PyFloat.of_int 1) u)).
  { intros u Hu. apply (sub_within 1 1 0 1 _ _ Hone Hu); lia. }
  destruct (String.eqb name "ease-in"); [apply mul_within; auto; lia|].
  destruct (String.eqb name "ease-out"); [|exact Ht].
  apply Hrest, mul_within; auto; lia.
Qed.

(** One axis of an interpolation stays between its two ends. *)
Lemma lerp_between (a b : Z) (t : spec_float) (n : Z) :
  within_Z 0 1 t -> 0 <= a <= 1280 -> 0 <= b <= 1280 ->
  AnimationRenderer.lerp a b t = Ok n -> Z.min a b <= n <= Z.max a b.
Proof.
  intros Ht Ha Hb H. unfold AnimationRenderer.lerp in H.
  assert (Hbig : 1280 < 2 ^ 53) by (vm_compute; reflexivity).
  assert (Hd : within_Z (Z.min 0 (b - a)) (Z.max 0 (b - a)) (PyFloat.of_int (b - a))).
  { apply (within_Z_weaken (b - a) (b - a)); [apply of_int_within|..]; lia. }
  pose proof (mul_within _ _ _ _ Hd Ht ltac:(lia) ltac:(lia)) as Hp.
  pose proof (add_within a a _ _ _ _ (of_int_within a ltac:(lia)) Hp ltac:(lia) ltac:(lia))
    as Hs.
  pose proof (to_int_within _ _ _ _ Hs H). lia.
Qed.

(** What [<=] says of two positive finite numbers. *)
Lemma leb_finite (m n : positive) (e e' : Z) :
  PyFloat.leb (S754_finite false m e) (S754_finite false n e') = true ->
  e < e' \/ (e = e' /\ Zpos m <= Zpos n).
Proof.
  unfold PyFloat.leb, SFleb, SFcompare.
  destruct (Z.compare_spec e e') as [->|Hlt|Hgt]; [|auto|discriminate].
  change (Pos.compare_cont Eq m n) with (m ?= n)%positive.
  destruct (Pos.compare_spec m n) as [->|Hlt|Hgt]; [right | right | discriminate];
    split; lia.
Qed.

(** A duration within the limits is a number within 0 and 6. *)
Lemma duration_within (d : spec_float) :
  tame d -> PyFloat.ltb PyFloat.zero d = true -> PyFloat.leb d MAX_DURATION = true ->
  within_Z 0 6 d.
Proof.
  assert (Hsix : MAX_DURATION = S754_finite false 6755399441055744 (-50))
    by (vm_compute; reflexivity).
  rewrite Hsix. destruct d as [s|[]| |[] m e]; cbn [tame within_Z]; try discriminate.
  intros Ht _ H. apply leb_finite in H. cbn [cond_Zopp].
  pose proof (digits2_pos_spec m) as [_ Hm].
  assert (Hm53 : Zpos m < 2 ^ 53).
  { eapply Z.lt_le_trans; [exact Hm|]. apply Z.pow_le_mono_r; lia. }
  change (2 ^ 53) with 9007199254740992 in Hm53.
  destruct H as [Hlt | [-> Hle]].
  - split; [lia|]. split; [lia|].
    pose proof (Z.pow_le_mono_r 2 51 (- e) ltac:(lia) ltac:(lia)) as Hp.
    change (2 ^ 51) with 2251799813685248 in Hp. lia.
  - split; [lia|]. split; [lia|]. change (6 * 2 ^ (- -50)) with 6755399441055744. exact Hle.
Qed.

(** [int(fps * duration)] of an accepted rate and duration is at most
    144, the product of the two limits. *)
Lemma total_frames_within (spec : AnimationSpec) :
  1 <= fps spec <= MAX_FPS ->
  tame (duration spec) ->
  PyFloat.ltb PyFloat.zero (duration spec) = true ->
  PyFloat.leb (duration spec) MAX_DURATION = true ->
  exists t, total_frames_of spec = Ok t /\ 0 <= t <= 144.
Proof.
  intros Hfps Ht Hpos Hle. unfold MAX_FPS in Hfps.
  destruct (total_frames_total spec Hfps Ht Hpos Hle) as [t Htotal].
  exists t. split; [exact Htotal|]. unfold total_frames_of in Htotal.
  assert (Hrate : within_Z 0 24 (PyFloat.of_int (fps spec))).
  { apply (within_Z_weaken (fps spec) (fps spec)); [apply of_int_within|..]; lia. }
  pose proof (mul_within_scaled 0 24 6 _ _ Hrate (duration_within _ Ht Hpos Hle)
                ltac:(lia) ltac:(lia) ltac:(lia) ltac:(lia)) as Hprod.
  pose proof (to_int_within _ _ _ _ Hprod Htotal). lia.
Qed.

(** ** An object in motion stays between its two ends *)

(** X26. No overshoot. On a spec that [parse_dsl] returns, an object that
    moves is drawn, at every frame number, at a position that lies on each
    axis between the start and the target of its move, whatever the easing:
    the rounding of the float operations never carries it past either end;
    and every position [_get_position] returns, for an id that moves or
    not, lies on the largest canvas, within 0..1280 by 0..720. *)
Theorem position_between_ends :
  forall dsl_script spec width height r,
    parse_dsl dsl_script = Ok spec ->
    AnimationRenderer.init spec width height = Ok r ->
    (forall id m frame,
        AnimationRenderer.object_moves r !! id = Some m ->
        exists x y,
          AnimationRenderer._get_position r id frame = Ok (x, y)
          /\ Z.min (Descriptor.from m).1 (Descriptor.to m).1 <= x
             <= Z.max (Descriptor.from m).1 (Descriptor.to m).1
          /\ Z.min (Descriptor.from m).2 (Descriptor.to m).2 <= y
             <= Z.max (Descriptor.from m).2 (Descriptor.to m).2)
    /\ (forall id frame,
          exists p, AnimationRenderer._get_position r id frame = Ok p /\ in_canvas p).
Proof.
  intros dsl_script spec width height r Hparse Hinit.
  pose proof (parse_dsl_accepted _ _ Hparse) as Hacc.
  pose proof (accepted_well_formed _ Hacc) as Hwf.
  assert (Hmoving : forall id m frame,
             AnimationRenderer.object_moves r !! id = Some m ->
             exists x y,
               AnimationRenderer._get_position r id frame = Ok (x, y)
               /\ Z.min (Descriptor.from m).1 (Descriptor.to m).1 <= x
                  <= Z.max (Descriptor.from m).1 (Descriptor.to m).1
               /\ Z.min (Descriptor.from m).2 (Descriptor.to m).2 <= y
                  <= Z.max (Descriptor.from m).2 (Descriptor.to m).2).
  { intros id m f Hm.
    pose proof (descriptor_start_frame _ _ _ _ _ _ Hinit Hm) as Hstart.
    destruct (descriptor_ok _ _ _ _ _ _ Hwf Hinit Hm) as (_ & Hfrom & Hto).
    apply in_canvas_coordinates in Hfrom as [Hfx Hfy].
    apply in_canvas_coordinates in Hto as [Htx Hty].
    destruct (Z.lt_ge_cases f 0) as [Hneg | Hnonneg].
    { exists (Descriptor.from m).1, (Descriptor.from m).2. split; [|lia].
      unfold AnimationRenderer._get_position. rewrite Hm, Hstart.
      replace (f <? 0) with true by (symmetry; apply Z.ltb_lt; lia).
      now destruct (Descriptor.from m). }
    destruct (Z.le_gt_cases (Descriptor.end_frame m) f) as [Hdone | Hlt].
    { exists (Descriptor.to m).1, (Descriptor.to m).2. split; [|lia].
      rewrite (get_position_done r id m f) by assumption. now destruct (Descriptor.to m). }
    destruct (get_position_total spec width height r id f Hacc Hinit) as [[x y] Hp].
    exists x, y. split; [exact Hp|].
    rewrite (get_position_moving r id m f) in Hp by (try assumption; lia).
    unfold stated_position, stated_axis in Hp.
    pose proof (easing_of_unit (Descriptor.ease m) _
                  (int_truediv_unit f (Descriptor.end_frame m) ltac:(lia))) as Ht.
    apply bind_Ok_inv in Hp as (x' & Hx & Hp). apply bind_Ok_inv in Hp as (y' & Hy & Hp).
    injection Hp as <- <-.
    split; [eapply lerp_between, Hx | eapply lerp_between, Hy]; assumption. }
  split; [exact Hmoving|].
  intros id f. destruct (AnimationRenderer.object_moves r !! id) as [m|] eqn:Hm.
  - destruct (Hmoving id m f Hm) as (x & y & Hp & Hx & Hy).
    destruct (descriptor_ok _ _ _ _ _ _ Hwf Hinit Hm) as (_ & Hfrom & Hto).
    exists (x, y). split; [exact Hp|]. unfold in_canvas in *. cbn [fst snd]. lia.
  - destruct (renderer_registries spec width height r Hinit) as [_ Hpos].
    unfold AnimationRenderer._get_position. rewrite Hm, Hpos. eexists. split; [reflexivity|].
    unfold declared_position.
    destruct (last _) as [p|] eqn:Hlast; cbn [default];
      [|unfold in_canvas, MAX_WIDTH, MAX_HEIGHT; cbn; lia].
    apply last_Some_elem_of, list_elem_of_fmap in Hlast as (obj & -> & Hin).
    apply list_elem_of_filter in Hin as [_ Hin].
    pose proof (wf_objects _ Hwf) as Hobjs. rewrite Forall_forall in Hobjs.
    exact (proj1 (Hobjs obj Hin)).
Qed.

Lemma position_between_ends_witness :
  exists x y,
    AnimationRenderer._get_position (renderer_of demo_spec) "ball" 40 = Ok (x, y)
    /\ 50 <= x <= 550 /\ y = 180.
Proof.
  destruct (position_between_ends demo_script demo_spec 640 360 (renderer_of demo_spec))
    as [Hmoving _].
  - vm_compute. reflexivity.
  - vm_compute. reflexivity.
  - destruct (Hmoving "ball" (Descriptor.mk (50, 180) (550, 180) 0 72 "linear") 40)
      as (x & y & Hp & Hx & Hy).
    + vm_compute. reflexivity.
    + exists x, y. cbn in Hx, Hy. split; [exact Hp|]. lia.
Defined.

(** ** The frame limit *)

(** X19. The frame-count check of [parse_dsl] never fails. Once every line
    is accepted, [int(fps * duration)] is at most 144, the product of the
    largest rate, 24, and the longest duration, 6: below the limit of 300,
    so [parse_dsl] returns the spec. The one exception is a NaN duration,
    where [int(nan)] raises [ValueError] before the check. *)
Theorem frame_limit_never_reached :
  forall dsl_script st,
    parse_lines 1 (script_lines dsl_script) initial_state = Ok st ->
    (exists t, total_frames_of (st_spec st) = Ok t /\ 0 <= t <= 144
               /\ parse_dsl dsl_script = Ok (st_spec st))
    \/ (duration (st_spec st) = S754_nan /\ parse_dsl dsl_script = Raise ValueError).
Proof.
  intros dsl_script st Hloop.
  pose proof (parse_lines_checked _ _ _ _ initial_state_checked Hloop) as Hck.
  assert (Hwf : well_formed (st_spec st)).
  { eapply parse_lines_well_formed; [|exact Hloop].
    constructor; cbn; [unfold MAX_FPS; lia | constructor | constructor]. }
  unfold parse_dsl. fold (script_lines dsl_script). rewrite Hloop, bind_Ok.
  destruct (ck_duration _ Hck) as [Htame [Hnan | [Hpos Hle]]].
  - right. split; [assumption|].
    unfold check_frames, total_frames_of. rewrite Hnan.
    destruct (PyFloat.of_int _); reflexivity.
  - left. destruct (total_frames_within _ (wf_fps _ Hwf) Htame Hpos Hle) as (t & Ht & Hmax).
    exists t. unfold check_frames. rewrite Ht, bind_Ok.
    destruct (Z.ltb_spec MAX_FRAMES t) as [Hover|_]; [unfold MAX_FRAMES in Hover; lia|].
    auto.
Qed.

Lemma frame_limit_never_reached_witness :
  exists st,
    parse_lines 1 (script_lines demo_script) initial_state = Ok st
    /\ total_frames_of (st_spec st) = Ok 72
    /\ parse_dsl demo_script = Ok (st_spec st).
Proof.
  assert (H : exists st, parse_lines 1 (script_lines demo_script) initial_state = Ok st)
    by (eexists; vm_compute; reflexivity).
  destruct H as [st H]. exists st. split; [exact H|].
  destruct (frame_limit_never_reached demo_script st H) as [(t & Ht & _ & Hok) | [Hnan _]].
  - split; [|exact Hok]. vm_compute in H. injection H as <-. vm_compute. reflexivity.
  - vm_compute in H. injection H as <-. discriminate Hnan.
Defined.

Section GenerateProperties.

Context (textbbox : Z -> string -> Z * Z * Z * Z) {bytes encoder_error : Type}
  (mimsave : list image -> Z -> encoder_error + bytes) (b64encode : bytes -> string)
  {database save_error : Type}
  (save_video_metadata : metadata bytes -> database -> database * option save_error)
  (float_str : spec_float -> string) (GROQ_API_KEY OPENAI_API_KEY : option string)
  {provider_error : Type}
  (groq_chat openai_chat : string -> outcome provider_error (option string))
  (clock : nat -> spec_float) (RENDER_TIMEOUT : spec_float).

(** X27. The endpoint [/generate] answers 200, 400 or 500, whatever
    script the translator returned. Over budget at a checkpoint it answers
    400, also at the third one, where the video is there. It answers 500
    exactly when the translation was within the budget and every line of
    its script is accepted but leaves a NaN duration. It answers 200
    exactly when the three checkpoints are within the budget, the script
    parses and the encoder returns the bytes; the answer then carries
    their base64 text and the script. *)
Theorem generate_status :
  forall prompt asked_duration asked_fps width height model (db : database),
    let dsl_script :=
      translate_prompt_to_dsl float_str GROQ_API_KEY OPENAI_API_KEY groq_chat openai_chat
        prompt (sync_duration_of asked_duration) (sync_fps_of asked_fps) model in
    let response :=
      (generate textbbox mimsave b64encode save_video_metadata float_str
         GROQ_API_KEY OPENAI_API_KEY groq_chat openai_chat clock RENDER_TIMEOUT
         prompt asked_duration asked_fps width height model db).1.1 in
    (generate_status_of response = 200 \/ generate_status_of response = 400
     \/ generate_status_of response = 500)
    /\ (over_budget clock RENDER_TIMEOUT 1 = true -> generate_status_of response = 400)
    /\ (generate_status_of response = 500
        <-> over_budget clock RENDER_TIMEOUT 1 = false
            /\ exists st,
                 parse_lines 1 (script_lines dsl_script) initial_state = Ok st
                 /\ duration (st_spec st) = S754_nan)
    /\ (generate_status_of response = 200
        <-> over_budget clock RENDER_TIMEOUT 1 = false
            /\ exists spec frames video_bytes,
                 compile_and_render textbbox dsl_script (pipeline_width width)
                   (pipeline_height height) = Ok (spec, frames)
                 /\ over_budget clock RENDER_TIMEOUT 2 = false
                 /\ mimsave frames (fps spec) = inr video_bytes
                 /\ over_budget clock RENDER_TIMEOUT 3 = false
                 /\ response = Generated true (b64encode video_bytes) dsl_script).
Proof.
  intros prompt asked_duration asked_fps width height model db dsl_script.
  unfold generate, generate_video_sync.
  fold (sync_duration_of asked_duration) (sync_fps_of asked_fps). fold dsl_script.
  fold (pipeline_width width) (pipeline_height height).
  destruct (over_budget clock RENDER_TIMEOUT 1) eqn:H1; cbn.
  { repeat split; try discriminate; auto; intros [? _]; discriminate. }
  destruct (parse_dsl dsl_script) as [spec | e] eqn:Hparse.
  - destruct (pipeline_canvas width height) as [Hw Hh].
    destruct (render_video_accepted textbbox mimsave dsl_script spec (pipeline_width width)
                (pipeline_height height) Hparse ltac:(lia) ltac:(lia)) as (frames & Hrun & ->).
    assert (Hnan : ~ exists st, parse_lines 1 (script_lines dsl_script) initial_state = Ok st
                                /\ duration (st_spec st) = S754_nan).
    { intros (st & Hloop & Hd). rewrite (nan_duration_raises _ _ Hloop Hd) in Hparse.
      discriminate Hparse. }
    destruct (over_budget clock RENDER_TIMEOUT 2) eqn:H2; cbn.
    { repeat split; try discriminate; auto; try tauto.
      intros (_ & s & f & v & _ & ? & _). discriminate. }
    destruct (mimsave frames (fps spec)) as [err | video_bytes] eqn:Henc; cbn.
    { repeat split; try discriminate; auto; try tauto.
      intros (_ & s & f & v & Hrun' & _ & Henc' & _).
      rewrite Hrun in Hrun'. injection Hrun' as <- <-. rewrite Henc in Henc'. discriminate. }
    destruct (over_budget clock RENDER_TIMEOUT 3) eqn:H3; cbn.
    { repeat split; try discriminate; auto; try tauto.
      intros (_ & s & f & v & _ & _ & _ & ? & _). discriminate. }
    destruct (save_video_metadata _ db) as [db' warning]; cbn.
    repeat split; try discriminate; auto; try tauto.
    exists spec, frames, video_bytes. auto.
  - destruct (parse_dsl_escapes _ _ Hparse) as [(l & k & ->) | [(k & ->) | (-> & Hnan)]]; cbn.
    + repeat split; try discriminate; auto.
      * intros (_ & st & Hloop & Hd). rewrite (nan_duration_raises _ _ Hloop Hd) in Hparse.
        discriminate Hparse.
      * intros (_ & s & f & v & Hrun & _). unfold compile_and_render in Hrun.
        rewrite Hparse in Hrun. discriminate Hrun.
    + repeat split; try discriminate; auto.
      * intros (_ & st & Hloop & Hd). rewrite (nan_duration_raises _ _ Hloop Hd) in Hparse.
        discriminate Hparse.
      * intros (_ & s & f & v & Hrun & _). unfold compile_and_render in Hrun.
        rewrite Hparse in Hrun. discriminate Hrun.
    + repeat split; try discriminate; auto.
      intros (_ & s & f & v & Hrun & _). unfold compile_and_render in Hrun.
      rewrite Hparse in Hrun. discriminate Hrun.
Qed.

End GenerateProperties.

(** ** The command word *)

Lemma upper_char_hash (c : ascii) :
  Ascii.eqb (PyStr.upper_char c) "#" = Ascii.eqb c "#".
Proof. destruct c as [[] [] [] [] [] [] [] []]; reflexivity. Qed.

Lemma upper_startswith_hash (w : string) :
  PyStr.startswith "#" (PyStr.upper w) = PyStr.startswith "#" w.
Proof. destruct w as [|c w]; [reflexivity|]. apply upper_char_hash. Qed.

Lemma rstrip_by_after (p : ascii -> bool) (w rest : string) :
  PyStr.nonempty w = true -> free_of p w = true ->
  PyStr.rstrip_by p (w +:+ rest) = w +:+ PyStr.rstrip_by p rest.
Proof.
  induction w as [|c w IH]; [discriminate|]. intros _ Hfree.
  cbn [free_of] in Hfree. apply andb_true_iff in Hfree as [Hc Hw].
  apply negb_true_iff in Hc. rewrite !append_cons. cbn [PyStr.rstrip_by].
  destruct w as [|d w].
  - rewrite !append_nil_l. destruct (PyStr.rstrip_by p rest); [now rewrite Hc | reflexivity].
  - rewrite (IH eq_refl Hw), append_cons. reflexivity.
Qed.

Lemma rstrip_by_space_first (p : ascii -> bool) (rest : string) :
  rest = EmptyString \/ (exists r, rest = String " " r) ->
  PyStr.rstrip_by p rest = EmptyString \/ exists r, PyStr.rstrip_by p rest = String " " r.
Proof.
  intros [-> | (r & ->)]; [now left|]. cbn [PyStr.rstrip_by].
  destruct (PyStr.rstrip_by p r); [destruct (p _)|]; eauto.
Qed.

Lemma tokenize_loop_prepend (line : string) :
  forall pre tokens current in_quotes,
    tokenize_loop line (pre ++ tokens) current in_quotes
    = pre ++ tokenize_loop line tokens current in_quotes.
Proof.
  induction line as [|c line IH]; intros pre tokens current in_quotes; cbn [tokenize_loop].
  - destruct (PyStr.nonempty current); [now rewrite app_assoc | reflexivity].
  - repeat match goal with |- context [if ?b then _ else _] => destruct b end;
      rewrite <- ?app_assoc; apply IH.
Qed.

(** The tokens of a line that starts with a whole word. *)
Lemma tokenize_line_word (w r : string) :
  is_token w = true -> r = EmptyString \/ (exists r', r = String " " r') ->
  tokenize_line (w +:+ r) = w :: tokenize_line r.
Proof.
  intros Hw Hr. destruct (token_parts w Hw) as (Hne & _ & Hfree & _).
  unfold tokenize_line. rewrite (tokenize_loop_word w r [] EmptyString Hfree), append_nil_l.
  destruct Hr as [-> | (r' & ->)]; cbn [tokenize_loop]; rewrite Hne; [reflexivity|].
  change (Ascii.eqb " " PyStr.dquote) with false. cbn [andb negb Ascii.eqb Bool.eqb PyStr.nonempty].
  apply (tokenize_loop_prepend r' [w] [] EmptyString false).
Qed.

(** The command and the arguments of a line that starts with a whole word
    and goes on, if it does, with a space. *)
Lemma command_of_word_line (w rest : string) :
  is_token w = true -> rest = EmptyString \/ (exists r, rest = String " " r) ->
  command_of_line (w +:+ rest)
  = if PyStr.startswith "#" w then None
    else Some (PyStr.upper w, tokenize_line (PyStr.rstrip_by PyStr.is_space rest)).
Proof.
  intros Hw Hrest. destruct (token_parts w Hw) as (Hne & Hspace & _).
  assert (Hstrip : PyStr.strip (w +:+ rest) = w +:+ PyStr.rstrip_by PyStr.is_space rest).
  { unfold PyStr.strip, PyStr.strip_by. destruct w as [|c w]; [discriminate|].
    cbn [free_of] in Hspace. apply andb_true_iff in Hspace as [Hc Hfree].
    apply negb_true_iff in Hc. rewrite append_cons. cbn [PyStr.lstrip_by]. rewrite Hc.
    rewrite <- append_cons. apply rstrip_by_after; [reflexivity|].
    cbn [free_of]. now rewrite Hc, Hfree. }
  unfold command_of_line. rewrite Hstrip.
  rewrite (tokenize_line_word w _ Hw (rstrip_by_space_first _ rest Hrest)).
  destruct w as [|c w]; [discriminate|]. rewrite append_cons.
  cbn [PyStr.nonempty negb orb PyStr.startswith]. reflexivity.
Qed.

Lemma first_word_parts (line : string) :
  forall w rest,
    first_word line = (w, rest) ->
    line = w +:+ rest /\ (rest = EmptyString \/ exists r, rest = String " " r).
Proof.
  induction line as [|c line IH]; intros w rest H; cbn [first_word] in H.
  - injection H as <- <-. auto.
  - destruct (Ascii.eqb c " ") eqn:Hc.
    + injection H as <- <-. apply Ascii.eqb_eq in Hc as ->. eauto.
    + destruct (first_word line) as [w0 rest0]. injection H as <- <-.
      destruct (IH w0 rest0 eq_refl) as [-> Hrest]. now rewrite append_cons.
Qed.

Lemma same_but_case_parse (line line' : string) (line_num : nat) (st : parse_state) :
  same_but_case line line' = true ->
  parse_line line_num line st = parse_line line_num line' st.
Proof.
  unfold same_but_case. intros H. apply orb_true_iff in H as [H | H].
  { apply String.eqb_eq in H as ->. reflexivity. }
  destruct (first_word line) as [w rest] eqn:Hl.
  destruct (first_word line') as [w' rest'] eqn:Hl'.
  apply andb_true_iff in H as [H Hsame]. apply andb_true_iff in H as [H Hupper].
  apply andb_true_iff in H as [Hw Hw'].
  apply first_word_parts in Hl as [-> Hrest]. apply first_word_parts in Hl' as [-> _].
  apply String.eqb_eq in Hsame as <-. apply String.eqb_eq in Hupper.
  rewrite !parse_line_command.
  rewrite (command_of_word_line w rest), (command_of_word_line w' rest) by assumption.
  now rewrite <- (upper_startswith_hash w), <- (upper_startswith_hash w'), Hupper.
Qed.

(** X28. The case of the command words does not matter: two scripts
    whose lines are equal one by one, or differ only in the case of the
    ASCII letters of their first word ([shape], [Shape], [SHAPE]), give the
    same result, specification or error. The keywords and the values
    after the command word are not concerned. *)
Theorem command_words_any_case :
  forall dsl_script dsl_script',
    lines_match (script_lines dsl_script) (script_lines dsl_script') = true ->
    parse_dsl dsl_script = parse_dsl dsl_script'.
Proof.
  intros dsl_script dsl_script' H. unfold parse_dsl.
  fold (script_lines dsl_script) (script_lines dsl_script').
  enough (Hloop : forall lines lines' line_num st,
             lines_match lines lines' = true ->
             parse_lines line_num lines st = parse_lines line_num lines' st)
    by now rewrite (Hloop _ _ 1%nat initial_state H).
  induction lines as [|line lines IH]; intros [|line' lines'] line_num st Hm;
    try discriminate Hm; [reflexivity|].
  cbn [lines_match] in Hm. apply andb_true_iff in Hm as [Hline Hm].
  cbn [parse_lines]. rewrite (same_but_case_parse line line' line_num st Hline).
  destruct (parse_line line_num line' st) as [st' | e]; [|reflexivity].
  apply (IH lines' (S line_num) st' Hm).
Qed.

Lemma command_words_any_case_witness :
  lines_match (script_lines whisper_script) (script_lines shout_script) = true
  /\ parse_dsl whisper_script = parse_dsl shout_script
  /\ exists spec, parse_dsl shout_script = Ok spec /\ length (objects spec) = 1%nat.
Proof.
  split; [vm_compute; reflexivity|]. split.
  - apply command_words_any_case. vm_compute. reflexivity.
  - eexists. split; vm_compute; reflexivity.
Defined.

(** ** The colours the parser tests *)








